(* ===== verification/_CoqProject ===== *)
-Q . S2P
Prelude.v
Processes.v
TxMapping.v
Types.v
Chainspec.v
TxPool.v
Treasury.v
UnitTests.v
EvmHandler.v
EvmWrapper.v
EvmFrames.v
Consensus.v
BlockConfig.v
BlockExecution.v
StateHook.v
Attributes.v
PayloadBuilder.v
ConcurrentBuilds.v
Engine.v
EngineApi.v
Rpc.v
EthApi.v
Interleaving.v
Schedules.v
System.v
EndToEnd.v
BlockFees.v
Production.v
Prebuilt.v
Cycle.v
Lifetime.v
Session.v
Node.v
Cli.v
