(* ===== verification/Prelude.v ===== *)
(** * kasplex-reth: a verification development

    kasplex-reth is an Ethereum execution client for the Kasplex layer-2 chains,
    built as a set of extensions of reth.  This library models the logic the
    repository adds to reth and proves what it promises.

    ** The program

    A transaction enters through the authenticated RPC, which records the number of
    the block after the latest one as its submission number in a process-wide table
    (the transaction mapping) and offers it to reth's pool.  The consensus client
    drives the node through the engine API: a forkchoice update sweeps the pool of
    transactions whose submission number is stale for the new head, and may carry
    attributes from which the payload builder makes a block; the block is assembled,
    converted to a payload, and a payload is validated, executed and checked by
    consensus.  Execution pays the base fee, fixed at 2000 GWei, to a treasury whose
    address is made of the chain id's decimal digits.

    ** The files

    - [Prelude]: identifiers, machine integers at their width, outcomes (value, error or
      panic), the state monad [comp] with loops and [?]-style binds, sums over key
      lists, tactics and hint databases.
    - [Processes]: clients of a shared state as processes that make one atomic call at a
      time, their interleavings, invariants of all schedules and termination.
    - [Types]: the library structures the source builds or takes apart (headers, blocks,
      payloads, environments).
    - [TxMapping]: crates/tx_mapping/src/lib.rs.  [TxMappingState] is the locked state,
      one function per method; [TxMapping] is a handle, a location of a heap.
    - [Chainspec]: crates/chainspec (lib.rs, spec.rs, hardfork.rs, parser.rs).
    - [TxPool]: crates/txpool/src/lib.rs, over a pool given by the class
      [TransactionPool] and its laws.
    - [Treasury]: crates/evm/src/lib.rs, with decimal display written out.
    - [UnitTests]: the unit tests of crates/tx_mapping and crates/evm, run on the model
      one after the other and as the threads they are.
    - [EvmHandler]: crates/evm/src/handler.rs, the three hooks of the fee handler, over
      a journal given by [Journal] and its laws.
    - [EvmWrapper]: crates/evm/src/alloy.rs, execution.rs, factory.rs; [EvmFrames]: the
      frame operations of evm.rs.
    - [Consensus]: crates/consensus/src/validation.rs.
    - [BlockConfig]: crates/block/src/config.rs and the context of factory.rs; the two
      shared cells of a configuration are locations of a store, so that clones alias
      them; its executor factory and its assembler are fields, as in the source.  The
      class [NextBlockConfig] with its laws is what the payload builder sees of it.
    - [BlockExecution]: crates/block/src/executor.rs (Module [Executor]) and
      assembler.rs (Module [Assembler]); [StateHook]: what the executor's state hook
      sees, and that it changes nothing.
    - [Attributes]: crates/primitives/src/payload.
    - [PayloadBuilder]: crates/payload/src/builder.rs, proved against [NextBlockConfig]
      and against reth's block builder, the class [BlockBuilder].
    - [ConcurrentBuilds]: payload jobs that build at the same time over the cells of one
      configuration, as processes.
    - [Engine]: crates/primitives/src/engine and crates/rpc/src/engine/validator.rs.
    - [EngineApi]: crates/rpc/src/engine/api.rs.
    - [Rpc]: crates/rpc/src/eth (auth.rs, eth.rs, error.rs); [EthApi]: the eth namespace
      (types.rs, builder.rs), one instance for each of reth's traits.
    - [Interleaving]: the calls of several clients on one pool and one mapping (sweeps,
      removals of included transactions, submissions, conversions, validations, builds)
      as processes, and what becomes of a live transaction among them; [Schedules]: what
      holds of every schedule.
    - [System]: properties of several components together, such as the way of a block
      through a payload and back; [EndToEnd]: from attributes to an accepted block, with
      reth's block builder given by the executor and the assembler it is documented to
      drive; [BlockFees]: the fees a payload reports and the rewards the EVM pays for
      it; [Production]: the chain a node builds itself; [Prebuilt]: from a prebuilt list
      to an accepted block; [Cycle]: rounds of building, converting, importing and
      making the head, with what they leave of the pool and the mapping; [Lifetime]:
      such rounds among other requests and reth's own maintenance of its pool, and what
      becomes of one submitted transaction; [Session]: the requests a node serves, one
      after the other, as a state machine over the chain, the pool and the mapping.
    - [Node]: the builders of a node and its RPC modules (crates/node, network,
      [consensus/src/builder.rs], [payload/src/lib.rs], [rpc/src/engine/builder.rs],
      main.rs).
    - [Cli]: crates/cli and the exit code of main.rs.

    A function of the source that changes state is a [comp] over the state it
    touches; one that may fail but changes nothing is an [outcome]; [?] is a bind,
    [map_err] keeps its name, [expect] and [unwrap] panic on a missing value, and a
    call whose error is only logged goes through [logged] or [try].  An error or a
    panic leaves the state as it was when it happened.

    ** What is shown

    - The mapping: all handles share one table, and every method's answer is that of the
      call history.  Under every schedule of its clients there is an end and no client
      is stuck, numbers come from somewhere, and no client takes a live transaction out
      of the pool, which leaves only when the pool itself displaces it; the reorg flag
      is exact for one sweep and not for two; a conversion can put back numbers a
      validation took.
    - The pool: the sweep keeps exactly the retention window of the head, alone, and as
      the last part of a forkchoice update; removal drops exactly the included
      transactions; a submitted transaction survives exactly the heads from the block
      after the one it was accepted at to that block's retention bound, and one sent
      over the eth namespace all of them; along a session of requests the pool has
      nothing outside the retention window of the last swept head but what was
      submitted, or came without a number, since; rounds of block production take out of
      the pool exactly what their blocks include and what leaves the retention window,
      and a transaction of theirs that a reorganisation puts back never expires; what
      becomes of one submitted transaction is decided by the blocks that include it,
      their number, whether an update named the head it was accepted at again before the
      next block, and whether the pool gave it up by itself.
    - RPC: every branch of a submission in either namespace, the numbers of a batch, and
      the prebuilt list as the longest run within its limits.  A build does not stop at
      the gas limit, and consensus rejects a block over it; a build for a prebuilt list
      stays within it, and its block never fails for its gas.  The README calls
      eth_sendRawTransaction disabled; the code serves it, so it is modelled.
    - Execution: where each fee goes; the total of all balances changes by exactly the
      part of the fee the sender could not pay; system calls move no fees and restore
      their environment, which a finished EVM gives back; treasury addresses exist for
      every chain, fit 160 bits and collide exactly for ids that differ by trailing
      zeros.
    - Blocks: the gas and receipts of a run, which a state hook does not change;
      assembled headers pass consensus exactly with the fixed base fee; a built block
      replays in the environment it was built in, and survives the trip through a
      payload exactly when its extra data is no longer than 32 bytes.
    - Building: a build ends, in the environment its attributes name, with exactly the
      transactions that execute, and their numbers in the mapping; its block has the
      fields the attributes ask for, passes consensus, and is accepted back as a
      payload; blocks built one on the other form a chain, accepted exactly when their
      attributes and their gas are right, whatever builds failed in between; the fees of
      a payload are what the EVM pays its beneficiary.  Builds at the same time end too,
      but can take each other's base fee and extra data.
    - Consensus: the header rules, and what they give along a chain.
    - Attributes: when they are accepted, what the payload id depends on, and that
      locally built ones never give an acceptable block.
    - The node: all its parts are for one chain and one pool and share one
      configuration's cells; its tree validator is not the repository's; the extension
      of its RPC modules; the way of the node command to the launcher.

    ** Widths, bounds and fuel

    Integers are [Z] with the width written at each operation: a plain [+] or [*] of
    the source wraps (the release profile), a saturating one saturates, [as]
    truncates, and [U256::to] panics when the value does not fit.  Where a theorem
    needs an operation not to wrap it says so in a named predicate:
    [retention_fits] (a submission number at least 100 below 2^64), [sums_fit] (gas
    and byte limits), [fees_in_range] (price times gas limit below 2^128).
    The only fuel is that of decimal display, 20 divisions by ten, and
    [u64_dec_digits] proves them enough for every 64-bit number.  Loops are structural over
    the list they walk, so they end.

    ** What is assumed and what is left out

    Code that is not in the repository is a parameter: reth's pool, provider, inner
    engine, block builder and shared validators, revm's handler loop and journal,
    alloy's decoding, hashing, address reading and payload conversion.  Laws state
    what their documentation promises, as classes or named predicates, and each has
    a concrete model ([ListPool], [ReplacingPool], [Ledger], [PlainValidators], [PlainMachine],
    [PlainPayloads], [PlainEngine], [PlainRpc], [PlainBasic], [PlainHost], [PlainCli],
    [PlainHook], [PlainCodec], [StrictValidators], [ImportEngine]) at which the theorems
    are applied.
    Of the inner engine the rounds of [Cycle] assume that it finds a payload valid only
    after the payload validator made a block of it, that it then knows the block, and
    that making a known block the head leaves the pool and the mapping alone.  [Lifetime]
    assumes of the pool that adding a transaction brings in no other ([intake_laws]).
    Nothing is assumed of what the pool gives up: it replaces and evicts as it likes, and
    the theorems name the steps at which it does ([displaces], the events of [Lifetime]).
    [Production] states what reth's shared header checks accept ([shared_checks_law]);
    [Prebuilt] assumes that alloy decodes what it encodes and that an execution uses at
    most the gas limit of its transaction ([prebuilt_laws]).

    Clones of reth's handles (provider, pool, network) are the same handle.  The
    clients of [Interleaving] and [ConcurrentBuilds] make each locked call atomically.

    Not modelled: serialization, logging and metrics, lock poisoning and the traits without
    methods of their own.  What crates/node only hands on to reth (launching the add-ons,
    their hooks, the debug node) is there as the call it makes.

    ** Plan

    Left to do: a tree of blocks for the inner engine, so that reorganisations are steps of
    [Lifetime] with the transactions reth puts back into its pool; other clients between
    the parts of a round. *)

From stdpp Require Import prelude gmap strings list.
From Stdlib Require Import ZArith Lia Strings.Byte.

Declare Scope kasplex_scope.
Delimit Scope kasplex_scope with kasplex.
Open Scope Z_scope.

(** ** Identifiers

    [B256] (a 32-byte hash) and [Address] (20 bytes) are unsigned integers,
    read big-endian; [B256::ZERO] and [Address::ZERO] are 0. *)
Abbreviation B256 := Z (only parsing).
Abbreviation Address := Z (only parsing).
Abbreviation Bytes := (list Byte.byte) (only parsing).

#[export] Instance byte_eq_dec : EqDecision Byte.byte := Byte.byte_eq_dec.

(** ** Machine integers

    A [w]-bit unsigned integer is a [Z] in [0, 2^w). *)
Section machine_integers.
Variable w : Z.

Definition in_width (z : Z) : Prop := 0 ≤ z < 2 ^ w.
(** [+], [*] and [as] of the release profile: the result modulo [2^w]. *)
Definition wrap (z : Z) : Z := z `mod` 2 ^ w.
Definition wrapping_add (a b : Z) : Z := wrap (a + b).
Definition wrapping_mul (a b : Z) : Z := wrap (a * b).
(** [saturating_add], [saturating_sub], [saturating_mul] of the standard library. *)
Definition saturating_add (a b : Z) : Z := Z.min (a + b) (2 ^ w - 1).
Definition saturating_sub (a b : Z) : Z := Z.max (a - b) 0.
Definition saturating_mul (a b : Z) : Z := Z.min (a * b) (2 ^ w - 1).
End machine_integers.

Notation "a ⊞[ w ] b" := (wrapping_add w a b)
  (at level 50, left associativity, format "a  ⊞[ w ]  b") : kasplex_scope.
Notation "a ⊠[ w ] b" := (wrapping_mul w a b)
  (at level 40, left associativity, format "a  ⊠[ w ]  b") : kasplex_scope.
Notation "a ⊖ b" := (saturating_sub a b)
  (at level 50, left associativity) : kasplex_scope.
Open Scope kasplex_scope.

(** ruint's [U256::to::<u64>()]: it panics when the value does not fit. *)
Definition u256_to_u64 (z : Z) : option Z :=
  if decide (0 ≤ z < 2 ^ 64) then Some z else None.

(** ** Outcomes and stateful computations

    A call returns a value, returns an error, or panics.  A computation over a
    shared state [S] also returns the state as it was left: an error or a panic
    does not roll back what was already written. *)
Inductive outcome (E A : Type) : Type :=
| Ok (a : A)
| Err (e : E)
| Panicked.
Arguments Ok {E A} a.
Arguments Err {E A} e.
Arguments Panicked {E A}.

Definition outcome_map_err {E F A} (f : E → F) (o : outcome E A) : outcome F A :=
  match o with
  | Ok a => Ok a
  | Err e => Err (f e)
  | Panicked => Panicked
  end.

Definition outcome_bind {E A B} (f : A → outcome E B) (o : outcome E A) : outcome E B :=
  match o with
  | Ok a => f a
  | Err e => Err e
  | Panicked => Panicked
  end.

#[export] Instance outcome_ret {E} : MRet (outcome E) := λ _ a, Ok a.
#[export] Instance outcome_mbind {E} : MBind (outcome E) :=
  λ _ _ f o, outcome_bind f o.

Definition comp (S E A : Type) : Type := S → outcome E A * S.

#[export] Instance comp_ret {S E} : MRet (comp S E) := λ _ a s, (Ok a, s).
#[export] Instance comp_bind {S E} : MBind (comp S E) :=
  λ _ _ f m s,
    match m s with
    | (Ok a, s') => f a s'
    | (Err e, s') => (Err e, s')
    | (Panicked, s') => (Panicked, s')
    end.

Section computations.
Context {S E : Type}.

Definition get_state : comp S E S := λ s, (Ok s, s).
Definition gets {A} (f : S → A) : comp S E A := λ s, (Ok (f s), s).
Definition modify (f : S → S) : comp S E () := λ s, (Ok (), f s).
Definition fail {A} (e : E) : comp S E A := λ s, (Err e, s).
Definition panic {A} : comp S E A := λ s, (Panicked, s).
(** An outcome computed without the state. *)
Definition lift {A} (o : outcome E A) : comp S E A := λ s, (o, s).
(** [expect] / [unwrap]: a missing value panics. *)
Definition expect {A} (o : option A) : comp S E A :=
  match o with Some a => λ s, (Ok a, s) | None => panic end.
(** [guard]-style early return. *)
Definition fail_if (b : bool) (e : E) : comp S E () :=
  if b then fail e else mret ().

(** Keeps the result of a call as a value instead of returning its error; a panic
    still unwinds. *)
Definition try {A} (m : comp S E A) : comp S E (E + A) := λ s,
  match m s with
  | (Ok a, s') => (Ok (inr a), s')
  | (Err e, s') => (Ok (inl e), s')
  | (Panicked, s') => (Panicked, s')
  end.

Lemma bind_Ok {A B} (m : comp S E A) (f : A → comp S E B) s s' a :
  m s = (Ok a, s') → (m ≫= f) s = f a s'.
Proof. intros H. unfold mbind, comp_bind. by rewrite H. Qed.

Lemma bind_Err {A B} (m : comp S E A) (f : A → comp S E B) s s' e :
  m s = (Err e, s') → (m ≫= f) s = (Err e, s').
Proof. intros H. unfold mbind, comp_bind. by rewrite H. Qed.

Lemma bind_Panicked {A B} (m : comp S E A) (f : A → comp S E B) s s' :
  m s = (Panicked, s') → (m ≫= f) s = (Panicked, s').
Proof. intros H. unfold mbind, comp_bind. by rewrite H. Qed.

Lemma bind_gets {A B} (f : S → A) (k : A → comp S E B) s : (gets f ≫= k) s = k (f s) s.
Proof. done. Qed.

Lemma bind_get_state {B} (k : S → comp S E B) s : (get_state ≫= k) s = k s s.
Proof. done. Qed.

Lemma bind_modify {B} (f : S → S) (k : () → comp S E B) s : (modify f ≫= k) s = k () (f s).
Proof. done. Qed.

Lemma bind_mret {A B} (a : A) (k : A → comp S E B) s : (mret a ≫= k) s = k a s.
Proof. done. Qed.

Lemma run_mret {A} (a : A) s : (mret a : comp S E A) s = (Ok a, s).
Proof. done. Qed.

Lemma run_modify (f : S → S) s : (modify f : comp S E ()) s = (Ok (), f s).
Proof. done. Qed.

Lemma run_fail {A} (e : E) s : (fail e : comp S E A) s = (Err e, s).
Proof. done. Qed.

Lemma bind_fail {A B} (e : E) (k : A → comp S E B) s : (fail e ≫= k) s = (Err e, s).
Proof. done. Qed.

Lemma bind_lift_Ok {A B} (a : A) (k : A → comp S E B) s : (lift (Ok a) ≫= k) s = k a s.
Proof. done. Qed.

Lemma bind_expect_Some {A B} (a : A) (k : A → comp S E B) s :
  (expect (Some a) ≫= k) s = k a s.
Proof. done. Qed.

Lemma bind_comp_assoc {A B D} (m : comp S E A) (f : A → comp S E B) (g : B → comp S E D) s :
  ((m ≫= f) ≫= g) s = (m ≫= (λ a, f a ≫= g)) s.
Proof. unfold mbind, comp_bind. by destruct (m s) as [[]]. Qed.

(** A bound computation returned a value only if both halves did. *)
Lemma bind_Ok_inv {A B} (m : comp S E A) (f : A → comp S E B) s b s'' :
  (m ≫= f) s = (Ok b, s'') →
  ∃ a s', m s = (Ok a, s') ∧ f a s' = (Ok b, s'').
Proof.
  unfold mbind, comp_bind. destruct (m s) as [[a|e|] s']; intros H; [|done..].
  by exists a, s'.
Qed.
End computations.

(** [map_err] on a call's result. *)
Definition map_err {S E F A} (f : E → F) (m : comp S E A) : comp S F A :=
  λ s, let '(o, s') := m s in (outcome_map_err f o, s').

Lemma map_err_Ok_inv {S E F A} (f : E → F) (m : comp S E A) s a s' :
  map_err f m s = (Ok a, s') → m s = (Ok a, s').
Proof. unfold map_err. destruct (m s) as [[x|e|] t]; simpl; congruence. Qed.

Create Rewrite HintDb comp_run.
#[export] Hint Rewrite @bind_gets @bind_get_state @bind_modify @bind_mret @run_mret
  @run_modify @run_fail @bind_fail @bind_lift_Ok @bind_expect_Some @bind_comp_assoc : comp_run.

(** Runs the computation of the goal as far as its state and guards decide. *)
Ltac run := autorewrite with comp_run; cbn beta iota.

(** A [for] loop with a mutable accumulator; an error or panic of the body ends it. *)
Fixpoint for_in {S E A Acc} (l : list A) (acc : Acc) (body : Acc → A → comp S E Acc)
    : comp S E Acc :=
  match l with
  | [] => mret acc
  | x :: l => acc' ← body acc x; for_in l acc' body
  end.

(** A loop whose body only reads the state is a fold. *)
Lemma for_in_reads {S E A Acc} (body : Acc → A → comp S E Acc) (f : Acc → A → Acc) l acc s :
  (∀ acc x, body acc x s = (Ok (f acc x), s)) →
  for_in l acc body s = (Ok (foldl f acc l), s).
Proof.
  intros Hf. revert acc. induction l as [|x l IH]; intros acc; [done|].
  simpl. rewrite (bind_Ok _ _ _ _ _ (Hf acc x)). apply IH.
Qed.

(** A loop whose body cannot fail folds its state transformer. *)
Lemma for_in_total {S E A Acc} (body : Acc → A → comp S E Acc)
    (f : Acc * S → A → Acc * S) l acc s :
  (∀ acc x s, body acc x s = let '(acc', s') := f (acc, s) x in (Ok acc', s')) →
  for_in l acc body s = let '(acc', s') := foldl f (acc, s) l in (Ok acc', s').
Proof.
  intros Hf. revert acc s. induction l as [|x l IH]; intros acc s; [done|].
  simpl. specialize (Hf acc x s). destruct (f (acc, s) x) as [acc' s'] eqn:E'.
  rewrite (bind_Ok _ _ _ _ _ Hf). apply IH.
Qed.

(** ** Automation *)

Create HintDb kasplex discriminated.
Create Rewrite HintDb kasplex_width.

(** Splits every match and conditional of the goal, then closes what is
    arithmetic or first order. *)
Ltac break_step :=
  match goal with
  | |- context [decide ?P] => destruct (decide P)
  | |- context [match ?x with _ => _ end] => destruct x eqn:?
  | H : context [match ?x with _ => _ end] |- _ => destruct x eqn:?
  end.
Ltac break := repeat (simplify_eq/=; try done; break_step); simplify_eq/=; try done.

(** Decides a closed decidable proposition by evaluation. *)
Ltac by_evaluation := apply (bool_decide_unpack _); vm_compute; exact I.

(** Unfolds the width predicates and calls [lia]. *)
Ltac width := unfold in_width, saturating_add, saturating_sub, saturating_mul in *; lia.

Section width_lemmas.
Context {w : Z}.

Lemma wrap_small z : in_width w z → wrap w z = z.
Proof. unfold in_width, wrap. intros H. by apply Z.mod_small. Qed.

Lemma wrap_range z : 0 ≤ w → in_width w (wrap w z).
Proof. intros. apply Z.mod_pos_bound. lia. Qed.

Lemma wrapping_add_small a b : in_width w (a + b) → a ⊞[w] b = a + b.
Proof. apply wrap_small. Qed.

Lemma wrapping_mul_small a b : in_width w (a * b) → a ⊠[w] b = a * b.
Proof. apply wrap_small. Qed.

Lemma saturating_add_small a b : a + b < 2 ^ w → saturating_add w a b = a + b.
Proof. width. Qed.

Lemma saturating_mul_small a b : a * b < 2 ^ w → saturating_mul w a b = a * b.
Proof. width. Qed.

Lemma saturating_sub_le a b : b ≤ a → a ⊖ b = a - b.
Proof. width. Qed.
End width_lemmas.

#[export] Hint Rewrite @wrapping_add_small @wrapping_mul_small
  @saturating_add_small @saturating_mul_small @saturating_sub_le
  using (width || nia) : kasplex_width.

Lemma u256_to_u64_Some z : in_width 64 z → u256_to_u64 z = Some z.
Proof. intros. unfold u256_to_u64. by rewrite decide_True. Qed.

Lemma u256_to_u64_inv z n : u256_to_u64 z = Some n → n = z ∧ in_width 64 z.
Proof. unfold u256_to_u64. case_decide; [|done]. intros [= <-]. done. Qed.

(** ** Generic list lemmas *)

Section lists.
Context {A B : Type}.
Implicit Types (l : list A).

(** A loop that pushes the elements passing a test is [filter]. *)
Lemma foldl_push_filter (P : A → Prop) `{!∀ x, Decision (P x)} l acc :
  foldl (λ acc x, if decide (P x) then acc ++ [x] else acc) acc l
  = acc ++ filter P l.
Proof.
  revert acc. induction l as [|x l IH]; intros acc; simpl; [by rewrite app_nil_r|].
  rewrite IH, filter_cons. case_decide; [|done]. by rewrite <-app_assoc.
Qed.

Lemma sum_list_snoc (l : list nat) x : sum_list (l ++ [x]) = (sum_list l + x)%nat.
Proof. rewrite sum_list_with_app. simpl. lia. Qed.
End lists.

(** ** Sums over a list of keys *)

Section sums.
Context {K : Type} `{EqDecision K}.
Implicit Types (f g : K → Z) (A : list K).

Definition sumZ f A : Z := foldr (λ a acc, f a + acc) 0 A.

Lemma sumZ_ext f g A : (∀ a, a ∈ A → f a = g a) → sumZ f A = sumZ g A.
Proof.
  intros H. induction A as [|a A IH]; [done|]. simpl.
  rewrite H, IH by set_solver. done.
Qed.

Lemma sumZ_add f g A : sumZ (λ a, f a + g a) A = sumZ f A + sumZ g A.
Proof. induction A as [|a A IH]; simpl; lia. Qed.

Lemma sumZ_app f A B : sumZ f (A ++ B) = sumZ f A + sumZ f B.
Proof. induction A as [|a A IH]; simpl; lia. Qed.

Lemma sumZ_nonneg f A : (∀ a, a ∈ A → 0 ≤ f a) → 0 ≤ sumZ f A.
Proof.
  intros H. induction A as [|a A IH]; simpl; [done|].
  specialize (IH ltac:(set_solver)). specialize (H a ltac:(set_solver)). lia.
Qed.

(** A member's value is at most the sum of non-negative values. *)
Lemma sumZ_member f A k : (∀ a, a ∈ A → 0 ≤ f a) → k ∈ A → f k ≤ sumZ f A.
Proof.
  intros H Hk. induction A as [|a A IH]; [set_solver|]. simpl.
  assert (0 ≤ sumZ f A) by (apply sumZ_nonneg; set_solver).
  assert (0 ≤ f a) by set_solver.
  apply elem_of_cons in Hk as [->|Hk]; [lia|]. specialize (IH ltac:(set_solver) Hk). lia.
Qed.

(** An amount given to one member of a duplicate-free list raises the sum by it. *)
Lemma sumZ_indicator A k d :
  NoDup A → k ∈ A → sumZ (λ a, if decide (a = k) then d else 0) A = d.
Proof.
  intros Hnd Hk. induction Hnd as [|a A Ha Hnd IH]; [set_solver|]. simpl.
  apply elem_of_cons in Hk as [<-|Hk].
  - rewrite decide_True by done.
    rewrite (sumZ_ext _ (λ _, 0)); [|intros b Hb; rewrite decide_False; set_solver].
    assert (sumZ (λ _, 0) A = 0) as -> by (clear; induction A; simpl; lia). lia.
  - rewrite decide_False by set_solver. rewrite IH by done. lia.
Qed.

Lemma sumZ_credit f g A k d :
  NoDup A → k ∈ A → (∀ a, a ∈ A → g a = f a + if decide (a = k) then d else 0) →
  sumZ g A = sumZ f A + d.
Proof.
  intros Hnd Hk H. rewrite (sumZ_ext _ _ _ H), sumZ_add. by rewrite sumZ_indicator.
Qed.
End sums.
