(* ===== verification/Processes.v ===== *)
(** * Processes that share a state

    A process is a state machine whose steps are the atomic calls it makes on a
    shared world: the clients of the pool and the mapping ([Interleaving.v]) and the
    builds over the cells of the EVM configuration ([ConcurrentBuilds.v]).  Alone a
    process is deterministic; several are interleaved step by step in any order. *)

From stdpp Require Import prelude list relations.
From Stdlib Require Import ZArith Lia Wellfounded.
From S2P Require Import Prelude.

(** The next call of a process, and the world it leaves; none when it is finished. *)
Class Process (C W : Type) := { proc_step : C → W → option (C * W) }.

Inductive alone `{Process C W} : C * W → C * W → Prop :=
| alone_step c w c' w' : proc_step c w = Some (c', w') → alone (c, w) (c', w').

Inductive interleaved `{Process C W} : list C * W → list C * W → Prop :=
| interleaved_step cs i c w c' w' :
    cs !! i = Some c → proc_step c w = Some (c', w') →
    interleaved (cs, w) (<[i := c']> cs, w').

Definition finished `{Process C W} (c : C) : Prop := ∀ w : W, proc_step c w = None.

(** [c] alone ends in [d], and in [f] of the world it began in. *)
Definition performs `{Process C W} (c d : C) (f : W → W) : Prop :=
  ∀ w w', rtc alone (c, w) (d, w') ↔ w' = f w.

Section processes.
Context {C W : Type} {PC : Process C W}.
Implicit Types (c d : C) (w : W) (cs : list C).

(** ** A process alone *)

Lemma alone_deterministic cw1 cw2 cw3 : alone cw1 cw2 → alone cw1 cw3 → cw2 = cw3.
Proof. intros H1 H2. destruct H1. inversion H2. simplify_eq. done. Qed.

Lemma alone_finished d w cw : finished d → rtc alone (d, w) cw → cw = (d, w).
Proof.
  intros Hd H. inversion H as [|? ? ? Hs]; [done|]. inversion Hs as [? ? ? ? Hn].
  by rewrite Hd in Hn.
Qed.

Lemma alone_unique cw d1 d2 w1 w2 :
  finished d1 → finished d2 →
  rtc alone cw (d1, w1) → rtc alone cw (d2, w2) → d2 = d1 ∧ w2 = w1.
Proof.
  intros Hd1 Hd2 H. remember (d1, w1) as e eqn:He. revert w1 He.
  induction H as [cw|cw cw' e Hs _ IH]; intros w1 -> H2.
  - apply alone_finished in H2; [|done]. by injection H2 as -> ->.
  - inversion H2 as [|? cw2 ? Hs2 H3]; simplify_eq.
    + inversion Hs as [? ? ? ? Hn]. by rewrite Hd2 in Hn.
    + rewrite (alone_deterministic _ _ _ Hs2 Hs) in H3. by apply IH.
Qed.

Lemma performs_intro c d f :
  finished d → (∀ w, rtc alone (c, w) (d, f w)) → performs c d f.
Proof.
  intros Hd H w w'. split; [|by intros ->]. intros H'.
  by destruct (alone_unique _ d d (f w) w' Hd Hd (H w) H') as [_ ->].
Qed.

(** A process's own steps are steps of any interleaving it takes part in. *)
Lemma interleaved_alone cs i c w c' w' :
  cs !! i = Some c → rtc alone (c, w) (c', w') →
  rtc interleaved (cs, w) (<[i := c']> cs, w').
Proof.
  intros Hi H. remember (c, w) as a eqn:Ea. remember (c', w') as b eqn:Eb.
  revert cs c w Ea Hi. induction H as [a|a [c1 w1] b Hs _ IH]; intros cs c w -> Hi; simplify_eq.
  - by rewrite list_insert_id.
  - inversion Hs; simplify_eq. eapply rtc_l; [by econstructor|].
    rewrite <-(list_insert_insert_eq cs i c' c1).
    apply (IH eq_refl _ c1); [done|]. apply list_lookup_insert_eq. by eapply lookup_lt_Some.
Qed.

(** ** Invariants *)

(** What every step preserves, a run preserves. *)
Lemma run_invariant (I : list C * W → Prop) a b :
  (∀ a b, interleaved a b → I a → I b) → rtc interleaved a b → I a → I b.
Proof. intros Hstep H. induction H; eauto. Qed.

(** A run keeps [J] unless some step of it breaks it, when every step that does is an [X]. *)
Lemma run_keeps_or_breaks (I J : list C * W → Prop) (X : list C * W → list C * W → Prop) a b :
  (∀ a b, interleaved a b → I a → I b) →
  (∀ a b, interleaved a b → I a → J a → J b ∨ X a b) →
  rtc interleaved a b → I a → J a →
  J b ∨ ∃ x y, rtc interleaved a x ∧ X x y ∧ rtc interleaved y b.
Proof.
  intros HI HJ H. induction H as [a|a a' b Hs Hrun IH]; intros Ha Hj; [by left|].
  destruct (HJ _ _ Hs Ha Hj) as [Hj'|Hx]; [|by right; exists a, a'].
  destruct (IH (HI _ _ Hs Ha) Hj') as [?|(x & y & Hx & ? & ?)]; [by left|right].
  exists x, y. split; [|done]. by eapply rtc_l.
Qed.

(** An interleaving preserves what every step of every process preserves: of the world,
    and of the process at each place. *)
Lemma interleaved_indexed (I : W → Prop) (G : nat → C → Prop) cs0 w0 cs w :
  (∀ i c w c' w', I w → G i c → proc_step c w = Some (c', w') → I w' ∧ G i c') →
  rtc interleaved (cs0, w0) (cs, w) →
  I w0 → (∀ i c, cs0 !! i = Some c → G i c) → I w ∧ ∀ i c, cs !! i = Some c → G i c.
Proof.
  intros Hstep H HI HG.
  apply (run_invariant (λ csw, I csw.2 ∧ ∀ i c, csw.1 !! i = Some c → G i c) _ _) in H;
    [done| |done].
  intros ? ? Hs [HI' HG']. destruct Hs as [cs' i c w' c' w'' Hi Hc]. simpl in *.
  destruct (Hstep _ _ _ _ _ HI' (HG' _ _ Hi) Hc). split; [done|].
  intros j d [(-> & <- & _)|[_ Hj]]%list_lookup_insert_Some; auto.
Qed.

Lemma interleaved_invariant (I : W → Prop) (G : C → Prop) cs0 w0 cs w :
  (∀ c w c' w', I w → G c → proc_step c w = Some (c', w') → I w' ∧ G c') →
  rtc interleaved (cs0, w0) (cs, w) → I w0 → Forall G cs0 → I w ∧ Forall G cs.
Proof. rewrite !Forall_lookup. intros Hstep. apply (interleaved_indexed I (λ _, G)). eauto. Qed.

(** ** Termination

    A measure of two parts that every step of every process decreases, the first part
    counting more than the second. *)
Definition decreases (a b : nat * nat) : Prop := (a.1 < b.1)%nat ∨ a.1 = b.1 ∧ (a.2 < b.2)%nat.

Lemma decreases_wf : well_founded decreases.
Proof.
  assert (H : ∀ n m, Acc decreases (n, m)).
  { intros n. induction n as [n IHn] using (well_founded_induction lt_wf).
    intros m. induction m as [m IHm] using (well_founded_induction lt_wf).
    constructor. intros [n' m'] [Hlt|[Heq Hlt]]; simpl in *; [by apply IHn|subst; by apply IHm]. }
  intros [n m]. apply H.
Qed.

Lemma sum_list_with_insert {A} (f : A → nat) l i x y :
  l !! i = Some x → (sum_list_with f (<[i := y]> l) + f x = sum_list_with f l + f y)%nat.
Proof.
  intros Hi. rewrite insert_take_drop by (by eapply lookup_lt_Some).
  rewrite <-(take_drop_middle l i x Hi) at 3. rewrite !sum_list_with_app. simpl. lia.
Qed.

(** A state in which no process can make a call. *)
Lemma interleaved_stuck cs w :
  nf interleaved (cs, w) ↔ Forall (λ c, proc_step c w = None) cs.
Proof.
  split.
  - intros Hnf. apply Forall_lookup_2. intros i c Hi.
    destruct (proc_step c w) as [[c' w']|] eqn:Hs; [|done].
    destruct Hnf. eexists. by econstructor.
  - intros Hd [csw Hs]. inversion Hs as [cs' i c w1 c' w' Hi Hc]; simplify_eq.
    by rewrite (Forall_lookup_1 _ _ _ _ Hd Hi) in Hc.
Qed.

Section termination.
Variable first second : C → nat.
Hypothesis step_decreases : ∀ c w c' w',
  proc_step c w = Some (c', w') → decreases (first c', second c') (first c, second c).

Lemma interleaved_sn csw : sn interleaved csw.
Proof using step_decreases.
  apply (wf_incl _ (flip interleaved) (λ a b,
    decreases (sum_list_with first a.1, sum_list_with second a.1)
      (sum_list_with first b.1, sum_list_with second b.1))).
  - intros b a Hs. destruct Hs as [cs i c w c' w' Hi Hc]. apply step_decreases in Hc.
    pose proof (sum_list_with_insert first _ _ _ c' Hi).
    pose proof (sum_list_with_insert second _ _ _ c' Hi).
    unfold decreases in *. simpl in *. lia.
  - apply (wf_inverse_image _ _ decreases), decreases_wf.
Qed.

(** From every state some schedule runs to the end. *)
Lemma interleaved_finishes csw : ∃ csw', rtc interleaved csw csw' ∧ nf interleaved csw'.
Proof using step_decreases.
  induction (interleaved_sn csw) as [[cs w] _ IH].
  assert (Hdec : ∀ c, Decision (is_Some (proc_step c w))) by apply _.
  destruct (Exists_dec (λ c, is_Some (proc_step c w)) cs) as [Hx|Hx].
  - apply Exists_exists in Hx as (c & (i & Hi)%list_elem_of_lookup & [c' w'] & Hc).
    destruct (IH (<[i := c']> cs, w')) as (csw' & Hrun & Hd); [by econstructor|].
    exists csw'. split; [|done]. eapply rtc_l; [by econstructor|done].
  - exists (cs, w). split; [done|]. apply interleaved_stuck.
    apply (not_Exists_Forall _) in Hx. eapply Forall_impl; [exact Hx|].
    intros c Hc. by apply eq_None_not_Some.
Qed.
End termination.
End processes.
