(* ===== verification/TxMapping.v ===== *)
(** * The transaction mapping ([crates/tx_mapping/src/lib.rs])

    The process-wide table from a transaction hash to the block number it was
    submitted at, with the set of deleted hashes and the pool-reorg flag.  Every
    method holds the table's lock for its whole body, so a method is one atomic
    step on [TxMappingState] and a concurrent execution is an interleaving of
    such steps. *)

From stdpp Require Import prelude gmap.
From Stdlib Require Import ZArith Lia.
From S2P Require Import Prelude.

Definition UNEXECUTED_TX_RETENTION_BLOCKS : Z := 100.

Record TxMappingState := mkTxMappingState {
  mapping : gmap B256 Z;
  deleted : gset B256;
  reorg_in_progress : bool;
}.

(** [impl Default for TxMappingState] *)
Definition default_state : TxMappingState := mkTxMappingState ∅ ∅ false.

(** ** The methods that write *)

Definition set_mapping (m : gmap B256 Z) (st : TxMappingState) : TxMappingState :=
  mkTxMappingState m (deleted st) (reorg_in_progress st).

(** [state.mapping.remove(&tx_hash).unwrap_or(0)]: the number, and the state left. *)
Definition get_tx_number (tx_hash : B256) (st : TxMappingState) : Z * TxMappingState :=
  (default 0 (mapping st !! tx_hash),
   mkTxMappingState (delete tx_hash (mapping st)) (deleted st) (reorg_in_progress st)).

Definition add_deleted_transaction (tx_hash : B256) (st : TxMappingState) : TxMappingState :=
  mkTxMappingState (mapping st) ({[tx_hash]} ∪ deleted st) (reorg_in_progress st).

Definition mark_start_pool_reorg (st : TxMappingState) : TxMappingState :=
  mkTxMappingState (mapping st) (deleted st) true.

Definition mark_pool_reorged (st : TxMappingState) : TxMappingState :=
  mkTxMappingState (mapping st) (deleted st) false.

Definition insert (tx_hash : B256) (block_number : Z) (st : TxMappingState) : TxMappingState :=
  mkTxMappingState (<[tx_hash := block_number]> (mapping st)) (deleted st)
    (reorg_in_progress st).

Definition clear (st : TxMappingState) : TxMappingState := mkTxMappingState ∅ ∅ false.

(** ** The methods that read *)

Definition is_deleted_transaction (tx_hash : B256) (st : TxMappingState) : bool :=
  bool_decide (tx_hash ∈ deleted st).

Definition is_reorg_complete (st : TxMappingState) : bool := negb (reorg_in_progress st).

Definition is_transaction_expired (tx_hash : B256) (current_block_number : Z)
    (st : TxMappingState) : bool :=
  match mapping st !! tx_hash with
  | Some submission_block =>
      (submission_block ⊞[64] UNEXECUTED_TX_RETENTION_BLOCKS <? current_block_number)
      || (current_block_number <? submission_block)
  | None => false
  end.

Definition get_submission_block (tx_hash : B256) (st : TxMappingState) : option Z :=
  mapping st !! tx_hash.

Definition len (st : TxMappingState) : nat := size (mapping st).

Definition is_empty (st : TxMappingState) : bool := bool_decide (mapping st = ∅).

(** ** Handles

    A [TxMapping] is an [Arc] to a locked state: a location of a heap.  Its field
    is private and its only constructor is the initialiser of the static
    [GLOBAL_TX_MAPPING], so every handle is a copy of that one. *)
Record TxMapping := mkTxMapping { state : positive }.

Definition GLOBAL_TX_MAPPING : TxMapping := mkTxMapping 1.
Definition get_global_tx_mapping : TxMapping := GLOBAL_TX_MAPPING.
(** [Arc::clone]: the same location. *)
Definition tx_mapping_clone (self : TxMapping) : TxMapping := mkTxMapping (state self).
(** [impl Default for TxMapping] *)
Definition tx_mapping_default : TxMapping := tx_mapping_clone GLOBAL_TX_MAPPING.
Definition tx_mapping_new : TxMapping := tx_mapping_default.

Definition heap := gmap positive TxMappingState.
(** A handle's method: the state behind its location, read and written back. *)
Definition call {A} (self : TxMapping) (f : TxMappingState → A * TxMappingState)
    (h : heap) : option (A * heap) :=
  st ← h !! state self;
  let '(a, st') := f st in Some (a, <[state self := st']> h).

(** The handles a client can hold. *)
Inductive handle : TxMapping → Prop :=
| handle_global : handle get_global_tx_mapping
| handle_new : handle tx_mapping_new
| handle_clone self : handle self → handle (tx_mapping_clone self).

(** [LazyLock::new]: the heap on the first use of the global instance. *)
Definition initial_heap : heap := {[state GLOBAL_TX_MAPPING := default_state]}.

(** ** Sequences of calls *)

(** One call of a method that writes (a query leaves the state as it was). *)
Inductive write_op : Type :=
| OpSetMapping (m : gmap B256 Z)
| OpGetTxNumber (tx_hash : B256)
| OpAddDeletedTransaction (tx_hash : B256)
| OpMarkStartPoolReorg
| OpMarkPoolReorged
| OpInsert (tx_hash : B256) (block_number : Z)
| OpClear.

Definition exec_op (st : TxMappingState) (op : write_op) : TxMappingState :=
  match op with
  | OpSetMapping m => set_mapping m st
  | OpGetTxNumber h => (get_tx_number h st).2
  | OpAddDeletedTransaction h => add_deleted_transaction h st
  | OpMarkStartPoolReorg => mark_start_pool_reorg st
  | OpMarkPoolReorged => mark_pool_reorged st
  | OpInsert h n => insert h n st
  | OpClear => clear st
  end.

Definition exec_ops (st : TxMappingState) (ops : list write_op) : TxMappingState :=
  foldl exec_op st ops.

(** Calls made through handles, each a step on the heap. *)
Definition exec_calls (h : heap) (calls : list (TxMapping * write_op)) : option heap :=
  foldl (λ o c, o ≫= λ h, snd <$> call c.1 (λ st, ((), exec_op st c.2)) h) (Some h) calls.

(** A query through a handle. *)
Definition ask {A} (self : TxMapping) (query : TxMappingState → A) (h : heap) : option A :=
  fst <$> call self (λ st, (query st, st)) h.

(** ** What a client observes, as a function of the calls made so far

    The specification keeps no table: it scans the calls, the latest first, for
    the one that decides the answer. *)
Fixpoint spec_submission (rev_ops : list write_op) (h : B256) : option Z :=
  match rev_ops with
  | [] => None
  | OpInsert h' n :: ops => if decide (h = h') then Some n else spec_submission ops h
  | OpGetTxNumber h' :: ops => if decide (h = h') then None else spec_submission ops h
  | OpSetMapping m :: _ => m !! h
  | OpClear :: _ => None
  | _ :: ops => spec_submission ops h
  end.

Fixpoint spec_deleted (rev_ops : list write_op) (h : B256) : bool :=
  match rev_ops with
  | [] => false
  | OpAddDeletedTransaction h' :: ops => bool_decide (h = h') || spec_deleted ops h
  | OpClear :: _ => false
  | _ :: ops => spec_deleted ops h
  end.

Fixpoint spec_reorg_complete (rev_ops : list write_op) : bool :=
  match rev_ops with
  | [] => true
  | OpMarkStartPoolReorg :: _ => false
  | OpMarkPoolReorged :: _ | OpClear :: _ => true
  | _ :: ops => spec_reorg_complete ops
  end.

(** Expired: given a number more than the retention bound ago, or in the future. *)
Definition spec_expired (rev_ops : list write_op) (h : B256) (b : Z) : bool :=
  match spec_submission rev_ops h with
  | Some n => (n ⊞[64] UNEXECUTED_TX_RETENTION_BLOCKS <? b) || (b <? n)
  | None => false
  end.

(** The hashes with a number: those some call named, each once, and that still have one. *)
Fixpoint spec_named (rev_ops : list write_op) : list B256 :=
  match rev_ops with
  | [] | OpClear :: _ => []
  | OpInsert h _ :: ops => h :: spec_named ops
  | OpSetMapping m :: _ => (map_to_list m).*1
  | _ :: ops => spec_named ops
  end.
Definition spec_recorded (rev_ops : list write_op) : list B256 :=
  filter (λ h, is_Some (spec_submission rev_ops h)) (remove_dups (spec_named rev_ops)).

(** The calls other than [h]'s own insertions, removals and bulk replacements. *)
Definition touches (h : B256) (op : write_op) : bool :=
  match op with
  | OpSetMapping _ | OpClear => true
  | OpGetTxNumber h' | OpInsert h' _ => bool_decide (h = h')
  | _ => false
  end.

(** ** Lemmas *)

Lemma get_submission_block_insert h h' n st :
  get_submission_block h (insert h' n st)
  = if decide (h = h') then Some n else get_submission_block h st.
Proof.
  unfold get_submission_block; simpl. destruct (decide (h = h')) as [->|?].
  - apply lookup_insert_eq.
  - by apply lookup_insert_ne.
Qed.

Lemma get_submission_block_take h h' st :
  get_submission_block h (get_tx_number h' st).2
  = if decide (h = h') then None else get_submission_block h st.
Proof.
  unfold get_submission_block; simpl. destruct (decide (h = h')) as [->|?].
  - apply lookup_delete_eq.
  - by apply lookup_delete_ne.
Qed.

Lemma is_reorg_complete_insert h n st :
  is_reorg_complete (insert h n st) = is_reorg_complete st.
Proof. done. Qed.

(** ** Recording and taking the numbers of a block

    Inserting, under each hash of a list, the number another state had for it (0 for
    none), and taking the numbers of a list of hashes: the loops of the payload
    builder, of the conversion of a block to a payload, and of payload validation. *)
Definition record_numbers (st0 : TxMappingState) (hs : list B256) (st : TxMappingState)
    : TxMappingState :=
  foldl (λ st h, insert h (default 0 (get_submission_block h st0)) st) st hs.

Definition take_numbers (hs : list B256) (st : TxMappingState) : TxMappingState :=
  foldl (λ st h, (get_tx_number h st).2) st hs.

Lemma record_numbers_lookup st0 hs st h :
  get_submission_block h (record_numbers st0 hs st)
  = if decide (h ∈ hs) then Some (default 0 (get_submission_block h st0))
    else get_submission_block h st.
Proof.
  unfold record_numbers. revert st.
  induction hs as [|x hs IH]; intros st; [done|]. simpl. rewrite IH, get_submission_block_insert.
  destruct (decide (h ∈ hs)) as [Hin|Hout].
  - rewrite decide_True by set_solver. done.
  - destruct (decide (h = x)) as [->|Hne].
    + by rewrite decide_True by set_solver.
    + by rewrite decide_False by set_solver.
Qed.

Lemma take_numbers_lookup hs st h :
  get_submission_block h (take_numbers hs st)
  = if decide (h ∈ hs) then None else get_submission_block h st.
Proof.
  unfold take_numbers. revert st.
  induction hs as [|x hs IH]; intros st; [done|]. cbn [foldl]. rewrite IH, get_submission_block_take.
  destruct (decide (h ∈ hs)) as [Hin|Hout].
  - by rewrite decide_True by set_solver.
  - destruct (decide (h = x)) as [->|Hne].
    + by rewrite decide_True by set_solver.
    + by rewrite decide_False by set_solver.
Qed.

Lemma record_numbers_rest st0 hs st :
  deleted (record_numbers st0 hs st) = deleted st ∧
  reorg_in_progress (record_numbers st0 hs st) = reorg_in_progress st.
Proof.
  unfold record_numbers. revert st. induction hs as [|x hs IH]; intros st; [done|].
  simpl. destruct (IH (insert x (default 0 (get_submission_block x st0)) st)) as [-> ->]. done.
Qed.

Lemma take_numbers_rest hs st :
  deleted (take_numbers hs st) = deleted st ∧
  reorg_in_progress (take_numbers hs st) = reorg_in_progress st.
Proof.
  unfold take_numbers. revert st. induction hs as [|x hs IH]; intros st; [done|].
  cbn [foldl]. destruct (IH (get_tx_number x st).2) as [-> ->]. done.
Qed.

(** Two states are the same when they answer alike on every hash and agree on the rest. *)
Lemma tx_mapping_ext st st' :
  (∀ h, get_submission_block h st = get_submission_block h st') →
  deleted st = deleted st' → reorg_in_progress st = reorg_in_progress st' → st = st'.
Proof.
  destruct st, st'. unfold get_submission_block. simpl. intros H -> ->. f_equal. by apply map_eq.
Qed.

Create Rewrite HintDb tx_mapping.
#[export] Hint Rewrite get_submission_block_insert get_submission_block_take
  record_numbers_lookup take_numbers_lookup : tx_mapping.

Lemma exec_op_spec_submission h st op rev_ops :
  get_submission_block h st = spec_submission rev_ops h →
  get_submission_block h (exec_op st op) = spec_submission (op :: rev_ops) h.
Proof.
  intros H. destruct op; cbn [exec_op spec_submission]; try done.
  - rewrite get_submission_block_take. by case_decide.
  - rewrite get_submission_block_insert. by case_decide.
Qed.

Lemma exec_op_spec_deleted h st op rev_ops :
  is_deleted_transaction h st = spec_deleted rev_ops h →
  is_deleted_transaction h (exec_op st op) = spec_deleted (op :: rev_ops) h.
Proof.
  unfold is_deleted_transaction. intros H. destruct op; simpl; try done.
  rewrite <-H, <-bool_decide_or. apply bool_decide_ext. set_solver.
Qed.

Lemma exec_op_spec_reorg st op rev_ops :
  is_reorg_complete st = spec_reorg_complete rev_ops →
  is_reorg_complete (exec_op st op) = spec_reorg_complete (op :: rev_ops).
Proof. by destruct op. Qed.

Lemma exec_ops_snoc st ops op :
  exec_ops st (ops ++ [op]) = exec_op (exec_ops st ops) op.
Proof. unfold exec_ops. by rewrite foldl_app. Qed.

Lemma exec_ops_untouched h st ops :
  Forall (λ op, touches h op = false) ops →
  get_submission_block h (exec_ops st ops) = get_submission_block h st.
Proof.
  intros Hf. revert st. induction Hf as [|op ops Hop _ IH]; intros st; [done|].
  change (exec_ops st (op :: ops)) with (exec_ops (exec_op st op) ops).
  rewrite IH. destruct op; cbn [exec_op touches] in *; try done;
    apply bool_decide_eq_false in Hop.
  - by rewrite get_submission_block_take, decide_False.
  - by rewrite get_submission_block_insert, decide_False.
Qed.

Lemma exec_ops_history ops h :
  let st := exec_ops default_state ops in
  get_submission_block h st = spec_submission (rev ops) h ∧
  is_deleted_transaction h st = spec_deleted (rev ops) h ∧
  is_reorg_complete st = spec_reorg_complete (rev ops).
Proof.
  simpl. induction ops as [|op ops (IH1 & IH2 & IH3)] using rev_ind.
  { split_and!; [done| |done]. by apply bool_decide_eq_false. }
  rewrite exec_ops_snoc, rev_unit.
  split_and!; auto using exec_op_spec_submission, exec_op_spec_deleted, exec_op_spec_reorg.
Qed.

(** A hash with a number was named by some call. *)
Lemma spec_submission_named rev_ops h :
  is_Some (spec_submission rev_ops h) → h ∈ spec_named rev_ops.
Proof.
  induction rev_ops as [|[m|h'|h'| | |h' n|] ops IH]; simpl; try done.
  - intros [n Hn]. apply list_elem_of_fmap. exists (h, n). split; [done|]. by apply elem_of_map_to_list.
  - by case_decide.
  - rewrite elem_of_cons. case_decide; [by left|]. intros Hs. right. by apply IH.
Qed.

Lemma spec_recorded_NoDup rev_ops : NoDup (spec_recorded rev_ops).
Proof. apply NoDup_filter, NoDup_remove_dups. Qed.

Lemma spec_recorded_elem rev_ops h :
  h ∈ spec_recorded rev_ops ↔ is_Some (spec_submission rev_ops h).
Proof.
  unfold spec_recorded. rewrite list_elem_of_filter, elem_of_remove_dups.
  pose proof (spec_submission_named rev_ops h). tauto.
Qed.

Lemma len_recorded st rev_ops :
  (∀ h, get_submission_block h st = spec_submission rev_ops h) →
  len st = length (spec_recorded rev_ops).
Proof.
  intros Hs. unfold len. rewrite <-(size_dom (D := gset B256)).
  rewrite <-(size_list_to_set (C := gset B256)) by apply spec_recorded_NoDup.
  f_equal. apply set_eq. intros h.
  rewrite elem_of_dom, elem_of_list_to_set, spec_recorded_elem, <-Hs. done.
Qed.

Lemma is_empty_len st : is_empty st = bool_decide (len st = 0%nat).
Proof. apply bool_decide_ext. unfold len. by rewrite map_size_empty_iff. Qed.

(** Every handle is an alias of the global one. *)
Lemma handle_location self : handle self → state self = state GLOBAL_TX_MAPPING.
Proof. by induction 1. Qed.

Lemma call_handle {A} self (f : TxMappingState → A * TxMappingState) hp st :
  handle self → hp !! state GLOBAL_TX_MAPPING = Some st →
  call self f hp = Some ((f st).1, <[state GLOBAL_TX_MAPPING := (f st).2]> hp).
Proof.
  intros Hh Hst. unfold call. rewrite (handle_location _ Hh), Hst. simpl. by destruct (f st).
Qed.

Lemma exec_calls_shared calls :
  Forall (handle ∘ fst) calls →
  ∃ hp, exec_calls initial_heap calls = Some hp ∧
    hp !! state GLOBAL_TX_MAPPING = Some (exec_ops default_state (calls.*2)).
Proof.
  induction calls as [|[self op] calls IH] using rev_ind; intros Hf.
  { exists initial_heap. split; [done|]. apply lookup_singleton_eq. }
  apply Forall_app in Hf as [Hf [Hh _]%Forall_cons].
  destruct (IH Hf) as (hp & Hrun & Hst). unfold exec_calls in *.
  rewrite foldl_app, Hrun. simpl foldl. cbn [mbind option_bind].
  rewrite (call_handle _ _ _ _ Hh Hst). eexists. split; [done|].
  etrans; [apply lookup_insert_eq|]. rewrite fmap_app. simpl fmap. by rewrite exec_ops_snoc.
Qed.

Lemma ask_handle {A} self (query : TxMappingState → A) hp st :
  handle self → hp !! state GLOBAL_TX_MAPPING = Some st →
  ask self query hp = Some (query st).
Proof.
  intros Hh Hst. unfold ask. by rewrite (call_handle _ _ _ _ Hh Hst).
Qed.

(** The stored numbers are [u64]s. *)
Definition mapping_wf (st : TxMappingState) : Prop :=
  map_Forall (λ _ n, in_width 64 n) (mapping st).

Definition op_wf (op : write_op) : Prop :=
  match op with
  | OpSetMapping m => map_Forall (λ _ n, in_width 64 n) m
  | OpInsert _ n => in_width 64 n
  | _ => True
  end.

Lemma mapping_wf_default : mapping_wf default_state.
Proof. apply map_Forall_empty. Qed.

Lemma mapping_wf_lookup st h n :
  mapping_wf st → get_submission_block h st = Some n → in_width 64 n.
Proof. intros Hwf. apply Hwf. Qed.

Lemma mapping_wf_exec_op st op : mapping_wf st → op_wf op → mapping_wf (exec_op st op).
Proof.
  unfold mapping_wf. intros Hst Hop. destruct op; simpl in *; try done.
  - by apply map_Forall_delete.
  - by apply map_Forall_insert_2.
Qed.

(** A submission number is small enough that the retention bound does not wrap. *)
Definition retention_fits (n : Z) : Prop := in_width 64 (n + UNEXECUTED_TX_RETENTION_BLOCKS).

Lemma expired_test_window n b :
  retention_fits n →
  (n ⊞[64] UNEXECUTED_TX_RETENTION_BLOCKS <? b) || (b <? n) = false ↔
  n ≤ b ≤ n + UNEXECUTED_TX_RETENTION_BLOCKS.
Proof.
  intros H. rewrite wrapping_add_small by done.
  rewrite orb_false_iff, !Z.ltb_ge. lia.
Qed.

Lemma is_transaction_expired_lookup h b st n :
  get_submission_block h st = Some n →
  is_transaction_expired h b st
  = (n ⊞[64] UNEXECUTED_TX_RETENTION_BLOCKS <? b) || (b <? n).
Proof. unfold is_transaction_expired, get_submission_block. by intros ->. Qed.

#[export] Hint Resolve mapping_wf_default mapping_wf_lookup mapping_wf_exec_op : kasplex.

(** ** Properties *)

(** C17 The table is one, whichever handle it is reached through, and every method
    answers as the call history says: after any sequence of writing calls made through
    any handles, what any handle answers of the submission number of a hash, of its
    deleted mark, of its expiry, of the reorg flag, of the number of entries and of
    emptiness, and the number [get_tx_number] returns as it removes it, are those
    decided by the latest call that bears on them. *)
Theorem tx_mapping_refines_history calls self
    (Hcalls : Forall (handle ∘ fst) calls) (Hself : handle self) :
  let history := rev (calls.*2) in
  ∃ hp, exec_calls initial_heap calls = Some hp ∧
    (∀ h, ask self (get_submission_block h) hp = Some (spec_submission history h)) ∧
    (∀ h, fst <$> call self (get_tx_number h) hp = Some (default 0 (spec_submission history h))) ∧
    (∀ h, ask self (is_deleted_transaction h) hp = Some (spec_deleted history h)) ∧
    (∀ h b, ask self (is_transaction_expired h b) hp = Some (spec_expired history h b)) ∧
    ask self is_reorg_complete hp = Some (spec_reorg_complete history) ∧
    ask self len hp = Some (length (spec_recorded history)) ∧
    ask self is_empty hp = Some (bool_decide (spec_recorded history = [])).
Proof.
  destruct (exec_calls_shared calls Hcalls) as (hp & Hrun & Hst).
  set (st := exec_ops default_state (calls.*2)) in *.
  assert (Hsub : ∀ h, get_submission_block h st = spec_submission (rev calls.*2) h)
    by apply exec_ops_history.
  pose proof (len_recorded _ _ Hsub) as Hlen.
  exists hp. split; [exact Hrun|].
  split_and!; intros; rewrite ?(call_handle _ _ _ _ Hself Hst), ?(ask_handle _ _ _ _ Hself Hst);
    cbn [fmap option_fmap option_map fst]; f_equal.
  - apply Hsub.
  - by rewrite <-Hsub.
  - apply exec_ops_history.
  - unfold is_transaction_expired, spec_expired. by rewrite <-Hsub.
  - by apply (exec_ops_history (calls.*2) 0).
  - exact Hlen.
  - rewrite is_empty_len, Hlen. apply bool_decide_ext. apply length_zero_iff_nil.
Qed.

Lemma tx_mapping_refines_history_witness :
  ∃ hp, exec_calls initial_heap
      [(tx_mapping_new, OpInsert 7 42); (get_global_tx_mapping, OpGetTxNumber 8)] = Some hp ∧
    ask (tx_mapping_clone tx_mapping_new) (get_submission_block 7) hp = Some (Some 42) ∧
    fst <$> call tx_mapping_new (get_tx_number 7) hp = Some 42 ∧
    ask tx_mapping_new len hp = Some 1%nat.
Proof.
  destruct (tx_mapping_refines_history
    [(tx_mapping_new, OpInsert 7 42); (get_global_tx_mapping, OpGetTxNumber 8)]
    (tx_mapping_clone tx_mapping_new)) as (hp & E & H & Ht & _ & _ & _ & Hl & _);
    [repeat constructor..|].
  exists hp. split; [exact E|]. split; [exact (H 7)|]. split; [exact (Ht 7)|exact Hl].
Defined.

(** A submitted transaction's number is consumed exactly once: whatever calls
    on other hashes come between, the first [get_tx_number] returns the inserted
    number and the next one returns 0. *)
Theorem submission_number_consumed_once h n st ops1 ops2
    (H1 : Forall (λ op, touches h op = false) ops1)
    (H2 : Forall (λ op, touches h op = false) ops2) :
  let '(first, st1) := get_tx_number h (exec_ops (insert h n st) ops1) in
  let '(second, _) := get_tx_number h (exec_ops st1 ops2) in
  first = n ∧ second = 0.
Proof.
  destruct (get_tx_number h _) as [first st1] eqn:E1. simpl.
  change (mapping (exec_ops st1 ops2) !! h)
    with (get_submission_block h (exec_ops st1 ops2)).
  rewrite exec_ops_untouched by done. injection E1 as <- <-. split.
  - change (default 0 (get_submission_block h (exec_ops (insert h n st) ops1)) = n).
    rewrite exec_ops_untouched by done.
    by rewrite get_submission_block_insert, decide_True.
  - unfold get_submission_block; simpl. by rewrite lookup_delete_eq.
Qed.

Lemma submission_number_consumed_once_witness :
  let '(first, st1) := get_tx_number 7 (exec_ops (insert 7 42 default_state) [OpInsert 8 1]) in
  let '(second, _) := get_tx_number 7 (exec_ops st1 [OpMarkStartPoolReorg]) in
  first = 42 ∧ second = 0.
Proof.
  apply (submission_number_consumed_once 7 42 default_state
    [OpInsert 8 1] [OpMarkStartPoolReorg]); repeat constructor.
Defined.

(** The expiry rule, on a [u64] block number whose retention bound does not
    wrap: a recorded transaction is unexpired exactly from its submission block
    to the retention bound, both included; an unknown one never expires. *)
Theorem expiry_window h b st :
  (∀ n, get_submission_block h st = Some n → retention_fits n →
    is_transaction_expired h b st = false ↔ n ≤ b ≤ n + UNEXECUTED_TX_RETENTION_BLOCKS) ∧
  (get_submission_block h st = None → is_transaction_expired h b st = false).
Proof.
  split.
  - intros n Hn Hfit. rewrite (is_transaction_expired_lookup _ _ _ n) by done.
    by apply expired_test_window.
  - unfold get_submission_block, is_transaction_expired. by intros ->.
Qed.

Lemma expiry_window_witness :
  is_transaction_expired 3 200 (insert 3 100 default_state) = false ↔
  100 ≤ 200 ≤ 100 + UNEXECUTED_TX_RETENTION_BLOCKS.
Proof.
  apply (proj1 (expiry_window 3 200 (insert 3 100 default_state)) 100 eq_refl).
  vm_compute; split; congruence.
Defined.
