(* ===== verification/Types.v ===== *)
(** * Data types the components share

    The structures of the Ethereum libraries that kasplex-reth builds or takes
    apart field by field: headers, blocks and their sealed forms, and the first
    version of the engine's execution payload.  What the libraries compute on
    them (hashes, roots, decoding) is not defined here; each component takes it
    as a parameter. *)

From stdpp Require Import prelude.
From Stdlib Require Import ZArith.
From S2P Require Import Prelude.

Module Header.
Record t := mk {
  parent_hash : B256;
  ommers_hash : B256;
  beneficiary : Address;
  state_root : B256;
  transactions_root : B256;
  receipts_root : B256;
  withdrawals_root : option B256;
  logs_bloom : Z;
  timestamp : Z;
  mix_hash : B256;
  nonce : Z;
  base_fee_per_gas : option Z;
  number : Z;
  gas_limit : Z;
  difficulty : Z;
  gas_used : Z;
  extra_data : Bytes;
  parent_beacon_block_root : option B256;
  blob_gas_used : option Z;
  excess_blob_gas : option Z;
  requests_hash : option B256;
}.

#[export] Instance eq_dec : EqDecision t.
Proof. solve_decision. Defined.

(** [Header] with every number 0, every hash zero and every option absent. *)
Definition zero : t :=
  mk 0 0 0 0 0 0 None 0 0 0 0 None 0 0 0 0 [] None None None None.

Definition with_withdrawals_root (h : t) (r : option B256) : t :=
  mk (parent_hash h) (ommers_hash h) (beneficiary h) (state_root h)
    (transactions_root h) (receipts_root h) r (logs_bloom h) (timestamp h)
    (mix_hash h) (nonce h) (base_fee_per_gas h) (number h) (gas_limit h)
    (difficulty h) (gas_used h) (extra_data h) (parent_beacon_block_root h)
    (blob_gas_used h) (excess_blob_gas h) (requests_hash h).
End Header.

(** A header with the hash it was sealed with. *)
Record SealedHeader := mkSealedHeader {
  sealed_header : Header.t;
  sealed_header_hash : B256;
}.

(** A block over transactions [Tx]; withdrawals are counted only through the
    list itself. *)
Module Block.
Record t (Tx : Type) := mk {
  header : Header.t;
  transactions : list Tx;
  ommers : list Header.t;
  withdrawals : option (list Z);
}.
Arguments mk {Tx} _ _ _ _.
Arguments header {Tx} _.
Arguments transactions {Tx} _.
Arguments ommers {Tx} _.
Arguments withdrawals {Tx} _.

Definition with_header {Tx} (b : t Tx) (h : Header.t) : t Tx :=
  mk h (transactions b) (ommers b) (withdrawals b).
End Block.

(** [ExecutionPayloadV1]: the payload's transactions are encoded. *)
Module PayloadV1.
Record t := mk {
  parent_hash : B256;
  fee_recipient : Address;
  state_root : B256;
  receipts_root : B256;
  logs_bloom : Z;
  prev_randao : B256;
  block_number : Z;
  gas_limit : Z;
  gas_used : Z;
  timestamp : Z;
  extra_data : Bytes;
  base_fee_per_gas : Z;
  block_hash : B256;
  transactions : list Bytes;
}.
End PayloadV1.

(** [ExecutionPayload]: the source takes only the first version apart. *)
Inductive ExecutionPayload : Type :=
| PayloadV1Variant (p : PayloadV1.t)
| PayloadV2Variant (parent_hash : B256) (block_hash : B256) (transactions : list Bytes)
| PayloadV3Variant (parent_hash : B256) (block_hash : B256) (transactions : list Bytes).

(** revm's block environment; the blob fee data is not looked at. *)
Module BlockEnv.
Record t := mk {
  number : Z;
  beneficiary : Address;
  timestamp : Z;
  gas_limit : Z;
  basefee : Z;
  difficulty : Z;
  prevrandao : option B256;
}.

Definition with_gas_limit (b : t) (v : Z) : t :=
  mk (number b) (beneficiary b) (timestamp b) v (basefee b) (difficulty b) (prevrandao b).
Definition with_basefee (b : t) (v : Z) : t :=
  mk (number b) (beneficiary b) (timestamp b) (gas_limit b) v (difficulty b) (prevrandao b).
End BlockEnv.

(** What the source reads and writes of revm's configuration; the rest of it is
    [spec]. *)
Module CfgEnv.
Record t (Spec : Type) := mk {
  chain_id : Z;
  disable_nonce_check : bool;
  spec : Spec;
}.
Arguments mk {Spec} _ _ _.
Arguments chain_id {Spec} _.
Arguments disable_nonce_check {Spec} _.
Arguments spec {Spec} _.

Definition with_disable_nonce_check {Spec} (c : t Spec) (v : bool) : t Spec :=
  mk (chain_id c) v (spec c).
End CfgEnv.

(** [EvmEnv] *)
Record EvmEnv (Spec : Type) := mkEvmEnv {
  block_env : BlockEnv.t;
  cfg_env : CfgEnv.t Spec;
}.
Arguments mkEvmEnv {Spec} _ _.
Arguments block_env {Spec} _.
Arguments cfg_env {Spec} _.

(** revm's transaction environment, without access, blob and authorization lists:
    the source only leaves them empty. *)
Inductive TxKind : Type := Create | Call (to : Address).

Module TxEnv.
Record t := mk {
  tx_type : Z;
  caller : Address;
  gas_limit : Z;
  gas_price : Z;
  kind : TxKind;
  value : Z;
  data : Bytes;
  nonce : Z;
  chain_id : option Z;
  gas_priority_fee : option Z;
  max_fee_per_blob_gas : Z;
}.
End TxEnv.

(** [BlockExecutionResult]; a request is opaque bytes. *)
Record BlockExecutionResult {Receipt : Type} := mkExecutionResult {
  result_receipts : list Receipt;
  result_requests : list Bytes;
  result_gas_used : Z;
  result_blob_gas_used : Z;
}.
Arguments BlockExecutionResult : clear implicits.
Arguments mkExecutionResult {Receipt} _ _ _ _.
