(* ===== verification/Chainspec.v ===== *)
(** * Chain specifications ([crates/chainspec])

    The four Kasplex chains, their hardforks, the specification built for each,
    the command line's chain parser and the answers [KasplexChainSpec] gives to
    the node. *)

From stdpp Require Import prelude strings list.
From Stdlib Require Import ZArith Lia.
From S2P Require Import Prelude Types.

(** ** Chain identifiers and genesis hashes ([lib.rs]) *)

Definition KASPLEX_MAINNET_CHAIN_ID : Z := 202555.
Definition KASPLEX_INTERNAL_L2_CHAIN_ID : Z := 168001.
Definition KASPLEX_TESTNET_CHAIN_ID : Z := 168002.
Definition KASPLEX_DEVNET_CHAIN_ID : Z := 167012.

Definition KASPLEX_MAINNET_GENESIS_HASH : B256 := 0.
Definition KASPLEX_INTERNAL_L2_GENESIS_HASH : B256 := 0.
Definition KASPLEX_TESTNET_GENESIS_HASH : B256 := 0.
Definition KASPLEX_DEVNET_GENESIS_HASH : B256 := 0.

(** ** Hardforks ([hardfork.rs]) *)

(** The forks the source names, in its list or in the comments on it; the library's
    other forks go by their names. *)
Inductive EthereumHardfork : Type :=
| Frontier | Homestead | Tangerine | SpuriousDragon | Byzantium | Constantinople
| Petersburg | Istanbul | MuirGlacier | Berlin | London | ArrowGlacier | GrayGlacier
| Paris | Shanghai
| OtherFork (name : string).

#[export] Instance EthereumHardfork_eq_dec : EqDecision EthereumHardfork.
Proof. solve_decision. Defined.

Inductive ForkCondition : Type :=
| ForkBlock (n : Z)
| ForkTTD (activation_block_number : Z) (fork_block : option Z) (total_difficulty : Z)
| ForkTimestamp (t : Z)
| ForkNever.

Definition ChainHardforks := list (EthereumHardfork * ForkCondition).

Definition KASPLEX_HARDFORKS : ChainHardforks :=
  [ (Frontier, ForkBlock 0);
    (Homestead, ForkBlock 0);
    (Tangerine, ForkBlock 0);
    (SpuriousDragon, ForkBlock 0);
    (Byzantium, ForkBlock 0);
    (Constantinople, ForkBlock 0);
    (Petersburg, ForkBlock 0);
    (Istanbul, ForkBlock 0);
    (Berlin, ForkBlock 0);
    (London, ForkBlock 0);
    (Paris, ForkTTD 0 (Some 0) 0);
    (Shanghai, ForkTimestamp 0) ].

(** ** Genesis and specification records

    [ConfigRest], [Alloc] and [SpecRest] are the parts of the libraries'
    structures the source leaves to [Default::default()]. *)
Class GenesisLib (ConfigRest Alloc SpecRest : Type) := {
  default_config_rest : ConfigRest;
  default_alloc : Alloc;
  default_spec_rest : SpecRest;
}.

Record ChainConfig {ConfigRest : Type} := mkChainConfig {
  chain_id : Z;
  config_rest : ConfigRest;
}.
Arguments ChainConfig : clear implicits.

Module Genesis.
Record t {ConfigRest Alloc : Type} := mk {
  config : ChainConfig ConfigRest;
  extra_data : Bytes;
  gas_limit : Z;
  base_fee_per_gas : option Z;
  difficulty : Z;
  timestamp : Z;
  nonce : Z;
  mix_hash : B256;
  alloc : Alloc;
  number : option Z;
  parent_hash : B256;
  coinbase : Address;
  blob_gas_used : option Z;
  excess_blob_gas : option Z;
}.
Arguments t : clear implicits.
End Genesis.

Module ChainSpec.
Record t {ConfigRest Alloc SpecRest : Type} := mk {
  chain : Z;
  genesis_header : SealedHeader;
  genesis : Genesis.t ConfigRest Alloc;
  paris_block_and_final_difficulty : option (Z * Z);
  hardforks : ChainHardforks;
  prune_delete_limit : Z;
  rest : SpecRest;
}.
Arguments t : clear implicits.
End ChainSpec.

(** ** [KasplexChainCheck] ([spec.rs]) *)

Class KasplexChainCheck (C : Type) := is_kasplex : C → bool.

(** The [matches!] of [impl KasplexChainCheck for KasplexChainSpec], on the id. *)
Definition is_kasplex_id (id : Z) : bool :=
  (id =? KASPLEX_MAINNET_CHAIN_ID) || (id =? KASPLEX_INTERNAL_L2_CHAIN_ID)
  || (id =? KASPLEX_TESTNET_CHAIN_ID) || (id =? KASPLEX_DEVNET_CHAIN_ID).

Section chainspec.
Context {ConfigRest Alloc SpecRest : Type} {GL : GenesisLib ConfigRest Alloc SpecRest}.

(** [KasplexChainSpec] is a wrapper of [ChainSpec]. *)
Record KasplexChainSpec := mkKasplexChainSpec {
  inner : ChainSpec.t ConfigRest Alloc SpecRest;
}.

#[export] Instance KasplexChainSpec_check : KasplexChainCheck KasplexChainSpec :=
  λ spec, is_kasplex_id (ChainSpec.chain (inner spec)).

(** The answers [KasplexChainSpec] does not take from its inner specification. *)
Definition deposit_contract_address (_ : KasplexChainSpec) : option Address := None.
Definition blob_params_at_timestamp (_ : KasplexChainSpec) (_ : Z) : option Z := None.
Definition is_optimism (_ : KasplexChainSpec) : bool := true.
Definition final_paris_total_difficulty (_ : KasplexChainSpec) : option Z := Some 0.
Definition genesis_hash (spec : KasplexChainSpec) : B256 :=
  sealed_header_hash (ChainSpec.genesis_header (inner spec)).

(** What the libraries compute: the genesis header, its hash, and the JSON reader. *)
Variable make_genesis_header :
  Genesis.t ConfigRest Alloc → ChainHardforks → Header.t.
Variable hash_slow : Header.t → B256.
Variable genesis_from_json : string → option (Genesis.t ConfigRest Alloc).
(** [include_str!("../res/genesis/kasplex-mainnet.json")] *)
Variable kasplex_mainnet_json : string.
(** [parse_genesis]: the argument as a path or as JSON, for any other argument. *)
Variable parse_error : Type.
Variable parse_genesis : string → outcome parse_error (Genesis.t ConfigRest Alloc).
(** [ChainSpec::from] *)
Variable chain_spec_from : Genesis.t ConfigRest Alloc → ChainSpec.t ConfigRest Alloc SpecRest.

(** [impl From<Genesis> for KasplexChainSpec] *)
Definition from_genesis (genesis : Genesis.t ConfigRest Alloc) : KasplexChainSpec :=
  mkKasplexChainSpec (chain_spec_from genesis).

(** [..Default::default()] completes the fields the source does not name. *)
Definition build_spec (id : Z) (gh : SealedHeader) (g : Genesis.t ConfigRest Alloc)
    (hf : ChainHardforks) : KasplexChainSpec :=
  mkKasplexChainSpec {|
    ChainSpec.chain := id;
    ChainSpec.genesis_header := gh;
    ChainSpec.genesis := g;
    ChainSpec.paris_block_and_final_difficulty := Some (0, 0);
    ChainSpec.hardforks := hf;
    ChainSpec.prune_delete_limit := 10000;
    ChainSpec.rest := default_spec_rest;
  |}.

Definition minimal_genesis (id : Z) : Genesis.t ConfigRest Alloc := {|
  Genesis.config := {| chain_id := id; config_rest := default_config_rest |};
  Genesis.extra_data := [];
  Genesis.gas_limit := 15000000;
  Genesis.base_fee_per_gas := Some 2000000000000;
  Genesis.difficulty := 0;
  Genesis.timestamp := 0;
  Genesis.nonce := 0;
  Genesis.mix_hash := 0;
  Genesis.alloc := default_alloc;
  Genesis.number := Some 0;
  Genesis.parent_hash := 0;
  Genesis.coinbase := 0;
  Genesis.blob_gas_used := None;
  Genesis.excess_blob_gas := None;
|}.

Definition make_kasplex_chain_spec_minimal (id : Z) (genesis_hash : B256)
    (hf : ChainHardforks) : KasplexChainSpec :=
  let genesis := minimal_genesis id in
  build_spec id (mkSealedHeader (make_genesis_header genesis hf) genesis_hash) genesis hf.

(** A JSON that does not parse panics, and so does a hash that is neither the
    zero placeholder nor the computed one. *)
Definition make_kasplex_chain_spec (genesis_json : string) (genesis_hash : B256)
    (hf : ChainHardforks) : outcome parse_error KasplexChainSpec :=
  match genesis_from_json genesis_json with
  | None => Panicked
  | Some genesis =>
      let header := make_genesis_header genesis hf in
      let computed_hash := hash_slow header in
      if genesis_hash =? 0
      then Ok (build_spec (chain_id (Genesis.config genesis))
                 (mkSealedHeader header computed_hash) genesis hf)
      else if negb (computed_hash =? genesis_hash) then Panicked
      else Ok (build_spec (chain_id (Genesis.config genesis))
                 (mkSealedHeader header genesis_hash) genesis hf)
  end.

Definition make_kasplex_mainnet_chain_spec : outcome parse_error KasplexChainSpec :=
  make_kasplex_chain_spec kasplex_mainnet_json KASPLEX_MAINNET_GENESIS_HASH
    KASPLEX_HARDFORKS.
Definition make_kasplex_internal_l2_chain_spec : KasplexChainSpec :=
  make_kasplex_chain_spec_minimal KASPLEX_INTERNAL_L2_CHAIN_ID
    KASPLEX_INTERNAL_L2_GENESIS_HASH KASPLEX_HARDFORKS.
Definition make_kasplex_testnet_chain_spec : KasplexChainSpec :=
  make_kasplex_chain_spec_minimal KASPLEX_TESTNET_CHAIN_ID
    KASPLEX_TESTNET_GENESIS_HASH KASPLEX_HARDFORKS.
Definition make_kasplex_devnet_chain_spec : KasplexChainSpec :=
  make_kasplex_chain_spec_minimal KASPLEX_DEVNET_CHAIN_ID
    KASPLEX_DEVNET_GENESIS_HASH KASPLEX_HARDFORKS.

(** The lazily made statics. *)
Definition KASPLEX_MAINNET : outcome parse_error KasplexChainSpec := make_kasplex_mainnet_chain_spec.
Definition KASPLEX_INTERNAL_L2 : KasplexChainSpec := make_kasplex_internal_l2_chain_spec.
Definition KASPLEX_TESTNET : KasplexChainSpec := make_kasplex_testnet_chain_spec.
Definition KASPLEX_DEVNET : KasplexChainSpec := make_kasplex_devnet_chain_spec.

(** ** The chain argument ([parser.rs]) *)

Definition SUPPORTED_CHAINS : list string :=
  ["kasplex-mainnet"; "kasplex-internal-l2"; "kasplex-testnet"; "kasplex-devnet"]%string.

Definition chain_value_parser (s : string) : outcome parse_error KasplexChainSpec :=
  if bool_decide (s ∈ ["kasplex-mainnet"; "kasplex_mainnet"]%string)
  then KASPLEX_MAINNET
  else if bool_decide (s ∈ ["kasplex-internal-l2"; "kasplex_internal_l2"]%string)
  then Ok KASPLEX_INTERNAL_L2
  else if bool_decide (s ∈ ["kasplex-testnet"; "kasplex_testnet"]%string)
  then Ok KASPLEX_TESTNET
  else if bool_decide (s ∈ ["kasplex-devnet"; "kasplex_devnet"]%string)
  then Ok KASPLEX_DEVNET
  else genesis ← parse_genesis s; Ok (from_genesis genesis).

(** [ChainSpecParser for KasplexChainSpecParser] *)
Definition KasplexChainSpecParser_parse (s : string) : outcome parse_error KasplexChainSpec :=
  chain_value_parser s.

(** ** Hardfork activation

    [ChainHardforks::fork] is the library's: the condition listed for a fork,
    [Never] for a fork not listed. *)
Variable library_fork : ChainHardforks → EthereumHardfork → ForkCondition.

Record fork_lookup_laws : Prop := {
  fork_listed : ∀ hf f c, NoDup hf.*1 → (f, c) ∈ hf → library_fork hf f = c;
  fork_not_listed : ∀ hf f, f ∉ hf.*1 → library_fork hf f = ForkNever;
}.

Definition fork (spec : KasplexChainSpec) (f : EthereumHardfork) : ForkCondition :=
  library_fork (ChainSpec.hardforks (inner spec)) f.
End chainspec.

Arguments KasplexChainSpec : clear implicits.

(** ** The node's traits ([spec.rs])

    [Hardforks], [EthereumHardforks] and [EthChainSpec]: what [KasplexChainSpec] asks
    of the specification it wraps.  The library's computations on it are a class. *)
Class ChainSpecLib (ConfigRest Alloc SpecRest Head ForkId ForkFilter Params DepositContract Record : Type) := {
  hardforks_iter : ChainHardforks → list (EthereumHardfork * ForkCondition);
  hardforks_fork : ChainHardforks → EthereumHardfork → ForkCondition;
  lib_fork_id : ChainSpec.t ConfigRest Alloc SpecRest → Head → ForkId;
  lib_latest_fork_id : ChainSpec.t ConfigRest Alloc SpecRest → ForkId;
  lib_fork_filter : ChainSpec.t ConfigRest Alloc SpecRest → Head → ForkFilter;
  lib_base_fee_params : ChainSpec.t ConfigRest Alloc SpecRest → Z → Params;
  lib_display_hardforks : ChainSpec.t ConfigRest Alloc SpecRest → string;
  lib_bootnodes : ChainSpec.t ConfigRest Alloc SpecRest → option (list Record);
}.

Module SpecTraits.
Section traits.
Context {ConfigRest Alloc SpecRest Head ForkId ForkFilter Params DepositContract Record : Type}.
Context {CL : ChainSpecLib ConfigRest Alloc SpecRest Head ForkId ForkFilter Params DepositContract Record}.
Implicit Type self : KasplexChainSpec ConfigRest Alloc SpecRest.

Definition forks_iter self : list (EthereumHardfork * ForkCondition) :=
  hardforks_iter (ChainSpec.hardforks (inner self)).
Definition fork_id self (head : Head) : ForkId := lib_fork_id (inner self) head.
Definition latest_fork_id self : ForkId := lib_latest_fork_id (inner self).
Definition fork_filter self (head : Head) : ForkFilter := lib_fork_filter (inner self) head.
(** [ChainSpec::fork] is the lookup in its hardforks. *)
Definition ethereum_fork_activation self (f : EthereumHardfork) : ForkCondition :=
  fork hardforks_fork self f.
Definition chain self : Z := ChainSpec.chain (inner self).
Definition base_fee_params_at_timestamp self (timestamp : Z) : Params :=
  lib_base_fee_params (inner self) timestamp.
Definition deposit_contract self : option DepositContract := None.
Definition prune_delete_limit self : Z := ChainSpec.prune_delete_limit (inner self).
Definition display_hardforks self : string := lib_display_hardforks (inner self).
Definition genesis_header self : Header.t :=
  sealed_header (ChainSpec.genesis_header (inner self)).
Definition genesis self : Genesis.t ConfigRest Alloc := ChainSpec.genesis (inner self).
Definition bootnodes self : option (list Record) := lib_bootnodes (inner self).
End traits.
End SpecTraits.

Definition active_at_genesis (c : ForkCondition) : bool :=
  match c with
  | ForkBlock n => n =? 0
  | ForkTTD n _ _ => n =? 0
  | ForkTimestamp t => t =? 0
  | ForkNever => false
  end.

(** A first-match lookup satisfies the library's description of [fork]. *)
Fixpoint first_match (hf : ChainHardforks) (f : EthereumHardfork) : ForkCondition :=
  match hf with
  | [] => ForkNever
  | (g, c) :: hf => if decide (f = g) then c else first_match hf f
  end.

Lemma first_match_laws : fork_lookup_laws first_match.
Proof.
  split.
  - intros hf f c. induction hf as [|[g d] hf IH]; intros Hnd Hin; [by apply not_elem_of_nil in Hin|].
    simpl in *. apply NoDup_cons in Hnd as [Hg Hnd].
    apply elem_of_cons in Hin as [[= -> ->]|Hin]; [by rewrite decide_True|].
    rewrite decide_False; [by apply IH|]. intros ->.
    apply Hg, list_elem_of_fmap. by exists (g, c).
  - intros hf f. induction hf as [|[g d] hf IH]; intros Hn; [done|].
    simpl in *. apply not_elem_of_cons in Hn as [Hfg Hn].
    rewrite decide_False by done. by apply IH.
Qed.

(** On a list without repeated forks the description determines the lookup. *)
Lemma fork_lookup_first_match library_fork hf f :
  fork_lookup_laws library_fork → NoDup hf.*1 → library_fork hf f = first_match hf f.
Proof.
  intros Hlib Hnd. destruct (decide (f ∈ hf.*1)) as [Hin|Hin].
  - apply list_elem_of_fmap in Hin as ([f' c] & -> & Hin). simpl.
    rewrite (fork_listed _ Hlib hf f' c), (fork_listed _ first_match_laws hf f' c); done.
  - rewrite (fork_not_listed _ Hlib), (fork_not_listed _ first_match_laws); done.
Qed.

Lemma KASPLEX_HARDFORKS_NoDup : NoDup KASPLEX_HARDFORKS.*1.
Proof. by_evaluation. Qed.

(** ** Properties *)

Section properties.
Context {ConfigRest Alloc SpecRest : Type} {GL : GenesisLib ConfigRest Alloc SpecRest}.
Context {parse_error : Type}.
Variable make_genesis_header : Genesis.t ConfigRest Alloc → ChainHardforks → Header.t.
Variable hash_slow : Header.t → B256.
Variable genesis_from_json : string → option (Genesis.t ConfigRest Alloc).
Variable kasplex_mainnet_json : string.
Variable parse_genesis : string → outcome parse_error (Genesis.t ConfigRest Alloc).
Variable chain_spec_from : Genesis.t ConfigRest Alloc → ChainSpec.t ConfigRest Alloc SpecRest.

Local Abbreviation parser := (chain_value_parser make_genesis_header hash_slow
  genesis_from_json kasplex_mainnet_json parse_error parse_genesis chain_spec_from).
Local Abbreviation make_spec := (make_kasplex_chain_spec make_genesis_header hash_slow
  genesis_from_json parse_error).

(** The chain ids the supported names stand for, in the order of the names. *)
Definition supported_ids : list Z := [202555; 168001; 168002; 167012].

(** Every name the command line offers parses, to a specification with the
    chain id the name stands for, with all the Kasplex hardforks, and which the
    node recognises as a Kasplex chain; the mainnet entry needs the bundled
    genesis to parse with the mainnet id. *)
Theorem supported_chains_parse g
    (Hjson : genesis_from_json kasplex_mainnet_json = Some g)
    (Hid : chain_id (Genesis.config g) = KASPLEX_MAINNET_CHAIN_ID) :
  Forall2 (λ name id, ∃ spec,
      parser name = Ok spec ∧ ChainSpec.chain (inner spec) = id ∧
      ChainSpec.hardforks (inner spec) = KASPLEX_HARDFORKS ∧ is_kasplex spec = true)
    SUPPORTED_CHAINS supported_ids.
Proof.
  unfold SUPPORTED_CHAINS, supported_ids.
  repeat constructor; unfold chain_value_parser; simpl.
  - unfold KASPLEX_MAINNET, make_kasplex_mainnet_chain_spec, make_kasplex_chain_spec. rewrite Hjson; simpl.
    eexists; split_and!; [done|exact Hid|done|].
    unfold is_kasplex, KasplexChainSpec_check; simpl. by rewrite Hid.
  - by eexists.
  - by eexists.
  - by eexists.
Qed.

(** Building a specification from a genesis file never seals the genesis
    header with a hash other than its own: it returns exactly when the file
    parses and the expected hash is the zero placeholder or the computed hash,
    and panics in every other case. *)
Theorem genesis_sealed_with_own_hash json expected hf :
  match make_spec json expected hf with
  | Ok spec =>
      genesis_hash spec = hash_slow (sealed_header (ChainSpec.genesis_header (inner spec))) ∧
      (expected = 0 ∨ expected = genesis_hash spec)
  | Err _ => False
  | Panicked =>
      match genesis_from_json json with
      | None => True
      | Some g => expected ≠ 0 ∧ expected ≠ hash_slow (make_genesis_header g hf)
      end
  end.
Proof.
  unfold make_kasplex_chain_spec. destruct (genesis_from_json json) as [g|]; [|done].
  destruct (Z.eqb_spec expected 0) as [->|H0]; simpl; [by auto|].
  destruct (Z.eqb_spec (hash_slow (make_genesis_header g hf)) expected) as [<-|Hne]; simpl; auto.
Qed.

(** The chains without a genesis file are sealed with the zero placeholder,
    all three with the same genesis hash, whatever their genesis headers hash
    to. *)
Theorem minimal_chains_share_zero_genesis_hash :
  Forall (λ name, ∃ spec, parser name = Ok spec ∧ genesis_hash spec = 0)
    ["kasplex-internal-l2"; "kasplex-testnet"; "kasplex-devnet"]%string.
Proof. repeat constructor; by eexists. Qed.

(** On a specification with the Kasplex hardforks every fork up to Shanghai
    the source lists is active at genesis; the glacier forks and every other fork
    are never active. *)
Theorem kasplex_fork_activation library_fork
    (spec : KasplexChainSpec ConfigRest Alloc SpecRest) f
    (Hlib : fork_lookup_laws library_fork)
    (Hspec : ChainSpec.hardforks (inner spec) = KASPLEX_HARDFORKS) :
  match f with
  | MuirGlacier | ArrowGlacier | GrayGlacier | OtherFork _ =>
      fork library_fork spec f = ForkNever
  | _ => active_at_genesis (fork library_fork spec f) = true
  end.
Proof.
  unfold fork. rewrite Hspec, fork_lookup_first_match by auto using KASPLEX_HARDFORKS_NoDup.
  by destruct f.
Qed.
End properties.

(** ** Witnesses *)

#[local] Instance unit_genesis : GenesisLib () () () :=
  {| default_config_rest := (); default_alloc := (); default_spec_rest := () |}.

Lemma supported_chains_parse_witness :
  Forall2 (λ name id, ∃ spec,
      chain_value_parser (λ _ _, Header.zero) (λ _, 5)
        (λ _, Some (minimal_genesis 202555)) "{}" () (λ _, Err ())
        (λ g, inner (build_spec 1 (mkSealedHeader Header.zero 0) g [])) name = Ok spec ∧
      ChainSpec.chain (inner spec) = id ∧
      ChainSpec.hardforks (inner spec) = KASPLEX_HARDFORKS ∧ is_kasplex spec = true)
    SUPPORTED_CHAINS supported_ids.
Proof.
  apply (supported_chains_parse (λ _ _, Header.zero) (λ _, 5)
    (λ _, Some (minimal_genesis 202555)) "{}" (λ _, Err ())
    (λ g, inner (build_spec 1 (mkSealedHeader Header.zero 0) g [])) (minimal_genesis 202555));
    reflexivity.
Defined.

Lemma kasplex_fork_activation_witness :
  fork first_match (KASPLEX_DEVNET (λ _ _, Header.zero)) MuirGlacier = ForkNever.
Proof.
  apply (kasplex_fork_activation first_match (KASPLEX_DEVNET (λ _ _, Header.zero)) MuirGlacier
    first_match_laws eq_refl).
Defined.
