(* ===== verification/TxPool.v ===== *)
(** * Transaction pool maintenance ([crates/txpool/src/lib.rs])

    After a forkchoice update the pool drops the transactions whose submission
    number is stale for the new head; after a new payload it drops those the block
    includes.  The pool itself is reth's: it enters as the class [TransactionPool]
    with the behaviour its documentation states as [TransactionPoolLaws]. *)

From stdpp Require Import prelude gmap list.
From Stdlib Require Import ZArith Lia.
From S2P Require Import Prelude TxMapping Chainspec.

(** ** reth's pool *)

Class TransactionPool (P T PE : Type) := {
  pool_tx_hash : T → B256;
  (** [all_transactions().pending] and [.queued] *)
  pending : P → list T;
  queued : P → list T;
  (** the removed transactions, and the pool left *)
  remove_transactions : list B256 → P → list T * P;
  add_transaction : T → P → outcome PE B256 * P;
}.

Definition pending_hashes `{TransactionPool P T PE} (p : P) : list B256 :=
  pool_tx_hash <$> pending p.
Definition queued_hashes `{TransactionPool P T PE} (p : P) : list B256 :=
  pool_tx_hash <$> queued p.
Definition pool_hashes `{TransactionPool P T PE} (p : P) : list B256 :=
  pending_hashes p ++ queued_hashes p.

(** The pool is keyed by hash; removal takes out exactly the given hashes (their
    descendants may move between the two sets); an accepted transaction is in the
    pool under its own hash. *)
Class TransactionPoolLaws (P T PE : Type) `{TransactionPool P T PE} : Prop := {
  pool_hashes_NoDup (p : P) : NoDup (pool_hashes p);
  remove_transactions_left hs (p : P) h :
    h ∈ pool_hashes (remove_transactions hs p).2 ↔ h ∈ pool_hashes p ∧ h ∉ hs;
  remove_transactions_removed hs (p : P) h :
    h ∈ pool_tx_hash <$> (remove_transactions hs p).1 ↔ h ∈ pool_hashes p ∧ h ∈ hs;
  add_transaction_Ok t (p p' : P) h :
    add_transaction t p = (Ok h, p') → h = pool_tx_hash t ∧ h ∈ pool_hashes p';
}.

(** The pool and the global transaction mapping. *)
Record PoolWorld {P : Type} := mkPoolWorld {
  pool : P;
  tx_mapping : TxMappingState;
}.
Arguments PoolWorld : clear implicits.
Arguments mkPoolWorld {P} _ _.

Definition on_mapping {P} (f : TxMappingState → TxMappingState) (w : PoolWorld P) : PoolWorld P :=
  mkPoolWorld (pool w) (f (tx_mapping w)).
Definition on_pool {P} (f : P → P) (w : PoolWorld P) : PoolWorld P :=
  mkPoolWorld (f (pool w)) (tx_mapping w).

Section txpool.
Context {P T PE : Type} {TP : TransactionPool P T PE}.
Context {C : Type} {CC : KasplexChainCheck C}.
(** [Box<dyn std::error::Error>] *)
Context {BoxError : Type}.

(** One turn of either loop of [handle_kasplex_pool_reorg]: the submission
    number is read under the lock, an unknown one counting as 0. *)
Definition collect_stale (new_head_number : Z) (txs_to_remove : list B256) (tx_hash : B256)
    : comp (PoolWorld P) BoxError (list B256) :=
  tx_number ← gets (λ w, default 0 (get_submission_block tx_hash (tx_mapping w)));
  mret (if 0 <? tx_number then
          if tx_number ⊞[64] UNEXECUTED_TX_RETENTION_BLOCKS <? new_head_number
          then txs_to_remove ++ [tx_hash]
          else if new_head_number <? tx_number
          then txs_to_remove ++ [tx_hash]
          else txs_to_remove
        else txs_to_remove).

Definition handle_kasplex_pool_reorg (chain_spec : C) (new_head_number : Z)
    : comp (PoolWorld P) BoxError () :=
  if negb (is_kasplex chain_spec) then mret ()
  else
    _ ← modify (on_mapping mark_start_pool_reorg);
    all_txs ← gets pool;
    txs_to_remove ← for_in (pending_hashes all_txs) [] (collect_stale new_head_number);
    txs_to_remove ← for_in (queued_hashes all_txs) txs_to_remove
                      (collect_stale new_head_number);
    _ ← (if (0 <? length txs_to_remove)%nat
         then modify (on_pool (λ p, (remove_transactions txs_to_remove p).2))
         else mret ());
    modify (on_mapping mark_pool_reorged).

(** The two loops of [remove_included_transactions] push the pool's hashes that
    the block contains. *)
Definition collect_included (block_tx_hashes : list B256) (txs_to_remove : list B256)
    (tx_hash : B256) : list B256 :=
  if decide (tx_hash ∈ block_tx_hashes) then txs_to_remove ++ [tx_hash] else txs_to_remove.

Definition remove_included_transactions (block_tx_hashes : list B256)
    : comp (PoolWorld P) BoxError nat :=
  all_txs ← gets pool;
  let txs_to_remove :=
    foldl (collect_included block_tx_hashes)
      (foldl (collect_included block_tx_hashes) [] (pending_hashes all_txs))
      (queued_hashes all_txs) in
  let removed_count := length txs_to_remove in
  _ ← (if (0 <? removed_count)%nat
       then modify (on_pool (λ p, (remove_transactions txs_to_remove p).2))
       else mret ());
  mret removed_count.

Definition is_transaction_expired_for_pool (tx_hash : B256) (st : TxMappingState)
    (current_block_number : Z) : bool :=
  match get_submission_block tx_hash st with
  | Some tx_number =>
      (tx_number ⊞[64] UNEXECUTED_TX_RETENTION_BLOCKS <? current_block_number)
      || (current_block_number <? tx_number)
  | None => false
  end.

(** ** Lemmas *)

(** The sweep's test on one hash. *)
Definition stale (st : TxMappingState) (new_head_number : Z) (tx_hash : B256) : bool :=
  (0 <? default 0 (get_submission_block tx_hash st))
  && is_transaction_expired_for_pool tx_hash st new_head_number.

Lemma collect_stale_reads head acc h (w : PoolWorld P) :
  collect_stale head acc h w
  = (Ok (if decide (stale (tx_mapping w) head h) then acc ++ [h] else acc), w).
Proof.
  unfold collect_stale, stale, is_transaction_expired_for_pool. run.
  destruct (get_submission_block h _) as [n|]; simpl; [|done].
  by destruct (0 <? n), (_ <? head), (head <? n).
Qed.

Lemma collect_stale_loop head l acc (w : PoolWorld P) :
  for_in l acc (collect_stale head) w
  = (Ok (acc ++ filter (λ h, stale (tx_mapping w) head h) l), w).
Proof.
  rewrite (for_in_reads _ _ _ _ _ (λ acc x, collect_stale_reads head acc x w)).
  by rewrite foldl_push_filter.
Qed.

Lemma collect_included_loops hs (p : P) :
  foldl (collect_included hs) (foldl (collect_included hs) [] (pending_hashes p))
    (queued_hashes p)
  = filter (λ h, h ∈ hs) (pool_hashes p).
Proof. unfold collect_included, pool_hashes. by rewrite !foldl_push_filter, filter_app. Qed.

(** Removing a non-empty selection, or nothing when the selection is empty, leaves
    the hashes that were not selected. *)
Definition remove_if_any (hs : list B256) (w : PoolWorld P) : PoolWorld P :=
  if (0 <? length hs)%nat then on_pool (λ p, (remove_transactions hs p).2) w else w.

Lemma remove_if_any_left {L : TransactionPoolLaws P T PE} hs (w : PoolWorld P) h :
  h ∈ pool_hashes (pool (remove_if_any hs w)) ↔ h ∈ pool_hashes (pool w) ∧ h ∉ hs.
Proof.
  unfold remove_if_any. destruct (Nat.ltb_spec 0 (length hs)).
  - simpl. apply remove_transactions_left.
  - destruct hs; simpl in *; [set_solver|lia].
Qed.

Lemma remove_if_any_mapping hs (w : PoolWorld P) :
  tx_mapping (remove_if_any hs w) = tx_mapping w.
Proof. unfold remove_if_any. by destruct (_ <? _)%nat. Qed.

Lemma handle_kasplex_pool_reorg_run chain_spec head (w : PoolWorld P) :
  handle_kasplex_pool_reorg chain_spec head w
  = (Ok (),
     if is_kasplex chain_spec then
       on_mapping mark_pool_reorged
         (remove_if_any (filter (λ h, stale (tx_mapping w) head h) (pool_hashes (pool w)))
            (on_mapping mark_start_pool_reorg w))
     else w).
Proof.
  unfold handle_kasplex_pool_reorg. destruct (is_kasplex chain_spec); [|done]. simpl.
  run. rewrite !(bind_Ok _ _ _ _ _ (collect_stale_loop head _ _ _)).
  rewrite app_nil_l, <-filter_app.
  change (filter _ (_ ++ _))
    with (filter (λ h, stale (tx_mapping w) head h) (pool_hashes (pool w))).
  unfold remove_if_any. by case_match.
Qed.

Lemma remove_included_transactions_run hs (w : PoolWorld P) :
  remove_included_transactions hs w
  = (Ok (length (filter (λ h, h ∈ hs) (pool_hashes (pool w)))),
     remove_if_any (filter (λ h, h ∈ hs) (pool_hashes (pool w))) w).
Proof.
  unfold remove_included_transactions.
  run. rewrite collect_included_loops. unfold remove_if_any. by case_match.
Qed.
End txpool.

(** A pooled hash that is not selected as stale is one in the retention window. *)
Lemma stale_window st head h :
  (∀ n, get_submission_block h st = Some n → retention_fits n) →
  ∀ A : Prop,
  A ∧ ¬ (stale st head h ∧ A) ↔
  A ∧ ∀ n, get_submission_block h st = Some n → 0 < n →
    n ≤ head ≤ n + UNEXECUTED_TX_RETENTION_BLOCKS.
Proof.
  intros Hfit A. unfold stale, is_transaction_expired_for_pool.
  destruct (get_submission_block h st) as [n|] eqn:En; simpl; [|naive_solver].
  pose proof (expired_test_window n head (Hfit _ eq_refl)) as Hwin.
  destruct (Z.ltb_spec 0 n); simpl; [|naive_solver lia].
  destruct (_ || _); simpl; naive_solver.
Qed.

(** What the two calls leave. *)
Section effects.
Context {P T PE C BoxError : Type} {TP : TransactionPool P T PE} {L : TransactionPoolLaws P T PE}.
Context {CC : KasplexChainCheck C}.
Implicit Types (w : PoolWorld P).

Lemma sweep_effect_at (chain_spec : C) head w h :
  is_kasplex chain_spec = true →
  (∀ n, get_submission_block h (tx_mapping w) = Some n → retention_fits n) →
  h ∈ pool_hashes (pool (handle_kasplex_pool_reorg (BoxError := BoxError) chain_spec head w).2) ↔
    h ∈ pool_hashes (pool w) ∧
    ∀ n, get_submission_block h (tx_mapping w) = Some n → 0 < n →
      n ≤ head ≤ n + UNEXECUTED_TX_RETENTION_BLOCKS.
Proof.
  intros Hk Hfit. rewrite handle_kasplex_pool_reorg_run, Hk. simpl.
  rewrite remove_if_any_left, list_elem_of_filter. simpl. by rewrite (stale_window _ _ _ Hfit).
Qed.

Lemma sweep_numbers (chain_spec : C) head w h :
  get_submission_block h
    (tx_mapping (handle_kasplex_pool_reorg (BoxError := BoxError) chain_spec head w).2)
  = get_submission_block h (tx_mapping w).
Proof.
  rewrite handle_kasplex_pool_reorg_run. destruct (is_kasplex chain_spec); [|done]. simpl.
  by rewrite remove_if_any_mapping.
Qed.

Lemma sweep_effect (chain_spec : C) head w :
  is_kasplex chain_spec = true →
  map_Forall (λ _ n, retention_fits n) (mapping (tx_mapping w)) →
  let w' := (handle_kasplex_pool_reorg (BoxError := BoxError) chain_spec head w).2 in
  tx_mapping w' = mark_pool_reorged (tx_mapping w) ∧
  ∀ h, h ∈ pool_hashes (pool w') ↔
    h ∈ pool_hashes (pool w) ∧
    ∀ n, get_submission_block h (tx_mapping w) = Some n → 0 < n →
      n ≤ head ≤ n + UNEXECUTED_TX_RETENTION_BLOCKS.
Proof.
  intros Hk Hfit. split.
  - rewrite handle_kasplex_pool_reorg_run, Hk. simpl. by rewrite remove_if_any_mapping.
  - intros h. apply sweep_effect_at; [done|]. intros n. apply Hfit.
Qed.

(** A transaction without a number is kept, whatever the chain and the head. *)
Lemma sweep_keeps_numberless (chain_spec : C) head w h :
  let w' := (handle_kasplex_pool_reorg (BoxError := BoxError) chain_spec head w).2 in
  get_submission_block h (tx_mapping w) = None → h ∈ pool_hashes (pool w) →
  h ∈ pool_hashes (pool w') ∧ get_submission_block h (tx_mapping w') = None.
Proof.
  rewrite handle_kasplex_pool_reorg_run. simpl. intros Hnone Hin.
  destruct (is_kasplex chain_spec); [|done]. simpl. rewrite remove_if_any_mapping. split; [|done].
  apply remove_if_any_left. split; [done|]. rewrite list_elem_of_filter. unfold stale.
  rewrite Hnone. by intros [[] _].
Qed.

Lemma drop_included_effect hs w :
  let w' := (remove_included_transactions (BoxError := BoxError) hs w).2 in
  tx_mapping w' = tx_mapping w ∧
  ∀ h, h ∈ pool_hashes (pool w') ↔ h ∈ pool_hashes (pool w) ∧ h ∉ hs.
Proof.
  rewrite remove_included_transactions_run. split; [apply remove_if_any_mapping|].
  intros h. simpl. rewrite remove_if_any_left, list_elem_of_filter. tauto.
Qed.
End effects.

(** ** A pool that satisfies the laws

    Two duplicate-free lists of hashes; a transaction is its own hash. *)
Module ListPool.
Record t := mk {
  lp_pending : list B256;
  lp_queued : list B256;
  lp_nodup : bool_decide (NoDup (lp_pending ++ lp_queued));
}.

Lemma nodup (p : t) : NoDup (lp_pending p ++ lp_queued p).
Proof. apply (bool_decide_unpack _), lp_nodup. Qed.

Lemma remove_nodup (hs : list B256) (p : t) :
  bool_decide (NoDup (filter (λ h, h ∉ hs) (lp_pending p) ++
                      filter (λ h, h ∉ hs) (lp_queued p))).
Proof. apply (bool_decide_pack _). rewrite <-filter_app. apply NoDup_filter, nodup. Qed.

Definition remove (hs : list B256) (p : t) : list B256 * t :=
  (filter (λ h, h ∈ hs) (lp_pending p ++ lp_queued p),
   {| lp_nodup := remove_nodup hs p |}).

Lemma add_nodup (h : B256) (p : t) :
  h ∉ lp_pending p ++ lp_queued p → bool_decide (NoDup ((h :: lp_pending p) ++ lp_queued p)).
Proof. intros Hh. apply (bool_decide_pack _). simpl. apply NoDup_cons. by split; [|apply nodup]. Qed.

Definition add (h : B256) (p : t) : outcome () B256 * t :=
  match decide (h ∉ lp_pending p ++ lp_queued p) with
  | left Hh => (Ok h, {| lp_nodup := add_nodup h p Hh |})
  | right _ => (Err (), p)
  end.

#[global] Instance list_pool : TransactionPool t B256 () := {|
  pool_tx_hash := id;
  pending := lp_pending;
  queued := lp_queued;
  remove_transactions := remove;
  add_transaction := add;
|}.

Lemma pool_hashes_list_pool (p : t) : pool_hashes p = lp_pending p ++ lp_queued p.
Proof. unfold pool_hashes, pending_hashes, queued_hashes; simpl. by rewrite !list_fmap_id. Qed.

#[global] Instance list_pool_laws : TransactionPoolLaws t B256 ().
Proof.
  split.
  - intros p. rewrite pool_hashes_list_pool. apply nodup.
  - intros hs p h. rewrite !pool_hashes_list_pool; simpl.
    rewrite <-filter_app, list_elem_of_filter. tauto.
  - intros hs p h. rewrite pool_hashes_list_pool; simpl.
    rewrite list_fmap_id, list_elem_of_filter. tauto.
  - intros h p p' h'. rewrite pool_hashes_list_pool. simpl. unfold add.
    case_decide; intros [= <- <-]. simpl. set_solver.
Qed.

Definition of_lists (ps qs : list B256) (H : bool_decide (NoDup (ps ++ qs))) : t := mk ps qs H.
End ListPool.

(** The same pool, in which hashes equal up to hundreds are of one sender and nonce: a
    transaction replaces the one it finds in its place. *)
Module ReplacingPool.
Definition replaced (h : B256) (p : ListPool.t) : list B256 :=
  filter (λ x, x `mod` 100 = h `mod` 100 ∧ x ≠ h) (ListPool.lp_pending p ++ ListPool.lp_queued p).
Definition add (h : B256) (p : ListPool.t) : outcome () B256 * ListPool.t :=
  ListPool.add h (ListPool.remove (replaced h p) p).2.

Definition pool : TransactionPool ListPool.t B256 () := {|
  pool_tx_hash := id;
  pending := ListPool.lp_pending;
  queued := ListPool.lp_queued;
  remove_transactions := ListPool.remove;
  add_transaction := add;
|}.

Lemma replacing_pool_laws : TransactionPoolLaws ListPool.t B256 () (H := pool).
Proof.
  destruct ListPool.list_pool_laws as [? ? ? Hadd]. split; [done..|].
  intros h p p' h' Hrun. by apply (Hadd h (ListPool.remove (replaced h p) p).2).
Qed.
End ReplacingPool.

(** ** Properties *)

Section properties.
Context {P T PE : Type} {TP : TransactionPool P T PE} {L : TransactionPoolLaws P T PE}.
Context {C : Type} {CC : KasplexChainCheck C}.
Context {BoxError : Type}.

(** C14 On a Kasplex chain the sweep after a forkchoice update always succeeds; it
    keeps exactly the transactions whose recorded submission number, when it is
    positive, lies at most [UNEXECUTED_TX_RETENTION_BLOCKS] blocks behind the new
    head and not ahead of it; it leaves every submission number and deleted mark
    and ends with the reorg flag down.  On any other chain it does nothing. *)
Theorem pool_reorg_keeps_retention_window (chain_spec : C) head (w : PoolWorld P)
    (Hfit : map_Forall (λ _ n, retention_fits n) (mapping (tx_mapping w))) :
  let '(r, w') := handle_kasplex_pool_reorg (BoxError := BoxError) chain_spec head w in
  r = Ok () ∧
  if is_kasplex chain_spec then
    tx_mapping w' = mark_pool_reorged (tx_mapping w) ∧
    ∀ h, h ∈ pool_hashes (pool w') ↔
      h ∈ pool_hashes (pool w) ∧
      ∀ n, get_submission_block h (tx_mapping w) = Some n → 0 < n →
        n ≤ head ≤ n + UNEXECUTED_TX_RETENTION_BLOCKS
  else w' = w.
Proof.
  pose proof (sweep_effect (BoxError := BoxError) chain_spec head w) as Heff.
  rewrite handle_kasplex_pool_reorg_run in *. split; [done|].
  destruct (is_kasplex chain_spec); [|done]. by apply Heff.
Qed.

(** Removing a block's transactions takes out of the pool exactly those it
    includes, reports how many there were, and touches no submission number. *)
Theorem remove_included_transactions_spec block_tx_hashes (w : PoolWorld P) :
  let '(r, w') := remove_included_transactions (BoxError := BoxError) block_tx_hashes w in
  tx_mapping w' = tx_mapping w ∧
  (∀ h, h ∈ pool_hashes (pool w') ↔ h ∈ pool_hashes (pool w) ∧ h ∉ block_tx_hashes) ∧
  ∃ removed, r = Ok (length removed) ∧ NoDup removed ∧
    ∀ h, h ∈ removed ↔ h ∈ pool_hashes (pool w) ∧ h ∉ pool_hashes (pool w').
Proof.
  destruct (drop_included_effect (BoxError := BoxError) block_tx_hashes w) as [Hm Hleft].
  rewrite remove_included_transactions_run in *. split; [done|]. split; [done|].
  exists (filter (λ h, h ∈ block_tx_hashes) (pool_hashes (pool w))).
  split_and!; [done|apply NoDup_filter, pool_hashes_NoDup|].
  intros h. rewrite Hleft, list_elem_of_filter.
  destruct (decide (h ∈ block_tx_hashes)); tauto.
Qed.
End properties.

(** The pool's own expiry test is the mapping's, on every hash and block number,
    wrap-around included; the sweep's test is that one except for a recorded number
    0, which the test expires past the retention bound and the sweep never does. *)
Theorem pool_expiry_tests_agree h st b :
  is_transaction_expired_for_pool h st b = is_transaction_expired h b st ∧
  (mapping_wf st → get_submission_block h st ≠ Some 0 →
    stale st b h = is_transaction_expired h b st) ∧
  (get_submission_block h st = Some 0 →
    stale st b h = false ∧
    (UNEXECUTED_TX_RETENTION_BLOCKS < b → is_transaction_expired h b st = true)).
Proof.
  assert (Heq : is_transaction_expired_for_pool h st b = is_transaction_expired h b st) by done.
  split; [done|]. unfold stale. rewrite Heq. split.
  - intros Hwf Hn. destruct (get_submission_block h st) as [n|] eqn:En; simpl.
    + pose proof (mapping_wf_lookup _ _ _ Hwf En) as Hw. unfold in_width in Hw.
      assert (n ≠ 0) by congruence. by destruct (Z.ltb_spec 0 n); [|lia].
    + unfold get_submission_block in En. unfold is_transaction_expired. by rewrite En.
  - intros Hn. rewrite Hn. split; [done|]. intros Hb.
    rewrite (is_transaction_expired_lookup _ _ _ _ Hn).
    replace (0 ⊞[64] UNEXECUTED_TX_RETENTION_BLOCKS) with UNEXECUTED_TX_RETENTION_BLOCKS by done.
    by apply orb_true_iff; left; apply Z.ltb_lt.
Qed.

(** ** Witnesses *)

Definition sample_pool : ListPool.t := ListPool.of_lists [1; 2; 3] [4] I.
Definition sample_mapping : TxMappingState :=
  TxMapping.insert 1 10 (TxMapping.insert 2 500 (TxMapping.insert 3 450 default_state)).
#[local] Instance id_check : KasplexChainCheck Z := is_kasplex_id.

Example sample_sweep :
  (let '(_, w) := handle_kasplex_pool_reorg (BoxError := ()) 202555 500
                    (mkPoolWorld sample_pool sample_mapping) in
   pool_hashes (pool w)) = [2; 3; 4].
Proof. reflexivity. Qed.

Lemma pool_reorg_keeps_retention_window_witness :
  map_Forall (λ _ n, retention_fits n) (mapping sample_mapping) ∧
  let '(_, w') := handle_kasplex_pool_reorg (BoxError := ()) 202555 500
                    (mkPoolWorld sample_pool sample_mapping) in
  tx_mapping w' = mark_pool_reorged sample_mapping.
Proof.
  assert (H : map_Forall (λ _ n, retention_fits n) (mapping sample_mapping)).
  { repeat apply map_Forall_insert_2; try apply map_Forall_empty; split; vm_compute; congruence. }
  split; [exact H|].
  exact (proj1 (proj2 (pool_reorg_keeps_retention_window (BoxError := ()) 202555 500
    (mkPoolWorld sample_pool sample_mapping) H))).
Defined.

Lemma remove_included_transactions_spec_witness :
  let '(_, w') := remove_included_transactions (BoxError := ()) [2; 9]
                    (mkPoolWorld sample_pool sample_mapping) in
  tx_mapping w' = sample_mapping.
Proof.
  exact (proj1 (remove_included_transactions_spec (BoxError := ()) [2; 9]
    (mkPoolWorld sample_pool sample_mapping))).
Defined.

Lemma pool_expiry_tests_agree_witness :
  stale (TxMapping.insert 7 0 default_state) 101 7 = false ∧
  is_transaction_expired 7 101 (TxMapping.insert 7 0 default_state) = true.
Proof.
  destruct (proj2 (proj2 (pool_expiry_tests_agree 7 (TxMapping.insert 7 0 default_state) 101))
    eq_refl) as [H1 H2].
  split; [exact H1 | apply H2; reflexivity].
Defined.
