(* ===== verification/Treasury.v ===== *)
(** * The treasury address and the fixed base fee ([crates/evm/src/lib.rs])

    The treasury of a chain is the address whose 40 hexadecimal digits are the
    decimal digits of the chain id, zeros, and [10001].  Reading those digits as
    an address is the library's [Address::from_str], taken as a parameter with
    the behaviour it documents on 40 hexadecimal digits. *)

From stdpp Require Import prelude list strings.
From Stdlib Require Import ZArith Lia Ascii.
From S2P Require Import Prelude Types Chainspec.

Definition KASPLEX_BASE_FEE : Z := 2000000000000.

(** ** Decimal display and hexadecimal digits *)

Definition digit_char (d : Z) : ascii := Ascii.ascii_of_N (48 + Z.to_N d).

Definition string_of_digits (ds : list Z) : string :=
  foldr (λ d s, String (digit_char d) s) EmptyString ds.

(** [format!("{}", n)] on a [u64]: the decimal digits, without leading zeros; 20
    turns are enough for 64 bits. *)
Fixpoint dec_digits (fuel : nat) (n : Z) : list Z :=
  match fuel with
  | O => [n]
  | S fuel => if n <? 10 then [n] else dec_digits fuel (n / 10) ++ [n `mod` 10]
  end.

Definition display_u64 (n : Z) : string := string_of_digits (dec_digits 20 n).

(** The value of a hexadecimal digit, in either case. *)
Definition hex_digit (c : ascii) : option Z :=
  let n := Z.of_N (Ascii.N_of_ascii c) in
  if decide (48 ≤ n ≤ 57) then Some (n - 48)
  else if decide (97 ≤ n ≤ 102) then Some (n - 87)
  else if decide (65 ≤ n ≤ 70) then Some (n - 55)
  else None.

(** The value of a string of hexadecimal digits, most significant first. *)
Fixpoint hex_value_acc (acc : Z) (s : string) : option Z :=
  match s with
  | EmptyString => Some acc
  | String c s => d ← hex_digit c; hex_value_acc (16 * acc + d) s
  end.
Definition hex_value (s : string) : option Z := hex_value_acc 0 s.

(** ** The treasury address *)

Section treasury.
Variable address_from_str : string → option Address.

(** [Address::from_str] reads [0x] and 40 hexadecimal digits as the address they
    spell. *)
Definition from_str_law : Prop :=
  ∀ s v, String.length s = 40%nat → hex_value s = Some v →
    address_from_str ("0x" +:+ s) = Some v.

(** [unwrap_or_else(|_| Address::ZERO)] *)
Definition get_treasury_address (chain_id : Z) : Address :=
  let chain_id_str := display_u64 chain_id in
  let suffix := "10001" in
  let address_length := 40%nat in
  let padding_needed :=
    (address_length - (String.length chain_id_str + String.length suffix))%nat in
  let padding := string_of_digits (replicate padding_needed 0) in
  let address_hex := chain_id_str +:+ padding +:+ suffix in
  default 0 (address_from_str ("0x" +:+ address_hex)).

Definition get_treasury_address_from_spec {R A S} (chain_spec : KasplexChainSpec R A S)
    : Address :=
  get_treasury_address (ChainSpec.chain (inner chain_spec)).
End treasury.

(** A reader that satisfies the law, and rejects everything else. *)
Definition read_address (s : string) : option Address :=
  match s with
  | String "0" (String "x" s) =>
      if decide (String.length s = 40%nat) then hex_value s else None
  | _ => None
  end.

Lemma read_address_law : from_str_law read_address.
Proof. intros s v Hlen Hv. simpl. by rewrite decide_True. Qed.

(** ** Digit lists *)

(** The value of a digit list in base [b], most significant first. *)
Definition digits_value (b : Z) (ds : list Z) : Z := foldl (λ acc d, b * acc + d) 0 ds.

Lemma foldl_digits_acc b ds acc :
  foldl (λ acc d, b * acc + d) acc ds = acc * b ^ Z.of_nat (length ds) + digits_value b ds.
Proof.
  unfold digits_value. revert acc. induction ds as [|d ds IH]; intros acc.
  - simpl. lia.
  - cbn [foldl length]. rewrite IH, (IH (b * 0 + d)), Nat2Z.inj_succ, Z.pow_succ_r by lia. lia.
Qed.

Lemma digits_value_app b ds es :
  digits_value b (ds ++ es) = digits_value b ds * b ^ Z.of_nat (length es) + digits_value b es.
Proof. unfold digits_value at 1. by rewrite foldl_app, foldl_digits_acc. Qed.

Lemma digits_value_replicate_0 b n : digits_value b (replicate n 0) = 0.
Proof.
  induction n as [|n IH]; [done|].
  change (replicate (S n) 0) with ([0] ++ replicate n 0).
  rewrite digits_value_app, IH. unfold digits_value; simpl. lia.
Qed.

Definition is_digit (b d : Z) : Prop := 0 ≤ d < b.
#[export] Instance is_digit_dec b d : Decision (is_digit b d).
Proof. unfold is_digit. apply _. Defined.

Lemma digits_value_range b ds :
  0 < b → Forall (is_digit b) ds → 0 ≤ digits_value b ds < b ^ Z.of_nat (length ds).
Proof.
  intros Hb H. induction ds as [|d ds IH] using rev_ind; [done|].
  apply Forall_app in H as [Hds Hd]. specialize (IH Hds).
  apply Forall_cons in Hd as [[Hd1 Hd2] _].
  rewrite digits_value_app, length_app. cbn [length].
  rewrite Nat2Z.inj_add, Z.pow_add_r, Z.pow_1_r by lia.
  unfold digits_value at 2 4; cbn [foldl]. nia.
Qed.

(** Digit lists of one length with one value are the same list. *)
Lemma digits_value_inj b ds es :
  0 < b → Forall (is_digit b) ds → Forall (is_digit b) es → length ds = length es →
  digits_value b ds = digits_value b es → ds = es.
Proof.
  intros Hb. revert es. induction ds as [|d ds IH] using rev_ind; intros es Hds Hes Hlen Hv.
  { by destruct es. }
  destruct es as [|e es _] using rev_ind; [by rewrite length_app in Hlen; simpl in Hlen; lia|].
  apply Forall_app in Hds as [Hds [Hd _]%Forall_cons].
  apply Forall_app in Hes as [Hes [He _]%Forall_cons].
  rewrite !length_app in Hlen; simpl in Hlen.
  rewrite !digits_value_app in Hv; simpl in Hv. unfold digits_value in Hv at 2 4; simpl in Hv.
  destruct Hd, He.
  assert (digits_value b ds = digits_value b es ∧ d = e) as [Hv' ->].
  { apply (Z.div_mod_unique b); [by left|by left|lia]. }
  by rewrite (IH es) by (done || lia).
Qed.

(** ** Decimal digits *)

Lemma dec_digits_spec fuel n :
  0 ≤ n < 10 ^ Z.of_nat (S fuel) →
  Forall (is_digit 10) (dec_digits fuel n) ∧ digits_value 10 (dec_digits fuel n) = n.
Proof.
  revert n. induction fuel as [|fuel IH]; intros n Hn.
  { simpl. split; [|unfold digits_value; simpl; lia]. repeat constructor; simpl in Hn; lia. }
  cbn [dec_digits]. destruct (Z.ltb_spec n 10).
  { split; [|unfold digits_value; simpl; lia]. repeat constructor; lia. }
  destruct (IH (n / 10)) as [IH1 IH2].
  { rewrite Nat2Z.inj_succ, Z.pow_succ_r in Hn by lia. split.
    - apply Z.div_pos; lia.
    - apply Z.div_lt_upper_bound; lia. }
  pose proof (Z.mod_pos_bound n 10 ltac:(lia)). split.
  - apply Forall_app. by rewrite Forall_singleton.
  - rewrite digits_value_app, IH2. unfold digits_value; simpl.
    pose proof (Z.div_mod n 10). lia.
Qed.

Lemma dec_digits_length fuel n : (1 ≤ length (dec_digits fuel n) ≤ S fuel)%nat.
Proof.
  revert n. induction fuel as [|fuel IH]; intros n; simpl; [lia|].
  destruct (n <? 10); simpl; [lia|]. rewrite length_app. specialize (IH (n / 10)). simpl. lia.
Qed.

(** The length is the least that fits the value, which makes the digits of [10 * n]
    those of [n] followed by a zero. *)
Lemma dec_digits_length_bound fuel n :
  0 < n < 10 ^ Z.of_nat (S fuel) →
  10 ^ Z.of_nat (length (dec_digits fuel n)) ≤ 10 * n.
Proof.
  revert n. induction fuel as [|fuel IH]; intros n Hn; [simpl; lia|].
  cbn [dec_digits]. destruct (Z.ltb_spec n 10); [simpl; lia|].
  rewrite length_app, Nat2Z.inj_add, Z.pow_add_r by lia. cbn [length].
  rewrite Nat2Z.inj_succ, Z.pow_succ_r in Hn by lia.
  assert (10 ^ Z.of_nat (length (dec_digits fuel (n / 10))) ≤ 10 * (n / 10)) as Hd.
  { apply IH. pose proof (Z.div_mod n 10). pose proof (Z.mod_pos_bound n 10).
    split; [lia|]. apply Z.div_lt_upper_bound; lia. }
  pose proof (Z.mul_div_le n 10 ltac:(lia)). lia.
Qed.

#[local] Arguments dec_digits : simpl never.

Lemma length_string_of_digits ds : String.length (string_of_digits ds) = length ds.
Proof. induction ds as [|d ds IH]; [done|]. simpl. by rewrite IH. Qed.

Lemma string_of_digits_app ds es :
  string_of_digits (ds ++ es) = string_of_digits ds +:+ string_of_digits es.
Proof. induction ds as [|d ds IH]; [done|]. simpl. by rewrite IH. Qed.

Lemma hex_digit_digit_char d : is_digit 10 d → hex_digit (digit_char d) = Some d.
Proof.
  intros [H1 H2].
  assert (d = 0 ∨ d = 1 ∨ d = 2 ∨ d = 3 ∨ d = 4 ∨ d = 5 ∨ d = 6 ∨ d = 7 ∨ d = 8 ∨ d = 9) as Hd by lia.
  destruct_or! Hd; by subst.
Qed.

(** Decimal digits read in base 16. *)
Lemma hex_value_string_of_digits ds :
  Forall (is_digit 10) ds → hex_value (string_of_digits ds) = Some (digits_value 16 ds).
Proof.
  unfold hex_value, digits_value. generalize 0. intros acc H. revert acc.
  induction H as [|d ds Hd _ IH]; intros acc; [done|].
  simpl. rewrite hex_digit_digit_char by done. simpl. apply IH.
Qed.

(** ** The address as a digit list *)

(** The 40 digits of the treasury address. *)
Definition treasury_digits (chain_id : Z) : list Z :=
  let ds := dec_digits 20 chain_id in
  ds ++ replicate (35 - length ds) 0 ++ [1; 0; 0; 0; 1].

Lemma u64_dec_digits c :
  in_width 64 c →
  Forall (is_digit 10) (dec_digits 20 c) ∧ digits_value 10 (dec_digits 20 c) = c.
Proof. intros [H1 H2]. apply dec_digits_spec. split; [done|]. eapply Z.lt_trans; [done|]. by vm_compute. Qed.

Lemma treasury_digits_wf c :
  in_width 64 c →
  Forall (is_digit 10) (treasury_digits c) ∧ length (treasury_digits c) = 40%nat.
Proof.
  intros Hc. destruct (u64_dec_digits c Hc) as [Hd _].
  pose proof (dec_digits_length 20 c). unfold treasury_digits. split.
  - rewrite !Forall_app. split_and!; [done|by apply Forall_replicate|by_evaluation].
  - rewrite !length_app, length_replicate. simpl. lia.
Qed.

Lemma treasury_digits_value b c :
  digits_value b (treasury_digits c)
  = digits_value b (dec_digits 20 c) * b ^ Z.of_nat (40 - length (dec_digits 20 c))
    + (b ^ 4 + 1).
Proof.
  pose proof (dec_digits_length 20 c). unfold treasury_digits.
  rewrite !digits_value_app, digits_value_replicate_0, length_app, length_replicate.
  cbn [length]. replace (35 - length (dec_digits 20 c) + 5)%nat
    with (40 - length (dec_digits 20 c))%nat by lia.
  assert (digits_value b [1; 0; 0; 0; 1] = b ^ 4 + 1) as ->
    by (unfold digits_value; cbn [foldl]; ring).
  ring.
Qed.

Lemma get_treasury_address_digits from_str c :
  from_str_law from_str → in_width 64 c →
  get_treasury_address from_str c = digits_value 16 (treasury_digits c).
Proof.
  intros Hlaw Hc. destruct (treasury_digits_wf c Hc) as [Hd Hlen].
  unfold get_treasury_address, display_u64. cbv zeta.
  change "10001"%string with (string_of_digits [1; 0; 0; 0; 1]).
  rewrite <-!string_of_digits_app, !length_string_of_digits.
  cbn [length]. replace (40 - (length (dec_digits 20 c) + 5))%nat
    with (35 - length (dec_digits 20 c))%nat by lia.
  fold (treasury_digits c).
  rewrite (Hlaw _ (digits_value 16 (treasury_digits c))); [done| |].
  - by rewrite length_string_of_digits.
  - by apply hex_value_string_of_digits.
Qed.

(** Appending a zero digit multiplies by ten. *)
Lemma dec_digits_value_le c :
  in_width 64 c → 0 < c → 10 ^ Z.of_nat (length (dec_digits 20 c)) ≤ 10 * c.
Proof.
  intros [_ Hc] Hpos. apply dec_digits_length_bound. split; [done|].
  eapply Z.lt_trans; [done|]. by vm_compute.
Qed.

Lemma dec_digits_value_lt c :
  in_width 64 c → c < 10 ^ Z.of_nat (length (dec_digits 20 c)).
Proof.
  intros Hc. destruct (u64_dec_digits c Hc) as [Hd Hv].
  rewrite <-Hv at 1. by apply digits_value_range.
Qed.

(** Two chain ids have one treasury exactly when their digits, padded to the same
    length, are the same numeral. *)
Lemma treasury_digits_eq a b :
  in_width 64 a → in_width 64 b →
  digits_value 16 (treasury_digits a) = digits_value 16 (treasury_digits b) ↔
  a * 10 ^ Z.of_nat (40 - length (dec_digits 20 a))
  = b * 10 ^ Z.of_nat (40 - length (dec_digits 20 b)).
Proof.
  intros Ha Hb.
  destruct (treasury_digits_wf a Ha) as [Hda Hla], (treasury_digits_wf b Hb) as [Hdb Hlb].
  destruct (u64_dec_digits a Ha) as [_ Hva], (u64_dec_digits b Hb) as [_ Hvb].
  pose proof (treasury_digits_value 10 a) as Ea. pose proof (treasury_digits_value 10 b) as Eb.
  rewrite Hva in Ea. rewrite Hvb in Eb.
  assert (H16 : ∀ ds, Forall (is_digit 10) ds → Forall (is_digit 16) ds).
  { intros ds H. apply (Forall_impl _ _ _ H). intros d [? ?]. split; lia. }
  split; intros H.
  - assert (treasury_digits a = treasury_digits b) as E.
    { apply (digits_value_inj 16); [lia|auto|auto|congruence|done]. }
    rewrite E in Ea. lia.
  - f_equal. apply (digits_value_inj 10); [lia|auto|auto|congruence|lia].
Qed.

(** Shifting an id by [k] decimal places makes it [k] digits longer. *)
Lemma dec_digits_length_shift a b k :
  in_width 64 a → in_width 64 b → 0 < b → 0 ≤ k → a = b * 10 ^ k →
  Z.of_nat (length (dec_digits 20 a)) = Z.of_nat (length (dec_digits 20 b)) + k.
Proof.
  intros Ha Hb Hpos Hk Hab.
  pose proof (dec_digits_length 20 a). pose proof (dec_digits_length 20 b).
  assert (0 < 10 ^ k) by (apply Z.pow_pos_nonneg; lia).
  assert (0 < a) by nia.
  pose proof (dec_digits_value_le a Ha ltac:(done)). pose proof (dec_digits_value_lt a Ha).
  pose proof (dec_digits_value_le b Hb Hpos). pose proof (dec_digits_value_lt b Hb).
  set (la := Z.of_nat (length (dec_digits 20 a))) in *.
  set (lb := Z.of_nat (length (dec_digits 20 b))) in *.
  assert (la < lb + k + 1).
  { apply (Z.pow_lt_mono_r_iff 10); [lia..|]. rewrite !Z.pow_add_r, Z.pow_1_r by lia. nia. }
  assert (lb + k < la + 1).
  { apply (Z.pow_lt_mono_r_iff 10); [lia..|]. rewrite !Z.pow_add_r, Z.pow_1_r by lia. nia. }
  lia.
Qed.

Lemma shifted_numerals a b la lb :
  (la ≤ 40)%nat → (lb ≤ 40)%nat → (la ≤ lb)%nat →
  a * 10 ^ Z.of_nat (40 - la) = b * 10 ^ Z.of_nat (40 - lb) →
  b = a * 10 ^ (Z.of_nat lb - Z.of_nat la).
Proof.
  intros Hla Hlb Hle H.
  replace (Z.of_nat (40 - la)) with ((Z.of_nat lb - Z.of_nat la) + Z.of_nat (40 - lb)) in H by lia.
  rewrite Z.pow_add_r, Z.mul_assoc in H by lia.
  apply Z.mul_cancel_r in H; [done|]. apply Z.pow_nonzero; lia.
Qed.

Lemma treasury_digits_eq_shift a b k :
  in_width 64 a → in_width 64 b → 0 ≤ k → a = b * 10 ^ k →
  a * 10 ^ Z.of_nat (40 - length (dec_digits 20 a))
  = b * 10 ^ Z.of_nat (40 - length (dec_digits 20 b)).
Proof.
  intros Ha Hb Hk Hab. destruct (decide (b = 0)) as [->|Hb0]; [lia|].
  assert (0 < b) as Hpos by (destruct Hb; lia).
  pose proof (dec_digits_length_shift a b k Ha Hb Hpos Hk Hab).
  pose proof (dec_digits_length 20 a). pose proof (dec_digits_length 20 b).
  rewrite Hab at 1. rewrite <-Z.mul_assoc, <-Z.pow_add_r by lia. f_equal. f_equal. lia.
Qed.

(** ** Properties *)

Section properties.
Variable from_str : string → option Address.
Hypothesis Hlaw : from_str_law from_str.


(** C40 Which chains share a treasury: two [u64] chain ids get the same address
    exactly when one is the other followed by zeros in decimal. *)
Theorem treasury_address_collisions c d (Hc : in_width 64 c) (Hd : in_width 64 d) :
  get_treasury_address from_str c = get_treasury_address from_str d ↔
  ∃ k, 0 ≤ k ∧ (c = d * 10 ^ k ∨ d = c * 10 ^ k).
Proof.
  rewrite !get_treasury_address_digits, treasury_digits_eq by done. split.
  - intros H. pose proof (dec_digits_length 20 c). pose proof (dec_digits_length 20 d).
    destruct (decide (length (dec_digits 20 c) ≤ length (dec_digits 20 d))%nat).
    + eexists; split; [|right; apply (shifted_numerals c d); [..|done]]; lia.
    + eexists; split; [|left; apply (shifted_numerals d c); [..|by symmetry]]; lia.
  - intros (k & Hk & [H|H]); [|symmetry]; by apply (treasury_digits_eq_shift _ _ k).
Qed.

(** The treasuries of the four Kasplex chains, spelled out; no two are the same. *)
Theorem kasplex_treasury_addresses :
  get_treasury_address from_str <$> [202555; 168001; 168002; 167012]
  = [0x2025550000000000000000000000000000010001; 0x1680010000000000000000000000000000010001;
     0x1680020000000000000000000000000000010001; 0x1670120000000000000000000000000000010001] ∧
  NoDup (get_treasury_address from_str <$> [202555; 168001; 168002; 167012]).
Proof.
  assert (E : get_treasury_address from_str <$> [202555; 168001; 168002; 167012]
    = (λ c, digits_value 16 (treasury_digits c)) <$> [202555; 168001; 168002; 167012]).
  { apply list_fmap_ext. intros i c Hi. apply list_elem_of_lookup_2 in Hi.
    apply get_treasury_address_digits; [done|].
    set_unfold in Hi. split; destruct_or! Hi; subst; by vm_compute. }
  rewrite E. split; [by vm_compute|]. by_evaluation.
Qed.
End properties.

(** ** Witnesses *)


Lemma treasury_address_collisions_witness :
  get_treasury_address read_address 202555 = get_treasury_address read_address 2025550.
Proof.
  apply (treasury_address_collisions read_address read_address_law 202555 2025550).
  - vm_compute; split; congruence.
  - vm_compute; split; congruence.
  - exists 1. split; [lia|]. right. reflexivity.
Defined.

Lemma kasplex_treasury_addresses_witness :
  NoDup (get_treasury_address read_address <$> [202555; 168001; 168002; 167012]).
Proof. apply (kasplex_treasury_addresses read_address read_address_law). Defined.
