(* ===== verification/UnitTests.v ===== *)
(** * The repository's unit tests, run on the model

    The tests of crates/tx_mapping/src/lib.rs and of crates/evm/src/lib.rs.  A test of the mapping is a list of calls and
    assertions; cargo runs the tests of a crate as threads, and [TxMapping::new] gives each
    the global table, so they are processes over one table. *)

From stdpp Require Import prelude gmap list list_monad relations strings.
From Stdlib Require Import ZArith Lia.
From S2P Require Import Prelude Processes TxMapping Treasury.

(** ** Tests of the mapping *)

Inductive test_call : Type :=
| Do (op : write_op)
| Assert (check : TxMappingState → bool)
(** [get_tx_number], whose answer is compared *)
| AssertTaken (tx_hash : B256) (number : Z).

(** What is left of a test, or that it failed. *)
Inductive test : Type := Running (calls : list test_call) | Failed.

Definition assert_that (ok : bool) (rest : list test_call) : test := if ok then Running rest else Failed.

#[export] Instance test_process : Process test TxMappingState := {
  proc_step t st :=
    match t with
    | Running (Do op :: rest) => Some (Running rest, exec_op st op)
    | Running (Assert check :: rest) => Some (assert_that (check st) rest, st)
    | Running (AssertTaken h n :: rest) =>
        let '(m, st') := get_tx_number h st in Some (assert_that (m =? n) rest, st')
    | Running [] | Failed => None
    end;
}.

(** [B256::from([b; 32])] *)
Definition repeated (b : Z) : B256 := b * ((2 ^ 256 - 1) / 255).
Definition submitted_at (tx_hash : B256) (number : option Z) (st : TxMappingState) : bool :=
  bool_decide (get_submission_block tx_hash st = number).

Definition test_tx_mapping_basic : list test_call :=
  let tx_hash := repeated 1 in
  [Do (OpInsert tx_hash 100); Assert (submitted_at tx_hash (Some 100));
   AssertTaken tx_hash 100; Assert (submitted_at tx_hash None)].

Definition test_deleted_transactions : list test_call :=
  let tx_hash := repeated 2 in
  [Assert (λ st, negb (is_deleted_transaction tx_hash st)); Do (OpAddDeletedTransaction tx_hash);
   Assert (is_deleted_transaction tx_hash)].

Definition test_reorg_state : list test_call :=
  [Assert is_reorg_complete; Do OpMarkStartPoolReorg; Assert (λ st, negb (is_reorg_complete st));
   Do OpMarkPoolReorged; Assert is_reorg_complete].

Definition test_transaction_expiration : list test_call :=
  let tx_hash := repeated 3 in
  let submission_block := 100 in
  let current_block := 100 + UNEXECUTED_TX_RETENTION_BLOCKS in
  [Do (OpInsert tx_hash submission_block);
   Assert (λ st, negb (is_transaction_expired tx_hash
                         (submission_block + UNEXECUTED_TX_RETENTION_BLOCKS - 1) st));
   Assert (is_transaction_expired tx_hash current_block)].

Definition test_bulk_set_mapping : list test_call :=
  let tx1 := repeated 1 in
  let tx2 := repeated 2 in
  [Do (OpSetMapping (<[tx2 := 200]> (<[tx1 := 100]> ∅)));
   Assert (submitted_at tx1 (Some 100)); Assert (submitted_at tx2 (Some 200))].

(** A test that has the table to itself: whether it passes, and the table it leaves. *)
Fixpoint run_test (calls : list test_call) (st : TxMappingState) : bool * TxMappingState :=
  match calls with
  | [] => (true, st)
  | call :: rest =>
      match proc_step (Running [call]) st with
      | Some (Running _, st') => run_test rest st'
      | Some (Failed, st') => (false, st')
      | None => (true, st)
      end
  end.

(** Tests one after the other. *)
Fixpoint run_tests (tests : list (list test_call)) (st : TxMappingState) : bool :=
  match tests with
  | [] => true
  | calls :: tests => let '(ok, st') := run_test calls st in ok && run_tests tests st'
  end.

(** ** The test of the treasury address *)

Definition test_treasury_address_calculation (from_str : string → option Address) : bool :=
  let mainnet_treasury := get_treasury_address from_str 202555 in
  let internal_l2_treasury := get_treasury_address from_str 168001 in
  negb (mainnet_treasury =? 0) &&
  bool_decide (from_str "0x2025550000000000000000000000000000010001"%string = Some mainnet_treasury) &&
  negb (internal_l2_treasury =? 0) &&
  bool_decide (from_str "0x1680010000000000000000000000000000010001"%string = Some internal_l2_treasury) &&
  negb (mainnet_treasury =? internal_l2_treasury).

(** ** Properties *)

Definition other_mapping_tests : list (list test_call) :=
  [test_tx_mapping_basic; test_deleted_transactions; test_reorg_state; test_bulk_set_mapping].

Local Ltac step_of i := eapply rtc_l; [eapply (interleaved_step _ i); [reflexivity|reflexivity]|].

(** The schedule of two tests: the first up to its assertion, the second's replacement of
    the table, the rest of the first, and the second's first assertion. *)
Lemma basic_fails_bulk : ∃ st,
  rtc interleaved ([Running test_tx_mapping_basic; Running test_bulk_set_mapping], default_state)
    ([Running []; Failed], st).
Proof.
  eexists. step_of 0%nat. step_of 0%nat. step_of 1%nat. step_of 0%nat. step_of 0%nat. step_of 1%nat.
  vm_compute. apply rtc_refl.
Qed.

(** The unit tests of the mapping.  The test of expiration fails on whatever table it
    finds.  The four others pass one after the other in any order, all on the global table;
    but as the threads cargo runs them as they can fail: the basic test takes the number
    the bulk test asks for. *)
Theorem mapping_unit_tests :
  (∀ st, (run_test test_transaction_expiration st).1 = false) ∧
  (∀ order, other_mapping_tests ≡ₚ order → run_tests order default_state = true) ∧
  ∃ st, rtc interleaved
    ([Running test_tx_mapping_basic; Running test_bulk_set_mapping], default_state)
    ([Running []; Failed], st).
Proof.
  split; [|split; [|apply basic_fails_bulk]].
  - intros st. unfold test_transaction_expiration. cbn [run_test proc_step test_process exec_op].
    assert (E : ∀ n, is_transaction_expired (repeated 3) n (insert (repeated 3) 100 st)
      = (100 ⊞[64] UNEXECUTED_TX_RETENTION_BLOCKS <? n) || (n <? 100)).
    { intros n. unfold is_transaction_expired, insert. cbn [mapping]. by rewrite lookup_insert_eq. }
    rewrite !E. by vm_compute.
  - intros order Hp%permutations_Permutation. revert order Hp. apply Forall_forall.
    apply (bool_decide_unpack _). vm_compute. exact I.
Qed.

(** The test of the treasury addresses passes with any reader of addresses that reads
    40 hexadecimal digits after [0x]. *)
Lemma treasury_unit_test from_str :
  from_str_law from_str → test_treasury_address_calculation from_str = true.
Proof.
  intros Hlaw. unfold test_treasury_address_calculation.
  rewrite !get_treasury_address_digits by (done || by_evaluation).
  pose proof (Hlaw "2025550000000000000000000000000000010001"%string
    0x2025550000000000000000000000000000010001 eq_refl ltac:(vm_compute; reflexivity)) as H1.
  pose proof (Hlaw "1680010000000000000000000000000000010001"%string
    0x1680010000000000000000000000000000010001 eq_refl ltac:(vm_compute; reflexivity)) as H2.
  vm_compute in H1, H2. rewrite H1, H2. vm_compute. reflexivity.
Qed.
