(* ===== verification/EvmHandler.v ===== *)
(** * Fee handling of a transaction ([crates/evm/src/handler.rs])

    The three hooks [KasplexEvmHandler] overrides: the up-front deduction, the
    reimbursement of unused gas, and the reward, which pays the tip to the
    beneficiary and the whole base fee to the chain's treasury.  revm's journal,
    transaction and gas accounting are parameters, with the laws of the calls the
    hooks make. *)

From stdpp Require Import prelude gmap strings.
From Stdlib Require Import ZArith Lia.
From S2P Require Import Prelude Types Chainspec Treasury.

(** ** What the hooks call *)

(** The transaction environment.  [effective_gas_price] and
    [effective_balance_spending] take the base fee; the latter also the blob price. *)
Class TransactionEnv (Tx TxError : Type) := {
  tx_caller : Tx → Address;
  tx_is_call : Tx → bool;
  tx_value : Tx → Z;
  tx_gas_limit : Tx → Z;
  effective_gas_price : Tx → Z → Z;
  effective_balance_spending : Tx → Z → Z → outcome TxError Z;
}.

(** The journal: loading an account may fail in the database below it. *)
Class Journal (J Info DbError : Type) := {
  account_balance : Address → J → Z;
  load_account : Address → comp J DbError Info;
  load_account_with_code_mut : Address → comp J DbError ();
  bump_nonce : Address → J → J;
  set_balance : Address → Z → J → J;
  balance_incr : Address → Z → comp J DbError ();
}.

Definition changes_no_balance `{Journal J Info DbError} (j j' : J) : Prop :=
  ∀ a, account_balance a j' = account_balance a j.

Class JournalLaws (J Info DbError : Type) `{Journal J Info DbError} : Prop := {
  account_balance_range a (j : J) : in_width 256 (account_balance a j);
  load_account_balance a (j j' : J) o :
    load_account a j = (o, j') → changes_no_balance j j';
  load_account_with_code_mut_balance a (j j' : J) o :
    load_account_with_code_mut a j = (o, j') → changes_no_balance j j';
  bump_nonce_balance a (j : J) : changes_no_balance j (bump_nonce a j);
  set_balance_balance a v (j : J) b :
    in_width 256 v →
    account_balance b (set_balance a v j) = if decide (b = a) then v else account_balance b j;
  balance_incr_balance a d (j j' : J) b :
    balance_incr a d j = (Ok (), j') → 0 ≤ d → account_balance a j + d < 2 ^ 256 →
    account_balance b j' = account_balance b j + if decide (b = a) then d else 0;
}.

(** What the hooks read of [Gas]: [refunded()] is an [i64]. *)
Record Gas := mkGas { spent : Z; remaining : Z; refunded : Z }.

(** [gas.refunded() as u64] *)
Definition refunded_u64 (gas : Gas) : Z := wrap 64 (refunded gas).

(** The block, configuration and transaction of the context. *)
Record HandlerEnv {Tx Cfg : Type} := mkHandlerEnv {
  block_beneficiary : Address;
  block_basefee : Z;
  cfg_chain_id : Z;
  env_cfg : Cfg;
  env_tx : Tx;
}.
Arguments HandlerEnv : clear implicits.

Inductive HandlerError (TxError DbError : Type) : Type :=
| DatabaseError (e : DbError)
| InvalidTransaction (e : TxError).
Arguments DatabaseError {TxError DbError} e.
Arguments InvalidTransaction {TxError DbError} e.

Section handler.
Context {Tx TxError J Info DbError Cfg : Type}.
Context {TE : TransactionEnv Tx TxError} {JO : Journal J Info DbError}.
(** revm's check of the sender's nonce and code. *)
Variable validate_account_nonce_and_code_with_components :
  Info → Tx → Cfg → outcome TxError ().
Variable address_from_str : string → option Address.
Implicit Type env : HandlerEnv Tx Cfg.

(** ** The reward *)

Definition reward_tip env (gas : Gas) : Z :=
  let basefee := block_basefee env in
  let effective_gas_price := effective_gas_price (env_tx env) basefee in
  let coinbase_gas_price := effective_gas_price ⊖ basefee in
  let spent_minus_refund := spent gas ⊖ refunded_u64 gas in
  coinbase_gas_price ⊠[128] spent_minus_refund.

Definition reward_base_fee env (gas : Gas) : Z :=
  saturating_mul 128 (block_basefee env) (spent gas ⊖ refunded_u64 gas).

Definition reward_beneficiary env (gas : Gas) : comp J DbError () :=
  _ ← balance_incr (block_beneficiary env) (reward_tip env gas);
  let treasury_address := get_treasury_address address_from_str (cfg_chain_id env) in
  balance_incr treasury_address (reward_base_fee env gas).

(** ** The reimbursement *)

Definition refund_amount env (gas : Gas) (additional_refund : Z) : Z :=
  let effective_gas_price := effective_gas_price (env_tx env) (block_basefee env) in
  let total_to_refund := remaining gas ⊞[64] refunded_u64 gas in
  saturating_mul 128 effective_gas_price total_to_refund ⊞[256] additional_refund.

Definition reimburse_caller env (gas : Gas) (additional_refund : Z) : comp J DbError () :=
  balance_incr (tx_caller (env_tx env)) (refund_amount env gas additional_refund).

(** The handler's method passes no additional refund. *)
Definition handler_reimburse_caller env (gas : Gas) : comp J (HandlerError TxError DbError) () :=
  map_err DatabaseError (reimburse_caller env gas 0).

Definition handler_reward_beneficiary env (gas : Gas) : comp J (HandlerError TxError DbError) () :=
  map_err DatabaseError (reward_beneficiary env gas).

(** ** The deduction *)

Definition validate_against_state_and_deduct_caller env
    : comp J (HandlerError TxError DbError) () :=
  let tx := env_tx env in
  let caller := tx_caller tx in
  let basefee := block_basefee env in
  _ ← map_err DatabaseError (load_account (block_beneficiary env));
  caller_account_info ← map_err DatabaseError (load_account caller);
  _ ← map_err DatabaseError (load_account_with_code_mut caller);
  _ ← lift (outcome_map_err InvalidTransaction
              (validate_account_nonce_and_code_with_components caller_account_info tx
                 (env_cfg env)));
  _ ← (if tx_is_call tx then modify (bump_nonce caller) else mret ());
  effective_balance_spending ←
    lift (outcome_map_err InvalidTransaction (effective_balance_spending tx basefee 0));
  let gas_balance_spending := effective_balance_spending ⊖ tx_value tx in
  balance ← gets (account_balance caller);
  let new_balance := balance ⊖ gas_balance_spending in
  modify (set_balance caller new_balance).
End handler.

(** ** Lemmas *)

Section handler_lemmas.
Context {Tx TxError J Info DbError Cfg : Type}.
Context {TE : TransactionEnv Tx TxError} {JO : Journal J Info DbError}.
Context {JL : JournalLaws J Info DbError}.
Variable validate_code : Info → Tx → Cfg → outcome TxError ().
Variable address_from_str : string → option Address.
Implicit Type env : HandlerEnv Tx Cfg.

Local Abbreviation balance j := (λ a, account_balance a j).
Local Abbreviation supply A j := (sumZ (λ a, account_balance a j) A).

Lemma changes_no_balance_trans (j1 j2 j3 : J) :
  changes_no_balance j1 j2 → changes_no_balance j2 j3 → changes_no_balance j1 j3.
Proof. intros H1 H2 a. by rewrite H2. Qed.

Lemma changes_no_balance_refl (j : J) : changes_no_balance j j.
Proof. done. Qed.

(** A computation that changes no balance; one that changes none unless it returns. *)
Definition keeps_balances {E A} (m : comp J E A) : Prop :=
  ∀ j o j', m j = (o, j') → changes_no_balance j j'.
Definition error_keeps_balances {E A} (m : comp J E A) : Prop :=
  ∀ j o j', m j = (o, j') → (∀ a, o ≠ Ok a) → changes_no_balance j j'.

Lemma keeps_balances_map_err {E F A} (f : E → F) (m : comp J E A) :
  keeps_balances m → keeps_balances (map_err f m).
Proof.
  unfold map_err. intros H j o j'. destruct (m j) as [o1 j1] eqn:E1.
  intros [= _ <-]. eauto.
Qed.

Lemma keeps_balances_lift {E A} (o : outcome E A) : keeps_balances (lift o).
Proof. by intros j o' j' [= _ <-]. Qed.

Lemma keeps_balances_gets {E A} (f : J → A) : keeps_balances (gets f : comp J E A).
Proof. by intros j o' j' [= _ <-]. Qed.

Lemma keeps_balances_bump {E} (b : bool) a :
  keeps_balances (if b then modify (bump_nonce a) else mret () : comp J E ()).
Proof. destruct b; intros j o j' [= _ <-]; [apply bump_nonce_balance|done]. Qed.

Lemma error_keeps_balances_bind {E A B} (m : comp J E A) (k : A → comp J E B) :
  keeps_balances m → (∀ a, error_keeps_balances (k a)) → error_keeps_balances (m ≫= k).
Proof.
  intros Hm Hk j o j'. unfold mbind, comp_bind. destruct (m j) as [[a|e|] j1] eqn:E1.
  - intros H Ho. eapply changes_no_balance_trans; [by eapply Hm|by eapply Hk].
  - intros [= _ <-] _. by eapply Hm.
  - intros [= _ <-] _. by eapply Hm.
Qed.

Lemma error_keeps_balances_modify {E} (f : J → J) :
  error_keeps_balances (modify f : comp J E ()).
Proof. intros j o j' [= <- _] Ho. by destruct (Ho ()). Qed.

Lemma keeps_balances_load a : keeps_balances (load_account a).
Proof. intros j o j'. apply load_account_balance. Qed.

Lemma keeps_balances_load_mut a : keeps_balances (load_account_with_code_mut a).
Proof. intros j o j'. apply load_account_with_code_mut_balance. Qed.

Hint Resolve keeps_balances_map_err keeps_balances_lift keeps_balances_gets
  keeps_balances_bump keeps_balances_load keeps_balances_load_mut
  error_keeps_balances_bind error_keeps_balances_modify : kasplex.

(** Takes apart a run that returned, one bind at a time; what the first half left
    unchanged is recorded. *)
Local Ltac bind_inv H :=
  let a := fresh "a" in let j := fresh "j" in
  let Hm := fresh "Hm" in
  apply bind_Ok_inv in H as (a & j & Hm & H).

Lemma deduct_error env : error_keeps_balances
  (validate_against_state_and_deduct_caller validate_code env).
Proof.
  unfold validate_against_state_and_deduct_caller.
  repeat (apply error_keeps_balances_bind; [auto with kasplex|intros ?]).
  apply error_keeps_balances_modify.
Qed.

Lemma deduct_Ok env (j j' : J) :
  validate_against_state_and_deduct_caller validate_code env j = (Ok (), j') →
  ∃ spending,
    effective_balance_spending (env_tx env) (block_basefee env) 0 = Ok spending ∧
    ∀ a, account_balance a j' =
      let before := account_balance a j in
      if decide (a = tx_caller (env_tx env))
      then before ⊖ (spending ⊖ tx_value (env_tx env)) else before.
Proof.
  unfold validate_against_state_and_deduct_caller. intros H.
  do 4 bind_inv H.
  assert (changes_no_balance j j3) as Hload.
  { intros c.
    rewrite (keeps_balances_lift _ _ _ _ Hm2),
      (keeps_balances_map_err _ _ (keeps_balances_load_mut _) _ _ _ Hm1),
      (keeps_balances_map_err _ _ (keeps_balances_load _) _ _ _ Hm0),
      (keeps_balances_map_err _ _ (keeps_balances_load _) _ _ _ Hm).
    done. }
  do 3 bind_inv H. injection Hm5 as <- <-. injection H as <-.
  injection Hm4 as Hsp <-.
  destruct (effective_balance_spending _ _ _) as [sp|e|] eqn:Esp; simplify_eq/=.
  exists a4. split; [done|]. intros b.
  assert (Hj : ∀ a, account_balance a j4 = account_balance a j).
  { intros c. rewrite (keeps_balances_bump _ _ _ _ _ Hm3). apply Hload. }
  rewrite set_balance_balance, !Hj; [by case_decide; subst|].
  pose proof (account_balance_range (tx_caller (env_tx env)) j4). width.
Qed.
Lemma reimburse_Ok env gas extra (j j' : J) :
  reimburse_caller env gas extra j = (Ok (), j') →
  0 ≤ refund_amount env gas extra →
  account_balance (tx_caller (env_tx env)) j + refund_amount env gas extra < 2 ^ 256 →
  ∀ a, account_balance a j' = account_balance a j +
    if decide (a = tx_caller (env_tx env)) then refund_amount env gas extra else 0.
Proof. intros H H1 H2 a. by eapply balance_incr_balance. Qed.

Local Abbreviation treasury env := (get_treasury_address address_from_str (cfg_chain_id env)).

(** The two credits of the reward, when no balance overflows on the way. *)
Lemma reward_Ok env gas (j j' : J) :
  reward_beneficiary address_from_str env gas j = (Ok (), j') →
  0 ≤ reward_tip env gas → 0 ≤ reward_base_fee env gas →
  account_balance (block_beneficiary env) j + reward_tip env gas < 2 ^ 256 →
  account_balance (treasury env) j + reward_tip env gas + reward_base_fee env gas < 2 ^ 256 →
  ∀ a, account_balance a j' = account_balance a j
    + (if decide (a = block_beneficiary env) then reward_tip env gas else 0)
    + (if decide (a = treasury env) then reward_base_fee env gas else 0).
Proof.
  unfold reward_beneficiary. intros H H1 H2 H3 H4 a.
  apply bind_Ok_inv in H as ([] & j1 & Hm & H).
  assert (Hj1 : ∀ b, account_balance b j1 = account_balance b j +
    if decide (b = block_beneficiary env) then reward_tip env gas else 0).
  { intros b. by eapply balance_incr_balance. }
  rewrite <-Hj1. eapply balance_incr_balance; [done|done|].
  rewrite Hj1. case_decide; lia.
Qed.

(** ** The three hooks together

    The gas figures of one execution and the prices of its transaction are in the
    range in which no product saturates or wraps. *)
Record fees_in_range env (gas : Gas) : Prop := {
  range_spent : 0 ≤ spent gas;
  range_remaining : 0 ≤ remaining gas;
  range_limit : spent gas + remaining gas = tx_gas_limit (env_tx env);
  range_limit_u64 : in_width 64 (tx_gas_limit (env_tx env));
  range_refunded : 0 ≤ refunded gas ≤ spent gas;
  range_basefee : 0 ≤ block_basefee env ≤ effective_gas_price (env_tx env) (block_basefee env);
  range_price : effective_gas_price (env_tx env) (block_basefee env)
                  * tx_gas_limit (env_tx env) < 2 ^ 128;
}.

(** The gas the transaction pays for, and the price it pays. *)
Definition gas_used (gas : Gas) : Z := spent gas - refunded gas.
Local Abbreviation price env := (effective_gas_price (env_tx env) (block_basefee env)).

Lemma fee_amounts env gas :
  fees_in_range env gas →
  reward_tip env gas = (price env - block_basefee env) * gas_used gas ∧
  reward_base_fee env gas = block_basefee env * gas_used gas ∧
  refund_amount env gas 0 = price env * (tx_gas_limit (env_tx env) - gas_used gas).
Proof.
  intros [? ? Hlim Hlim64 Href Hbf Hprice]. unfold in_width in Hlim64.
  unfold reward_tip, reward_base_fee, refund_amount, refunded_u64, gas_used.
  rewrite (wrap_small (refunded gas)) by width.
  rewrite !saturating_sub_le by lia.
  rewrite (wrapping_add_small (remaining gas)) by width.
  rewrite wrapping_mul_small by (unfold in_width; nia).
  rewrite !saturating_mul_small by nia.
  rewrite wrapping_add_small by (unfold in_width; nia).
  split_and!; [done|done|]. f_equal. lia.
Qed.
(** The credits of the two post-execution hooks, in the order they run. *)
Lemma post_execution_credits env gas (j2 j3 j4 : J) :
  fees_in_range env gas →
  (∀ a, account_balance a j2 + price env * tx_gas_limit (env_tx env) < 2 ^ 256) →
  reimburse_caller env gas 0 j2 = (Ok (), j3) →
  reward_beneficiary address_from_str env gas j3 = (Ok (), j4) →
  ∀ a, account_balance a j4 = account_balance a j2
    + (if decide (a = tx_caller (env_tx env))
       then price env * (tx_gas_limit (env_tx env) - gas_used gas) else 0)
    + (if decide (a = block_beneficiary env)
       then (price env - block_basefee env) * gas_used gas else 0)
    + (if decide (a = treasury env) then block_basefee env * gas_used gas else 0).
Proof.
  intros Hr Hfit H1 H2. destruct (fee_amounts env gas Hr) as (Et & Eb & Er).
  destruct Hr as [? ? Hlim _ Href Hbf _].
  assert (0 ≤ gas_used gas ≤ tx_gas_limit (env_tx env)) as Hu by (unfold gas_used; lia).
  assert (0 ≤ (price env - block_basefee env) * gas_used gas) by nia.
  assert (0 ≤ block_basefee env * gas_used gas) by nia.
  assert (0 ≤ price env * (tx_gas_limit (env_tx env) - gas_used gas)) by nia.
  assert (Hj3 : ∀ b, account_balance b j3 = account_balance b j2 +
    if decide (b = tx_caller (env_tx env))
    then price env * (tx_gas_limit (env_tx env) - gas_used gas) else 0).
  { rewrite <-Er. apply (reimburse_Ok _ _ _ _ _ H1); rewrite Er; [done|].
    pose proof (Hfit (tx_caller (env_tx env))). nia. }
  intros a. rewrite <-Hj3, <-Et, <-Eb.
  assert (Hb : ∀ b, account_balance b j3
      + (price env - block_basefee env) * gas_used gas + block_basefee env * gas_used gas < 2 ^ 256).
  { intros b. rewrite Hj3. pose proof (Hfit b). case_decide; nia. }
  apply (reward_Ok _ _ _ _ H2); rewrite ?Et, ?Eb; [done|done|..].
  - specialize (Hb (block_beneficiary env)). lia.
  - apply Hb.
Qed.
End handler_lemmas.

(** ** Properties *)

Section properties.
Context {Tx TxError J Info DbError Cfg : Type}.
Context {TE : TransactionEnv Tx TxError} {JO : Journal J Info DbError}.
Context {JL : JournalLaws J Info DbError}.
Variable validate_code : Info → Tx → Cfg → outcome TxError ().
Variable address_from_str : string → option Address.
Implicit Type env : HandlerEnv Tx Cfg.

Local Abbreviation price env := (effective_gas_price (env_tx env) (block_basefee env)).
Local Abbreviation treasury env := (get_treasury_address address_from_str (cfg_chain_id env)).
Local Abbreviation caller env := (tx_caller (env_tx env)).
Local Abbreviation supply A j := (sumZ (λ a, account_balance a j) A).

(** The up-front deduction: when any of its checks or loads fails no balance has
    changed; when it succeeds the caller, and nobody else, has paid the spending
    less the transferred value, or all it had when that is less. *)
Theorem deduction_charges_only_the_caller env (j j' : J) o
    (Hrun : validate_against_state_and_deduct_caller validate_code env j = (o, j')) :
  match o with
  | Ok _ => ∃ spending,
      effective_balance_spending (env_tx env) (block_basefee env) 0 = Ok spending ∧
      ∀ a, account_balance a j' =
        if decide (a = caller env)
        then account_balance a j
             - Z.min (account_balance a j) (spending ⊖ tx_value (env_tx env))
        else account_balance a j
  | _ => ∀ a, account_balance a j' = account_balance a j
  end.
Proof.
  destruct o as [[]|e|].
  - destruct (deduct_Ok _ _ _ _ Hrun) as (sp & Hsp & Hb). exists sp. split; [done|].
    intros a. rewrite Hb. cbv zeta. case_decide; [width|done].
  - by eapply deduct_error.
  - by eapply deduct_error.
Qed.

(** The split of the fee after execution, with every product in range: the caller
    gets back the price of the gas it did not use (refunds included), the
    beneficiary the tip on the gas used, the treasury the whole base fee on it, and
    no other balance moves; the three may be one account. *)
Theorem post_execution_fee_split env gas (j2 j3 j4 : J)
    (Hr : fees_in_range env gas)
    (Hfit : ∀ a, account_balance a j2 + price env * tx_gas_limit (env_tx env) < 2 ^ 256)
    (H1 : handler_reimburse_caller (TxError := TxError) env gas j2 = (Ok (), j3))
    (H2 : handler_reward_beneficiary (TxError := TxError) address_from_str env gas j3
          = (Ok (), j4)) a :
  account_balance a j4 = account_balance a j2
    + (if decide (a = caller env)
       then price env * (tx_gas_limit (env_tx env) - gas_used gas) else 0)
    + (if decide (a = block_beneficiary env)
       then (price env - block_basefee env) * gas_used gas else 0)
    + (if decide (a = treasury env) then block_basefee env * gas_used gas else 0).
Proof.
  apply map_err_Ok_inv in H1, H2. by eapply post_execution_credits.
Qed.

(** C3 Fees conserve money exactly when the sender can pay: over any duplicate-free
    set of accounts holding the caller, the beneficiary and the treasury, within
    which execution itself only moves value, a transaction's deduction,
    reimbursement and reward change the total by the part of the price of its whole
    gas limit that the caller's balance did not cover. *)
Theorem fees_change_supply_by_shortfall env gas A (j0 j1 j2 j3 j4 : J)
    (Hr : fees_in_range env gas)
    (Hspend : effective_balance_spending (env_tx env) (block_basefee env) 0
              = Ok (price env * tx_gas_limit (env_tx env) + tx_value (env_tx env)))
    (HA : NoDup A) (Hc : caller env ∈ A) (Hb : block_beneficiary env ∈ A)
    (Ht : treasury env ∈ A)
    (H0 : validate_against_state_and_deduct_caller validate_code env j0 = (Ok (), j1))
    (Hexec : supply A j2 = supply A j1)
    (Hfit : ∀ a, account_balance a j2 + price env * tx_gas_limit (env_tx env) < 2 ^ 256)
    (H1 : reimburse_caller env gas 0 j2 = (Ok (), j3))
    (H2 : reward_beneficiary address_from_str env gas j3 = (Ok (), j4)) :
  supply A j4 = supply A j0
    + ((price env * tx_gas_limit (env_tx env)) ⊖ account_balance (caller env) j0).
Proof.
  destruct (deduct_Ok _ _ _ _ H0) as (sp & Hsp & Hb0). rewrite Hspend in Hsp.
  injection Hsp as <-.
  pose proof (post_execution_credits _ _ _ _ _ _ Hr Hfit H1 H2) as Hcr.
  set (cost := price env * tx_gas_limit (env_tx env)) in *.
  assert (0 ≤ cost) by (destruct Hr as [? ? ? [? ?] ? [? ?] ?]; unfold cost; nia).
  assert (supply A j1 = supply A j0 + - Z.min (account_balance (caller env) j0) cost) as E1.
  { apply (sumZ_credit _ _ _ (caller env)); [done|done|]. intros a _. rewrite Hb0. cbv zeta.
    case_decide; subst; width. }
  rewrite (sumZ_ext _ _ _ (λ a _, Hcr a)), !sumZ_add, !sumZ_indicator by done.
  rewrite Hexec, E1. unfold cost, saturating_sub. lia.
Qed.
End properties.

(** ** A concrete journal, and the properties at a concrete transaction *)

Module Ledger.
Record t := mkLedger { balances : gmap Address Z; nonces : gmap Address Z }.

Definition balance (a : Address) (j : t) : Z := wrap 256 (default 0 (balances j !! a)).
Definition nonce (a : Address) (j : t) : Z := default 0 (nonces j !! a).
Definition update (a : Address) (v : Z) (j : t) : t := mkLedger (<[a := v]> (balances j)) (nonces j).

(** The account information handed to the check is the nonce; nothing fails. *)
#[global] Instance journal : Journal t Z string := {
  account_balance := balance;
  load_account a := gets (nonce a);
  load_account_with_code_mut a := mret ();
  bump_nonce a j := mkLedger (balances j) (<[a := nonce a j + 1]> (nonces j));
  set_balance := update;
  balance_incr a d := modify (λ j, update a (saturating_add 256 (balance a j) d) j);
}.

Lemma balance_update a v j b :
  in_width 256 v → balance b (update a v j) = if decide (b = a) then v else balance b j.
Proof.
  intros Hv. unfold balance, update. simpl. case_decide; simplify_map_eq/=; [|done].
  by apply wrap_small.
Qed.

Lemma balance_range a j : in_width 256 (balance a j).
Proof. by apply wrap_range. Qed.

#[global] Instance laws : JournalLaws t Z string.
Proof.
  split; simpl.
  - apply balance_range.
  - by intros a j j' o [= _ <-].
  - by intros a j j' o [= _ <-].
  - done.
  - intros. by apply balance_update.
  - intros a d j j' b [= <-] Hd Hlt. pose proof (balance_range a j).
    rewrite balance_update by width.
    case_decide; subst; width.
Qed.

(** A legacy transaction. *)
Record tx := mkTx { from : Address; call : bool; value : Z; limit : Z; gas_price : Z; seq : Z }.

#[global] Instance transaction : TransactionEnv tx string := {
  tx_caller := from;
  tx_is_call := call;
  tx_value := value;
  tx_gas_limit := limit;
  effective_gas_price t _ := gas_price t;
  effective_balance_spending t _ _ := Ok (gas_price t * limit t + value t);
}.

Definition check_nonce (n : Z) (t : tx) (_ : ()) : outcome string () :=
  if n =? seq t then Ok () else Err "nonce".
End Ledger.

(** A transfer of 7 by account 1 on the test chain, beneficiary 2, base fee 2000 GWei,
    price 2001 GWei, of whose 50000 gas 21000 is spent. *)
Definition sample_env (balance_of_sender : Z) :
    HandlerEnv Ledger.tx () * Ledger.t * Gas :=
  (mkHandlerEnv Ledger.tx () 2 KASPLEX_BASE_FEE 167012 ()
     (Ledger.mkTx 1 true 7 50000 2001000000000 0),
   Ledger.mkLedger {[ 1 := balance_of_sender ]} ∅,
   mkGas 21000 29000 0).

Definition fit_bound (l : Ledger.t) (m : Z) : bool :=
  bool_decide (map_Forall (λ _ v, 0 ≤ v ∧ v + m < 2 ^ 256) (Ledger.balances l)).

Lemma fit_bound_all l m :
  fit_bound l m = true → 0 ≤ m < 2 ^ 256 → ∀ a, account_balance a l + m < 2 ^ 256.
Proof.
  intros H Hm a. apply bool_decide_eq_true_1 in H.
  simpl. unfold Ledger.balance. destruct (Ledger.balances l !! a) as [v|] eqn:E; simpl.
  - destruct (map_Forall_lookup_1 _ _ _ _ H E) as [Hv Hs]. rewrite wrap_small by width. lia.
  - rewrite wrap_small by (unfold in_width; lia). lia.
Qed.

Lemma sample_in_range b : fees_in_range (sample_env b).1.1 (sample_env b).2.
Proof. split; simpl; unfold in_width, KASPLEX_BASE_FEE; lia. Qed.

(** The state a run of the sample ends in. *)
Definition sample_deducted (b : Z) : Ledger.t :=
  (validate_against_state_and_deduct_caller Ledger.check_nonce (sample_env b).1.1
     (sample_env b).1.2).2.
Definition sample_reimbursed (b : Z) : Ledger.t :=
  (reimburse_caller (sample_env b).1.1 (sample_env b).2 0 (sample_deducted b)).2.
Definition sample_rewarded (b : Z) : Ledger.t :=
  (reward_beneficiary read_address (sample_env b).1.1 (sample_env b).2 (sample_reimbursed b)).2.
Definition treasury_of_sample : Address := get_treasury_address read_address 167012.

Ltac fits := apply fit_bound_all; [vm_compute; reflexivity|vm_compute; split; congruence].

Lemma deduction_charges_only_the_caller_witness :
  account_balance 1 (sample_deducted (10 ^ 18)) = 10 ^ 18 - 2001000000000 * 50000 ∧
  account_balance 2 (sample_deducted (10 ^ 18)) = 0.
Proof.
  pose proof (deduction_charges_only_the_caller (TE := Ledger.transaction) (JO := Ledger.journal) (JL := Ledger.laws) 
    Ledger.check_nonce
    (sample_env (10 ^ 18)).1.1 (sample_env (10 ^ 18)).1.2 (sample_deducted (10 ^ 18)) (Ok ())
    ltac:(vm_compute; reflexivity)) as (sp & Hsp & Hb).
  injection Hsp as <-. split; rewrite Hb; vm_compute; reflexivity.
Defined.

Lemma post_execution_fee_split_witness :
  account_balance treasury_of_sample (sample_rewarded (10 ^ 18)) = 2000000000000 * 21000.
Proof.
  rewrite (post_execution_fee_split (TxError := string) (TE := Ledger.transaction) (JO := Ledger.journal) (JL := Ledger.laws) 
    read_address (sample_env (10 ^ 18)).1.1
    (sample_env (10 ^ 18)).2 (sample_deducted (10 ^ 18)) (sample_reimbursed (10 ^ 18))
    (sample_rewarded (10 ^ 18)) (sample_in_range _) ltac:(fits)
    ltac:(vm_compute; reflexivity) ltac:(vm_compute; reflexivity)).
  vm_compute. reflexivity.
Defined.

(** A sender without money: the transaction leaves 2001 GWei times 50000 more than there was. *)
Lemma fees_change_supply_by_shortfall_witness :
  let A := [1; 2; treasury_of_sample] in
  sumZ (λ a, account_balance a (sample_rewarded 0)) A
  = sumZ (λ a, account_balance a (sample_env 0).1.2) A + 2001000000000 * 50000.
Proof.
  cbv zeta.
  rewrite (fees_change_supply_by_shortfall (TE := Ledger.transaction) (JO := Ledger.journal) (JL := Ledger.laws) 
    Ledger.check_nonce read_address
    (sample_env 0).1.1 (sample_env 0).2 [1; 2; treasury_of_sample]
    (sample_env 0).1.2 (sample_deducted 0) (sample_deducted 0) (sample_reimbursed 0)
    (sample_rewarded 0) (sample_in_range _) eq_refl
    ltac:(by_evaluation) ltac:(by_evaluation) ltac:(by_evaluation) ltac:(by_evaluation)
    ltac:(vm_compute; reflexivity) eq_refl ltac:(fits)
    ltac:(vm_compute; reflexivity) ltac:(vm_compute; reflexivity)).
  vm_compute. reflexivity.
Defined.
