(* ===== verification/EvmWrapper.v ===== *)
(** * The EVM around the handler ([crates/evm/src/alloy.rs], [execution.rs], [evm.rs], [factory.rs])

    [KasplexEvm] runs a transaction with the handler of [EvmHandler.v];
    [KasplexEvmWrapper] chooses between a plain and an inspected run, and runs
    system calls under a block environment it overrides and puts back.  The run of
    the handler by revm and the journal's [finalize] are parameters. *)

From stdpp Require Import prelude gmap strings.
From Stdlib Require Import ZArith Lia.
From S2P Require Import Prelude Types Chainspec Treasury EvmHandler.

(** ** State

    The context of an EVM: the environment, the transaction set last, and the
    journal with the database below it. *)
Record JournaledState {Db Jn : Type} := mkJournaledState { database : Db; entries : Jn }.
Arguments JournaledState : clear implicits.
Arguments mkJournaledState {Db Jn} _ _.

Record KasplexEvmContext {Db Jn Spec : Type} := mkContext {
  ctx_block : BlockEnv.t;
  ctx_cfg : CfgEnv.t Spec;
  ctx_tx : TxEnv.t;
  journaled_state : JournaledState Db Jn;
}.
Arguments KasplexEvmContext : clear implicits.
Arguments mkContext {Db Jn Spec} _ _ _ _.

(** revm's [Evm]: its fields are public. *)
Record RevmEvm {Db Jn Spec Insp P In Fr : Type} := mkRevmEvm {
  ctx : KasplexEvmContext Db Jn Spec;
  inspector : Insp;
  instruction : In;
  evm_precompiles : P;
  frame_stack : Fr;
}.
Arguments RevmEvm : clear implicits.
Arguments mkRevmEvm {Db Jn Spec Insp P In Fr} _ _ _ _ _.

(** [KasplexEvm]; its constructor is [KasplexEvm::new]. *)
Record KasplexEvm {Db Jn Spec Insp P In Fr : Type} := mkKasplexEvm {
  inner : RevmEvm Db Jn Spec Insp P In Fr;
}.
Arguments KasplexEvm : clear implicits.
Arguments mkKasplexEvm {Db Jn Spec Insp P In Fr} _.

(** The constructor is [KasplexEvmWrapper::new], the first field [into_inner]. *)
Record KasplexEvmWrapper {Db Jn Spec Insp P In Fr : Type} := mkWrapper {
  inner_evm : KasplexEvm Db Jn Spec Insp P In Fr;
  inspect : bool;
}.
Arguments KasplexEvmWrapper : clear implicits.
Arguments mkWrapper {Db Jn Spec Insp P In Fr} _ _.

(** The state changes of an execution, and its outcome beside them. *)
Abbreviation EvmState Account := (gmap Address Account).

Record ResultAndState {Res Account : Type} := mkResultAndState {
  result : Res;
  state : EvmState Account;
}.
Arguments ResultAndState : clear implicits.
Arguments mkResultAndState {Res Account} _ _.

(** [Handler::run] and [InspectorHandler::inspect_run] of the Kasplex handler,
    and the journal's [finalize] and the database's [commit]. *)
Class Revm (Db Jn Spec Insp P In Fr Error Res Account : Type) := {
  handler_run : comp (KasplexEvm Db Jn Spec Insp P In Fr) Error Res;
  handler_inspect_run : comp (RevmEvm Db Jn Spec Insp P In Fr) Error Res;
  journal_finalize : JournaledState Db Jn → EvmState Account * JournaledState Db Jn;
  db_commit : EvmState Account → Db → Db;
}.

Section evm.
Context {Db Jn Spec Insp P In Fr Error Res Account : Type}.
Context {R : Revm Db Jn Spec Insp P In Fr Error Res Account}.
Local Abbreviation Context := (KasplexEvmContext Db Jn Spec).
Local Abbreviation Evm := (KasplexEvm Db Jn Spec Insp P In Fr).
Local Abbreviation Wrapper := (KasplexEvmWrapper Db Jn Spec Insp P In Fr).

Local Abbreviation Inner := (RevmEvm Db Jn Spec Insp P In Fr).

Definition revm_with_ctx (f : Context → Context) (e : Inner) : Inner :=
  mkRevmEvm (f (ctx e)) (inspector e) (instruction e) (evm_precompiles e) (frame_stack e).
Definition revm_with_inspector (i : Insp) (e : Inner) : Inner :=
  mkRevmEvm (ctx e) i (instruction e) (evm_precompiles e) (frame_stack e).
Definition revm_with_precompiles (p : P) (e : Inner) : Inner :=
  mkRevmEvm (ctx e) (inspector e) (instruction e) p (frame_stack e).

Definition on_revm (f : Inner → Inner) (e : Evm) : Evm := mkKasplexEvm (f (inner e)).
Definition with_ctx (f : Context → Context) : Evm → Evm := on_revm (revm_with_ctx f).

(** A run of the inner EVM. *)
Definition run_inner {A} (m : comp Inner Error A) : comp Evm Error A := λ e,
  let '(o, i) := m (inner e) in (o, mkKasplexEvm i).

(** ** [KasplexEvm] ([execution.rs]) *)

Definition set_block (b : BlockEnv.t) : Evm → Evm :=
  with_ctx (λ c, mkContext b (ctx_cfg c) (ctx_tx c) (journaled_state c)).

Definition set_tx (tx : TxEnv.t) : Evm → Evm :=
  with_ctx (λ c, mkContext (ctx_block c) (ctx_cfg c) tx (journaled_state c)).

Definition transact_one (tx : TxEnv.t) : comp Evm Error Res :=
  modify (set_tx tx) ;; handler_run.

Definition finalize : comp Evm Error (EvmState Account) := λ e,
  let '(changes, js) := journal_finalize (journaled_state (ctx (inner e))) in
  (Ok changes,
   with_ctx (λ c, mkContext (ctx_block c) (ctx_cfg c) (ctx_tx c) js) e).

Definition replay : comp Evm Error (ResultAndState Res Account) :=
  res ← handler_run;
  changes ← finalize;
  mret (mkResultAndState res changes).

Definition commit (changes : EvmState Account) : Evm → Evm :=
  with_ctx (λ c, mkContext (ctx_block c) (ctx_cfg c) (ctx_tx c)
    (mkJournaledState (db_commit changes (database (journaled_state c)))
       (entries (journaled_state c)))).

Definition set_inspector (i : Insp) : Evm → Evm := on_revm (revm_with_inspector i).

Definition inspect_one_tx (tx : TxEnv.t) : comp Evm Error Res :=
  modify (set_tx tx) ;; run_inner handler_inspect_run.

(** ** [KasplexEvmWrapper] ([alloy.rs]) *)

(** revm's provided [ExecuteEvm::transact] and [InspectEvm::inspect_tx], over the
    methods the implementation supplies: "transact the given transaction and
    finalize in a single operation". *)
Variable provided_transact provided_inspect_tx :
  (TxEnv.t → comp Evm Error Res) → comp Evm Error (EvmState Account) →
  TxEnv.t → comp Evm Error (ResultAndState Res Account).

Definition provided_law
    (provided : (TxEnv.t → comp Evm Error Res) → comp Evm Error (EvmState Account) →
                TxEnv.t → comp Evm Error (ResultAndState Res Account)) : Prop :=
  ∀ one fin tx e,
    provided one fin tx e = (res ← one tx; changes ← fin; mret (mkResultAndState res changes)) e.

Definition transact := provided_transact transact_one finalize.
Definition inspect_tx := provided_inspect_tx inspect_one_tx finalize.

Definition on_inner {A} (m : comp Evm Error A) : comp Wrapper Error A := λ w,
  let '(o, e) := m (inner_evm w) in (o, mkWrapper e (inspect w)).

Definition block (w : Wrapper) : BlockEnv.t := ctx_block (ctx (inner (inner_evm w))).
Definition cfg (w : Wrapper) : CfgEnv.t Spec := ctx_cfg (ctx (inner (inner_evm w))).
Definition chain_id (w : Wrapper) : Z := CfgEnv.chain_id (cfg w).
Definition set_inspector_enabled (enabled : bool) (w : Wrapper) : Wrapper :=
  mkWrapper (inner_evm w) enabled.
Definition components (w : Wrapper) : Db * Insp * P :=
  (database (journaled_state (ctx (inner (inner_evm w)))), inspector (inner (inner_evm w)),
   evm_precompiles (inner (inner_evm w))).
Definition evm_finish (w : Wrapper) : Db * EvmEnv Spec :=
  (database (journaled_state (ctx (inner (inner_evm w)))), mkEvmEnv (block w) (cfg w)).


(** [into_inner], and the references the wrapper gives out: a mutable one is a change
    of what it refers to. *)
Definition into_inner (w : Wrapper) : Evm := inner_evm w.
Definition wrapper_ctx (w : Wrapper) : Context := ctx (inner (inner_evm w)).
Definition ctx_mut (f : Context → Context) (w : Wrapper) : Wrapper :=
  mkWrapper (with_ctx f (inner_evm w)) (inspect w).
Definition deref (w : Wrapper) : Context := wrapper_ctx w.
Definition deref_mut (f : Context → Context) (w : Wrapper) : Wrapper := ctx_mut f w.
Definition db_mut (f : Db → Db) : Wrapper → Wrapper :=
  deref_mut (λ c, mkContext (ctx_block c) (ctx_cfg c) (ctx_tx c)
    (mkJournaledState (f (database (journaled_state c))) (entries (journaled_state c)))).
Definition precompiles (w : Wrapper) : P := evm_precompiles (inner (inner_evm w)).
Definition precompiles_mut (f : P → P) (w : Wrapper) : Wrapper :=
  mkWrapper (on_revm (λ e, revm_with_precompiles (f (evm_precompiles e)) e) (inner_evm w)) (inspect w).
Definition wrapper_inspector (w : Wrapper) : Insp := inspector (inner (inner_evm w)).
Definition inspector_mut (f : Insp → Insp) (w : Wrapper) : Wrapper :=
  mkWrapper (on_revm (λ e, revm_with_inspector (f (inspector e)) e) (inner_evm w)) (inspect w).
Definition components_mut (f : Db → Db) (g : Insp → Insp) (h : P → P) (w : Wrapper) : Wrapper :=
  precompiles_mut h (inspector_mut g (db_mut f w)).

Definition transact_raw (tx : TxEnv.t) : comp Wrapper Error (ResultAndState Res Account) := λ w,
  (if inspect w then on_inner (inspect_tx tx) else on_inner (transact tx)) w.

(** The block and configuration as [ctx_mut] gives access to them. *)
Definition with_env (f : BlockEnv.t → BlockEnv.t) (g : CfgEnv.t Spec → CfgEnv.t Spec)
    (w : Wrapper) : Wrapper :=
  deref_mut (λ c, mkContext (f (ctx_block c)) (g (ctx_cfg c)) (ctx_tx c) (journaled_state c)) w.

(** [core::mem::swap] of a field with a local: the local takes the returned value. *)
Definition swap_gas_limit (v : Z) : comp Wrapper Error Z := λ w,
  (Ok (BlockEnv.gas_limit (block w)), with_env (λ b, BlockEnv.with_gas_limit b v) id w).
Definition swap_basefee (v : Z) : comp Wrapper Error Z := λ w,
  (Ok (BlockEnv.basefee (block w)), with_env (λ b, BlockEnv.with_basefee b v) id w).
Definition swap_disable_nonce_check (v : bool) : comp Wrapper Error bool := λ w,
  (Ok (CfgEnv.disable_nonce_check (cfg w)),
   with_env id (λ c, CfgEnv.with_disable_nonce_check c v) w).

Definition system_call_tx (caller contract : Address) (data : Bytes) : TxEnv.t :=
  TxEnv.mk 0 caller 30000000 0 (Call contract) 0 data 0 None None 0.

(** [res.state.retain(|addr, _| *addr == contract)] *)
Definition retain_contract (contract : Address) (r : ResultAndState Res Account)
    : ResultAndState Res Account :=
  mkResultAndState (result r) (filter (λ kv, kv.1 = contract) (state r)).

Definition transact_system_call (caller contract : Address) (data : Bytes)
    : comp Wrapper Error (ResultAndState Res Account) :=
  let tx := system_call_tx caller contract data in
  gas_limit ← swap_gas_limit (TxEnv.gas_limit tx);
  basefee ← swap_basefee 0;
  disable_nonce_check ← swap_disable_nonce_check true;
  res ← try (transact_raw tx);
  _ ← swap_gas_limit gas_limit;
  _ ← swap_basefee basefee;
  _ ← swap_disable_nonce_check disable_nonce_check;
  match res with
  | inr res => mret (retain_contract contract res)
  | inl e => fail e
  end.

(** ** [KasplexEvmFactory] ([factory.rs])

    revm's builder starts from an empty context; the precompiles are the ones of
    the specification. *)
Variable mainnet_instructions : In.
Variable empty_frames : Fr.
Variable fresh_journal : Jn.
Variable default_tx : TxEnv.t.
Variable precompiles_of_spec : Spec → P.
Variable no_op_inspector : Insp.

Definition build_evm (db : Db) (input : EvmEnv Spec) (i : Insp) : Evm :=
  mkKasplexEvm (mkRevmEvm
    (mkContext (block_env input) (cfg_env input) default_tx
       (mkJournaledState db fresh_journal))
    i mainnet_instructions (precompiles_of_spec (CfgEnv.spec (cfg_env input))) empty_frames).

Definition create_evm (db : Db) (input : EvmEnv Spec) : Wrapper :=
  mkWrapper (build_evm db input no_op_inspector) false.

Definition create_evm_with_inspector (db : Db) (input : EvmEnv Spec) (i : Insp) : Wrapper :=
  mkWrapper (build_evm db input i) true.
End evm.

(** ** Lemmas *)

Section lemmas.
Context {Db Jn Spec Insp P In Fr Error Res Account : Type}.
Context {R : Revm Db Jn Spec Insp P In Fr Error Res Account}.
Local Abbreviation Evm := (KasplexEvm Db Jn Spec Insp P In Fr).
Local Abbreviation Wrapper := (KasplexEvmWrapper Db Jn Spec Insp P In Fr).
Variable provided_transact provided_inspect_tx :
  (TxEnv.t → comp Evm Error Res) → comp Evm Error (EvmState Account) →
  TxEnv.t → comp Evm Error (ResultAndState Res Account).
Hypothesis transact_law : provided_law provided_transact.
Hypothesis inspect_tx_law : provided_law provided_inspect_tx.

(** One execution: the handler's run, plain or inspected, and the journal's changes. *)
Definition execution (inspected : bool) (tx : TxEnv.t)
    : comp Evm Error (ResultAndState Res Account) :=
  modify (set_tx tx) ;;
  res ← (if inspected then run_inner handler_inspect_run else handler_run);
  changes ← finalize;
  mret (mkResultAndState res changes).

Lemma transact_raw_execution tx w :
  transact_raw provided_transact provided_inspect_tx tx w
  = on_inner (execution (inspect w) tx) w.
Proof using transact_law inspect_tx_law.
  unfold transact_raw, on_inner, transact, inspect_tx, execution.
  destruct w as [e []]; simpl; rewrite ?transact_law, ?inspect_tx_law;
    unfold transact_one, inspect_one_tx; run; done.
Qed.

(** The environment a system call runs under, and the one it leaves. *)
Definition system_env : Wrapper → Wrapper :=
  with_env (λ b, BlockEnv.with_basefee (BlockEnv.with_gas_limit b 30000000) 0)
    (λ c, CfgEnv.with_disable_nonce_check c true).

Definition restore_env (before : Wrapper) : Wrapper → Wrapper :=
  with_env
    (λ b, BlockEnv.with_basefee
            (BlockEnv.with_gas_limit b (BlockEnv.gas_limit (block before)))
            (BlockEnv.basefee (block before)))
    (λ c, CfgEnv.with_disable_nonce_check c (CfgEnv.disable_nonce_check (cfg before))).

Lemma transact_system_call_run caller contract data w :
  transact_system_call provided_transact provided_inspect_tx caller contract data w =
  match on_inner (execution (inspect w) (system_call_tx caller contract data)) (system_env w) with
  | (Ok r, w1) => (Ok (retain_contract contract r), restore_env w w1)
  | (Err e, w1) => (Err e, restore_env w w1)
  | (Panicked, w1) => (Panicked, w1)
  end.
Proof using transact_law inspect_tx_law.
  unfold transact_system_call.
  do 3 (erewrite bind_Ok by reflexivity). unfold try at 1.
  unfold mbind at 1, comp_bind at 1.
  rewrite transact_raw_execution.
  change (inspect _) with (inspect w) at 1.
  destruct w as [[[[b c tx js] i ins p fs]] insp]. simpl.
  unfold system_env, with_env, with_ctx. simpl.
  destruct (on_inner _ _) as [[r|e|] w1]; [..|done]; by do 3 (erewrite bind_Ok by reflexivity).
Qed.
End lemmas.

(** ** Use of an EVM

    What a caller does with one: transactions and system calls, whose errors it may
    pass over, and changes through the references the wrapper gives out. *)
Inductive evm_op {Db Insp P : Type} : Type :=
| Transact (tx : TxEnv.t)
| SystemCall (caller contract : Address) (data : Bytes)
| EnableInspector (enabled : bool)
| Components (f : Db → Db) (g : Insp → Insp) (h : P → P).
Arguments evm_op : clear implicits.

Section use.
Context {Db Jn Spec Insp P In Fr Error Res Account : Type}.
Context {R : Revm Db Jn Spec Insp P In Fr Error Res Account}.
Local Abbreviation Evm := (KasplexEvm Db Jn Spec Insp P In Fr).
Local Abbreviation Wrapper := (KasplexEvmWrapper Db Jn Spec Insp P In Fr).
Variable provided_transact provided_inspect_tx :
  (TxEnv.t → comp Evm Error Res) → comp Evm Error (EvmState Account) →
  TxEnv.t → comp Evm Error (ResultAndState Res Account).
Hypothesis transact_law : provided_law provided_transact.
Hypothesis inspect_tx_law : provided_law provided_inspect_tx.

Definition run_evm_op (op : evm_op Db Insp P) : comp Wrapper Error () :=
  match op with
  | Transact tx => try (transact_raw provided_transact provided_inspect_tx tx) ;; mret ()
  | SystemCall caller contract data =>
      try (transact_system_call provided_transact provided_inspect_tx caller contract data) ;; mret ()
  | EnableInspector enabled => modify (set_inspector_enabled enabled)
  | Components f g h => modify (components_mut f g h)
  end.

Definition run_evm_ops (ops : list (evm_op Db Insp P)) : comp Wrapper Error () :=
  for_in ops () (λ _, run_evm_op).

Definition same_env (c d : KasplexEvmContext Db Jn Spec) : Prop :=
  ctx_block d = ctx_block c ∧ ctx_cfg d = ctx_cfg c.

Hypothesis handler_env_law : ∀ e, same_env (ctx (inner e)) (ctx (inner (handler_run e).2)).
Hypothesis inspect_env_law : ∀ e, same_env (ctx e) (ctx (handler_inspect_run e).2).

Definition same_wrapper_env (w w' : Wrapper) : Prop := same_env (wrapper_ctx w) (wrapper_ctx w').

#[local] Instance same_wrapper_env_preorder : PreOrder same_wrapper_env.
Proof. split; [by intros w|]. intros w1 w2 w3 [H1 H2] [H3 H4]. split; congruence. Qed.

Lemma execution_env inspected tx (e : Evm) :
  same_env (ctx (inner e)) (ctx (inner (execution inspected tx e).2)).
Proof using handler_env_law inspect_env_law.
  unfold execution. run. destruct inspected; unfold mbind, comp_bind, run_inner.
  - pose proof (inspect_env_law (inner (set_tx tx e))) as H.
    destruct (handler_inspect_run (inner (set_tx tx e))) as [[res|err|] i]; try exact H.
    unfold finalize. by destruct (journal_finalize _).
  - pose proof (handler_env_law (set_tx tx e)) as H.
    destruct (handler_run (set_tx tx e)) as [[res|err|] e']; try exact H.
    unfold finalize. by destruct (journal_finalize _).
Qed.

Lemma on_inner_execution_env inspected tx (w : Wrapper) :
  same_wrapper_env w (on_inner (execution inspected tx) w).2.
Proof using handler_env_law inspect_env_law.
  unfold on_inner. pose proof (execution_env inspected tx (inner_evm w)).
  by destruct (execution inspected tx (inner_evm w)).
Qed.

(** A system call that does not panic leaves the environment as it was. *)
Lemma system_call_env caller contract data (w : Wrapper) o w' :
  transact_system_call provided_transact provided_inspect_tx caller contract data w = (o, w') →
  o ≠ Panicked → same_wrapper_env w w'.
Proof using All.
  rewrite (transact_system_call_run _ _ transact_law inspect_tx_law). intros H Ho.
  pose proof (on_inner_execution_env (inspect w) (system_call_tx caller contract data)
    (system_env w)) as Henv.
  destruct (on_inner _ _) as [[res|err|] w1]; simplify_eq; destruct Henv as [Hb Hc];
    destruct w as [[[[[] [] tx js] i ins p fs]] insp]; unfold same_wrapper_env, same_env, wrapper_ctx in *;
    simpl in *; by rewrite Hb, Hc.
Qed.

Lemma run_evm_op_env op (w w' : Wrapper) :
  run_evm_op op w = (Ok (), w') → same_wrapper_env w w'.
Proof using All.
  destruct op as [tx|caller contract data|b|f g h]; simpl; [| |by intros [= <-]..];
    unfold try, mbind at 1, comp_bind at 1.
  - rewrite (transact_raw_execution _ _ transact_law inspect_tx_law).
    pose proof (on_inner_execution_env (inspect w) tx w) as H.
    destruct (on_inner _ _) as [[res|err|] w1]; by intros [= <-].
  - destruct (transact_system_call _ _ _ _ _ w) as [[res|err|] w1] eqn:E; intros [= <-];
      by eapply system_call_env.
Qed.

Lemma run_evm_ops_env ops (w w' : Wrapper) :
  run_evm_ops ops w = (Ok (), w') → same_wrapper_env w w'.
Proof using All.
  unfold run_evm_ops. revert w. induction ops as [|op ops IH]; intros w; simpl.
  { by intros [= <-]. }
  intros ([] & w1 & H1 & H2)%bind_Ok_inv. etrans; [by eapply run_evm_op_env|]. by apply IH.
Qed.
End use.

(** The environment the hooks of [EvmHandler.v] see. *)
Definition handler_env {Db Jn Spec Insp P In Fr} (w : KasplexEvmWrapper Db Jn Spec Insp P In Fr)
    (tx : TxEnv.t) : HandlerEnv TxEnv.t (CfgEnv.t Spec) :=
  mkHandlerEnv _ _ (BlockEnv.beneficiary (block w)) (BlockEnv.basefee (block w)) (chain_id w)
    (cfg w) tx.

(** revm's transaction interface on its own environment, for legacy transactions. *)
Class LegacyTransactions (TxError : Type) `{TransactionEnv TxEnv.t TxError} : Prop := {
  legacy_caller tx : tx_caller tx = TxEnv.caller tx;
  legacy_value tx : tx_value tx = TxEnv.value tx;
  legacy_price tx basefee :
    TxEnv.tx_type tx = 0 → effective_gas_price tx basefee = TxEnv.gas_price tx;
  legacy_spending tx basefee blob :
    TxEnv.tx_type tx = 0 →
    effective_balance_spending tx basefee blob
      = Ok (TxEnv.gas_price tx * TxEnv.gas_limit tx + TxEnv.value tx);
}.

(** ** Properties *)

Section properties.
Context {Db Jn Spec Insp P In Fr Error Res Account : Type}.
Context {R : Revm Db Jn Spec Insp P In Fr Error Res Account}.
Local Abbreviation Evm := (KasplexEvm Db Jn Spec Insp P In Fr).
Local Abbreviation Wrapper := (KasplexEvmWrapper Db Jn Spec Insp P In Fr).
Variable provided_transact provided_inspect_tx :
  (TxEnv.t → comp Evm Error Res) → comp Evm Error (EvmState Account) →
  TxEnv.t → comp Evm Error (ResultAndState Res Account).

(** C25 A system call executes its transaction, plain or inspected as the wrapper is
    set, under a gas limit that covers it, base fee 0 and no nonce check.  Whether
    the execution succeeds or fails, afterwards the three fields have the values
    they had before, everything else is as the execution left it, and the reported
    changes are those of the called contract only. *)
Theorem system_call_restores_environment
    (Ht : provided_law provided_transact) (Hi : provided_law provided_inspect_tx)
    caller contract data (w : Wrapper) o w'
    (Hrun : transact_system_call provided_transact provided_inspect_tx caller contract data w
            = (o, w'))
    (Ho : o ≠ Panicked) :
  BlockEnv.gas_limit (block w') = BlockEnv.gas_limit (block w) ∧
  BlockEnv.basefee (block w') = BlockEnv.basefee (block w) ∧
  CfgEnv.disable_nonce_check (cfg w') = CfgEnv.disable_nonce_check (cfg w) ∧
  ∃ o1 w1,
    on_inner (execution (inspect w) (system_call_tx caller contract data)) (system_env w)
      = (o1, w1) ∧
    w' = restore_env w w1 ∧
    match o, o1 with
    | Ok r, Ok r1 => result r = result r1 ∧
        ∀ a, state r !! a = if decide (a = contract) then state r1 !! a else None
    | Err e, Err e1 => e = e1
    | _, _ => False
    end.
Proof.
  rewrite (transact_system_call_run _ _ Ht Hi) in Hrun.
  destruct (on_inner _ _) as [[r|e|] w1] eqn:E; injection Hrun as <- <-; [..|done].
  all: do 3 (split; [done|]); do 2 eexists; do 2 (split; [done|]).
  2: done.
  split; [done|]. intros a. simpl. case_decide as Ha.
  - apply option_eq. intros x. rewrite map_lookup_filter_Some. naive_solver.
  - apply map_lookup_filter_None. right. intros x _ ?. done.
Qed.

(** The environment an EVM was made with is the one it gives back: however many
    transactions and system calls are run on it, plain or inspected, with success or
    error, and whatever is done to its database, inspector and precompiles between
    them, [finish] returns the block environment and the configuration [create_evm]
    was given, if the runs of the handler themselves do not set them. *)
Theorem finished_evm_returns_its_environment
    (Ht : provided_law provided_transact) (Hi : provided_law provided_inspect_tx)
    (Hrun : ∀ e, same_env (ctx (inner e)) (ctx (inner (handler_run e).2)))
    (Hinspect : ∀ e, same_env (ctx e) (ctx (handler_inspect_run e).2))
    (instructions : In) (frames : Fr) (journal : Jn) (tx0 : TxEnv.t) (specs : Spec → P) (i0 : Insp)
    db input i ops w' :
  (run_evm_ops provided_transact provided_inspect_tx ops
     (create_evm instructions frames journal tx0 specs i0 db input) = (Ok (), w') ∨
   run_evm_ops provided_transact provided_inspect_tx ops
     (create_evm_with_inspector instructions frames journal tx0 specs db input i) = (Ok (), w')) →
  (evm_finish w').2 = input.
Proof.
  pose proof (run_evm_ops_env _ _ Ht Hi Hrun Hinspect ops) as H.
  intros [E|E]; apply H in E as [Hb Hc]; unfold evm_finish, block, cfg, wrapper_ctx in *; simpl in *;
    destruct input; simpl in *; by rewrite Hb, Hc.
Qed.

(** A system call pays nothing: whatever gas it uses, none of the three fee hooks
    run under its environment changes a balance when it succeeds. *)
Theorem system_call_moves_no_fees {TxError J Info DbError : Type}
    {TE : TransactionEnv TxEnv.t TxError} {LT : LegacyTransactions TxError}
    {JO : Journal J Info DbError} {JL : JournalLaws J Info DbError}
    validate_code from_str caller contract data (w : Wrapper) gas (j j' : J)
    (Hstep :
      let env := handler_env (system_env w) (system_call_tx caller contract data) in
      validate_against_state_and_deduct_caller validate_code env j = (Ok (), j') ∨
      handler_reimburse_caller (TxError := TxError) env gas j = (Ok (), j') ∨
      handler_reward_beneficiary (TxError := TxError) from_str env gas j = (Ok (), j')) :
  changes_no_balance j j'.
Proof.
  cbv zeta in Hstep. set (env := handler_env _ _) in Hstep.
  assert (Hp : effective_gas_price (env_tx env) 0 = 0) by by rewrite legacy_price.
  assert (Hbf : block_basefee env = 0) by done.
  assert (Hmul : ∀ z, saturating_mul 128 0 z = 0) by (intros; width).
  destruct Hstep as [H|[H|H]].
  - intros a. destruct (deduct_Ok _ _ _ _ H) as (sp & Hsp & ->).
    rewrite Hbf, legacy_spending in Hsp by done. injection Hsp as <-.
    cbv zeta. case_decide; [|done]. rewrite legacy_value. subst a. simpl.
    pose proof (account_balance_range (tx_caller (system_call_tx caller contract data)) j).
    width.
  - apply map_err_Ok_inv in H. intros a.
    assert (Hr : refund_amount env gas 0 = 0).
    { unfold refund_amount. rewrite Hbf, Hp, Hmul. done. }
    rewrite (reimburse_Ok _ _ _ _ _ H); rewrite ?Hr; [case_decide; lia|done|].
    pose proof (account_balance_range (tx_caller (env_tx env)) j). width.
  - apply map_err_Ok_inv in H. intros a.
    assert (Htip : reward_tip env gas = 0).
    { unfold reward_tip. rewrite Hbf, Hp. done. }
    assert (Hbase : reward_base_fee env gas = 0).
    { unfold reward_base_fee. by rewrite Hbf, Hmul. }
    rewrite (reward_Ok _ _ _ _ _ H); rewrite ?Htip, ?Hbase; [repeat case_decide; lia|done..| |].
    + pose proof (account_balance_range (block_beneficiary env) j). width.
    + pose proof (account_balance_range
        (get_treasury_address from_str (cfg_chain_id env)) j). width.
Qed.
End properties.

(** ** Concrete executions *)

(** A machine that records the base fee it saw under every account it touches. *)
Module Touching.
Definition touch (e : KasplexEvm () (gmap Address Z) () () () () ()) :
    KasplexEvm () (gmap Address Z) () () () () () :=
  let c := ctx (inner e) in
  let seen := BlockEnv.basefee (ctx_block c) in
  let target := match TxEnv.kind (ctx_tx c) with Call a => a | Create => 0 end in
  with_ctx (λ c, mkContext (ctx_block c) (ctx_cfg c) (ctx_tx c)
    (mkJournaledState ()
       (<[target := seen]> (<[TxEnv.caller (ctx_tx c) := seen]>
          (<[BlockEnv.beneficiary (ctx_block c) := seen]> (entries (journaled_state c))))))) e.

#[global] Instance machine : Revm () (gmap Address Z) () () () () () string Z Z := {
  handler_run := modify touch ;; mret 21000;
  handler_inspect_run := modify (λ e, inner (touch (mkKasplexEvm e))) ;; fail "inspected";
  journal_finalize js := (entries js, mkJournaledState (database js) ∅);
  db_commit _ _ := ();
}.

Definition provided
    (one : TxEnv.t → comp (KasplexEvm () (gmap Address Z) () () () () ()) string Z)
    (fin : comp (KasplexEvm () (gmap Address Z) () () () () ()) string (EvmState Z)) tx :=
  res ← one tx; changes ← fin; mret (mkResultAndState res changes).

Definition evm : KasplexEvmWrapper () (gmap Address Z) () () () () () :=
  create_evm () () ∅ (TxEnv.mk 0 0 0 0 Create 0 [] 0 None None 0) (λ _, ()) () ()
    (mkEvmEnv (BlockEnv.mk 5 77 1000 45000000 KASPLEX_BASE_FEE 0 None)
       (CfgEnv.mk 167012 false ())).

#[global] Instance transaction : TransactionEnv TxEnv.t string := {
  tx_caller := TxEnv.caller;
  tx_is_call t := match TxEnv.kind t with Call _ => true | Create => false end;
  tx_value := TxEnv.value;
  tx_gas_limit := TxEnv.gas_limit;
  effective_gas_price t _ := TxEnv.gas_price t;
  effective_balance_spending t _ _ :=
    Ok (TxEnv.gas_price t * TxEnv.gas_limit t + TxEnv.value t);
}.

#[global] Instance legacy : LegacyTransactions string.
Proof. by split. Qed.
End Touching.

Lemma system_call_restores_environment_witness :
  let r := transact_system_call Touching.provided Touching.provided 9 8 [] Touching.evm in
  block r.2 = block Touching.evm ∧
  ∃ o, r.1 = Ok o ∧ state o !! 8 = Some 0 ∧ state o !! 77 = None.
Proof.
  cbv zeta.
  pose proof (system_call_restores_environment Touching.provided Touching.provided
    ltac:(done) ltac:(done) 9 8 [] Touching.evm _ _ (surjective_pairing _) ltac:(done))
    as (_ & _ & _ & o1 & w1 & E & _ & Hm).
  injection E as <- _. split; [vm_compute; reflexivity|]. eexists. split; [reflexivity|].
  destruct Hm as [_ Hm]. split.
  - etrans; [apply (Hm 8)|]. vm_compute. reflexivity.
  - etrans; [apply (Hm 77)|]. vm_compute. reflexivity.
Defined.

Lemma system_call_moves_no_fees_witness :
  let env := handler_env (system_env Touching.evm) (system_call_tx 9 8 []) in
  let j := Ledger.mkLedger {[ 9 := 10 ^ 18 ]} ∅ in
  changes_no_balance j
    (validate_against_state_and_deduct_caller (TE := Touching.transaction) (λ _ _ _, Ok ()) env j).2.
Proof.
  cbv zeta.
  apply (system_call_moves_no_fees (TE := Touching.transaction) (LT := Touching.legacy)
    (JO := Ledger.journal) (JL := Ledger.laws) (λ _ _ _, Ok ()) read_address 9 8 [] Touching.evm
    (mkGas 21000 0 0)).
  left. reflexivity.
Defined.

(** A transaction, a system call whose inspected run fails, and another transaction. *)
Definition touching_ops : list (evm_op () () ()) :=
  [Transact (system_call_tx 1 2 []); EnableInspector true; SystemCall 9 8 [];
   EnableInspector false; Transact (system_call_tx 3 4 [])].
Definition touched : KasplexEvmWrapper () (gmap Address Z) () () () () () :=
  (run_evm_ops Touching.provided Touching.provided touching_ops Touching.evm).2.

Lemma finished_evm_returns_its_environment_witness :
  (evm_finish touched).2
  = mkEvmEnv (BlockEnv.mk 5 77 1000 45000000 KASPLEX_BASE_FEE 0 None) (CfgEnv.mk 167012 false ()).
Proof.
  apply (finished_evm_returns_its_environment Touching.provided Touching.provided
    ltac:(done) ltac:(done) ltac:(done) ltac:(done) () () ∅
    (TxEnv.mk 0 0 0 0 Create 0 [] 0 None None 0) (λ _, ()) () () _ () touching_ops touched).
  left. vm_compute. reflexivity.
Defined.
