(* ===== verification/EvmFrames.v ===== *)
(** * The frames of an EVM ([crates/evm/src/evm.rs])

    revm's handlers drive an EVM through the trait [EvmTr]: its context, instructions,
    precompiles and frame stack, and the three operations on frames.  [KasplexEvm]
    hands every one of them to the revm EVM it wraps. *)

From stdpp Require Import prelude.
From S2P Require Import Prelude EvmWrapper.

(** [EvmTr]: a shared reference is a projection, a mutable one a change of what it
    refers to. *)
Class EvmTr (E Ctx Instr Pre Stack Init Result Item RunItem Err : Type) := {
  all : E → Ctx * Instr * Pre * Stack;
  all_mut : (Ctx * Instr * Pre * Stack → Ctx * Instr * Pre * Stack) → E → E;
  ctx : (Ctx → Ctx) → E → E;
  ctx_ref : E → Ctx;
  ctx_instructions : (Ctx * Instr → Ctx * Instr) → E → E;
  frame_stack : (Stack → Stack) → E → E;
  frame_init : Init → comp E Err Item;
  frame_run : comp E Err RunItem;
  frame_return_result : Result → comp E Err (option Result);
  ctx_precompiles : (Ctx * Pre → Ctx * Pre) → E → E;
}.

(** [KasplexEvm] over the revm EVM it wraps. *)
Section forwarding.
Context {Db Jn Spec Insp P In Fr : Type}.
Local Abbreviation Inner := (RevmEvm Db Jn Spec Insp P In Fr).
Local Abbreviation Evm := (KasplexEvm Db Jn Spec Insp P In Fr).
Context {Ctx Instr Pre Stack Init Result Item RunItem Err : Type}.
Context {RT : EvmTr Inner Ctx Instr Pre Stack Init Result Item RunItem Err}.

#[export] Instance kasplex_evm_tr : EvmTr Evm Ctx Instr Pre Stack Init Result Item RunItem Err := {
  all e := all (inner e);
  all_mut f := on_revm (all_mut f);
  ctx f := on_revm (ctx f);
  ctx_ref e := ctx_ref (inner e);
  ctx_instructions f := on_revm (ctx_instructions f);
  frame_stack f := on_revm (frame_stack f);
  frame_init frame_input := run_inner (frame_init frame_input);
  frame_run := run_inner frame_run;
  frame_return_result frame_result := run_inner (frame_return_result frame_result);
  ctx_precompiles f := on_revm (ctx_precompiles f);
}.
End forwarding.

(** ** Programs over the trait

    What a handler can do with an EVM: a tree of uses of the trait, each of which may
    depend on the answers to those before it. *)
Section programs.
Context {Ctx Instr Pre Stack Init Result Item RunItem Err : Type}.

Inductive frame_use : Type :=
| UseAll
| UseAllMut (f : Ctx * Instr * Pre * Stack → Ctx * Instr * Pre * Stack)
| UseCtx (f : Ctx → Ctx)
| UseCtxRef
| UseCtxInstructions (f : Ctx * Instr → Ctx * Instr)
| UseFrameStack (f : Stack → Stack)
| UseFrameInit (i : Init)
| UseFrameRun
| UseFrameReturn (r : Result)
| UseCtxPrecompiles (f : Ctx * Pre → Ctx * Pre).

Definition answer (u : frame_use) : Type :=
  match u with
  | UseAll => Ctx * Instr * Pre * Stack
  | UseCtxRef => Ctx
  | UseFrameInit _ => Item
  | UseFrameRun => RunItem
  | UseFrameReturn _ => option Result
  | UseAllMut _ | UseCtx _ | UseCtxInstructions _ | UseFrameStack _ | UseCtxPrecompiles _ => ()
  end.

Inductive program (A : Type) : Type :=
| Return (a : A)
| Fail (e : Err)
| Use (u : frame_use) (k : Err + answer u → program A).
Arguments Return {A} a.
Arguments Fail {A} e.
Arguments Use {A} u k.

Section run.
Context {E : Type} {ET : EvmTr E Ctx Instr Pre Stack Init Result Item RunItem Err}.

Definition run_use (u : frame_use) : comp E Err (answer u) :=
  match u return comp E Err (answer u) with
  | UseAll => gets all
  | UseAllMut f => modify (all_mut f)
  | UseCtx f => modify (ctx f)
  | UseCtxRef => gets ctx_ref
  | UseCtxInstructions f => modify (ctx_instructions f)
  | UseFrameStack f => modify (frame_stack f)
  | UseFrameInit i => frame_init i
  | UseFrameRun => frame_run
  | UseFrameReturn r => frame_return_result r
  | UseCtxPrecompiles f => modify (ctx_precompiles f)
  end.

(** The program sees an error of a use and may go on; a panic ends it. *)
Fixpoint run_program {A} (p : program A) : comp E Err A :=
  match p with
  | Return a => mret a
  | Fail e => fail e
  | Use u k => r ← try (run_use u); run_program (k r)
  end.
End run.
End programs.
Arguments frame_use : clear implicits.
Arguments program : clear implicits.

Section properties.
Context {Db Jn Spec Insp P In Fr : Type}.
Local Abbreviation Inner := (RevmEvm Db Jn Spec Insp P In Fr).
Context {Ctx Instr Pre Stack Init Result Item RunItem Err : Type}.
Context {RT : EvmTr Inner Ctx Instr Pre Stack Init Result Item RunItem Err}.

Lemma run_use_inner (u : frame_use Ctx Instr Pre Stack Init Result) (r : Inner) :
  run_use u (mkKasplexEvm r) = let '(o, r') := run_use (Err := Err) u r in (o, mkKasplexEvm r').
Proof. by destruct u. Qed.

(** Frames run on a Kasplex EVM as on the revm EVM inside it: any program over the
    trait, whatever it makes of the answers and errors, ends on the one as on the
    other, with the same result, and leaves the inner EVM the same.  So a handler's
    frame loop cannot tell them apart, and only the handler's own hooks differ. *)
Theorem frames_run_as_on_the_inner_evm {A}
    (p : program Ctx Instr Pre Stack Init Result Item RunItem Err A) (r : Inner) :
  run_program p (mkKasplexEvm r) = let '(o, r') := run_program p r in (o, mkKasplexEvm r').
Proof.
  revert r. induction p as [a|e|u k IH]; intros r; [done..|]. simpl.
  unfold mbind, comp_bind, try. rewrite run_use_inner.
  destruct (run_use u r) as [[x|e|] r']; [apply IH..|done].
Qed.
End properties.
