(* ===== verification/Consensus.v ===== *)
(** * Header and block validation ([crates/consensus/src/validation.rs])

    [KasplexBeaconConsensus]: the checks of a header on its own and against its
    parent, with the base fee fixed at 2000 GWei and equal timestamps allowed.
    reth's shared validators are parameters. *)

From stdpp Require Import prelude strings.
From Stdlib Require Import ZArith Lia.
From S2P Require Import Prelude Types.

Definition KASPLEX_BASE_FEE : Z := 2000000000000.

(** The errors the source names; [Validator] are the ones of reth's own checks. *)
Inductive ConsensusError (E : Type) : Type :=
| TheMergeDifficultyIsNotZero
| TheMergeNonceIsNotZero
| TheMergeOmmerRootIsNotEmpty
| BaseFeeMissing
| BaseFeeDiff (got expected : Z)
| TimestampIsInPast (parent_timestamp timestamp : Z)
| Validator (e : E).
Arguments TheMergeDifficultyIsNotZero {E}.
Arguments TheMergeNonceIsNotZero {E}.
Arguments TheMergeOmmerRootIsNotEmpty {E}.
Arguments BaseFeeMissing {E}.
Arguments BaseFeeDiff {E} got expected.
Arguments TimestampIsInPast {E} parent_timestamp timestamp.
Arguments Validator {E} e.

(** reth's validators, and the hash of the empty list of ommers. *)
Class Validators (Spec Body Receipt E : Type) := {
  EMPTY_OMMER_ROOT_HASH : B256;
  validate_header_extra_data : Header.t → Z → outcome E ();
  validate_header_gas : Header.t → outcome E ();
  validate_header_base_fee : Header.t → Spec → outcome E ();
  validate_against_parent_hash_number : Header.t → SealedHeader → outcome E ();
  reth_validate_body_against_header : Body → Header.t → outcome E ();
  reth_validate_block_post_execution :
    Header.t → Spec → list Receipt → list Bytes → option (B256 * Z) → outcome E ();
}.

Section consensus.
Context {Spec Body Receipt E : Type} {V : Validators Spec Body Receipt E}.
Local Abbreviation Result := (outcome (ConsensusError E) ()).

Record KasplexBeaconConsensus := mkConsensus { chain_spec : Spec }.

Definition validate_kasplex_base_fee_in_header (header : Header.t) : Result :=
  match Header.base_fee_per_gas header with
  | None => Err BaseFeeMissing
  | Some base_fee =>
      let expected_base_fee := KASPLEX_BASE_FEE in
      if negb (base_fee =? expected_base_fee)
      then Err (BaseFeeDiff base_fee expected_base_fee)
      else Ok ()
  end.

Definition validate_header (self : KasplexBeaconConsensus) (header : SealedHeader) : Result :=
  let header := sealed_header header in
  if negb (Header.difficulty header =? 0) then Err TheMergeDifficultyIsNotZero
  else if negb (Header.nonce header =? 0) then Err TheMergeNonceIsNotZero
  else if negb (Header.ommers_hash header =? EMPTY_OMMER_ROOT_HASH)
  then Err TheMergeOmmerRootIsNotEmpty
  else
    _ ← outcome_map_err Validator (validate_header_extra_data header 32);
    _ ← outcome_map_err Validator (validate_header_gas header);
    _ ← outcome_map_err Validator (validate_header_base_fee header (chain_spec self));
    validate_kasplex_base_fee_in_header header.

Definition validate_header_against_parent (self : KasplexBeaconConsensus)
    (header parent : SealedHeader) : Result :=
  _ ← outcome_map_err Validator
        (validate_against_parent_hash_number (sealed_header header) parent);
  match Header.base_fee_per_gas (sealed_header header) with
  | None => Err BaseFeeMissing
  | Some header_base_fee =>
      let timestamp := Header.timestamp (sealed_header header) in
      let parent_timestamp := Header.timestamp (sealed_header parent) in
      if timestamp <? parent_timestamp
      then Err (TimestampIsInPast parent_timestamp timestamp)
      else
        let expected_base_fee := KASPLEX_BASE_FEE in
        if negb (header_base_fee =? expected_base_fee)
        then Err (BaseFeeDiff header_base_fee expected_base_fee)
        else Ok ()
  end.

Definition validate_body_against_header (self : KasplexBeaconConsensus) (body : Body)
    (header : SealedHeader) : Result :=
  outcome_map_err Validator (reth_validate_body_against_header body (sealed_header header)).

Definition validate_block_pre_execution {B} (self : KasplexBeaconConsensus) (_block : B) : Result :=
  Ok ().

Definition validate_block_post_execution (self : KasplexBeaconConsensus) (block : Header.t)
    (result : BlockExecutionResult Receipt) (state_root_and_bloom : option (B256 * Z)) : Result :=
  outcome_map_err Validator
    (reth_validate_block_post_execution block (chain_spec self) (result_receipts result)
       (result_requests result) state_root_and_bloom).
End consensus.
Arguments KasplexBeaconConsensus : clear implicits.
Arguments mkConsensus {Spec} chain_spec.

(** The three public helpers on a [U256] base fee. *)
Definition calculate_kasplex_base_fee : Z := KASPLEX_BASE_FEE.
Definition get_kasplex_base_fee : Z := KASPLEX_BASE_FEE.
Definition validate_kasplex_base_fee (base_fee : option Z) : bool :=
  match base_fee with Some fee => fee =? KASPLEX_BASE_FEE | None => false end.

(** ** Lemmas *)

Lemma validator_bind_Ok {E A} (o : outcome E ()) (k : () → outcome (ConsensusError E) A) a :
  outcome_map_err Validator o ≫= k = Ok a ↔ o = Ok () ∧ k () = Ok a.
Proof. destruct o as [[]|e|]; unfold mbind, outcome_mbind; simpl; naive_solver. Qed.

(** What reth documents of its parent check. *)
Definition parent_hash_number_law {Spec Body Receipt E} (V : Validators Spec Body Receipt E) : Prop :=
  ∀ h p, validate_against_parent_hash_number h p = Ok () →
    Header.number h = Header.number (sealed_header p) + 1 ∧
    Header.parent_hash h = sealed_header_hash p.

(** And of its gas check. *)
Definition header_gas_law {Spec Body Receipt E} (V : Validators Spec Body Receipt E) : Prop :=
  ∀ h, validate_header_gas h = Ok () → Header.gas_used h ≤ Header.gas_limit h.

Section lemmas.
Context {Spec Body Receipt E : Type} {V : Validators Spec Body Receipt E}.
Implicit Types (c : KasplexBeaconConsensus Spec) (h p : SealedHeader).

Lemma base_fee_in_header_Ok (h : Header.t) :
  validate_kasplex_base_fee_in_header (E := E) h = Ok () ↔
  Header.base_fee_per_gas h = Some KASPLEX_BASE_FEE.
Proof.
  unfold validate_kasplex_base_fee_in_header. destruct (Header.base_fee_per_gas h) as [f|];
    [|naive_solver]. destruct (Z.eqb_spec f KASPLEX_BASE_FEE); naive_solver.
Qed.

(** The header rules a block has to satisfy on its own. *)
Definition header_rules c (h : Header.t) : Prop :=
  Header.difficulty h = 0 ∧ Header.nonce h = 0 ∧
  Header.ommers_hash h = EMPTY_OMMER_ROOT_HASH ∧
  validate_header_extra_data h 32 = Ok () ∧
  validate_header_gas h = Ok () ∧
  validate_header_base_fee h (chain_spec c) = Ok () ∧
  Header.base_fee_per_gas h = Some KASPLEX_BASE_FEE.

Lemma validate_header_Ok c h : validate_header c h = Ok () ↔ header_rules c (sealed_header h).
Proof.
  unfold validate_header, header_rules.
  destruct (Z.eqb_spec (Header.difficulty (sealed_header h)) 0); simpl; [|naive_solver].
  destruct (Z.eqb_spec (Header.nonce (sealed_header h)) 0); simpl; [|naive_solver].
  destruct (Z.eqb_spec (Header.ommers_hash (sealed_header h)) EMPTY_OMMER_ROOT_HASH); simpl;
    [|naive_solver].
  rewrite !validator_bind_Ok, base_fee_in_header_Ok. naive_solver.
Qed.

Lemma validate_header_against_parent_Ok c h p :
  validate_header_against_parent c h p = Ok () ↔
  validate_against_parent_hash_number (sealed_header h) p = Ok () ∧
  Header.timestamp (sealed_header p) ≤ Header.timestamp (sealed_header h) ∧
  Header.base_fee_per_gas (sealed_header h) = Some KASPLEX_BASE_FEE.
Proof.
  unfold validate_header_against_parent. rewrite validator_bind_Ok.
  destruct (Header.base_fee_per_gas (sealed_header h)) as [f|]; [|naive_solver].
  destruct (Z.ltb_spec (Header.timestamp (sealed_header h)) (Header.timestamp (sealed_header p)));
    [naive_solver lia|].
  destruct (Z.eqb_spec f KASPLEX_BASE_FEE); simpl; naive_solver.
Qed.
End lemmas.

(** ** Properties *)

(** Every header after the first is accepted against the one before it. *)
Inductive accepted_chain {Spec Body Receipt E} {V : Validators Spec Body Receipt E}
    (c : KasplexBeaconConsensus Spec) : SealedHeader → list SealedHeader → Prop :=
| accepted_nil p : accepted_chain c p []
| accepted_cons p h hs :
    validate_header_against_parent c h p = Ok () →
    accepted_chain c h hs → accepted_chain c p (h :: hs).

Lemma accepted_chain_cons {Spec Body Receipt E} {V : Validators Spec Body Receipt E}
    (c : KasplexBeaconConsensus Spec) p h hs :
  accepted_chain c p (h :: hs) ↔
  validate_header_against_parent c h p = Ok () ∧ accepted_chain c h hs.
Proof. split; [by inversion 1|]. intros [? ?]. by constructor. Qed.

Lemma accepted_chain_link {Spec Body Receipt E} {V : Validators Spec Body Receipt E}
    (c : KasplexBeaconConsensus Spec) p hs i q h :
  accepted_chain c p hs → (p :: hs) !! i = Some q → hs !! i = Some h →
  validate_header_against_parent c h q = Ok ().
Proof.
  intros Hc. revert i. induction Hc as [|p x hs Hv Hc IH]; intros [|i]; simpl; [done|done| |].
  - by intros [= <-] [= <-].
  - apply IH.
Qed.

Section properties.
Context {Spec Body Receipt E : Type} {V : Validators Spec Body Receipt E}.
Implicit Types (c : KasplexBeaconConsensus Spec) (h p : SealedHeader).

(** A header is accepted on its own exactly when it is a post-merge header (zero
    difficulty, zero nonce, no ommers) that passes the library's extra-data, gas and
    base-fee checks and its base fee is exactly 2000 GWei; a header rejected by the
    last check alone names the fee it had. *)
Theorem validate_header_accepts_exactly c h :
  (validate_header c h = Ok () ↔ header_rules c (sealed_header h)) ∧
  (∀ fee, Header.base_fee_per_gas (sealed_header h) = Some fee → fee ≠ KASPLEX_BASE_FEE →
     Header.difficulty (sealed_header h) = 0 → Header.nonce (sealed_header h) = 0 →
     Header.ommers_hash (sealed_header h) = EMPTY_OMMER_ROOT_HASH →
     validate_header_extra_data (sealed_header h) 32 = Ok () →
     validate_header_gas (sealed_header h) = Ok () →
     validate_header_base_fee (sealed_header h) (chain_spec c) = Ok () →
     validate_header c h = Err (BaseFeeDiff fee KASPLEX_BASE_FEE)).
Proof.
  split; [apply validate_header_Ok|]. intros fee Hf Hne Hd Hn Ho He Hg Hb.
  unfold validate_header. rewrite Hd, Hn, Ho, Z.eqb_refl, He, Hg, Hb. simpl.
  unfold mbind, outcome_mbind, validate_kasplex_base_fee_in_header; simpl. rewrite Hf.
  apply Z.eqb_neq in Hne. by rewrite Z.eqb_refl, Hne.
Qed.

(** C20 Along a chain of headers each accepted against its parent, numbers count up
    by one, every header names its parent's hash, timestamps never decrease (they
    may stay equal) and every base fee is 2000 GWei. *)
Theorem accepted_chain_invariant c p hs
    (Hlaw : parent_hash_number_law V) (Hchain : accepted_chain c p hs) :
  ∀ i h, hs !! i = Some h →
    Header.number (sealed_header h) = Header.number (sealed_header p) + Z.of_nat i + 1 ∧
    (∃ q, (p :: hs) !! i = Some q ∧
       Header.parent_hash (sealed_header h) = sealed_header_hash q ∧
       Header.timestamp (sealed_header q) ≤ Header.timestamp (sealed_header h)) ∧
    Header.timestamp (sealed_header p) ≤ Header.timestamp (sealed_header h) ∧
    Header.base_fee_per_gas (sealed_header h) = Some KASPLEX_BASE_FEE.
Proof.
  induction Hchain as [|p h hs Hv Hchain IH]; intros i x Hx; [done|].
  apply validate_header_against_parent_Ok in Hv as (Hn & Ht & Hf).
  destruct (Hlaw _ _ Hn) as [Hnum Hph]. destruct i as [|i]; simpl in Hx.
  - injection Hx as <-. split_and!; [lia| |done|done]. by exists p.
  - destruct (IH i x Hx) as (Hnum' & (q & Hq & Hph' & Htq) & Ht' & Hf').
    split_and!; [lia| |lia|done]. by exists q.
Qed.

(** The fixed base fee is one number: the check of a header on its own, the check
    against its parent and the public helper accept the same base fees, and the
    helper accepts what the two calculating helpers return. *)
Theorem base_fee_checks_agree c h p :
  (validate_kasplex_base_fee (Header.base_fee_per_gas (sealed_header h)) = true ↔
   validate_kasplex_base_fee_in_header (E := E) (sealed_header h) = Ok ()) ∧
  (validate_header_against_parent c h p = Ok () →
   validate_kasplex_base_fee (Header.base_fee_per_gas (sealed_header h)) = true) ∧
  validate_kasplex_base_fee (Some calculate_kasplex_base_fee) = true ∧
  validate_kasplex_base_fee (Some get_kasplex_base_fee) = true.
Proof.
  rewrite validate_header_against_parent_Ok, base_fee_in_header_Ok.
  unfold validate_kasplex_base_fee. split_and!; [|intros (_ & _ & ->); done|done..].
  destruct (Header.base_fee_per_gas (sealed_header h)) as [f|]; [|done].
  rewrite Z.eqb_eq. naive_solver.
Qed.
End properties.

(** ** Concrete validators and witnesses *)

(** reth's rules spelled out for a chain that started after London. *)
Module PlainValidators.
#[global] Instance validators : Validators () () () string := {
  EMPTY_OMMER_ROOT_HASH := 0x1dcc4de8dec75d7aab85b567b6ccd41ad312451b948a7413f0a142fd40d49347;
  validate_header_extra_data h n :=
    if Z.of_nat (length (Header.extra_data h)) <=? n then Ok () else Err "extra data";
  validate_header_gas h :=
    if Header.gas_used h <=? Header.gas_limit h then Ok () else Err "gas";
  validate_header_base_fee h _ :=
    match Header.base_fee_per_gas h with Some _ => Ok () | None => Err "base fee" end;
  validate_against_parent_hash_number h p :=
    if (Header.number h =? Header.number (sealed_header p) + 1)
       && (Header.parent_hash h =? sealed_header_hash p)
    then Ok () else Err "parent";
  reth_validate_body_against_header _ _ := Ok ();
  reth_validate_block_post_execution _ _ _ _ _ := Ok ();
}.

Lemma parent_rule : parent_hash_number_law validators.
Proof.
  intros h p. simpl. destruct (Z.eqb_spec (Header.number h) (Header.number (sealed_header p) + 1)),
    (Z.eqb_spec (Header.parent_hash h) (sealed_header_hash p)); simpl; naive_solver.
Qed.
End PlainValidators.

(** Three headers, the last two with the same timestamp. *)
Definition sample_header (number parent timestamp : Z) : Header.t :=
  Header.mk parent 0x1dcc4de8dec75d7aab85b567b6ccd41ad312451b948a7413f0a142fd40d49347
    0 0 0 0 None 0 timestamp 0 0 (Some KASPLEX_BASE_FEE) number 45000000 0 0 [] None None None None.
Definition sample_chain : list SealedHeader :=
  [mkSealedHeader (sample_header 6 100 1010) 101; mkSealedHeader (sample_header 7 101 1010) 102].

Lemma validate_header_accepts_exactly_witness :
  validate_header (mkConsensus ()) (mkSealedHeader (sample_header 6 100 1010) 101) = Ok () ∧
  validate_header (mkConsensus ()) (mkSealedHeader
    (Header.mk 0 0x1dcc4de8dec75d7aab85b567b6ccd41ad312451b948a7413f0a142fd40d49347
       0 0 0 0 None 0 0 0 0 (Some 7) 1 9 0 0 [] None None None None) 3)
    = Err (BaseFeeDiff 7 KASPLEX_BASE_FEE).
Proof.
  split.
  - apply (validate_header_accepts_exactly (V := PlainValidators.validators)).
    by split_and!.
  - by apply (validate_header_accepts_exactly (V := PlainValidators.validators)).
Defined.

Lemma accepted_chain_invariant_witness :
  Header.timestamp (sample_header 6 100 1010) ≤ Header.timestamp (sample_header 7 101 1010).
Proof.
  destruct (accepted_chain_invariant (V := PlainValidators.validators) (mkConsensus ())
    (mkSealedHeader (sample_header 5 99 1000) 100) sample_chain PlainValidators.parent_rule
    ltac:(repeat constructor) 1%nat _ eq_refl) as (_ & (q & Hq & _ & Ht) & _).
  injection Hq as <-. exact Ht.
Defined.
