(* ===== verification/BlockConfig.v ===== *)
(** * The EVM configuration of the next block ([crates/block/src/config.rs])

    [KasplexEvmConfig] passes the extra data and the base fee of the block being
    built through two locked cells, which all clones of a configuration share.  The
    cells live in a store here; a configuration holds their locations, so that
    aliasing is visible.  reth's Ethereum configuration is a parameter. *)

From stdpp Require Import prelude gmap fin_sets strings.
From Stdlib Require Import ZArith Lia.
From S2P Require Import Prelude Types Chainspec.

(** ** Data *)

(** [NextBlockEnvAttributes] *)
Module NextBlock.
Record attributes := mk {
  timestamp : Z;
  suggested_fee_recipient : Address;
  prev_randao : B256;
  gas_limit : Z;
  parent_beacon_block_root : option B256;
  withdrawals : option (list Z);
  extra_data : Bytes;
}.
End NextBlock.

(** [KasplexBlockExecutionCtx] ([crates/block/src/factory.rs]) *)
Module ExecutionCtx.
Record t := mk {
  parent_hash : B256;
  parent_beacon_block_root : option B256;
  ommers : list Header.t;
  withdrawals : option (list Z);
  basefee_per_gas : Z;
  extra_data : Bytes;
}.
End ExecutionCtx.

(** The two families of cells. *)
Record Cells := mkCells {
  extra_data_cells : gmap positive (option Bytes);
  base_fee_cells : gmap positive (option Z);
}.

(** [RethReceiptBuilder] and [KasplexEvmFactory] have no state. *)
Inductive RethReceiptBuilder : Type := mkReceiptBuilder.
Inductive KasplexEvmFactory : Type := mkEvmFactory.

(** [KasplexBlockExecutorFactory] ([factory.rs]) and [KasplexBlockAssembler]
    ([assembler.rs]), of which reth's assembler only gives its specification. *)
Record KasplexBlockExecutorFactory {R Spec EvmF : Type} := mkExecutorFactory {
  receipt_builder_field : R;
  spec_field : Spec;
  evm_factory_field : EvmF;
}.
Arguments KasplexBlockExecutorFactory : clear implicits.
Arguments mkExecutorFactory {R Spec EvmF} _ _ _.
Record KasplexBlockAssembler {Chain : Type} := mkBlockAssembler { eth_assembler_chain_spec : Chain }.
Arguments KasplexBlockAssembler : clear implicits.
Arguments mkBlockAssembler {Chain} _.

Section factory.
Context {R Spec EvmF Chain : Type}.
Implicit Type self : KasplexBlockExecutorFactory R Spec EvmF.

Definition executor_factory_new (receipt_builder : R) (spec : Spec) (evm_factory : EvmF)
    : KasplexBlockExecutorFactory R Spec EvmF := mkExecutorFactory receipt_builder spec evm_factory.
Definition factory_receipt_builder self : R := receipt_builder_field self.
Definition factory_spec self : Spec := spec_field self.
Definition factory_evm_factory self : EvmF := evm_factory_field self.

Definition block_assembler_new (chain_spec : Chain) : KasplexBlockAssembler Chain :=
  mkBlockAssembler chain_spec.
Definition assembler_chain_spec (self : KasplexBlockAssembler Chain) : Chain :=
  eth_assembler_chain_spec self.
End factory.

Record KasplexEvmConfig {Chain : Type} := mkConfig {
  executor_factory : KasplexBlockExecutorFactory RethReceiptBuilder Chain KasplexEvmFactory;
  block_assembler_field : KasplexBlockAssembler Chain;
  current_extra_data : positive;
  current_base_fee_per_gas : positive;
}.
Arguments KasplexEvmConfig : clear implicits.
Arguments mkConfig {Chain} _ _ _ _.

(** reth's configuration for Ethereum. *)
Class EthEvmConfig (Chain Spec : Type) := {
  eth_evm_env : Chain → Header.t → EvmEnv Spec;
  eth_next_evm_env : Chain → Header.t → NextBlock.attributes → EvmEnv Spec;
  eth_evm_env_for_payload : Chain → ExecutionPayload → EvmEnv Spec;
}.

(** The traits [ExtraDataConfig] and [BaseFeeConfig], and the two methods of
    [ConfigureEvm] they are set for, over a shared state [S]. *)
Class NextBlockConfig (S C Spec E : Type) := {
  set_next_block_extra_data : C → Bytes → comp S E ();
  clear_next_block_extra_data : C → comp S E ();
  set_next_block_base_fee_per_gas : C → Z → comp S E ();
  clear_next_block_base_fee_per_gas : C → comp S E ();
  next_evm_env : C → Header.t → NextBlock.attributes → comp S E (EvmEnv Spec);
  context_for_next_block : C → SealedHeader → NextBlock.attributes → comp S E ExecutionCtx.t;
}.

Section config.
Context {Chain Spec E : Type} {EC : EthEvmConfig Chain Spec}.
Local Abbreviation Config := (KasplexEvmConfig Chain).

(** ** Construction and cloning *)

(** A configuration over two given cells. *)
Definition config_over (chain : Chain) (factory : KasplexEvmFactory) (x f : positive) : Config :=
  mkConfig (executor_factory_new mkReceiptBuilder chain factory) (block_assembler_new chain) x f.

Definition new_with_evm_factory (chain : Chain) (factory : KasplexEvmFactory)
    : comp Cells E Config := λ s,
  let x := fresh (dom (extra_data_cells s)) in
  let f := fresh (dom (base_fee_cells s)) in
  (Ok (config_over chain factory x f),
   mkCells (<[x := None]> (extra_data_cells s)) (<[f := None]> (base_fee_cells s))).

Definition config_new (chain : Chain) : comp Cells E Config :=
  new_with_evm_factory chain mkEvmFactory.

Definition config_chain_spec (c : Config) : Chain := factory_spec (executor_factory c).
Definition block_executor_factory (c : Config) := executor_factory c.
Definition block_assembler (c : Config) : KasplexBlockAssembler Chain := block_assembler_field c.

(** [Arc::clone]: the locations are shared. *)
Definition clone (c : Config) : Config :=
  mkConfig (executor_factory c) (block_assembler_field c) (current_extra_data c)
    (current_base_fee_per_gas c).

(** ** The cells *)

Definition read_extra (c : Config) (s : Cells) : option Bytes :=
  mjoin (extra_data_cells s !! current_extra_data c).
Definition read_fee (c : Config) (s : Cells) : option Z :=
  mjoin (base_fee_cells s !! current_base_fee_per_gas c).
Definition write_extra (c : Config) (v : option Bytes) (s : Cells) : Cells :=
  mkCells (<[current_extra_data c := v]> (extra_data_cells s)) (base_fee_cells s).
Definition write_fee (c : Config) (v : option Z) (s : Cells) : Cells :=
  mkCells (extra_data_cells s) (<[current_base_fee_per_gas c := v]> (base_fee_cells s)).

Definition config_set_extra_data (c : Config) (extra_data : Bytes) : comp Cells E () :=
  modify (write_extra c (Some extra_data)).
Definition config_clear_extra_data (c : Config) : comp Cells E () :=
  modify (write_extra c None).
Definition config_set_base_fee (c : Config) (base_fee_per_gas : Z) : comp Cells E () :=
  modify (write_fee c (Some base_fee_per_gas)).
Definition config_clear_base_fee (c : Config) : comp Cells E () :=
  modify (write_fee c None).

(** ** The environment and the context of a block *)

Definition evm_env (c : Config) (header : Header.t) : EvmEnv Spec :=
  eth_evm_env (config_chain_spec c) header.

Definition config_next_evm_env (c : Config) (parent : Header.t) (attributes : NextBlock.attributes)
    : comp Cells E (EvmEnv Spec) :=
  let env := eth_next_evm_env (config_chain_spec c) parent attributes in
  current ← gets (read_fee c);
  mret match current with
       | Some base_fee_per_gas =>
           mkEvmEnv (BlockEnv.with_basefee (block_env env) base_fee_per_gas) (cfg_env env)
       | None => env
       end.

Definition context_for_block (block : SealedHeader) : ExecutionCtx.t :=
  let h := sealed_header block in
  ExecutionCtx.mk (Header.parent_hash h) (Header.parent_beacon_block_root h) [] (Some [])
    (default 0 (Header.base_fee_per_gas h)) (Header.extra_data h).

Definition config_context_for_next_block (c : Config) (parent : SealedHeader)
    (_ctx : NextBlock.attributes) : comp Cells E ExecutionCtx.t :=
  current ← gets (read_extra c);
  let extra_data := default (Header.extra_data (sealed_header parent)) current in
  mret (ExecutionCtx.mk (sealed_header_hash parent) None [] (Some [])
          (default 0 (Header.base_fee_per_gas (sealed_header parent))) extra_data).

Definition payload_parent_hash (p : ExecutionPayload) : B256 :=
  match p with
  | PayloadV1Variant p => PayloadV1.parent_hash p
  | PayloadV2Variant h _ _ | PayloadV3Variant h _ _ => h
  end.
Definition payload_transactions (p : ExecutionPayload) : list Bytes :=
  match p with
  | PayloadV1Variant p => PayloadV1.transactions p
  | PayloadV2Variant _ _ txs | PayloadV3Variant _ _ txs => txs
  end.

Definition evm_env_for_payload (c : Config) (payload : ExecutionPayload) : EvmEnv Spec :=
  eth_evm_env_for_payload (config_chain_spec c) payload.

(** [to::<u64>()] panics on a base fee of more than 64 bits. *)
Definition context_for_payload (payload : ExecutionPayload) : outcome E ExecutionCtx.t :=
  let parent_hash := payload_parent_hash payload in
  '(parent_beacon_block_root, basefee_per_gas, extra_data) ←
    match payload with
    | PayloadV1Variant p =>
        match u256_to_u64 (PayloadV1.base_fee_per_gas p) with
        | Some fee => Ok (None, fee, PayloadV1.extra_data p)
        | None => Panicked
        end
    | PayloadV2Variant _ _ _ | PayloadV3Variant _ _ _ => Ok (None, 0, [])
    end;
  mret (ExecutionCtx.mk parent_hash parent_beacon_block_root [] None basefee_per_gas extra_data).

(** Each raw transaction is decoded and its signer recovered. *)
Definition tx_iterator_for_payload {Tx Recovered AnyError} (decode_2718_exact : Bytes → outcome AnyError Tx)
    (try_recover : Tx → outcome AnyError Address) (with_signer : Tx → Address → Recovered)
    (payload : ExecutionPayload) : list (outcome AnyError Recovered) :=
  (λ raw, tx ← decode_2718_exact raw; signer ← try_recover tx; mret (with_signer tx signer))
    <$> payload_transactions payload.

#[export] Instance kasplex_next_block_config : NextBlockConfig Cells Config Spec E := {
  set_next_block_extra_data := config_set_extra_data;
  clear_next_block_extra_data := config_clear_extra_data;
  set_next_block_base_fee_per_gas := config_set_base_fee;
  clear_next_block_base_fee_per_gas := config_clear_base_fee;
  next_evm_env := config_next_evm_env;
  context_for_next_block := config_context_for_next_block;
}.
End config.

(** ** What the configuration promises to the payload builder

    Written in the order the builder uses, the two values reach the environment
    and the context of the next block, and are gone after they are cleared. *)
Class NextBlockConfigLaws (S C Chain Spec E : Type) `{NextBlockConfig S C Spec E}
    `{EthEvmConfig Chain Spec} (chain_of : C → Chain) : Prop := {
  next_block_run c extra fee parent attrs (s : S) : ∃ s',
    (_ ← set_next_block_extra_data c extra;
     _ ← set_next_block_base_fee_per_gas c fee;
     env ← next_evm_env c (sealed_header parent) attrs;
     ctx ← context_for_next_block c parent attrs;
     _ ← clear_next_block_extra_data c;
     _ ← clear_next_block_base_fee_per_gas c;
     mret (env, ctx)) s
    = (Ok (let env := eth_next_evm_env (chain_of c) (sealed_header parent) attrs in
           (mkEvmEnv (BlockEnv.with_basefee (block_env env) fee) (cfg_env env),
            ExecutionCtx.mk (sealed_header_hash parent) None [] (Some [])
              (default 0 (Header.base_fee_per_gas (sealed_header parent))) extra)), s') ∧
    next_evm_env c (sealed_header parent) attrs s'
    = (Ok (eth_next_evm_env (chain_of c) (sealed_header parent) attrs), s') ∧
    context_for_next_block c parent attrs s'
    = (Ok (ExecutionCtx.mk (sealed_header_hash parent) None [] (Some [])
             (default 0 (Header.base_fee_per_gas (sealed_header parent)))
             (Header.extra_data (sealed_header parent))), s');
}.

Section lemmas.
Context {Chain Spec E : Type} {EC : EthEvmConfig Chain Spec}.
Implicit Types (c d : KasplexEvmConfig Chain) (s : Cells).

Lemma read_write_extra c d v s :
  read_extra c (write_extra d v s)
  = if decide (current_extra_data c = current_extra_data d) then v else read_extra c s.
Proof. unfold read_extra, write_extra. simpl. case_decide as H; [rewrite H|]; by simplify_map_eq/=. Qed.

Lemma read_write_fee c d v s :
  read_fee c (write_fee d v s)
  = if decide (current_base_fee_per_gas c = current_base_fee_per_gas d) then v else read_fee c s.
Proof. unfold read_fee, write_fee. simpl. case_decide as H; [rewrite H|]; by simplify_map_eq/=. Qed.

#[export] Instance kasplex_next_block_config_laws :
  NextBlockConfigLaws Cells (KasplexEvmConfig Chain) Chain Spec E config_chain_spec.
Proof.
  constructor. intros c extra fee parent attrs s. eexists. split_and!.
  - simpl. unfold config_set_extra_data, config_set_base_fee, config_next_evm_env,
      config_context_for_next_block, config_clear_extra_data, config_clear_base_fee.
    run. change (read_extra c (write_fee c (Some fee) ?s)) with (read_extra c s).
    rewrite read_write_fee, decide_True by done.
    change (read_extra c _) with (read_extra c (write_extra c (Some extra) s)).
    rewrite read_write_extra, decide_True by done. reflexivity.
  - simpl. unfold config_next_evm_env. run. by rewrite read_write_fee, decide_True.
  - simpl. unfold config_context_for_next_block. run.
    change (read_extra c (write_fee c None ?t)) with (read_extra c t).
    by rewrite read_write_extra, decide_True.
Qed.
End lemmas.

(** ** Interleaved jobs

    A write to the cells through some handle. *)
Inductive cell_op (Chain : Type) : Type :=
| SetExtraData (c : KasplexEvmConfig Chain) (d : Bytes)
| ClearExtraData (c : KasplexEvmConfig Chain)
| SetBaseFee (c : KasplexEvmConfig Chain) (f : Z)
| ClearBaseFee (c : KasplexEvmConfig Chain).
Arguments SetExtraData {Chain} c d.
Arguments ClearExtraData {Chain} c.
Arguments SetBaseFee {Chain} c f.
Arguments ClearBaseFee {Chain} c.

Section interleaving.
Context {Chain Spec E : Type} {EC : EthEvmConfig Chain Spec}.
Implicit Types (c d : KasplexEvmConfig Chain) (s : Cells) (ops : list (cell_op Chain)).

Definition cell_step (op : cell_op Chain) : comp Cells E () :=
  match op with
  | SetExtraData c d => set_next_block_extra_data (Spec := Spec) c d
  | ClearExtraData c => clear_next_block_extra_data (Spec := Spec) c
  | SetBaseFee c f => set_next_block_base_fee_per_gas (Spec := Spec) c f
  | ClearBaseFee c => clear_next_block_base_fee_per_gas (Spec := Spec) c
  end.

Definition cell_steps ops : comp Cells E () :=
  for_in ops () (λ _ op, cell_step op).

(** The values written to the cells of [c], by whichever handle, in order. *)
Definition fee_writes c ops : list (option Z) :=
  omap (λ op : cell_op Chain, match op with
    | SetBaseFee d f =>
        if decide (current_base_fee_per_gas c = current_base_fee_per_gas d)
        then Some (Some f) else None
    | ClearBaseFee d =>
        if decide (current_base_fee_per_gas c = current_base_fee_per_gas d)
        then Some None else None
    | _ => None
    end) ops.
Definition extra_writes c ops : list (option Bytes) :=
  omap (λ op : cell_op Chain, match op with
    | SetExtraData d x =>
        if decide (current_extra_data c = current_extra_data d) then Some (Some x) else None
    | ClearExtraData d =>
        if decide (current_extra_data c = current_extra_data d) then Some None else None
    | _ => None
    end) ops.

Lemma cell_steps_run ops s :
  ∃ s', cell_steps ops s = (Ok (), s') ∧
    ∀ c, read_fee c s' = default (read_fee c s) (last (fee_writes c ops)) ∧
         read_extra c s' = default (read_extra c s) (last (extra_writes c ops)).
Proof.
  revert s. induction ops as [|op ops IH]; intros s; [by exists s|].
  assert (∃ s1, cell_step op s = (Ok (), s1) ∧
    ∀ c, read_fee c s1 = default (read_fee c s) (last (fee_writes c [op])) ∧
         read_extra c s1 = default (read_extra c s) (last (extra_writes c [op])))
    as (s1 & E1 & H1).
  { destruct op; (eexists; split; [reflexivity|]; intros c'; simpl);
      rewrite ?read_write_fee, ?read_write_extra; by case_decide. }
  destruct (IH s1) as (s2 & E2 & H2). exists s2. split.
  { unfold cell_steps. simpl. by rewrite (bind_Ok _ _ _ _ _ E1). }
  intros c. destruct (H1 c) as [F1 X1], (H2 c) as [-> ->].
  change (op :: ops) with ([op] ++ ops). unfold fee_writes, extra_writes in *.
  rewrite !omap_app, !last_app, F1, X1.
  split; by destruct (last (omap _ ops)).
Qed.
End interleaving.

(** ** Properties *)

Section properties.
Context {Chain Spec E : Type} {EC : EthEvmConfig Chain Spec}.
Implicit Types (c d : KasplexEvmConfig Chain) (s : Cells) (ops : list (cell_op Chain)).

(** C34 The next block takes the base fee and the extra data of the last write any
    clone made: from a new configuration, after any interleaving of writes by any
    handles, the environment has the base fee written last to the cell the clones
    share, or the library's if that was cleared or never set, and the context the
    extra data written last, or the parent's. *)
Theorem next_block_reads_last_write chain factory s c s0 ops parent attrs
    (Hnew : new_with_evm_factory (E := E) chain factory s = (Ok c, s0)) :
  ∃ s', cell_steps (Spec := Spec) (E := E) ops s0 = (Ok (), s') ∧
    config_next_evm_env (E := E) (clone c) (sealed_header parent) attrs s'
    = (Ok (let env := eth_next_evm_env chain (sealed_header parent) attrs in
           match default None (last (fee_writes c ops)) with
           | Some fee => mkEvmEnv (BlockEnv.with_basefee (block_env env) fee) (cfg_env env)
           | None => env
           end), s') ∧
    config_context_for_next_block (E := E) (clone c) parent attrs s'
    = (Ok (ExecutionCtx.mk (sealed_header_hash parent) None [] (Some [])
             (default 0 (Header.base_fee_per_gas (sealed_header parent)))
             (default (Header.extra_data (sealed_header parent))
                (default None (last (extra_writes c ops))))), s').
Proof.
  destruct (cell_steps_run (Spec := Spec) (E := E) ops s0) as (s' & Es & H).
  destruct (H c) as [Hf Hx].
  assert (read_fee c s0 = None ∧ read_extra c s0 = None) as [Hf0 Hx0].
  { injection Hnew as <- <-. unfold read_fee, read_extra. simpl. by simplify_map_eq/=. }
  assert (config_chain_spec (clone c) = chain) as Hc by by injection Hnew as <- <-.
  rewrite Hf0 in Hf. rewrite Hx0 in Hx. exists s'. split_and!; [done|..].
  - unfold config_next_evm_env. run.
    change (read_fee (clone c) s') with (read_fee c s'). rewrite Hf. simpl. by rewrite Hc.
  - unfold config_context_for_next_block. run.
    change (read_extra (clone c) s') with (read_extra c s'). by rewrite Hx.
Qed.

(** A configuration created later shares no cell with an earlier one or its
    clones: writes through it leave what they read as it was. *)
Theorem new_config_is_isolated chain factory s c s0 d s1 ops
    (Hin : is_Some (extra_data_cells s !! current_extra_data d) ∧
           is_Some (base_fee_cells s !! current_base_fee_per_gas d))
    (Hnew : new_with_evm_factory (E := E) chain factory s = (Ok c, s0))
    (Hops : Forall (λ op, match op with
       | SetExtraData e _ | ClearExtraData e | SetBaseFee e _ | ClearBaseFee e => e = clone c
       end) ops)
    (Hrun : cell_steps (Spec := Spec) (E := E) ops s0 = (Ok (), s1)) :
  read_fee d s1 = read_fee d s ∧ read_extra d s1 = read_extra d s.
Proof.
  destruct (cell_steps_run (Spec := Spec) (E := E) ops s0) as (s' & Es & H).
  rewrite Hrun in Es. injection Es as <-. destruct (H d) as [-> ->].
  destruct Hin as [Hx Hf]. injection Hnew as <- <-.
  apply elem_of_dom in Hx, Hf.
  assert (current_extra_data d ≠ fresh (dom (extra_data_cells s))) as Nx.
  { intros Heq. rewrite Heq in Hx. by apply is_fresh in Hx. }
  assert (current_base_fee_per_gas d ≠ fresh (dom (base_fee_cells s))) as Nf.
  { intros Heq. rewrite Heq in Hf. by apply is_fresh in Hf. }
  assert (fee_writes d ops = [] ∧ extra_writes d ops = []) as [-> ->].
  { clear Hrun H. induction Hops as [|op ops Hop Hops [IHf IHx]]; [done|].
    destruct op; subst; simpl; rewrite ?decide_False by done; done. }
  unfold read_fee, read_extra. simpl. by simplify_map_eq.
Qed.
End properties.

(** ** Concrete configuration and witnesses *)

Module PlainConfig.
#[global] Instance eth : EthEvmConfig () () := {
  eth_evm_env _ h := mkEvmEnv (BlockEnv.mk (Header.number h) (Header.beneficiary h)
    (Header.timestamp h) (Header.gas_limit h) (default 0 (Header.base_fee_per_gas h))
    0 (Some (Header.mix_hash h))) (CfgEnv.mk 0 false ());
  eth_next_evm_env _ p a := mkEvmEnv (BlockEnv.mk (Header.number p + 1)
    (NextBlock.suggested_fee_recipient a) (NextBlock.timestamp a) (NextBlock.gas_limit a)
    (default 0 (Header.base_fee_per_gas p)) 0 (Some (NextBlock.prev_randao a)))
    (CfgEnv.mk 0 false ());
  eth_evm_env_for_payload _ p := mkEvmEnv (BlockEnv.mk 0 0 0 0 0 0 None) (CfgEnv.mk 0 false ());
}.
End PlainConfig.

(** The configuration of the first job, and of a clone used by a second one, which
    sets its own base fee before the first has built its block. *)
Definition first_config : KasplexEvmConfig () := config_over () mkEvmFactory 1 1.
Definition second_config : KasplexEvmConfig () := config_over () mkEvmFactory 2 2.
Definition race : list (cell_op ()) :=
  [SetBaseFee first_config 2000000000000; SetBaseFee (clone first_config) 7].
Definition sample_attributes : NextBlock.attributes := NextBlock.mk 10 9 8 45000000 None None [].

Definition one_cell (f : option Z) : Cells :=
  mkCells {[ 1%positive := None ]} {[ 1%positive := f ]}.
Definition two_cells (f : option Z) : Cells :=
  mkCells (<[2%positive := None]> {[ 1%positive := None ]})
    (<[2%positive := None]> {[ 1%positive := f ]}).

Lemma new_first_config :
  new_with_evm_factory (E := string) () mkEvmFactory (mkCells ∅ ∅) = (Ok first_config, one_cell None).
Proof. vm_compute. reflexivity. Qed.

Lemma new_second_config f :
  new_with_evm_factory (E := string) () mkEvmFactory (one_cell f) = (Ok second_config, two_cells f).
Proof. vm_compute. reflexivity. Qed.

Lemma next_block_reads_last_write_witness :
  ∃ s', cell_steps (Spec := ()) (E := string) race (one_cell None) = (Ok (), s') ∧
    ∃ env, config_next_evm_env (Spec := ()) (E := string) (clone first_config) Header.zero
             sample_attributes s' = (Ok env, s') ∧ BlockEnv.basefee (block_env env) = 7.
Proof.
  destruct (next_block_reads_last_write (E := string) (EC := PlainConfig.eth) () mkEvmFactory (mkCells ∅ ∅)
    first_config (one_cell None) race (mkSealedHeader Header.zero 0) sample_attributes
    new_first_config) as (s' & Hs & He & _).
  exists s'. split; [exact Hs|]. eexists. split; [exact He|]. reflexivity.
Defined.

Lemma new_config_is_isolated_witness :
  read_fee first_config
    (cell_steps (Spec := ()) (E := string) [SetBaseFee second_config 7] (two_cells (Some 5))).2
  = Some 5.
Proof.
  apply (new_config_is_isolated (E := string) (EC := PlainConfig.eth) () mkEvmFactory
    (one_cell (Some 5)) second_config (two_cells (Some 5)) first_config
    _ [SetBaseFee second_config 7]).
  - split; by eexists.
  - apply new_second_config.
  - by repeat constructor.
  - reflexivity.
Defined.
