(* ===== verification/BlockExecution.v ===== *)
(** * Executing and assembling a block ([crates/block/src/executor.rs], [assembler.rs])

    [KasplexBlockExecutor] runs transactions one after the other, keeps the receipts and
    the gas total, and shows its changes to the hook of its system caller;
    [KasplexBlockAssembler] puts the header of the result together.  The EVM, the system
    caller and the trie roots are parameters. *)

From stdpp Require Import prelude gmap strings.
From Stdlib Require Import ZArith Lia.
From S2P Require Import Prelude Types Chainspec EvmWrapper BlockConfig Consensus.

(** ** The executor *)
Module Executor.

(** Where a state change comes from: the one source the executor names. *)
Inductive StateChangeSource : Type := Transaction (index : nat).

(** What the executor calls on its EVM, the system caller and the receipt builder;
    [transact] leaves its changes uncommitted.  A system call runs on the EVM, and the
    caller may show its hook what changed. *)
Class Machine (Evm Spec Tx Res Account Receipt EvmError BlockError Caller Hook : Type) := {
  block_number : Evm → Z;
  is_spurious_dragon_active_at_block : Spec → Z → bool;
  set_state_clear_flag : bool → Evm → Evm;
  system_caller_new : Spec → Caller;
  with_state_hook : option Hook → Caller → Caller;
  on_state : StateChangeSource → EvmState Account → Caller → Caller;
  apply_blockhashes_contract_call : B256 → comp (Caller * Evm) BlockError ();
  apply_beacon_root_contract_call : option B256 → comp (Caller * Evm) BlockError ();
  transact : Tx → comp Evm EvmError (ResultAndState Res Account);
  evm_error : EvmError → B256 → BlockError;
  trie_hash : Tx → B256;
  gas_used_of : Res → Z;
  build_receipt : Evm → Tx → Res → EvmState Account → Z → Receipt;
  db_commit : EvmState Account → Evm → Evm;
}.

Record t {Evm Spec Receipt Caller : Type} := mk {
  spec : Spec;
  ctx : ExecutionCtx.t;
  evm : Evm;
  system_caller : Caller;
  receipts : list Receipt;
  gas_used : Z;
}.
Arguments t : clear implicits.
Arguments mk {Evm Spec Receipt Caller} _ _ _ _ _ _.

Section executor.
Context {Evm Spec Tx Res Account Receipt EvmError BlockError Caller Hook : Type}.
Context {M : Machine Evm Spec Tx Res Account Receipt EvmError BlockError Caller Hook}.
Local Abbreviation Executor := (t Evm Spec Receipt Caller).

Definition new (evm : Evm) (ctx : ExecutionCtx.t) (spec : Spec) : Executor :=
  mk spec ctx evm (system_caller_new spec) [] 0.

(** [KasplexBlockExecutorFactory] ([factory.rs]): what its receipt builder builds is a
    parameter here. *)
Definition create_executor {R EvmF} (factory : KasplexBlockExecutorFactory R Spec EvmF) (evm : Evm)
    (ctx : ExecutionCtx.t) : Executor :=
  new evm
    (ExecutionCtx.mk (ExecutionCtx.parent_hash ctx) (ExecutionCtx.parent_beacon_block_root ctx)
       (ExecutionCtx.ommers ctx) (ExecutionCtx.withdrawals ctx) (ExecutionCtx.basefee_per_gas ctx)
       (ExecutionCtx.extra_data ctx))
    (factory_spec factory).

Definition with_evm (f : Evm → Evm) (x : Executor) : Executor :=
  mk (spec x) (ctx x) (f (evm x)) (system_caller x) (receipts x) (gas_used x).

Definition with_caller (f : Caller → Caller) (x : Executor) : Executor :=
  mk (spec x) (ctx x) (evm x) (f (system_caller x)) (receipts x) (gas_used x).

Definition on_evm {E A} (m : comp Evm E A) : comp Executor E A := λ x,
  let '(o, e) := m (evm x) in (o, with_evm (λ _, e) x).

(** A call of the system caller on the EVM. *)
Definition on_system {E A} (m : comp (Caller * Evm) E A) : comp Executor E A := λ x,
  let '(o, (c, e)) := m (system_caller x, evm x) in
  (o, with_caller (λ _, c) (with_evm (λ _, e) x)).

Definition set_state_hook (hook : option Hook) : Executor → Executor :=
  with_caller (with_state_hook hook).

Definition apply_pre_execution_changes : comp Executor BlockError () :=
  x ← get_state;
  number ← expect (u256_to_u64 (block_number (evm x)));
  let state_clear_flag := is_spurious_dragon_active_at_block (spec x) number in
  _ ← modify (with_evm (set_state_clear_flag state_clear_flag));
  _ ← on_system (apply_blockhashes_contract_call (ExecutionCtx.parent_hash (ctx x)));
  on_system (apply_beacon_root_contract_call (ExecutionCtx.parent_beacon_block_root (ctx x))).

Definition execute_transaction_without_commit (tx : Tx)
    : comp Executor BlockError (ResultAndState Res Account) :=
  map_err (λ err, evm_error err (trie_hash tx)) (on_evm (transact tx)).

Definition commit_transaction (output : ResultAndState Res Account) (tx : Tx)
    : comp Executor BlockError Z := λ x,
  let x := with_caller (on_state (Transaction (length (receipts x))) (state output)) x in
  let gas := gas_used_of (result output) in
  let total := gas_used x ⊞[64] gas in
  let receipt := build_receipt (evm x) tx (result output) (state output) total in
  (Ok gas,
   mk (spec x) (ctx x) (db_commit (state output) (evm x)) (system_caller x)
     (receipts x ++ [receipt]) total).

(** The trait's provided [execute_transaction]. *)
Definition execute_transaction (tx : Tx) : comp Executor BlockError Z :=
  output ← execute_transaction_without_commit tx;
  commit_transaction output tx.

Definition finish (x : Executor) : Evm * BlockExecutionResult Receipt :=
  (evm x, mkExecutionResult (receipts x) [] (gas_used x) 0).

(** ** Runs

    Transactions tried in order, the failing ones passed over as the payload
    builder does: what was committed, in the EVM state its receipt was built in. *)
Record Committed := mkCommitted {
  at_evm : Evm;
  committed_tx : Tx;
  committed_output : ResultAndState Res Account;
}.

Definition gas_of (c : Committed) : Z := gas_used_of (result (committed_output c)).

Fixpoint attempts (txs : list Tx) : comp Executor BlockError (list Committed) :=
  match txs with
  | [] => mret []
  | tx :: txs =>
      res ← try (execute_transaction_without_commit tx);
      match res with
      | inl _ => attempts txs
      | inr output =>
          x ← get_state;
          _ ← commit_transaction output tx;
          log ← attempts txs;
          mret (mkCommitted (evm x) tx output :: log)
      end
  end.

(** The receipts of a log when [acc] gas was used before it. *)
Fixpoint receipts_of (acc : Z) (log : list Committed) : list Receipt :=
  match log with
  | [] => []
  | c :: log =>
      let acc := acc ⊞[64] gas_of c in
      build_receipt (at_evm c) (committed_tx c) (result (committed_output c))
        (state (committed_output c)) acc :: receipts_of acc log
  end.

Definition total_gas (acc : Z) (log : list Committed) : Z :=
  foldl (λ acc c, acc ⊞[64] gas_of c) acc log.

Lemma without_commit_keeps tx x o x' :
  execute_transaction_without_commit tx x = (o, x') →
  receipts x' = receipts x ∧ gas_used x' = gas_used x ∧ spec x' = spec x ∧ ctx x' = ctx x.
Proof.
  unfold execute_transaction_without_commit, map_err, on_evm.
  destruct (transact tx (evm x)) as [o1 e]. by intros [= _ <-].
Qed.

(** Whether a transaction executes is asked of the EVM alone: the gas the block has used
    does not matter. *)
Lemma without_commit_outcome tx x y :
  evm x = evm y →
  (execute_transaction_without_commit tx x).1 = (execute_transaction_without_commit tx y).1.
Proof.
  unfold execute_transaction_without_commit, map_err, on_evm. intros ->.
  by destruct (transact tx (evm y)).
Qed.

Lemma attempts_run txs x log x' :
  attempts txs x = (Ok log, x') →
  receipts x' = receipts x ++ receipts_of (gas_used x) log ∧
  gas_used x' = total_gas (gas_used x) log ∧
  committed_tx <$> log `sublist_of` txs.
Proof.
  revert x log x'. induction txs as [|tx txs IH]; intros x log x' H; simpl in H.
  { injection H as <- <-. simpl. by rewrite app_nil_r. }
  apply bind_Ok_inv in H as (res & x1 & H1 & H). unfold try in H1.
  destruct (execute_transaction_without_commit tx x) as [[out|e|] x0] eqn:E0;
    [..|done]; injection H1 as <- <-;
    destruct (without_commit_keeps _ _ _ _ E0) as (Er & Eg & _ & _).
  - apply bind_Ok_inv in H as (x0' & x0'' & Hx & H). injection Hx as <- <-.
    apply bind_Ok_inv in H as (g & x2 & Hc & H). injection Hc as _ <-.
    apply bind_Ok_inv in H as (log' & x3 & H3 & H). injection H as <- <-.
    apply IH in H3 as (-> & -> & Hs). simpl. rewrite Er, Eg, <-app_assoc.
    split_and!; [done|done|]. by apply sublist_skip.
  - apply IH in H as (-> & -> & Hs). rewrite Er, Eg.
    split_and!; [done|done|]. by apply sublist_cons.
Qed.

(** A run ends unless the EVM itself panics: errors are passed over. *)
Lemma attempts_total txs x :
  (∀ tx e, (transact tx e).1 ≠ Panicked) → ∃ log x', attempts txs x = (Ok log, x').
Proof.
  intros Ht. revert x. induction txs as [|tx txs IH]; intros x; simpl; [by do 2 eexists|].
  unfold try, execute_transaction_without_commit, map_err, on_evm.
  specialize (Ht tx (evm x)). destruct (transact tx (evm x)) as [[out|e|] e'] eqn:E1; [..|done].
  - edestruct IH as (log & x' & E2). do 2 eexists.
    unfold mbind at 1, comp_bind at 1. rewrite E1. simpl.
    erewrite bind_Ok by reflexivity. erewrite bind_Ok by reflexivity.
    erewrite bind_Ok by exact E2. reflexivity.
  - edestruct IH as (log & x' & E2). do 2 eexists.
    unfold mbind at 1, comp_bind at 1. rewrite E1. exact E2.
Qed.

(** Cumulative gas: prefix sums modulo [2^64]. *)
Lemma total_gas_sum acc log :
  in_width 64 acc →
  total_gas acc log = wrap 64 (acc + sumZ gas_of log).
Proof.
  revert acc. induction log as [|c log IH]; intros acc Ha; simpl.
  { by rewrite Z.add_0_r, wrap_small. }
  unfold total_gas in *. simpl. rewrite IH by by apply wrap_range.
  unfold wrapping_add, wrap. rewrite Zplus_mod_idemp_l. f_equal. lia.
Qed.

Lemma receipts_of_lookup acc log i c :
  log !! i = Some c →
  receipts_of acc log !! i
  = Some (build_receipt (at_evm c) (committed_tx c) (result (committed_output c))
            (state (committed_output c)) (total_gas acc (take (S i) log))).
Proof.
  revert acc i. induction log as [|d log IH]; intros acc [|i] H; [done..| |].
  - by injection H as ->.
  - simpl in H. simpl. rewrite (IH _ _ H). done.
Qed.

Lemma receipts_of_length acc log : length (receipts_of acc log) = length log.
Proof. revert acc. induction log as [|c log IH]; intros acc; simpl; [done|]. by rewrite IH. Qed.
End executor.
End Executor.

(** ** The assembler *)
Module Assembler.

Class Roots (Tx Receipt Log : Type) := {
  EMPTY_OMMER_ROOT_HASH : B256;
  EMPTY_WITHDRAWALS : B256;
  calculate_transaction_root : list Tx → B256;
  calculate_receipt_root_no_memo : list Receipt → B256;
  receipt_logs : Receipt → list Log;
  logs_bloom : list Log → Z;
}.

(** [BEACON_NONCE] *)
Definition BEACON_NONCE : Z := 0.

Section assembler.
Context {Spec Tx Receipt Log E : Type} {R : Roots Tx Receipt Log}.

(** The block, from the converted [timestamp] and [number]. *)
Definition assembled_block (evm_env : EvmEnv Spec) (ctx : ExecutionCtx.t)
    (transactions : list Tx) (output : BlockExecutionResult Receipt) (state_root : B256)
    (timestamp number : Z) : Block.t Tx :=
  let block_env := block_env evm_env in
  let transactions_root := calculate_transaction_root transactions in
  let receipts_root := calculate_receipt_root_no_memo (result_receipts output) in
  let bloom := logs_bloom (result_receipts output ≫= receipt_logs) in
  Block.mk
    (Header.mk (ExecutionCtx.parent_hash ctx) EMPTY_OMMER_ROOT_HASH
       (BlockEnv.beneficiary block_env) state_root transactions_root receipts_root
       (Some EMPTY_WITHDRAWALS) bloom timestamp (default 0 (BlockEnv.prevrandao block_env))
       BEACON_NONCE (Some (BlockEnv.basefee block_env)) number
       (BlockEnv.gas_limit block_env) (BlockEnv.difficulty block_env)
       (result_gas_used output) (ExecutionCtx.extra_data ctx)
       (ExecutionCtx.parent_beacon_block_root ctx) None None None)
    transactions [] (Some []).

(** The block number and timestamp are [U256] in the environment and [u64] in the
    header: the conversion panics when they do not fit. *)
Definition assemble_block (evm_env : EvmEnv Spec) (ctx : ExecutionCtx.t)
    (transactions : list Tx) (output : BlockExecutionResult Receipt) (state_root : B256)
    : outcome E (Block.t Tx) :=
  match u256_to_u64 (BlockEnv.timestamp (block_env evm_env)),
        u256_to_u64 (BlockEnv.number (block_env evm_env)) with
  | Some timestamp, Some number =>
      Ok (assembled_block evm_env ctx transactions output state_root timestamp number)
  | _, _ => Panicked
  end.

Lemma assemble_Ok env ctx txs out root b :
  assemble_block env ctx txs out root = Ok b ↔
  in_width 64 (BlockEnv.timestamp (block_env env)) ∧
  in_width 64 (BlockEnv.number (block_env env)) ∧
  b = assembled_block env ctx txs out root (BlockEnv.timestamp (block_env env))
        (BlockEnv.number (block_env env)).
Proof.
  unfold assemble_block. split.
  - destruct (u256_to_u64 (BlockEnv.timestamp _)) eqn:Ht; [|done].
    destruct (u256_to_u64 (BlockEnv.number _)) eqn:Hn; [|done]. intros [= <-].
    apply u256_to_u64_inv in Ht as [-> ?], Hn as [-> ?]. done.
  - intros (Ht & Hn & ->). by rewrite !u256_to_u64_Some.
Qed.
End assembler.
End Assembler.

(** ** Properties *)

(** What reth's configuration documents: the block environment of a post-merge
    header has the header's fields, and that of the next block the attributes'. *)
Record eth_env_law {Chain Spec} (EC : EthEvmConfig Chain Spec) : Prop := {
  eth_evm_env_block chain h :
    block_env (eth_evm_env chain h)
    = BlockEnv.mk (Header.number h) (Header.beneficiary h) (Header.timestamp h)
        (Header.gas_limit h) (default 0 (Header.base_fee_per_gas h)) 0
        (Some (Header.mix_hash h));
  eth_next_evm_env_block chain p a : ∃ fee,
    block_env (eth_next_evm_env chain p a)
    = BlockEnv.mk (Header.number p + 1) (NextBlock.suggested_fee_recipient a)
        (NextBlock.timestamp a) (NextBlock.gas_limit a) fee 0
        (Some (NextBlock.prev_randao a));
}.

(** The header rules, for a header the assembler made. *)
Lemma assembled_header_rules
    {Spec CSpec Body Receipt Tx Log E VE : Type} {R : Assembler.Roots Tx Receipt Log}
    {V : Validators CSpec Body Receipt VE} (c : KasplexBeaconConsensus CSpec)
    (env : EvmEnv Spec) ctx txs (out : BlockExecutionResult Receipt) root b :
  Assembler.EMPTY_OMMER_ROOT_HASH = EMPTY_OMMER_ROOT_HASH →
  Assembler.assemble_block (E := E) env ctx txs out root = Ok b →
  header_rules c (Block.header b) ↔
  BlockEnv.basefee (block_env env) = KASPLEX_BASE_FEE ∧
  BlockEnv.difficulty (block_env env) = 0 ∧
  validate_header_extra_data (Block.header b) 32 = Ok () ∧
  validate_header_gas (Block.header b) = Ok () ∧
  validate_header_base_fee (Block.header b) (chain_spec c) = Ok ().
Proof.
  intros Hommers (_ & _ & ->)%Assembler.assemble_Ok. unfold header_rules. simpl. rewrite Hommers.
  assert (∀ f, Some f = Some KASPLEX_BASE_FEE ↔ f = KASPLEX_BASE_FEE) as Hf by naive_solver.
  rewrite Hf. unfold Assembler.BEACON_NONCE. tauto.
Qed.

Section properties.

(** C22 Gas accounting: a run of transactions on a new executor ends, passing over
    those that fail; each committed transaction has one receipt, in order, whose
    cumulative gas is the gas of the committed transactions up to it, and the
    block's gas is that of all of them, both modulo [2^64]. *)
Theorem executor_accounts_committed_gas
    {Evm Spec Tx Res Account Receipt EvmError BlockError Caller Hook : Type}
    {M : Executor.Machine Evm Spec Tx Res Account Receipt EvmError BlockError Caller Hook}
    evm ctx spec txs
    (Hp : ∀ tx e, (Executor.transact tx e).1 ≠ Panicked) :
  ∃ log x, Executor.attempts txs (Executor.new evm ctx spec) = (Ok log, x) ∧
    Executor.committed_tx <$> log `sublist_of` txs ∧
    let out := (Executor.finish x).2 in
    length (result_receipts out) = length log ∧
    result_gas_used out = wrap 64 (sumZ Executor.gas_of log) ∧
    ∀ i c, log !! i = Some c →
      result_receipts out !! i
      = Some (Executor.build_receipt (Executor.at_evm c) (Executor.committed_tx c)
                (result (Executor.committed_output c)) (state (Executor.committed_output c))
                (wrap 64 (sumZ Executor.gas_of (take (S i) log)))).
Proof.
  destruct (Executor.attempts_total txs (Executor.new evm ctx spec) Hp) as (log & x & E).
  exists log, x. split; [done|]. apply Executor.attempts_run in E as (Er & Eg & Hs).
  simpl. simpl in Er, Eg. rewrite Er, Eg.
  rewrite Executor.receipts_of_length, Executor.total_gas_sum by width.
  split_and!; [done..|]. intros i c Hc.
  rewrite (Executor.receipts_of_lookup _ _ _ _ Hc), Executor.total_gas_sum by width. done.
Qed.

(** A block the assembler returns passes the header check of consensus exactly
    when its environment has base fee 2000 GWei and difficulty 0 and the library's
    own checks accept the header: nothing else of an assembled header can fail. *)
Theorem assembled_header_passes_consensus
    {Spec CSpec Body Receipt Tx Log E VE : Type} {R : Assembler.Roots Tx Receipt Log}
    {V : Validators CSpec Body Receipt VE} (c : KasplexBeaconConsensus CSpec)
    (env : EvmEnv Spec) ctx txs (out : BlockExecutionResult Receipt) root b hash
    (Hommers : Assembler.EMPTY_OMMER_ROOT_HASH = EMPTY_OMMER_ROOT_HASH)
    (Hb : Assembler.assemble_block (E := E) env ctx txs out root = Ok b) :
  validate_header c (mkSealedHeader (Block.header b) hash) = Ok () ↔
  BlockEnv.basefee (block_env env) = KASPLEX_BASE_FEE ∧
  BlockEnv.difficulty (block_env env) = 0 ∧
  validate_header_extra_data (Block.header b) 32 = Ok () ∧
  validate_header_gas (Block.header b) = Ok () ∧
  validate_header_base_fee (Block.header b) (chain_spec c) = Ok ().
Proof.
  rewrite validate_header_Ok. by eapply assembled_header_rules.
Qed.

(** Replay: a block built from a configuration whose two values were set is
    executed again, from its header alone, in the block environment and with the
    parent hash, beacon root, extra data, ommers and withdrawals it was built with;
    the context's base fee is the block's own this time, the parent's at building. *)
Theorem built_block_replays_in_its_environment
    {S C Chain Spec E Receipt Tx Log : Type} {EC : EthEvmConfig Chain Spec}
    {NB : NextBlockConfig S C Spec E} {chain_of : C → Chain}
    {NL : NextBlockConfigLaws S C Chain Spec E chain_of}
    {R : Assembler.Roots Tx Receipt Log}
    cfg extra fee parent attrs (s s' : S) env ctx txs (out : BlockExecutionResult Receipt) root
    b hash chain
    (Hlaw : eth_env_law EC)
    (Hrun : (_ ← set_next_block_extra_data cfg extra;
             _ ← set_next_block_base_fee_per_gas cfg fee;
             env ← next_evm_env cfg (sealed_header parent) attrs;
             ctx ← context_for_next_block cfg parent attrs;
             _ ← clear_next_block_extra_data cfg;
             _ ← clear_next_block_base_fee_per_gas cfg;
             mret (env, ctx)) s = (Ok (env, ctx), s'))
    (Hb : Assembler.assemble_block (E := E) env ctx txs out root = Ok b) :
  block_env (eth_evm_env chain (Block.header b)) = block_env env ∧
  context_for_block (mkSealedHeader (Block.header b) hash)
  = ExecutionCtx.mk (ExecutionCtx.parent_hash ctx) (ExecutionCtx.parent_beacon_block_root ctx)
      (ExecutionCtx.ommers ctx) (ExecutionCtx.withdrawals ctx) fee
      (ExecutionCtx.extra_data ctx) ∧
  ExecutionCtx.extra_data ctx = extra ∧
  ExecutionCtx.basefee_per_gas ctx
  = default 0 (Header.base_fee_per_gas (sealed_header parent)).
Proof.
  destruct (next_block_run cfg extra fee parent attrs s) as (s1 & E1 & _ & _).
  rewrite E1 in Hrun. injection Hrun as <- <- _.
  apply Assembler.assemble_Ok in Hb as (_ & _ & ->).
  rewrite (eth_evm_env_block _ Hlaw). simpl.
  destruct (eth_next_evm_env_block _ Hlaw (chain_of cfg) (sealed_header parent) attrs)
    as (f0 & ->). done.
Qed.
End properties.

(** ** Concrete machines and witnesses *)

Module PlainMachine.
(** A transaction is its gas, refused when negative; a receipt is the pair of its gas
    and the cumulative gas; the state is how many transactions were tried. *)
#[global] Instance machine : Executor.Machine Z () Z Z () (Z * Z) string string () () := {
  block_number _ := 1;
  is_spurious_dragon_active_at_block _ _ := true;
  set_state_clear_flag _ e := e;
  system_caller_new _ := ();
  with_state_hook _ c := c;
  on_state _ _ c := c;
  apply_blockhashes_contract_call _ := mret ();
  apply_beacon_root_contract_call _ := mret ();
  transact tx := modify (λ e, e + 1) ;;
    (if tx <? 0 then fail "gas" else mret (mkResultAndState tx ∅));
  evm_error e _ := e;
  trie_hash tx := tx;
  gas_used_of r := r;
  build_receipt _ tx _ _ total := (tx, total);
  db_commit _ e := e;
}.

#[global] Instance roots : Assembler.Roots Z (Z * Z) () := {
  EMPTY_OMMER_ROOT_HASH := 0x1dcc4de8dec75d7aab85b567b6ccd41ad312451b948a7413f0a142fd40d49347;
  EMPTY_WITHDRAWALS := 0x56e81f171bcc55a6ff8345e692c0f86e5b48e01b996cadc001622fb5e363b421;
  calculate_transaction_root txs := Z.of_nat (length txs);
  calculate_receipt_root_no_memo rs := Z.of_nat (length rs);
  receipt_logs _ := [];
  logs_bloom _ := 0;
}.

#[global] Instance validators : Validators () () (Z * Z) string := {
  EMPTY_OMMER_ROOT_HASH := 0x1dcc4de8dec75d7aab85b567b6ccd41ad312451b948a7413f0a142fd40d49347;
  validate_header_extra_data h n :=
    if Z.of_nat (length (Header.extra_data h)) <=? n then Ok () else Err "extra data";
  validate_header_gas h :=
    if Header.gas_used h <=? Header.gas_limit h then Ok () else Err "gas";
  validate_header_base_fee _ _ := Ok ();
  validate_against_parent_hash_number _ _ := Ok ();
  reth_validate_body_against_header _ _ := Ok ();
  reth_validate_block_post_execution _ _ _ _ _ := Ok ();
}.

Lemma gas_rule : header_gas_law validators.
Proof. intros h. simpl. destruct (Z.leb_spec (Header.gas_used h) (Header.gas_limit h)); naive_solver. Qed.
End PlainMachine.

Lemma plain_eth_env_law : eth_env_law PlainConfig.eth.
Proof. split; [done|]. intros chain p a. by eexists. Qed.

(** Three transactions, the second refused. *)
Lemma executor_accounts_committed_gas_witness :
  ∃ log x, Executor.attempts [21000; -1; 50000]
      (Executor.new 0 (ExecutionCtx.mk 0 None [] None 0 []) ()) = (Ok log, x) ∧
    Executor.receipts x !! 1%nat = Some (50000, 71000).
Proof.
  destruct (executor_accounts_committed_gas (M := PlainMachine.machine) 0
    (ExecutionCtx.mk 0 None [] None 0 []) () [21000; -1; 50000]
    ltac:(intros tx e; simpl; unfold mbind, comp_bind; simpl; by destruct (tx <? 0)))
    as (log & x & E & _ & _ & _ & H).
  exists log, x. split; [done|]. injection E as <- <-.
  etrans; [apply (H 1%nat _ eq_refl)|]. vm_compute. reflexivity.
Defined.

Definition sample_env : EvmEnv () :=
  mkEvmEnv (BlockEnv.mk 6 9 10 45000000 KASPLEX_BASE_FEE 0 (Some 8)) (CfgEnv.mk 0 false ()).
Definition sample_block : Block.t Z :=
  Assembler.assembled_block sample_env (ExecutionCtx.mk 100 None [] (Some []) 0 [])
    [21000] (mkExecutionResult [(21000, 21000)] [] 21000 0) 5 10 6.

Lemma assembled_header_passes_consensus_witness :
  validate_header (V := PlainMachine.validators) (mkConsensus ())
    (mkSealedHeader (Block.header sample_block) 7) = Ok ().
Proof.
  apply (assembled_header_passes_consensus (R := PlainMachine.roots) (V := PlainMachine.validators)
    (E := string) (mkConsensus ()) sample_env (ExecutionCtx.mk 100 None [] (Some []) 0 []) [21000]
    (mkExecutionResult [(21000, 21000)] [] 21000 0) 5 sample_block 7 eq_refl
    ltac:(vm_compute; reflexivity)).
  split_and!; vm_compute; reflexivity.
Defined.

Lemma built_block_replays_in_its_environment_witness :
  let parent := mkSealedHeader (sample_header 5 99 1000) 100 in
  let attrs := NextBlock.mk 1010 9 8 45000000 None None [] in
  let env := mkEvmEnv (BlockEnv.mk 6 9 1010 45000000 3 0 (Some 8)) (CfgEnv.mk 0 false ()) in
  let ctx := ExecutionCtx.mk 100 None [] (Some []) KASPLEX_BASE_FEE [Byte.x01] in
  ExecutionCtx.extra_data (context_for_block (mkSealedHeader
    (Block.header (Assembler.assembled_block env ctx [21000]
       (mkExecutionResult [(21000, 21000)] [] 21000 0) 5 1010 6)) 7)) = [Byte.x01].
Proof.
  cbv zeta.
  destruct (built_block_replays_in_its_environment (Chain := ()) (E := string)
    (NL := kasplex_next_block_config_laws (E := string) (EC := PlainConfig.eth))
    (R := PlainMachine.roots) first_config [Byte.x01] 3 (mkSealedHeader (sample_header 5 99 1000) 100)
    (NextBlock.mk 1010 9 8 45000000 None None []) (one_cell None)
    (write_fee first_config None (write_extra first_config None
       (write_fee first_config (Some 3) (write_extra first_config (Some [Byte.x01]) (one_cell None)))))
    (mkEvmEnv (BlockEnv.mk 6 9 1010 45000000 3 0 (Some 8)) (CfgEnv.mk 0 false ()))
    (ExecutionCtx.mk 100 None [] (Some []) KASPLEX_BASE_FEE [Byte.x01]) [21000]
    (mkExecutionResult [(21000, 21000)] [] 21000 0) 5 _ 7 () plain_eth_env_law eq_refl eq_refl)
    as (_ & H & _). exact (f_equal ExecutionCtx.extra_data H).
Defined.
