(* ===== verification/StateHook.v ===== *)
(** * The state hook of the block executor ([crates/block/src/executor.rs])

    [set_state_hook] gives the executor's system caller a hook that is shown every
    state change: reth streams the changes of a block to its state-root task with it.
    The hook only watches: what a run gives does not depend on it, and it sees the
    transactions that were committed, numbered like their receipts. *)

From stdpp Require Import prelude gmap strings.
From Stdlib Require Import ZArith Lia.
From S2P Require Import Prelude Types EvmWrapper BlockConfig BlockExecution.

(** ** What reth documents of its system caller

    It keeps one hook, which [on_state] invokes ([observe] is the hook's own method);
    a system call invokes it too, and neither its answer nor its effect on the EVM
    depends on the hook. *)
Class SystemCallerLaws (Evm Spec Tx Res Account Receipt EvmError BlockError Caller Hook : Type)
    `{M : Executor.Machine Evm Spec Tx Res Account Receipt EvmError BlockError Caller Hook}
    (observe : Executor.StateChangeSource → EvmState Account → Hook → Hook) : Prop := {
  new_has_no_hook spec :
    Executor.with_state_hook None (Executor.system_caller_new spec)
    = Executor.system_caller_new spec;
  hook_replaced h h' c :
    Executor.with_state_hook h (Executor.with_state_hook h' c) = Executor.with_state_hook h c;
  on_state_observes source changes h c :
    Executor.on_state source changes (Executor.with_state_hook h c)
    = Executor.with_state_hook (observe source changes <$> h) c;
  blockhashes_shown a c e : ∃ o c' e' (shown : Hook → Hook), ∀ h,
    Executor.apply_blockhashes_contract_call a (Executor.with_state_hook h c, e)
    = (o, (Executor.with_state_hook (shown <$> h) c', e'));
  beacon_root_shown a c e : ∃ o c' e' (shown : Hook → Hook), ∀ h,
    Executor.apply_beacon_root_contract_call a (Executor.with_state_hook h c, e)
    = (o, (Executor.with_state_hook (shown <$> h) c', e'));
}.

Section hook.
Context {Evm Spec Tx Res Account Receipt EvmError BlockError Caller Hook : Type}.
Context {M : Executor.Machine Evm Spec Tx Res Account Receipt EvmError BlockError Caller Hook}.
Context {observe : Executor.StateChangeSource → EvmState Account → Hook → Hook}.
Context {SL : SystemCallerLaws Evm Spec Tx Res Account Receipt EvmError BlockError Caller Hook observe}.
Local Abbreviation Executor := (Executor.t Evm Spec Receipt Caller).
Local Abbreviation Committed := (@Executor.Committed Evm Tx Res Account).
Implicit Types (x y : Executor) (h : option Hook).

(** The transactions of a block, after what comes before them. *)
Definition run_block (txs : list Tx)
    : comp Executor BlockError (list Committed) :=
  _ ← Executor.apply_pre_execution_changes;
  Executor.attempts txs.

(** What the hook is shown of a log of which [n] transactions were committed before. *)
Definition shown_of (n : nat) (log : list Committed) (hook : Hook) : Hook :=
  foldl (λ hook ic, observe (Executor.Transaction ic.1) (state (Executor.committed_output ic.2)) hook)
    hook (imap (λ i c, ((n + i)%nat, c)) log).

(** [m] gives the same with any hook, which is shown something on the way. *)
Definition watched {A} (m : comp Executor BlockError A) x
    (shown : Hook → Hook) (o : outcome BlockError A) y : Prop :=
  ∀ h, m (Executor.set_state_hook h x) = (o, Executor.set_state_hook (shown <$> h) y).

Lemma set_state_hook_twice h h' x :
  Executor.set_state_hook h (Executor.set_state_hook h' x) = Executor.set_state_hook h x.
Proof using SL. unfold Executor.set_state_hook, Executor.with_caller. simpl. by rewrite hook_replaced. Qed.

(** A call on the EVM alone shows nothing. *)
Lemma on_evm_watched {A} (m : comp Evm BlockError A) x :
  watched (Executor.on_evm m) x id (m (Executor.evm x)).1
    (Executor.with_evm (λ _, (m (Executor.evm x)).2) x).
Proof.
  intros h. unfold Executor.on_evm. simpl. destruct (m (Executor.evm x)) as [o e]. simpl.
  by rewrite option_fmap_id.
Qed.

Lemma on_system_watched {A} (m : comp (Caller * Evm) BlockError A) x :
  (∀ c e, ∃ o c' e' (shown : Hook → Hook), ∀ h,
     m (Executor.with_state_hook h c, e) = (o, (Executor.with_state_hook (shown <$> h) c', e'))) →
  ∃ shown o y, watched (Executor.on_system m) x shown o y.
Proof.
  intros Hm. destruct (Hm (Executor.system_caller x) (Executor.evm x)) as (o & c' & e' & shown & H).
  exists shown, o, (Executor.with_caller (λ _, c') (Executor.with_evm (λ _, e') x)). intros h.
  unfold Executor.on_system, Executor.set_state_hook, Executor.with_caller in *. simpl.
  by rewrite H.
Qed.

Lemma watched_bind {A B} (m : comp Executor BlockError A) (k : A → comp Executor BlockError B)
    x f a y g o z :
  watched m x f (Ok a) y → watched (k a) y g o z → watched (m ≫= k) x (g ∘ f) o z.
Proof.
  intros Hm Hk h. unfold mbind, comp_bind. rewrite (Hm h), (Hk (f <$> h)).
  by rewrite option_fmap_compose.
Qed.

Lemma watched_then {A B} (m : comp Executor BlockError A) (k : A → comp Executor BlockError B) x :
  (∃ f o y, watched m x f o y) → (∀ a y, ∃ g o z, watched (k a) y g o z) →
  ∃ f o y, watched (m ≫= k) x f o y.
Proof.
  intros (f & [a|e|] & y & Hm) Hk.
  - destruct (Hk a y) as (g & o & z & Hg). exists (g ∘ f), o, z. by eapply watched_bind.
  - exists f, (Err e), y. intros h. unfold mbind, comp_bind. by rewrite Hm.
  - exists f, Panicked, y. intros h. unfold mbind, comp_bind. by rewrite Hm.
Qed.

(** What comes before the transactions. *)
Lemma apply_pre_execution_changes_watched x :
  ∃ shown o y, watched Executor.apply_pre_execution_changes x shown o y.
Proof using SL.
  destruct (u256_to_u64 (Executor.block_number (Executor.evm x))) as [number|] eqn:En.
  - set (x1 := Executor.with_evm (Executor.set_state_clear_flag
      (Executor.is_spurious_dragon_active_at_block (Executor.spec x) number)) x).
    destruct (watched_then
      (Executor.on_system (Executor.apply_blockhashes_contract_call
         (ExecutionCtx.parent_hash (Executor.ctx x))))
      (λ _, Executor.on_system (Executor.apply_beacon_root_contract_call
         (ExecutionCtx.parent_beacon_block_root (Executor.ctx x)))) x1) as (f & o & y & Hf).
    + apply on_system_watched, blockhashes_shown.
    + intros _ y. apply on_system_watched, beacon_root_shown.
    + exists f, o, y. intros h. rewrite <-(Hf h). unfold Executor.apply_pre_execution_changes.
      rewrite bind_get_state. cbn [Executor.set_state_hook Executor.with_caller Executor.evm].
      by rewrite En, bind_expect_Some, bind_modify.
  - exists id, Panicked, x. intros h. unfold Executor.apply_pre_execution_changes.
    rewrite bind_get_state. cbn [Executor.set_state_hook Executor.with_caller Executor.evm].
    by rewrite En, option_fmap_id.
Qed.

Lemma try_transaction_watched tx x :
  ∃ o y, watched (try (Executor.execute_transaction_without_commit tx)) x id o y ∧
    Executor.receipts y = Executor.receipts x.
Proof.
  destruct (Executor.transact tx (Executor.evm x)) as [o e] eqn:Et.
  exists (try (Executor.execute_transaction_without_commit tx) x).1, (Executor.with_evm (λ _, e) x).
  split; [|done]. intros h.
  unfold try, Executor.execute_transaction_without_commit, map_err, Executor.on_evm.
  cbn [Executor.set_state_hook Executor.with_caller Executor.evm]. rewrite Et, option_fmap_id.
  by destruct o.
Qed.

Lemma commit_transaction_watched out tx x :
  ∃ g y, watched (Executor.commit_transaction out tx) x
      (observe (Executor.Transaction (length (Executor.receipts x))) (state out)) (Ok g) y ∧
    length (Executor.receipts y) = S (length (Executor.receipts x)).
Proof using SL.
  eexists _, (Executor.with_caller (λ _, Executor.system_caller x)
    (Executor.commit_transaction out tx x).2). split.
  - intros h. unfold Executor.commit_transaction, Executor.set_state_hook, Executor.with_caller.
    simpl. by rewrite on_state_observes.
  - simpl. rewrite length_app. simpl. lia.
Qed.

Lemma shown_of_cons n c log hook :
  shown_of n (c :: log) hook
  = shown_of (S n) log (observe (Executor.Transaction n) (state (Executor.committed_output c)) hook).
Proof.
  unfold shown_of. simpl. rewrite Nat.add_0_r. f_equal. apply imap_ext. intros i d _. simpl.
  f_equal. lia.
Qed.

(** The transactions: the hook is shown each committed one. *)
Lemma attempts_watched txs x :
  ∃ shown o y, watched (Executor.attempts txs) x shown o y ∧
    ∀ log, o = Ok log → ∀ hook, shown hook = shown_of (length (Executor.receipts x)) log hook.
Proof using SL.
  revert x. induction txs as [|tx txs IH]; intros x; simpl.
  { exists id, (Ok []), x. split; [|by intros log [= <-]]. intros h. by rewrite option_fmap_id. }
  destruct (try_transaction_watched tx x) as (o & y & Hy & Hr).
  destruct o as [[e|out]|e|].
  - destruct (IH y) as (f & o & z & Hz & Hs). exists (f ∘ id), o, z.
    split; [by eapply watched_bind|]. intros log Ho hook. rewrite <-Hr. by apply Hs.
  - destruct (commit_transaction_watched out tx y) as (g & z & Hz & Hl).
    destruct (IH z) as (f & o & z' & Hz' & Hs).
    exists (f ∘ observe (Executor.Transaction (length (Executor.receipts y))) (state out) ∘ id),
      (log ← o; Ok (Executor.mkCommitted (Executor.evm y) tx out :: log)), z'. split.
    + eapply watched_bind; [exact Hy|]. intros h. rewrite bind_get_state.
      unfold mbind, comp_bind. rewrite (Hz h), (Hz' _), <-option_fmap_compose. by destruct o.
    + destruct o as [log|e|]; simpl; intros log' [= <-] hook. rewrite shown_of_cons, <-Hr, <-Hl.
      simpl. by apply Hs.
  - eexists id, (Err e), y. split; [|done]. intros h. unfold mbind, comp_bind. by rewrite Hy.
  - eexists id, Panicked, y. split; [|done]. intros h. unfold mbind, comp_bind. by rewrite Hy.
Qed.

Lemma apply_pre_execution_changes_receipts x :
  Executor.receipts (Executor.apply_pre_execution_changes x).2 = Executor.receipts x.
Proof.
  unfold Executor.apply_pre_execution_changes. rewrite bind_get_state.
  destruct (u256_to_u64 _); [|done]. rewrite bind_expect_Some, bind_modify.
  unfold mbind, comp_bind, Executor.on_system.
  destruct (Executor.apply_blockhashes_contract_call _ _) as [[[]|e|] [c1 e1]]; [|done..].
  simpl. by destruct (Executor.apply_beacon_root_contract_call _ _) as [o [c2 e2]].
Qed.

(** The executor before its first transaction is new but for its EVM and caller. *)
Lemma run_block_receipts txs x log y :
  Executor.receipts x = [] → run_block txs x = (Ok log, y) →
  ∀ i c, log !! i = Some c → ∃ total,
    Executor.receipts y !! i
    = Some (Executor.build_receipt (Executor.at_evm c) (Executor.committed_tx c)
              (result (Executor.committed_output c)) (state (Executor.committed_output c)) total).
Proof.
  intros Hx Hrun i c Hc. unfold run_block in Hrun.
  apply bind_Ok_inv in Hrun as (u & x1 & Hpre & Hrun).
  pose proof (apply_pre_execution_changes_receipts x) as Hr. rewrite Hpre, Hx in Hr. simpl in Hr.
  apply Executor.attempts_run in Hrun as (-> & _ & _). rewrite Hr. simpl.
  rewrite (Executor.receipts_of_lookup _ _ _ _ Hc). by eexists.
Qed.

(** C24 The state hook only watches.  A block run with a hook ends like the same block
    run without one, with the same receipts, gas and EVM; and the hook is shown, after
    what the calls before the transactions show it, the state of each transaction that
    was committed, once, in order, under the index of its receipt. *)
Theorem state_hook_only_watches evm ctx spec :
  ∃ before : Hook → Hook, ∀ txs, ∃ o x shown,
    run_block txs (Executor.new evm ctx spec) = (o, x) ∧
    (∀ hook, run_block txs (Executor.set_state_hook (Some hook) (Executor.new evm ctx spec))
       = (o, Executor.set_state_hook (Some (shown hook)) x)) ∧
    (∀ h, Executor.finish (Executor.set_state_hook h x) = Executor.finish x) ∧
    ∀ log, o = Ok log →
      (∀ hook, shown hook = shown_of 0 log (before hook)) ∧
      ∀ i c, log !! i = Some c → ∃ total,
        Executor.receipts x !! i
        = Some (Executor.build_receipt (Executor.at_evm c) (Executor.committed_tx c)
            (result (Executor.committed_output c)) (state (Executor.committed_output c)) total).
Proof.
  set (x0 := Executor.new evm ctx spec).
  assert (Hnew : Executor.set_state_hook None x0 = x0).
  { unfold x0, Executor.new, Executor.set_state_hook, Executor.with_caller. simpl.
    by rewrite new_has_no_hook. }
  destruct (apply_pre_execution_changes_watched x0) as (f & o & y & Hf).
  exists f. intros txs.
  assert (Hrun : ∃ g o' z, watched (run_block txs) x0 g o' z ∧
    ∀ log, o' = Ok log → ∀ hook, g hook = shown_of 0 log (f hook)).
  { destruct o as [[]|e|].
    - assert (Hy : Executor.receipts y = []).
      { pose proof (apply_pre_execution_changes_receipts (Executor.set_state_hook None x0)) as Hr.
        by rewrite (Hf None) in Hr. }
      destruct (attempts_watched txs y) as (g & o' & z & Hg & Hs). rewrite Hy in Hs.
      exists (g ∘ f), o', z. split; [by eapply watched_bind|]. intros log Ho hook. by apply Hs.
    - exists f, (Err e), y. split; [|done]. intros h. unfold run_block, mbind, comp_bind.
      by rewrite (Hf h).
    - exists f, Panicked, y. split; [|done]. intros h. unfold run_block, mbind, comp_bind.
      by rewrite (Hf h). }
  destruct Hrun as (g & o' & z & Hz & Hs).
  exists o', (Executor.set_state_hook None z), g. pose proof (Hz None) as Hn.
  rewrite Hnew in Hn. simpl in Hn. split_and!; [done| |done|].
  - intros hook. by rewrite Hz, set_state_hook_twice.
  - intros log ->. split; [by apply Hs|]. by apply (run_block_receipts txs x0).
Qed.
End hook.

(** ** A hook that keeps a list, and the witness *)

(** [PlainMachine] with a caller that may have a list: a transaction appends its index,
    and the two system calls append 100 and 200. *)
Module PlainHook.
Definition note (n : nat) : option (list nat) → option (list nat) := fmap (λ seen, seen ++ [n]).

#[global] Instance machine :
  Executor.Machine Z () Z Z () (Z * Z) string string (option (list nat)) (list nat) := {
  block_number _ := 1;
  is_spurious_dragon_active_at_block _ _ := true;
  set_state_clear_flag _ e := e;
  system_caller_new _ := None;
  with_state_hook hook _ := hook;
  on_state source _ := match source with Executor.Transaction i => note i end;
  apply_blockhashes_contract_call _ := modify (prod_map (note 100) id);
  apply_beacon_root_contract_call _ := modify (prod_map (note 200) id);
  transact := Executor.transact (Machine := PlainMachine.machine);
  evm_error e _ := e;
  trie_hash tx := tx;
  gas_used_of r := r;
  build_receipt _ tx _ _ total := (tx, total);
  db_commit _ e := e;
}.

Definition observe (source : Executor.StateChangeSource) (_ : EvmState ()) (seen : list nat)
    : list nat := match source with Executor.Transaction i => seen ++ [i] end.

#[global] Instance laws :
  SystemCallerLaws Z () Z Z () (Z * Z) string string (option (list nat)) (list nat) observe.
Proof.
  split; try done.
  - by intros [i] changes [seen|] c.
  - intros a c e. exists (Ok ()), None, e, (λ seen, seen ++ [100%nat]). by intros [seen|].
  - intros a c e. exists (Ok ()), None, e, (λ seen, seen ++ [200%nat]). by intros [seen|].
Qed.
End PlainHook.

(** Three transactions, the second refused, with a hook that has seen nothing. *)
Lemma state_hook_only_watches_witness :
  ∃ x, run_block (M := PlainHook.machine) [21000; -1; 50000]
      (Executor.set_state_hook (Some []) (Executor.new 0 (ExecutionCtx.mk 0 None [] None 0 []) ()))
    = (x.1, Executor.set_state_hook (Some [100; 200; 0; 1]%nat) x.2) ∧
    Executor.receipts x.2 = [(21000, 21000); (50000, 71000)].
Proof.
  destruct (state_hook_only_watches (SL := PlainHook.laws) 0 (ExecutionCtx.mk 0 None [] None 0 []) ())
    as (before & H).
  destruct (H [21000; -1; 50000]) as (o & x & shown & Hrun & Hhook & _).
  exists (o, x). vm_compute in Hrun. injection Hrun as <- <-.
  split; [|reflexivity]. etrans; [apply (Hhook [])|].
  specialize (Hhook []). vm_compute in Hhook. injection Hhook as Hseen.
  simpl. f_equal. f_equal. f_equal. symmetry. exact Hseen.
Defined.
