(* ===== verification/Attributes.v ===== *)
(** * Payload attributes ([crates/primitives/src/payload/])

    The attributes a forkchoice update carries, the payload id derived from them,
    and the attributes the payload builder works with.  The hash functions and the
    RLP coding are parameters. *)

From stdpp Require Import prelude list strings.
From Stdlib Require Import ZArith Lia Strings.Byte.
From S2P Require Import Prelude Types Chainspec.

(** ** Data ([attributes.rs], [builder.rs]) *)

(** The Ethereum attributes; a withdrawal is left abstract. *)
Module Eth.
Record PayloadAttributes {Withdrawal : Type} := mkAttributes {
  timestamp : Z;
  prev_randao : B256;
  suggested_fee_recipient : Address;
  withdrawals : option (list Withdrawal);
  parent_beacon_block_root : option B256;
}.

Record PayloadBuilderAttributes {Withdrawal : Type} := mkBuilderAttributes {
  id : Bytes;
  parent : B256;
  builder_timestamp : Z;
  builder_suggested_fee_recipient : Address;
  builder_prev_randao : B256;
  builder_withdrawals : list Withdrawal;
  builder_parent_beacon_block_root : option B256;
}.
End Eth.
Arguments Eth.PayloadAttributes : clear implicits.
Arguments Eth.mkAttributes {Withdrawal} _ _ _ _ _.
Arguments Eth.PayloadBuilderAttributes : clear implicits.
Arguments Eth.mkBuilderAttributes {Withdrawal} _ _ _ _ _ _ _.

Module KasplexBlockMetadata.
Record t := mk {
  beneficiary : Address;
  gas_limit : Z;
  timestamp : Z;
  mix_hash : B256;
  tx_list : Bytes;
  extra_data : Bytes;
}.
End KasplexBlockMetadata.

Record KasplexPayloadAttributes {Withdrawal : Type} := mkKasplexAttributes {
  payload_attributes : Eth.PayloadAttributes Withdrawal;
  base_fee_per_gas : Z;
  block_metadata : KasplexBlockMetadata.t;
}.
Arguments KasplexPayloadAttributes : clear implicits.
Arguments mkKasplexAttributes {Withdrawal} _ _ _.

Module BuilderAttributes.
Record t {Withdrawal Recovered : Type} := mk {
  payload_attributes : Eth.PayloadBuilderAttributes Withdrawal;
  tx_list_hash : B256;
  beneficiary : Address;
  gas_limit : Z;
  timestamp : Z;
  mix_hash : B256;
  base_fee_per_gas : Z;
  transactions : list Recovered;
  extra_data : Bytes;
}.
End BuilderAttributes.
Arguments BuilderAttributes.t : clear implicits.
Arguments BuilderAttributes.mk {Withdrawal Recovered} _ _ _ _ _ _ _ _ _.

(** ** Accessors of the two attribute traits *)
Section accessors.
Context {Withdrawal Recovered : Type}.
Implicit Types (a : KasplexPayloadAttributes Withdrawal)
  (b : BuilderAttributes.t Withdrawal Recovered).

Definition attributes_timestamp a : Z := Eth.timestamp (payload_attributes a).
Definition attributes_withdrawals a : option (list Withdrawal) :=
  Eth.withdrawals (payload_attributes a).
Definition attributes_parent_beacon_block_root a : option B256 :=
  Eth.parent_beacon_block_root (payload_attributes a).

Definition payload_id b : Bytes := Eth.id (BuilderAttributes.payload_attributes b).
Definition parent b : B256 := Eth.parent (BuilderAttributes.payload_attributes b).
Definition timestamp b : Z := BuilderAttributes.timestamp b.
Definition parent_beacon_block_root b : option B256 :=
  Eth.builder_parent_beacon_block_root (BuilderAttributes.payload_attributes b).
Definition suggested_fee_recipient b : Address := BuilderAttributes.beneficiary b.
Definition prev_randao b : B256 := BuilderAttributes.mix_hash b.
Definition withdrawals b : list Withdrawal :=
  Eth.builder_withdrawals (BuilderAttributes.payload_attributes b).
End accessors.

(** ** Big-endian bytes *)

Definition byte_of (z : Z) : Byte.byte :=
  default Byte.x00 (Byte.of_N (Z.to_N (z `mod` 256))).

(** The [n] bytes of an unsigned integer, most significant first. *)
Fixpoint to_be_bytes (n : nat) (z : Z) : Bytes :=
  match n with
  | O => []
  | S n => byte_of (z / 256 ^ Z.of_nat n) :: to_be_bytes n z
  end.

Section builder.
Context {Withdrawal Tx Recovered RlpError : Type}.
Variable sha256 : Bytes → Bytes.
Variable keccak256 : Bytes → B256.
Variable encode_withdrawals : list Withdrawal → Bytes.
(** [Vec::<TransactionSigned>::decode] returns the list and the bytes after it. *)
Variable rlp_decode_transactions : Bytes → outcome RlpError (list Tx * Bytes).
Variable try_into_recovered : Tx → option Recovered.

(** The bytes hashed for the id, in the order of the [update] calls. *)
Definition payload_id_preimage (parent : B256) (attributes : KasplexPayloadAttributes Withdrawal)
    : Bytes :=
  let eth := payload_attributes attributes in
  to_be_bytes 32 parent
  ++ to_be_bytes 8 (Eth.timestamp eth)
  ++ to_be_bytes 32 (Eth.prev_randao eth)
  ++ to_be_bytes 20 (Eth.suggested_fee_recipient eth)
  ++ from_option encode_withdrawals [] (Eth.withdrawals eth)
  ++ from_option (to_be_bytes 32) [] (Eth.parent_beacon_block_root eth)
  ++ to_be_bytes 32 (keccak256 (KasplexBlockMetadata.tx_list (block_metadata attributes))).

Definition payload_id_kasplex (parent : B256) (attributes : KasplexPayloadAttributes Withdrawal)
    (payload_version : Byte.byte) : Bytes :=
  let out := sha256 (payload_id_preimage parent attributes) in
  let out := <[ 0%nat := payload_version ]> out in
  take 8 out.

(** Bytes after the list are not looked at. *)
Definition decode_transactions (bytes : Bytes) : outcome RlpError (list Tx) :=
  outcome_bind (λ r, Ok r.1) (rlp_decode_transactions bytes).

(** [unwrap_or_else(|_| Vec::new())] *)
Definition decoded_or_empty (bytes : Bytes) : list Tx :=
  match decode_transactions bytes with Ok txs => txs | _ => [] end.

Definition try_new (parent : B256) (attributes : KasplexPayloadAttributes Withdrawal)
    (version : Byte.byte) : outcome RlpError (BuilderAttributes.t Withdrawal Recovered) :=
  let id := payload_id_kasplex parent attributes version in
  let eth := payload_attributes attributes in
  let metadata := block_metadata attributes in
  let payload_attributes :=
    Eth.mkBuilderAttributes id parent (Eth.timestamp eth) (Eth.suggested_fee_recipient eth)
      (Eth.prev_randao eth) (default [] (Eth.withdrawals eth))
      (Eth.parent_beacon_block_root eth) in
  let transactions :=
    omap try_into_recovered (decoded_or_empty (KasplexBlockMetadata.tx_list metadata)) in
  match u256_to_u64 (KasplexBlockMetadata.timestamp metadata) with
  | None => Panicked
  | Some timestamp =>
      Ok (BuilderAttributes.mk payload_attributes
            (keccak256 (KasplexBlockMetadata.tx_list metadata))
            (KasplexBlockMetadata.beneficiary metadata)
            (KasplexBlockMetadata.gas_limit metadata) timestamp (Eth.prev_randao eth)
            (base_fee_per_gas attributes) transactions
            (KasplexBlockMetadata.extra_data metadata))
  end.

(** [LocalPayloadAttributesBuilder]: the Ethereum builder's attributes, base fee 0,
    no transactions. *)
Definition MAXIMUM_GAS_LIMIT_BLOCK : Z := 2 ^ 63 - 1.

Definition build_local_attributes (eth_build : SealedHeader → Eth.PayloadAttributes Withdrawal)
    (parent : SealedHeader) : KasplexPayloadAttributes Withdrawal :=
  let eth := eth_build parent in
  let timestamp := Eth.timestamp eth in
  mkKasplexAttributes eth 0
    (KasplexBlockMetadata.mk 0 MAXIMUM_GAS_LIMIT_BLOCK timestamp 0 [] []).
End builder.

(** ** Lemmas *)

Lemma to_be_bytes_length n z : length (to_be_bytes n z) = n.
Proof. induction n as [|n IH]; simpl; [done|]. by rewrite IH. Qed.

Lemma byte_of_inj a b : byte_of a = byte_of b → a `mod` 256 = b `mod` 256.
Proof.
  unfold byte_of.
  pose proof (Z.mod_pos_bound a 256 ltac:(lia)). pose proof (Z.mod_pos_bound b 256 ltac:(lia)).
  assert (Hsome : ∀ n, (n < 256)%N → ∃ x, Byte.of_N n = Some x ∧ Byte.to_N x = n).
  { intros n Hn. destruct (Byte.of_N n) as [x|] eqn:E.
    - exists x. split; [done|]. by apply Byte.to_of_N.
    - apply Byte.of_N_None_iff in E. lia. }
  destruct (Hsome (Z.to_N (a `mod` 256))) as (x & -> & Hx); [lia|].
  destruct (Hsome (Z.to_N (b `mod` 256))) as (y & -> & Hy); [lia|].
  simpl. intros ->. rewrite Hx in Hy. lia.
Qed.

(** Fixed-width big-endian bytes determine the integer. *)
Lemma to_be_bytes_inj n a b :
  in_width (8 * Z.of_nat n) a → in_width (8 * Z.of_nat n) b →
  to_be_bytes n a = to_be_bytes n b → a = b.
Proof.
  assert (Hmod : ∀ n a b, to_be_bytes n a = to_be_bytes n b →
    a `mod` 256 ^ Z.of_nat n = b `mod` 256 ^ Z.of_nat n).
  { clear. intros n a b. induction n as [|n IH]; intros H.
    - change (256 ^ Z.of_nat 0) with 1. by rewrite !Z.mod_1_r.
    - injection H as Hb H. apply byte_of_inj in Hb. specialize (IH H).
      replace (Z.of_nat (S n)) with (Z.of_nat n + 1) by lia.
      rewrite Z.pow_add_r, Z.pow_1_r, !Z.rem_mul_r by (try apply Z.pow_nonzero; lia).
      congruence. }
  unfold in_width. intros Ha Hb H. apply Hmod in H.
  replace (256 ^ Z.of_nat n) with (2 ^ (8 * Z.of_nat n)) in H.
  - by rewrite !Z.mod_small in H.
  - rewrite Z.pow_mul_r by lia. done.
Qed.

Lemma to_be_bytes_app_inj n a b x y :
  in_width (8 * Z.of_nat n) a → in_width (8 * Z.of_nat n) b →
  to_be_bytes n a ++ x = to_be_bytes n b ++ y → a = b ∧ x = y.
Proof.
  intros Ha Hb H. apply app_inj_1 in H as [H Hxy]; [|by rewrite !to_be_bytes_length].
  split; [|done]. by apply (to_be_bytes_inj n).
Qed.
#[local] Arguments to_be_bytes : simpl never.

(** The widths of the hashed fields. *)
Definition eth_fields_in_width {Withdrawal} (a : KasplexPayloadAttributes Withdrawal) : Prop :=
  let eth := payload_attributes a in
  in_width 64 (Eth.timestamp eth) ∧ in_width 256 (Eth.prev_randao eth) ∧
  in_width 160 (Eth.suggested_fee_recipient eth) ∧
  ∀ r, Eth.parent_beacon_block_root eth = Some r → in_width 256 r.

(** ** Properties *)

Section properties.
Context {Withdrawal Tx Recovered RlpError : Type}.
Variable sha256 : Bytes → Bytes.
Variable keccak256 : Bytes → B256.
Variable encode_withdrawals : list Withdrawal → Bytes.
Variable rlp_decode_transactions : Bytes → outcome RlpError (list Tx * Bytes).
Variable try_into_recovered : Tx → option Recovered.
Implicit Types (a b : KasplexPayloadAttributes Withdrawal).

(** The payload id has eight bytes, the first of them the version, so ids of
    different versions never meet; but within a version it is a function of the
    parent, the Ethereum attributes and the transaction list alone: attributes that
    differ in base fee, gas limit, beneficiary, block timestamp, mix hash or extra
    data have the same id. *)
Theorem payload_id_version_and_collisions p q a b v w
    (Hsha : ∀ bytes, length (sha256 bytes) = 32%nat) :
  let id := payload_id_kasplex sha256 keccak256 encode_withdrawals in
  length (id p a v) = 8%nat ∧ head (id p a v) = Some v ∧
  (v ≠ w → id p a v ≠ id q b w) ∧
  (payload_attributes a = payload_attributes b →
   KasplexBlockMetadata.tx_list (block_metadata a) = KasplexBlockMetadata.tx_list (block_metadata b) →
   id p a v = id p b v).
Proof.
  intros id. assert (Hhead : ∀ p a v, head (id p a v) = Some v).
  { intros p' a' v'. unfold id, payload_id_kasplex.
    specialize (Hsha (payload_id_preimage keccak256 encode_withdrawals p' a')).
    by destruct (sha256 _). }
  split_and!; [|done|..].
  - unfold id, payload_id_kasplex. rewrite length_take, length_insert, Hsha. done.
  - intros Hv H. apply Hv. apply (f_equal head) in H. rewrite !Hhead in H. congruence.
  - intros He Ht. unfold id, payload_id_kasplex, payload_id_preimage. by rewrite He, Ht.
Qed.

(** What the id is computed from: for attributes of the same shape (withdrawals
    and beacon root present in both or in neither), the hashed bytes are equal
    exactly when parent, timestamp, randao, fee recipient, beacon root and
    transaction-list hash are, provided the withdrawals are equal. *)
Theorem payload_id_preimage_injective p q a b
    (Ha : eth_fields_in_width a) (Hb : eth_fields_in_width b)
    (Hp : in_width 256 p) (Hq : in_width 256 q)
    (Hk : ∀ bytes, in_width 256 (keccak256 bytes))
    (Hw : Eth.withdrawals (payload_attributes a) = Eth.withdrawals (payload_attributes b))
    (Hr : is_Some (Eth.parent_beacon_block_root (payload_attributes a)) ↔
          is_Some (Eth.parent_beacon_block_root (payload_attributes b))) :
  payload_id_preimage keccak256 encode_withdrawals p a
  = payload_id_preimage keccak256 encode_withdrawals q b ↔
  p = q ∧ payload_attributes a = payload_attributes b ∧
  keccak256 (KasplexBlockMetadata.tx_list (block_metadata a))
  = keccak256 (KasplexBlockMetadata.tx_list (block_metadata b)).
Proof.
  split; [|intros (-> & He & Hx); unfold payload_id_preimage; by rewrite He, Hx].
  unfold payload_id_preimage. intros H. destruct Ha as (?&?&?&Hra), Hb as (?&?&?&Hrb).
  rewrite Hw in H.
  do 4 (apply to_be_bytes_app_inj in H as [? H]; [|done..]).
  apply app_inj_1 in H as [_ H]; [|done].
  destruct (payload_attributes a) as [ta ra fa wa ba], (payload_attributes b) as [tb rb fb wb bb].
  cbn [Eth.timestamp Eth.prev_randao Eth.suggested_fee_recipient Eth.withdrawals
    Eth.parent_beacon_block_root] in *.
  destruct ba as [ba|], bb as [bb|]; cbn [from_option option_rect app] in *.
  - apply to_be_bytes_app_inj in H as [? H]; [|by auto..].
    apply to_be_bytes_inj in H; [|apply Hk..]. naive_solver.
  - destruct (proj1 Hr ltac:(by eexists)). naive_solver.
  - destruct (proj2 Hr ltac:(by eexists)). naive_solver.
  - apply to_be_bytes_inj in H; [|apply Hk..]. naive_solver.
Qed.

(** The attributes the conversion gives, when it gives some. *)
Lemma try_new_Ok p a v (b : BuilderAttributes.t Withdrawal Recovered) :
  try_new sha256 keccak256 encode_withdrawals rlp_decode_transactions try_into_recovered p a v = Ok b →
  BuilderAttributes.transactions b
  = omap try_into_recovered
      (decoded_or_empty rlp_decode_transactions (KasplexBlockMetadata.tx_list (block_metadata a))) ∧
  BuilderAttributes.gas_limit b = KasplexBlockMetadata.gas_limit (block_metadata a).
Proof. unfold try_new. by destruct (u256_to_u64 _) as [t|]; intros [= <-]. Qed.

(** C38 Attributes are accepted whatever their transaction list is: the conversion
    never returns an error, it panics exactly on a block timestamp of more than 64
    bits, and otherwise its transactions are those of the decoded list whose signer
    is recovered, in order, none when the list does not decode. *)
Theorem try_new_spec p a v :
  let r := try_new sha256 keccak256 encode_withdrawals rlp_decode_transactions
             try_into_recovered p a v in
  let m := block_metadata a in
  (r = Panicked ↔ ¬ in_width 64 (KasplexBlockMetadata.timestamp m)) ∧
  (in_width 64 (KasplexBlockMetadata.timestamp m) →
   ∃ b : BuilderAttributes.t Withdrawal Recovered, r = Ok b ∧
    payload_id b = payload_id_kasplex sha256 keccak256 encode_withdrawals p a v ∧ parent b = p ∧
    timestamp b = KasplexBlockMetadata.timestamp m ∧
    suggested_fee_recipient b = KasplexBlockMetadata.beneficiary m ∧
    prev_randao b = Eth.prev_randao (payload_attributes a) ∧
    BuilderAttributes.gas_limit b = KasplexBlockMetadata.gas_limit m ∧
    BuilderAttributes.base_fee_per_gas b = base_fee_per_gas a ∧
    BuilderAttributes.extra_data b = KasplexBlockMetadata.extra_data m ∧
    BuilderAttributes.transactions b =
      match rlp_decode_transactions (KasplexBlockMetadata.tx_list m) with
      | Ok (txs, _) => omap try_into_recovered txs
      | _ => []
      end).
Proof.
  cbv zeta. unfold try_new, u256_to_u64, in_width. case_decide as Hw.
  - split; [by split|]. intros _. eexists. split; [reflexivity|].
    do 8 (split; [done|]). simpl. unfold decoded_or_empty, decode_transactions.
    by destruct (rlp_decode_transactions _) as [[txs rest]|e|].
  - split; [by split|]. done.
Qed.
End properties.

(** ** Witnesses *)

Definition sample_kasplex_attributes (fee : Z) : KasplexPayloadAttributes () :=
  mkKasplexAttributes (Eth.mkAttributes 1010 8 9 None None) fee
    (KasplexBlockMetadata.mk 9 45000000 1010 8 [Byte.x02; Byte.x01] []).

(** Two attributes with different base fees share their id. *)
Lemma payload_id_version_and_collisions_witness :
  payload_id_kasplex (λ _, replicate 32 Byte.x01) (λ _, 0) (λ _, []) 5
    (sample_kasplex_attributes 0) Byte.x02
  = payload_id_kasplex (λ _, replicate 32 Byte.x01) (λ _, 0) (λ _, []) 5
      (sample_kasplex_attributes 7) Byte.x02.
Proof.
  by apply (payload_id_version_and_collisions (λ _, replicate 32 Byte.x01) (λ _, 0) (λ _, []) 5 5
    (sample_kasplex_attributes 0) (sample_kasplex_attributes 7) Byte.x02 Byte.x02).
Defined.

Lemma payload_id_preimage_injective_witness :
  payload_id_preimage (λ _, 0) (λ _, []) 5 (sample_kasplex_attributes 0)
  ≠ payload_id_preimage (λ _, 0) (λ _, []) 6 (sample_kasplex_attributes 0).
Proof.
  intros H.
  apply (payload_id_preimage_injective (λ _, 0) (λ _, []) 5 6 (sample_kasplex_attributes 0)
    (sample_kasplex_attributes 0)) in H as [H _]; [discriminate|..].
  - by split_and!; try (intros ??; discriminate); vm_compute; split.
  - by split_and!; try (intros ??; discriminate); vm_compute; split.
  - by vm_compute; split.
  - by vm_compute; split.
  - by vm_compute; split.
  - reflexivity.
  - done.
Defined.

Lemma try_new_spec_witness :
  ∃ b, try_new (RlpError := ()) (λ _, replicate 32 Byte.x01) (λ _, 0) (λ _, [])
         (λ bytes, Ok (bytes, [])) (λ x, if decide (x = Byte.x01) then Some x else None) 5
         (sample_kasplex_attributes 0) Byte.x02 = Ok b ∧
    BuilderAttributes.transactions b = [Byte.x01].
Proof.
  destruct (try_new_spec (RlpError := ()) (λ _, replicate 32 Byte.x01) (λ _, 0) (λ _, [])
    (λ bytes, Ok (bytes, [])) (λ x, if decide (x = Byte.x01) then Some x else None) 5
    (sample_kasplex_attributes 0) Byte.x02) as (_ & H).
  destruct H as (b & E & H); [vm_compute; by split|]. exists b. split; [exact E|].
  by destruct_and! H.
Defined.
