(* ===== verification/PayloadBuilder.v ===== *)
(** * Building a payload ([crates/payload/src/builder.rs])

    [kasplex_payload]: executes the transactions of the attributes, skipping the
    invalid ones, and records the submission number of every included transaction
    in the global mapping, for the conversion of the block to a payload.  reth's
    block builder and state provider are parameters. *)

From stdpp Require Import prelude gmap list strings.
From Stdlib Require Import ZArith Lia.
From S2P Require Import Prelude Types TxMapping Chainspec BlockConfig Attributes.

(** ** What the builder calls *)

(** reth's error of a transaction's execution. *)
Inductive BlockExecutionError : Type :=
| InvalidTx
| TransactionGasLimitMoreThanAvailableBlockGas
| OtherValidation
| InternalExecution.

Class BlockBuilder (B Spec Provider Tx Block PayloadError : Type) := {
  create_block_builder : EvmEnv Spec → SealedHeader → ExecutionCtx.t → Provider → B;
  builder_pre_execution : comp B BlockExecutionError ();
  execute_transaction : Tx → comp B BlockExecutionError Z;
  builder_finish : B → Provider → outcome PayloadError Block;
  (** [recovered_transaction(idx)] is the lookup in this list. *)
  block_transactions : Block → list Tx;
  (** the transactions executed so far *)
  executed : B → list Tx;
  tx_hash : Tx → B256;
  effective_tip_per_gas : Tx → Z → option Z;
}.

(** A transaction joins the block exactly when its execution succeeds, and then it
    pays at least the base fee the environment has. *)
Class BlockBuilderLaws (B Spec Provider Tx Block PayloadError : Type)
    `{BB : BlockBuilder B Spec Provider Tx Block PayloadError} : Prop := {
  create_executed env parent ctx p : executed (create_block_builder env parent ctx p) = [];
  pre_execution_executed (b b' : B) o :
    builder_pre_execution b = (o, b') → executed b' = executed b;
  execute_Ok tx (b b' : B) g :
    execute_transaction tx b = (Ok g, b') → executed b' = executed b ++ [tx];
  execute_Err tx (b b' : B) e :
    execute_transaction tx b = (Err e, b') → executed b' = executed b;
  finish_transactions (b : B) p blk :
    builder_finish b p = Ok blk → block_transactions blk = executed b;
}.

Inductive PayloadBuilderError (E : Type) : Type :=
| PayloadInternal (e : BlockExecutionError)
| PayloadEvm (e : BlockExecutionError)
| MissingPayload
| PayloadProvider (e : E).
Arguments PayloadInternal {E} e.
Arguments PayloadEvm {E} e.
Arguments MissingPayload {E}.
Arguments PayloadProvider {E} e.

(** [EthBuiltPayload] *)
Record EthBuiltPayload {Block : Type} := mkBuiltPayload {
  built_id : Bytes;
  built_block : Block;
  built_fees : Z;
}.
Arguments EthBuiltPayload : clear implicits.
Arguments mkBuiltPayload {Block} _ _ _.

Inductive BuildOutcome (Block : Type) : Type :=
| Cancelled
| Freeze (payload : EthBuiltPayload Block).
Arguments Cancelled {Block}.
Arguments Freeze {Block} payload.

(** The shared state: the configuration's cells and the global mapping. *)
Record BuildWorld {S : Type} := mkBuildWorld { config_state : S; build_mapping : TxMappingState }.
Arguments BuildWorld : clear implicits.
Arguments mkBuildWorld {S} _ _.

Definition on_config {S E F A} (f : E → F) (m : comp S E A) : comp (BuildWorld S) F A := λ w,
  let '(o, s) := m (config_state w) in (outcome_map_err f o, mkBuildWorld s (build_mapping w)).
Definition on_build_mapping {S} (f : TxMappingState → TxMappingState) (w : BuildWorld S)
    : BuildWorld S := mkBuildWorld (config_state w) (f (build_mapping w)).

Section payload.
Context {S C Chain Spec Provider B Tx Block PErr : Type}.
Context {NB : NextBlockConfig S C Spec (PayloadBuilderError PErr)}.
Context {BB : BlockBuilder B Spec Provider Tx Block PErr}.
Variable state_by_block_hash : B256 → outcome PErr Provider.

(** [BuildArguments]: cancellation is polled once per transaction; the cached reads
    and the best payload so far have no effect. *)
Record BuildArguments := mkBuildArguments {
  parent_header : SealedHeader;
  attributes : BuilderAttributes.t Z Tx;
  is_cancelled : nat → bool;
}.

Definition extract_transaction_number (tx : Tx) (st : TxMappingState) : Z :=
  default 0 (get_submission_block (tx_hash tx) st).

(** The variables of the loop. *)
Record Progress := mkProgress {
  progress_builder : B;
  total_fees : Z;
  transaction_numbers : list Z;
}.

(** The ways out of the function from inside the loop. *)
Inductive Exit : Type := ReturnCancelled | ReturnError (e : PayloadBuilderError PErr).

Definition build_step (base_fee : Z) (is_cancelled : nat → bool) (acc : Progress)
    (itx : nat * Tx) : comp (BuildWorld S) Exit Progress :=
  let '(i, tx) := itx in
  _ ← fail_if (is_cancelled i) ReturnCancelled;
  tx_number ← gets (λ w, extract_transaction_number tx (build_mapping w));
  let numbers := transaction_numbers acc ++ [tx_number] in
  match execute_transaction tx (progress_builder acc) with
  | (Ok gas_used, b) =>
      miner_fee ← expect (effective_tip_per_gas tx base_fee);
      mret (mkProgress b (total_fees acc ⊞[256] (miner_fee ⊠[256] gas_used)) numbers)
  | (Err (InvalidTx | TransactionGasLimitMoreThanAvailableBlockGas), b) =>
      mret (mkProgress b (total_fees acc) (removelast numbers))
  | (Err err, b) => fail (ReturnError (PayloadEvm err))
  | (Panicked, _) => panic
  end.

Definition store_number (block : Block) (_ : ()) (inumber : nat * Z)
    : comp (BuildWorld S) (PayloadBuilderError PErr) () :=
  let '(idx, number) := inumber in
  match block_transactions block !! idx with
  | Some recovered_tx => modify (on_build_mapping (insert (tx_hash recovered_tx) number))
  | None => mret ()
  end.

(** [builder_for_next_block]: reth's provided method, between the two writes of
    the attributes' values and their clearing. *)
Definition builder_for_next_block (evm_config : C) (parent : SealedHeader)
    (attrs : BuilderAttributes.t Z Tx) (base_fee : Z) (provider : Provider)
    : comp S (PayloadBuilderError PErr) B :=
  let next := NextBlock.mk (timestamp attrs) (suggested_fee_recipient attrs)
                (prev_randao attrs) (BuilderAttributes.gas_limit attrs)
                (parent_beacon_block_root attrs)
                (Some (withdrawals attrs)) [] in
  '(env, ctx) ← (
    _ ← set_next_block_extra_data evm_config (BuilderAttributes.extra_data attrs);
    _ ← set_next_block_base_fee_per_gas evm_config base_fee;
    env ← next_evm_env evm_config (sealed_header parent) next;
    ctx ← context_for_next_block evm_config parent next;
    _ ← clear_next_block_extra_data evm_config;
    _ ← clear_next_block_base_fee_per_gas evm_config;
    mret (env, ctx));
  mret (create_block_builder env parent ctx provider).

(** The transactions of the block, and the block's end. *)
Definition execute_and_finish (args : BuildArguments) (state_provider : Provider)
    (base_fee : Z) (builder : B)
    : comp (BuildWorld S) (PayloadBuilderError PErr) (BuildOutcome Block) := λ w,
  match for_in (imap pair (BuilderAttributes.transactions (attributes args)))
          (mkProgress builder 0 []) (build_step base_fee (is_cancelled args)) w with
  | (Err ReturnCancelled, w) => (Ok Cancelled, w)
  | (Err (ReturnError e), w) => (Err e, w)
  | (Panicked, w) => (Panicked, w)
  | (Ok progress, w) =>
      (block ← lift (outcome_map_err PayloadProvider
         (builder_finish (progress_builder progress) state_provider));
       _ ← (if (0 <? length (transaction_numbers progress))%nat
            then for_in (imap pair (transaction_numbers progress)) () (store_number block)
            else mret ());
       mret (Freeze (mkBuiltPayload (payload_id (attributes args)) block
               (total_fees progress)))) w
  end.

Definition kasplex_payload (evm_config : C) (args : BuildArguments)
    : comp (BuildWorld S) (PayloadBuilderError PErr) (BuildOutcome Block) :=
  let attrs := attributes args in
  state_provider ← lift (outcome_map_err PayloadProvider
    (state_by_block_hash (sealed_header_hash (parent_header args))));
  base_fee ← expect (u256_to_u64 (BuilderAttributes.base_fee_per_gas attrs));
  builder ← on_config id
    (builder_for_next_block evm_config (parent_header args) attrs base_fee state_provider);
  builder ← lift (match builder_pre_execution builder with
                  | (Ok _, b) => Ok b
                  | (Err e, _) => Err (PayloadInternal e)
                  | (Panicked, _) => Panicked
                  end);
  execute_and_finish args state_provider base_fee builder.

(** The remaining methods of the [PayloadBuilder] trait. *)
Definition try_build := kasplex_payload.
Inductive MissingPayloadBehaviour : Type := AwaitInProgress | RaceEmptyPayload.
Definition on_missing_payload (_args : BuildArguments) : MissingPayloadBehaviour := AwaitInProgress.
Definition build_empty_payload (_parent : SealedHeader) (_ : BuilderAttributes.t Z Tx)
    : outcome (PayloadBuilderError PErr) (EthBuiltPayload Block) := Err MissingPayload.
End payload.

Arguments BuildArguments : clear implicits.
Arguments mkBuildArguments {Tx} _ _ _.
Arguments Progress : clear implicits.

(** ** Lemmas *)

(** The transaction with hash [h], if one of the list has it. *)
Definition hashes `{BlockBuilder B Spec Provider Tx Block PErr} (txs : list Tx) : list B256 :=
  tx_hash <$> txs.

Section lemmas.
Context {S C Chain Spec Provider B Tx Block PErr : Type}.
Context {NB : NextBlockConfig S C Spec (PayloadBuilderError PErr)}.
Context {BB : BlockBuilder B Spec Provider Tx Block PErr}.
Context {BL : BlockBuilderLaws B Spec Provider Tx Block PErr}.
Implicit Types (w : BuildWorld S) (txs : list Tx) (st : TxMappingState).

Local Abbreviation numbers_of st txs := ((λ tx, extract_transaction_number tx st) <$> txs).

(** The fees of executed transactions, each with its gas. *)
Definition fee_of (base_fee : Z) (txgas : Tx * Z) : Z :=
  default 0 (effective_tip_per_gas txgas.1 base_fee) * txgas.2.

(** A build as a relation: every transaction is tried in turn; one whose execution
    succeeds is included with its gas, one that is invalid or does not fit the
    block is skipped, and nothing else lets the build go on. *)
Inductive builds : B → list (Tx * option Z) → B → Prop :=
| builds_nil b : builds b [] b
| builds_included b b' b'' tx g tries :
    execute_transaction tx b = (Ok g, b') →
    builds b' tries b'' → builds b ((tx, Some g) :: tries) b''
| builds_skipped b b' b'' tx e tries :
    e = InvalidTx ∨ e = TransactionGasLimitMoreThanAvailableBlockGas →
    execute_transaction tx b = (Err e, b') →
    builds b' tries b'' → builds b ((tx, None) :: tries) b''.

Definition included (tries : list (Tx * option Z)) : list (Tx * Z) :=
  omap (λ t, pair t.1 <$> t.2) tries.

Lemma builds_executed b tries b' :
  builds b tries b' → executed b' = executed b ++ (included tries).*1.
Proof.
  induction 1 as [b|b b1 b2 tx g tries Hx Hb IH|b b1 b2 tx e tries He Hx Hb IH];
    [by rewrite app_nil_r|..]; unfold included in *; simpl; rewrite IH.
  - by rewrite (execute_Ok _ _ _ _ Hx), <-app_assoc.
  - by rewrite (execute_Err _ _ _ _ Hx).
Qed.

(** What the variables of the loop mean: a number for each executed transaction. *)
Definition in_step w (acc : Progress B) : Prop :=
  transaction_numbers acc = numbers_of (build_mapping w) (executed (progress_builder acc)) ∧
  in_width 256 (total_fees acc).

Lemma build_step_Ok base_fee c acc itx w acc' w' :
  build_step (S := S) (PErr := PErr) base_fee c acc itx w = (Ok acc', w') →
  in_step w acc →
  w' = w ∧ c itx.1 = false ∧ in_step w acc' ∧ ∃ try : Tx * option Z, try.1 = itx.2 ∧
    builds (progress_builder acc) [try] (progress_builder acc') ∧
    total_fees acc' = wrap 256 (total_fees acc + sumZ (fee_of base_fee) (included [try])).
Proof.
  destruct itx as [i tx]. unfold build_step, in_step. intros H (Hn & Hf). simpl.
  destruct (c i); simpl in H; [done|]. rewrite bind_mret, bind_gets in H.
  destruct (execute_transaction tx (progress_builder acc)) as [[g|e|] b] eqn:Ex; [..|done].
  - destruct (effective_tip_per_gas tx base_fee) as [fee|] eqn:Ef; [|done].
    rewrite bind_expect_Some in H. injection H as <- <-. simpl.
    rewrite (execute_Ok _ _ _ _ Ex), fmap_app, <-Hn.
    split_and!; [done..|by apply wrap_range|]. exists (tx, Some g).
    split_and!; [done|by repeat econstructor|].
    unfold included, fee_of, wrapping_add, wrapping_mul, wrap. simpl. rewrite Ef. simpl.
    rewrite Z.add_0_r, Zplus_mod_idemp_r. done.
  - assert (w' = w ∧ acc' = mkProgress b (total_fees acc) (transaction_numbers acc) ∧
      (e = InvalidTx ∨ e = TransactionGasLimitMoreThanAvailableBlockGas)) as (-> & -> & He).
    { destruct e; simpl in H; try done; rewrite run_mret in H; injection H as <- <-;
        rewrite removelast_last; tauto. }
    simpl. rewrite (execute_Err _ _ _ _ Ex), <-Hn.
    split_and!; [done..|]. exists (tx, None). split_and!; [done| |].
    + eapply builds_skipped; [done..|]. constructor.
    + unfold included. simpl. rewrite Z.add_0_r. symmetry. by apply wrap_small.
Qed.

Lemma builds_app b1 t1 b2 t2 b3 : builds b1 t1 b2 → builds b2 t2 b3 → builds b1 (t1 ++ t2) b3.
Proof. induction 1; intros; [done|..]; econstructor; eauto. Qed.

Lemma build_loop_Ok base_fee c (itxs : list (nat * Tx)) acc w acc' w' :
  for_in itxs acc (build_step (S := S) (PErr := PErr) base_fee c) w = (Ok acc', w') →
  in_step w acc →
  w' = w ∧ Forall (λ itx, c itx.1 = false) itxs ∧ in_step w acc' ∧
  ∃ tries, tries.*1 = itxs.*2 ∧
    builds (progress_builder acc) tries (progress_builder acc') ∧
    total_fees acc' = wrap 256 (total_fees acc + sumZ (fee_of base_fee) (included tries)).
Proof.
  revert acc w. induction itxs as [|itx itxs IH]; intros acc w H Hin; simpl in H.
  { injection H as <- <-. split_and!; [done..|]. exists [].
    split_and!; [done|constructor|]. simpl. rewrite Z.add_0_r. symmetry.
    apply wrap_small, Hin. }
  apply bind_Ok_inv in H as (acc1 & w1 & H1 & H).
  apply build_step_Ok in H1 as (-> & Hc & Hin1 & try & Ht & Hb1 & Hf1); [|done].
  apply IH in H as (-> & Hcs & Hin2 & tries & Hts & Hb2 & Hf2); [|done].
  split_and!; [done|by constructor|done|]. exists ([try] ++ tries).
  split_and!; [by apply (f_equal2 cons)|by eapply builds_app|].
  unfold included in *. rewrite Hf2, Hf1, omap_app, sumZ_app. unfold wrap.
  rewrite Zplus_mod_idemp_l. f_equal. lia.
Qed.

Lemma store_number_hit block idx number tx w :
  block_transactions block !! idx = Some tx →
  store_number (S := S) (PErr := PErr) block () (idx, number) w
  = (Ok (), on_build_mapping (insert (tx_hash tx) number) w).
Proof. unfold store_number. by intros ->. Qed.

Lemma store_numbers_run block st0 txs w :
  block_transactions block = txs →
  for_in (imap pair (numbers_of st0 txs)) () (store_number (S := S) (PErr := PErr) block) w
  = (Ok (), on_build_mapping (record_numbers st0 (hashes txs)) w).
Proof.
  intros Hb.
  assert (H : ∀ pre suf st, txs = pre ++ suf →
    for_in (imap (λ i, pair (length pre + i)%nat) (numbers_of st0 suf)) ()
      (store_number (S := S) (PErr := PErr) block) (mkBuildWorld (config_state w) st)
    = (Ok (), mkBuildWorld (config_state w) (record_numbers st0 (hashes suf) st))).
  { intros pre suf. revert pre. induction suf as [|tx suf IH]; intros pre st Ht; [done|].
    cbn [fmap list_fmap imap for_in].
    assert (block_transactions block !! (length pre + 0)%nat = Some tx) as Hat.
    { rewrite Hb, Ht, Nat.add_0_r. by apply list_lookup_middle. }
    rewrite (bind_Ok _ _ _ _ _ (store_number_hit _ _ _ _ _ Hat)).
    specialize (IH (pre ++ [tx]) (insert (tx_hash tx) (extract_transaction_number tx st0) st)).
    rewrite (imap_ext _ (λ i, pair (length (pre ++ [tx]) + i)%nat)).
    - apply IH. by rewrite <-app_assoc.
    - intros i x _. rewrite length_app. simpl. f_equal. lia. }
  destruct w as [cs st]. apply (H [] txs st eq_refl).
Qed.

(** The end of a build: what was executed, and what was recorded. *)
Lemma execute_and_finish_Freeze args provider base_fee b w p w' :
  executed b = [] →
  execute_and_finish args provider base_fee b w = (Ok (Freeze p), w') →
  (∀ i, (i < length (BuilderAttributes.transactions (attributes args)))%nat →
    is_cancelled args i = false) ∧
  ∃ tries b', tries.*1 = BuilderAttributes.transactions (attributes args) ∧
    builds b tries b' ∧ builder_finish b' provider = Ok (built_block p) ∧
    block_transactions (built_block p) = (included tries).*1 ∧
    built_id p = payload_id (attributes args) ∧
    built_fees p = wrap 256 (sumZ (fee_of base_fee) (included tries)) ∧
    w' = on_build_mapping (record_numbers (build_mapping w) (hashes (included tries).*1)) w.
Proof.
  intros Hb. unfold execute_and_finish.
  destruct (for_in _ _ _ w) as [[acc|[]|] w1] eqn:E; [|done..].
  assert (Himap : ∀ (l : list Tx), (imap pair l).*2 = l).
  { intros l. rewrite fmap_imap. apply list_eq. intros i. rewrite list_lookup_imap. simpl.
    by destruct (l !! i). }
  apply build_loop_Ok in E as (-> & Hc & [Hn _] & tries & Ht & Hbs & Hf);
    [|split; simpl; [by rewrite Hb|width]].
  apply builds_executed in Hbs as He. simpl in He, Hf, Hbs. rewrite Hb in He. simpl in He.
  rewrite Himap in Ht. rewrite He in Hn.
  intros H. apply bind_Ok_inv in H as (blk & w2 & H1 & H).
  destruct (builder_finish (progress_builder acc) provider) as [blk'|e|] eqn:Hfin; [|done..].
  simpl in H1. injection H1 as <- <-. pose proof (finish_transactions _ _ _ Hfin) as Hblk.
  rewrite He in Hblk. split.
  { intros i Hi. destruct (lookup_lt_is_Some_2 _ _ Hi) as [tx Htx].
    apply (Forall_lookup_1 _ _ i (i, tx) Hc). rewrite list_lookup_imap. by rewrite Htx. }
  exists tries, (progress_builder acc). split; [done|]. split; [done|].
  assert (Hgoal : p = mkBuiltPayload (payload_id (attributes args)) blk' (total_fees acc) ∧
    w' = on_build_mapping (record_numbers (build_mapping w) (hashes (included tries).*1)) w).
  { rewrite Hn in H. destruct ((included tries).*1) as [|x log].
    { injection H as <- <-. by destruct w. }
    change (0 <? _)%nat with true in H. cbn iota in H.
    rewrite (bind_Ok _ _ _ _ _ (store_numbers_run _ _ _ _ Hblk)) in H.
    by injection H as <- <-. }
  destruct Hgoal as [-> ->]. simpl. split; [done|]. by rewrite Hf.
Qed.
End lemmas.

Section run_lemmas.
Context {S C Chain Spec Provider B Tx Block PErr : Type}.
Context {EC : EthEvmConfig Chain Spec} {chain_of : C → Chain}.
Context {NB : NextBlockConfig S C Spec (PayloadBuilderError PErr)}.
Context {NL : NextBlockConfigLaws S C Chain Spec (PayloadBuilderError PErr) chain_of}.
Context {BB : BlockBuilder B Spec Provider Tx Block PErr}.
Context {BL : BlockBuilderLaws B Spec Provider Tx Block PErr}.
Implicit Types (w : BuildWorld S) (attrs : BuilderAttributes.t Z Tx).

(** The environment attributes name for the next block. *)
Definition next_attributes attrs : NextBlock.attributes :=
  NextBlock.mk (timestamp attrs) (suggested_fee_recipient attrs) (prev_randao attrs)
    (BuilderAttributes.gas_limit attrs) (parent_beacon_block_root attrs)
    (Some (withdrawals attrs)) [].

(** The builder of a payload: the environment of the next block with the base fee
    of the attributes, the context with their extra data. *)
Definition payload_builder chain (parent : SealedHeader) attrs (provider : Provider) : B :=
  let env := eth_next_evm_env chain (sealed_header parent) (next_attributes attrs) in
  create_block_builder
    (mkEvmEnv (BlockEnv.with_basefee (block_env env) (BuilderAttributes.base_fee_per_gas attrs))
       (cfg_env env))
    parent
    (ExecutionCtx.mk (sealed_header_hash parent) None [] (Some [])
       (default 0 (Header.base_fee_per_gas (sealed_header parent)))
       (BuilderAttributes.extra_data attrs))
    provider.

Lemma builder_for_next_block_run cfg parent attrs provider s :
  ∃ s', builder_for_next_block cfg parent attrs (BuilderAttributes.base_fee_per_gas attrs)
          provider s = (Ok (payload_builder (chain_of cfg) parent attrs provider), s').
Proof using NL.
  destruct (next_block_run cfg (BuilderAttributes.extra_data attrs)
    (BuilderAttributes.base_fee_per_gas attrs) parent (next_attributes attrs) s)
    as (s' & E & _).
  exists s'. unfold builder_for_next_block.
  erewrite bind_Ok by exact E. done.
Qed.

(** A build up to its first transaction. *)
Lemma kasplex_payload_run state_by_block_hash cfg args w :
  kasplex_payload state_by_block_hash cfg args w
  = match state_by_block_hash (sealed_header_hash (parent_header args)) with
    | Err e => (Err (PayloadProvider e), w)
    | Panicked => (Panicked, w)
    | Ok provider =>
        match u256_to_u64 (BuilderAttributes.base_fee_per_gas (attributes args)) with
        | None => (Panicked, w)
        | Some base_fee =>
            let w' := mkBuildWorld (builder_for_next_block (B := B) cfg (parent_header args)
                        (attributes args) base_fee provider (config_state w)).2
                        (build_mapping w) in
            match builder_pre_execution
                    (payload_builder (chain_of cfg) (parent_header args) (attributes args)
                       provider) with
            | (Ok _, b) => execute_and_finish args provider base_fee b w'
            | (Err e, _) => (Err (PayloadInternal e), w')
            | (Panicked, _) => (Panicked, w')
            end
        end
    end.
Proof using NL.
  unfold kasplex_payload.
  destruct (state_by_block_hash _) as [provider|e|]; [|done..].
  cbn [outcome_map_err]. rewrite bind_lift_Ok.
  destruct (u256_to_u64 _) as [base_fee|] eqn:Eb; [|done].
  rewrite bind_expect_Some. apply u256_to_u64_inv in Eb as [-> _].
  destruct (builder_for_next_block_run cfg (parent_header args) (attributes args) provider
    (config_state w)) as (s' & E).
  erewrite bind_Ok by (unfold on_config; rewrite E; reflexivity).
  rewrite E. cbn [snd].
  by destruct (builder_pre_execution _) as [[[]|e|] b].
Qed.

Lemma for_in_state {A Acc F} (l : list A) acc (body : Acc → A → comp (BuildWorld S) F Acc) w :
  (∀ acc x, (body acc x w).2 = w) → (for_in l acc body w).2 = w.
Proof.
  intros H. revert acc. induction l as [|x l IH]; intros acc; [done|]. simpl.
  specialize (H acc x). unfold mbind, comp_bind.
  destruct (body acc x w) as [[a|e|] w']; simpl in H; subst; [apply IH|done..].
Qed.

Lemma build_step_state base_fee c acc itx w :
  (build_step (PErr := PErr) base_fee c acc itx w).2 = w.
Proof.
  destruct itx as [i tx]. unfold build_step. destruct (c i); [done|]. simpl.
  rewrite bind_mret, bind_gets.
  destruct (execute_transaction tx _) as [[g|[]|] b]; try done.
  by destruct (effective_tip_per_gas tx base_fee).
Qed.

Lemma store_numbers_Ok block (l : list (nat * Z)) w :
  ∃ w', for_in l () (store_number (PErr := PErr) block) w = (Ok (), w').
Proof.
  revert w. induction l as [|[i n] l IH]; intros w; [by eexists|]. simpl.
  assert (∃ w1, store_number (PErr := PErr) block () (i, n) w = (Ok (), w1)) as (w1 & E).
  { unfold store_number. destruct (block_transactions block !! i); by eexists. }
  destruct (IH w1) as (w2 & E2). exists w2. erewrite bind_Ok by exact E. done.
Qed.

Lemma execute_and_finish_other args provider base_fee b w o w' :
  execute_and_finish (PErr := PErr) args provider base_fee b w = (o, w') →
  (∀ p, o ≠ Ok (Freeze p)) → w' = w.
Proof.
  unfold execute_and_finish. intros H Ho.
  pose proof (for_in_state (imap pair (BuilderAttributes.transactions (attributes args)))
    (mkProgress b 0 []) (build_step (PErr := PErr) base_fee (is_cancelled args)) w
    (λ acc x, build_step_state _ _ _ _ _)) as Hw.
  destruct (for_in _ _ _ w) as [[acc|[]|] w1]; simpl in Hw; subst;
    [|by injection H as <- <-..].
  destruct (builder_finish _ provider) as [blk|e|]; [|by injection H as <- <-..].
  cbn [outcome_map_err] in H. rewrite bind_lift_Ok in H. exfalso.
  assert (∃ w2, (if (0 <? length (transaction_numbers acc))%nat
    then for_in (imap pair (transaction_numbers acc)) () (store_number (PErr := PErr) blk)
    else mret ()) w = (Ok (), w2)) as (w2 & E).
  { destruct (0 <? _)%nat; [apply store_numbers_Ok|by eexists]. }
  erewrite bind_Ok in H by exact E. injection H as <- _. by eapply Ho.
Qed.
Lemma kasplex_payload_Freeze state_by_block_hash cfg (args : BuildArguments Tx) w p w' :
  let attrs := attributes args in
  kasplex_payload state_by_block_hash cfg args w = (Ok (Freeze p), w') →
  ∃ provider b0 b1 tries,
    state_by_block_hash (sealed_header_hash (parent_header args)) = Ok provider ∧
    builder_pre_execution
      (payload_builder (chain_of cfg) (parent_header args) attrs provider) = (Ok (), b0) ∧
    tries.*1 = BuilderAttributes.transactions attrs ∧ builds b0 tries b1 ∧
    builder_finish b1 provider = Ok (built_block p) ∧
    block_transactions (built_block p) = (included tries).*1 ∧
    built_id p = payload_id attrs ∧
    built_fees p
    = wrap 256 (sumZ (fee_of (BuilderAttributes.base_fee_per_gas attrs)) (included tries)) ∧
    build_mapping w'
    = record_numbers (build_mapping w) (hashes (included tries).*1) (build_mapping w).
Proof using NL BL.
  intros attrs. rewrite kasplex_payload_run.
  destruct (state_by_block_hash _) as [provider|e|]; [|done..].
  destruct (u256_to_u64 _) as [fee|] eqn:Ef; [|done].
  apply u256_to_u64_inv in Ef as [-> _].
  destruct (builder_pre_execution _) as [[[]|e|] b] eqn:Epre; [|done..].
  assert (executed b = []) as Hb.
  { rewrite (pre_execution_executed _ _ _ Epre). apply create_executed. }
  intros (_ & tries & b1 & Ht & Hbs & Hfin & Hblk & Hid & Hf & ->)%execute_and_finish_Freeze; [|done].
  by exists provider, b, b1, tries.
Qed.

(** A build that does not panic has a 64-bit base fee. *)
Lemma kasplex_payload_fee_width state_by_block_hash cfg (args : BuildArguments Tx) w p w' :
  kasplex_payload state_by_block_hash cfg args w = (Ok (Freeze p), w') →
  in_width 64 (BuilderAttributes.base_fee_per_gas (attributes args)).
Proof using NL.
  rewrite kasplex_payload_run. destruct (state_by_block_hash _) as [provider|e|]; [|done..].
  destruct (u256_to_u64 _) as [fee|] eqn:Ef; [|done]. by apply u256_to_u64_inv in Ef as [_ ?].
Qed.

Lemma kasplex_payload_other state_by_block_hash cfg (args : BuildArguments Tx) w o w' :
  kasplex_payload state_by_block_hash cfg args w = (o, w') →
  (∀ p, o ≠ Ok (Freeze p)) → build_mapping w' = build_mapping w.
Proof using NL.
  rewrite kasplex_payload_run.
  destruct (state_by_block_hash _) as [provider|e|]; [|by intros [= <- <-]..].
  destruct (u256_to_u64 _) as [fee|]; [|by intros [= <- <-]].
  destruct (builder_pre_execution _) as [[[]|e|] b]; [|by intros [= <- <-]..].
  intros H Ho. by apply execute_and_finish_other in H as ->.
Qed.
End run_lemmas.

(** ** Properties *)

Section properties.
Context {S C Chain Spec Provider B Tx Block PErr : Type}.
Context {EC : EthEvmConfig Chain Spec} {chain_of : C → Chain}.
Context {NB : NextBlockConfig S C Spec (PayloadBuilderError PErr)}.
Context {NL : NextBlockConfigLaws S C Chain Spec (PayloadBuilderError PErr) chain_of}.
Context {BB : BlockBuilder B Spec Provider Tx Block PErr}.
Context {BL : BlockBuilderLaws B Spec Provider Tx Block PErr}.
Variable state_by_block_hash : B256 → outcome PErr Provider.
Implicit Types (w : BuildWorld S).

(** C1 A payload and the numbers recorded for it.  When a build ends with a payload,
    it was run in the environment the attributes name (their base fee and extra
    data included), it tried every transaction of the attributes in order, included
    those whose execution succeeded and skipped only invalid ones or ones the block
    had no room for; the fees are the tips on the gas used, and the mapping has,
    for exactly the transactions of the block, the number it had before, 0 where it
    had none.  In every other case the mapping is as it was. *)
Theorem payload_includes_and_records cfg (args : BuildArguments Tx) w o w'
    (Hrun : kasplex_payload state_by_block_hash cfg args w = (o, w')) :
  match o with
  | Ok (Freeze p) =>
      let attrs := attributes args in
      ∃ provider b0 b1 tries,
        state_by_block_hash (sealed_header_hash (parent_header args)) = Ok provider ∧
        builder_pre_execution
          (payload_builder (chain_of cfg) (parent_header args) attrs provider) = (Ok (), b0) ∧
        tries.*1 = BuilderAttributes.transactions attrs ∧ builds b0 tries b1 ∧
        block_transactions (built_block p) = (included tries).*1 ∧
        built_id p = payload_id attrs ∧
        built_fees p
        = wrap 256 (sumZ (fee_of (BuilderAttributes.base_fee_per_gas attrs)) (included tries)) ∧
        (∀ h, get_submission_block h (build_mapping w')
          = if decide (h ∈ hashes (included tries).*1)
            then Some (default 0 (get_submission_block h (build_mapping w)))
            else get_submission_block h (build_mapping w))
  | _ => build_mapping w' = build_mapping w
  end.
Proof.
  destruct o as [[|p]|e|]; try by apply kasplex_payload_other in Hrun.
  apply kasplex_payload_Freeze in Hrun as (provider & b0 & b1 & tries & H).
  destruct H as (? & ? & ? & ? & _ & ? & ? & ? & E). exists provider, b0, b1, tries.
  do 7 (split; [done|]). intros h. by rewrite E, record_numbers_lookup.
Qed.

(** C36 A build with a known parent state and a 64-bit base fee gives a payload,
    unless it is cancelled, a transaction fails fatally or the machine panics: with
    none of these it always ends with one. *)
Theorem payload_is_built cfg (args : BuildArguments Tx) w provider b0
    (Hp : state_by_block_hash (sealed_header_hash (parent_header args)) = Ok provider)
    (Hfee : in_width 64 (BuilderAttributes.base_fee_per_gas (attributes args)))
    (Hpre : builder_pre_execution
       (payload_builder (chain_of cfg) (parent_header args) (attributes args) provider)
       = (Ok (), b0))
    (Hcancel : ∀ i, is_cancelled args i = false)
    (Hexec : ∀ tx b, tx ∈ BuilderAttributes.transactions (attributes args) →
       match execute_transaction tx b with
       | (Ok _, _) =>
           is_Some (effective_tip_per_gas tx
                      (BuilderAttributes.base_fee_per_gas (attributes args)))
       | (Err e, _) => e = InvalidTx ∨ e = TransactionGasLimitMoreThanAvailableBlockGas
       | (Panicked, _) => False
       end)
    (Hfinish : ∀ b, ∃ block, builder_finish b provider = Ok block) :
  ∃ p w', kasplex_payload state_by_block_hash cfg args w = (Ok (Freeze p), w').
Proof.
  rewrite kasplex_payload_run, Hp, u256_to_u64_Some by done. rewrite Hpre.
  unfold execute_and_finish.
  set (w1 := mkBuildWorld _ _).
  assert (∀ itxs acc, (∀ itx, itx ∈ itxs →
      itx.2 ∈ BuilderAttributes.transactions (attributes args)) →
    ∃ acc', for_in itxs acc (build_step (PErr := PErr)
      (BuilderAttributes.base_fee_per_gas (attributes args)) (is_cancelled args)) w1
    = (Ok acc', w1)) as Hloop.
  { induction itxs as [|[i tx] itxs IH]; intros acc Hin; [by eexists|].
    assert (∃ acc1, build_step (PErr := PErr)
      (BuilderAttributes.base_fee_per_gas (attributes args)) (is_cancelled args) acc (i, tx) w1
      = (Ok acc1, w1)) as (acc1 & E).
    { unfold build_step. rewrite Hcancel. unfold fail_if. rewrite bind_mret, bind_gets.
      specialize (Hexec tx (progress_builder acc) (Hin (i, tx) ltac:(set_solver))).
      destruct (execute_transaction tx _) as [[g|e|] b]; [|destruct Hexec; subst e; by eexists|done].
      destruct Hexec as [fee ->]. by eexists. }
    destruct (IH acc1 ltac:(set_solver)) as (acc2 & E2). exists acc2. simpl.
    by erewrite bind_Ok by exact E. }
  destruct (Hloop (imap pair (BuilderAttributes.transactions (attributes args)))
    (mkProgress b0 0 [])) as (acc & ->).
  { intros [i tx] Hi. apply list_elem_of_lookup_1 in Hi as (j & Hj).
    rewrite list_lookup_imap in Hj. apply fmap_Some in Hj as (tx' & Hj & [= -> ->]).
    by apply list_elem_of_lookup_2 in Hj. }
  destruct (Hfinish (progress_builder acc)) as (blk & ->). cbn [outcome_map_err].
  rewrite bind_lift_Ok.
  destruct (store_numbers_Ok (S := S) (PErr := PErr) blk
    (imap pair (transaction_numbers acc)) w1) as (w2 & E2).
  destruct (0 <? length (transaction_numbers acc))%nat.
  - erewrite bind_Ok by exact E2. by do 2 eexists.
  - by do 2 eexists.
Qed.
End properties.

(** ** A concrete builder and the witnesses *)

(** A transaction is its hash; negative ones are invalid. *)
Module PlainBuilder.
#[global] Instance builder : BlockBuilder (list Z) () () Z (list Z) string := {
  create_block_builder _ _ _ _ := [];
  builder_pre_execution := mret ();
  execute_transaction tx b := if tx <? 0 then (Err InvalidTx, b) else (Ok 21000, b ++ [tx]);
  builder_finish b _ := Ok b;
  block_transactions b := b;
  executed b := b;
  tx_hash tx := tx;
  effective_tip_per_gas _ _ := Some 3;
}.

#[global] Instance laws : BlockBuilderLaws (list Z) () () Z (list Z) string.
Proof.
  split; simpl; try done.
  - by intros b b' o [= _ <-].
  - intros tx b b' g. by destruct (tx <? 0); intros [= _ <-].
  - intros tx b b' g. by destruct (tx <? 0); intros [= _ <-].
  - by intros b p blk [= <-].
Qed.
End PlainBuilder.

(** Transactions 11, -1 and 12, of which only 11 has a recorded number. *)
Definition sample_args : BuildArguments Z :=
  mkBuildArguments (mkSealedHeader Header.zero 5)
    (BuilderAttributes.mk (Eth.mkBuilderAttributes [Byte.x02] 5 10 9 8 [] None) 0 9 45000000 10 8
       2000000000000 [11; -1; 12] [])
    (λ _, false).
Definition sample_world : BuildWorld Cells :=
  mkBuildWorld (one_cell None) (mkTxMappingState {[ 11 := 4 ]} ∅ false).

Definition sample_build :
    outcome (PayloadBuilderError string) (BuildOutcome (list Z)) * BuildWorld Cells :=
  kasplex_payload (NB := kasplex_next_block_config (Spec := ()) (EC := PlainConfig.eth))
    (BB := PlainBuilder.builder) (λ _, Ok ()) first_config sample_args sample_world.

Lemma payload_includes_and_records_witness :
  ∃ p, sample_build.1 = Ok (Freeze p) ∧
  get_submission_block 11 (build_mapping sample_build.2) = Some 4 ∧
  get_submission_block 12 (build_mapping sample_build.2) = Some 0.
Proof.
  pose proof (payload_includes_and_records (EC := PlainConfig.eth)
    (NL := kasplex_next_block_config_laws (EC := PlainConfig.eth)) (BL := PlainBuilder.laws)
    (λ _, Ok ()) first_config sample_args sample_world sample_build.1 sample_build.2
    ltac:(vm_compute; reflexivity)) as H.
  destruct sample_build as [o w'] eqn:E. vm_compute in E. injection E as <- <-.
  eexists. split; [reflexivity|].
  destruct H as (provider & b0 & b1 & tries & _ & _ & _ & _ & Hblk & _ & _ & H).
  rewrite <-Hblk in H. split; [rewrite (H 11)|rewrite (H 12)]; vm_compute; reflexivity.
Defined.

Lemma payload_is_built_witness : ∃ p w', sample_build = (Ok (Freeze p), w').
Proof.
  apply (payload_is_built (EC := PlainConfig.eth)
    (NL := kasplex_next_block_config_laws (EC := PlainConfig.eth)) (BL := PlainBuilder.laws)
    (λ _, Ok ()) first_config sample_args sample_world () []).
  - done.
  - vm_compute. by split.
  - done.
  - done.
  - intros tx b _. simpl. destruct (tx <? 0); [by left|by eexists].
  - intros b. by eexists.
Defined.
