(* ===== verification/ConcurrentBuilds.v ===== *)
(** * Builds at the same time over the cells of one configuration

    Every payload job builds through a clone of one [KasplexEvmConfig], and the clones
    share the two cells ([BlockConfig.v]).  The part of [kasplex_payload] that passes
    the base fee and the extra data of the attributes through them is six calls, each
    of which locks a cell for itself only; here it is a process, and jobs that run at
    the same time are an interleaving of theirs. *)

From stdpp Require Import prelude gmap list strings relations.
From Stdlib Require Import ZArith Lia.
From S2P Require Import Prelude Processes Types Chainspec BlockConfig Attributes PayloadBuilder.

(** ** The process *)

(** What a job passes: through which handle, and what the attributes have. *)
Record Job {Chain : Type} := mkJob {
  job_config : KasplexEvmConfig Chain;
  job_extra_data : Bytes;
  job_base_fee : Z;
  job_parent : SealedHeader;
  job_attributes : NextBlock.attributes;
}.
Arguments Job : clear implicits.
Arguments mkJob {Chain} _ _ _ _ _.

(** A job between two of its calls, with the environment and the context it has. *)
Inductive build {Chain Spec : Type} : Type :=
| SetExtra (j : Job Chain)
| SetFee (j : Job Chain)
| NextEnv (j : Job Chain)
| NextContext (j : Job Chain) (env : EvmEnv Spec)
| ClearExtra (j : Job Chain) (env : EvmEnv Spec) (ctx : ExecutionCtx.t)
| ClearFee (j : Job Chain) (env : EvmEnv Spec) (ctx : ExecutionCtx.t)
| Prepared (env : EvmEnv Spec) (ctx : ExecutionCtx.t)
| Stopped.
Arguments build : clear implicits.

Section builds.
Context {Chain Spec : Type} {EC : EthEvmConfig Chain Spec}.
Local Abbreviation Build := (build Chain Spec).
Implicit Types (j k : Job Chain) (b : Build) (s : Cells) (bs : list Build).

(** A call and what the job does with its result; an error or a panic stops it.  The
    configuration's error type is [Infallible]. *)
Definition call_then {A} (m : comp Cells Empty_set A) (k : A → Build) s : option (Build * Cells) :=
  match m s with
  | (Ok a, s') => Some (k a, s')
  | (_, s') => Some (Stopped, s')
  end.

Definition build_call b : Cells → option (Build * Cells) :=
  match b with
  | SetExtra j => call_then (set_next_block_extra_data (Spec := Spec) (job_config j) (job_extra_data j))
                    (λ _, SetFee j)
  | SetFee j => call_then (set_next_block_base_fee_per_gas (Spec := Spec) (job_config j) (job_base_fee j))
                  (λ _, NextEnv j)
  | NextEnv j =>
      call_then (next_evm_env (job_config j) (sealed_header (job_parent j)) (job_attributes j))
        (NextContext j)
  | NextContext j env =>
      call_then (context_for_next_block (Spec := Spec) (job_config j) (job_parent j) (job_attributes j))
        (ClearExtra j env)
  | ClearExtra j env ctx =>
      call_then (clear_next_block_extra_data (Spec := Spec) (job_config j)) (λ _, ClearFee j env ctx)
  | ClearFee j env ctx =>
      call_then (clear_next_block_base_fee_per_gas (Spec := Spec) (job_config j))
        (λ _, Prepared env ctx)
  | Prepared _ _ | Stopped => λ _, None
  end.

#[export] Instance build_process : Process Build Cells := {| proc_step := build_call |}.

(** ** What a job can read

    The environment with a base fee read from the cell, and the context with extra
    data read from it; the two it is to have. *)
Definition env_with j (fee : option Z) : EvmEnv Spec :=
  let env := eth_next_evm_env (config_chain_spec (job_config j)) (sealed_header (job_parent j))
               (job_attributes j) in
  match fee with
  | Some f => mkEvmEnv (BlockEnv.with_basefee (block_env env) f) (cfg_env env)
  | None => env
  end.
Definition context_with j (extra : option Bytes) : ExecutionCtx.t :=
  ExecutionCtx.mk (sealed_header_hash (job_parent j)) None [] (Some [])
    (default 0 (Header.base_fee_per_gas (sealed_header (job_parent j))))
    (default (Header.extra_data (sealed_header (job_parent j))) extra).
Definition own_env j : EvmEnv Spec := env_with j (Some (job_base_fee j)).
Definition own_context j : ExecutionCtx.t := context_with j (Some (job_extra_data j)).

(** One step, as a function of what the cells hold. *)
Lemma build_call_run b s :
  build_call b s = match b with
  | SetExtra j => Some (SetFee j, write_extra (job_config j) (Some (job_extra_data j)) s)
  | SetFee j => Some (NextEnv j, write_fee (job_config j) (Some (job_base_fee j)) s)
  | NextEnv j => Some (NextContext j (env_with j (read_fee (job_config j) s)), s)
  | NextContext j env => Some (ClearExtra j env (context_with j (read_extra (job_config j) s)), s)
  | ClearExtra j env ctx => Some (ClearFee j env ctx, write_extra (job_config j) None s)
  | ClearFee j env ctx => Some (Prepared env ctx, write_fee (job_config j) None s)
  | Prepared _ _ | Stopped => None
  end.
Proof. by destruct b. Qed.

(** The two halves of a job: up to the reads, and from them on. *)
Lemma alone_writes j s :
  rtc alone (SetExtra j : Build, s)
    (NextEnv j, write_fee (job_config j) (Some (job_base_fee j))
                  (write_extra (job_config j) (Some (job_extra_data j)) s)).
Proof. do 2 (eapply rtc_l; [by constructor|]). done. Qed.

Lemma alone_reads j s :
  rtc alone (NextEnv j, s)
    (Prepared (env_with j (read_fee (job_config j) s)) (context_with j (read_extra (job_config j) s)),
     write_fee (job_config j) None (write_extra (job_config j) None s)).
Proof. do 4 (eapply rtc_l; [by constructor|]). done. Qed.

Lemma read_extra_write_fee (c d : KasplexEvmConfig Chain) v s :
  read_extra c (write_fee d v s) = read_extra c s.
Proof. done. Qed.

Lemma read_fee_write_extra (c d : KasplexEvmConfig Chain) v s :
  read_fee c (write_extra d v s) = read_fee c s.
Proof. done. Qed.

(** Whether two jobs go through the same cells. *)
Definition shares (j k : Job Chain) : Prop :=
  current_extra_data (job_config j) = current_extra_data (job_config k) ∨
  current_base_fee_per_gas (job_config j) = current_base_fee_per_gas (job_config k).

End builds.

Create Rewrite HintDb cells.
#[export] Hint Rewrite @read_write_extra @read_write_fee @read_extra_write_fee
  @read_fee_write_extra : cells.

(** ** Where the values of a job come from *)

Section invariants.
Context {Chain Spec : Type} {EC : EthEvmConfig Chain Spec}.
Local Abbreviation Build := (build Chain Spec).
Implicit Types (j k : Job Chain) (b : Build) (s : Cells) (bs : list Build) (jobs : list (Job Chain)).

(** A value a job can read: of a job with the same cell, or none. *)
Definition fee_source jobs (cell : positive) (v : option Z) : Prop :=
  v = None ∨ ∃ k, k ∈ jobs ∧ current_base_fee_per_gas (job_config k) = cell ∧
    v = Some (job_base_fee k).
Definition extra_source jobs (cell : positive) (v : option Bytes) : Prop :=
  v = None ∨ ∃ k, k ∈ jobs ∧ current_extra_data (job_config k) = cell ∧
    v = Some (job_extra_data k).

Definition cells_from jobs s : Prop := ∀ c : KasplexEvmConfig Chain,
  fee_source jobs (current_base_fee_per_gas c) (read_fee c s) ∧
  extra_source jobs (current_extra_data c) (read_extra c s).

Definition env_from jobs j (env : EvmEnv Spec) : Prop :=
  ∃ v, env = env_with j v ∧ fee_source jobs (current_base_fee_per_gas (job_config j)) v.
Definition context_from jobs j (ctx : ExecutionCtx.t) : Prop :=
  ∃ v, ctx = context_with j v ∧ extra_source jobs (current_extra_data (job_config j)) v.

(** Job [j] at some point, with values of [jobs]. *)
Definition build_from jobs j b : Prop :=
  match b with
  | SetExtra k | SetFee k | NextEnv k => k = j
  | NextContext k env => k = j ∧ env_from jobs j env
  | ClearExtra k env ctx | ClearFee k env ctx =>
      k = j ∧ env_from jobs j env ∧ context_from jobs j ctx
  | Prepared env ctx => env_from jobs j env ∧ context_from jobs j ctx
  | Stopped => False
  end.

Lemma cells_from_write_fee jobs (c : KasplexEvmConfig Chain) v s :
  cells_from jobs s → fee_source jobs (current_base_fee_per_gas c) v →
  cells_from jobs (write_fee c v s).
Proof.
  intros Hs Hv d. destruct (Hs d). autorewrite with cells. split; [|done].
  by case_decide as Heq; [rewrite Heq|].
Qed.

Lemma cells_from_write_extra jobs (c : KasplexEvmConfig Chain) v s :
  cells_from jobs s → extra_source jobs (current_extra_data c) v →
  cells_from jobs (write_extra c v s).
Proof.
  intros Hs Hv d. destruct (Hs d). autorewrite with cells. split; [done|].
  by case_decide as Heq; [rewrite Heq|].
Qed.

Lemma build_from_step jobs j b s b' s' :
  j ∈ jobs → cells_from jobs s → build_from jobs j b → build_call b s = Some (b', s') →
  cells_from jobs s' ∧ build_from jobs j b'.
Proof.
  intros Hj Hs Hb. rewrite build_call_run. destruct b; simpl in *; intros [= <- <-]; simpl;
    try destruct Hb as [-> Hb]; subst.
  - split; [|done]. apply cells_from_write_extra; [done|]. right. by eexists.
  - split; [|done]. apply cells_from_write_fee; [done|]. right. by eexists.
  - split; [done|]. split; [done|]. eexists. split; [done|]. apply Hs.
  - split; [done|]. split_and!; [done..|]. eexists. split; [done|]. apply Hs.
  - split; [|done]. apply cells_from_write_extra; [done|]. by left.
  - split; [|done]. apply cells_from_write_fee; [done|]. by left.
Qed.

(** A job whose values are its own, with what the cells have to hold for that. *)
Definition holds_own j b s : Prop :=
  match b with
  | SetExtra k => k = j
  | SetFee k => k = j ∧ read_extra (job_config j) s = Some (job_extra_data j)
  | NextEnv k => k = j ∧ read_extra (job_config j) s = Some (job_extra_data j) ∧
      read_fee (job_config j) s = Some (job_base_fee j)
  | NextContext k env => k = j ∧ read_extra (job_config j) s = Some (job_extra_data j) ∧
      env = own_env j
  | ClearExtra k env ctx | ClearFee k env ctx => k = j ∧ env = own_env j ∧ ctx = own_context j
  | Prepared env ctx => env = own_env j ∧ ctx = own_context j
  | Stopped => False
  end.

Lemma holds_own_step j b s b' s' :
  holds_own j b s → build_call b s = Some (b', s') → holds_own j b' s'.
Proof.
  intros Hb. rewrite build_call_run.
  destruct b; simpl in *; intros [= <- <-]; simpl; try destruct Hb as [-> Hb]; subst;
    autorewrite with cells; rewrite ?decide_True by done; try done.
  - destruct Hb as [Hx Hf]. by rewrite Hf.
  - destruct Hb as [Hx ->]. by rewrite Hx.
Qed.

(** A step of a job that shares no cell with [j] leaves what [j] reads. *)
Lemma holds_own_other jobs j k b bk s bk' s' :
  ¬ shares j k → build_from jobs k bk → build_call bk s = Some (bk', s') →
  holds_own j b s → holds_own j b s'.
Proof.
  intros Hne Hk. rewrite build_call_run.
  assert (current_extra_data (job_config j) ≠ current_extra_data (job_config k)) by
    (intros ?; destruct Hne; by left).
  assert (current_base_fee_per_gas (job_config j) ≠ current_base_fee_per_gas (job_config k)) by
    (intros ?; destruct Hne; by right).
  assert (Hreads : bk' = bk' → read_extra (job_config j) s' = read_extra (job_config j) s →
    read_fee (job_config j) s' = read_fee (job_config j) s → holds_own j b s → holds_own j b s').
  { intros _ Hx Hf. destruct b; simpl; by rewrite ?Hx, ?Hf. }
  destruct bk; simpl in Hk; intros [= <- <-]; try destruct Hk as [-> _]; subst;
    apply Hreads; try done; autorewrite with cells; by rewrite decide_False.
Qed.
End invariants.

(** ** Properties *)

Section properties.
Context {Chain Spec : Type} {EC : EthEvmConfig Chain Spec}.
Implicit Types (j k : Job Chain) (s : Cells) (bs : list (build Chain Spec)) (jobs : list (Job Chain)).

Lemma jobs_from jobs s bs s' :
  cells_from jobs s → rtc interleaved (SetExtra <$> jobs, s) (bs, s') →
  cells_from jobs s' ∧
  ∀ i b, bs !! i = Some b → ∃ j, jobs !! i = Some j ∧ build_from jobs j b.
Proof.
  intros Hs Hrun. eapply (interleaved_indexed (cells_from jobs)
    (λ i b, ∃ j, jobs !! i = Some j ∧ build_from jobs j b)); [|exact Hrun|done|].
  - intros i c w c' w' Hw (j & Hj & Hc) Hstep.
    destruct (build_from_step jobs j c w c' w') as [? ?];
      [by eapply list_elem_of_lookup_2|done..|]. split; [done|]. by exists j.
  - intros i b. rewrite list_lookup_fmap. intros (j & Hj & ->)%fmap_Some. by exists j.
Qed.

Lemma lone_job_holds_own jobs s bs s' i j :
  cells_from jobs s → jobs !! i = Some j →
  (∀ i' k, i' ≠ i → jobs !! i' = Some k → ¬ shares j k) →
  rtc interleaved (SetExtra <$> jobs, s) (bs, s') →
  ∃ b, bs !! i = Some b ∧ holds_own j b s'.
Proof.
  intros Hs Hi Hlone Hrun.
  assert (H0 : (cells_from jobs s ∧
      ∀ i b, (SetExtra (Spec := Spec) <$> jobs) !! i = Some b →
        ∃ j, jobs !! i = Some j ∧ build_from jobs j b) ∧
    ∃ b, (SetExtra <$> jobs) !! i = Some b ∧ holds_own (Spec := Spec) j b s).
  { split; [by apply (jobs_from _ _ _ _ Hs)|]. exists (SetExtra j).
    by rewrite list_lookup_fmap, Hi. }
  refine (proj2 (run_invariant (λ bw, (cells_from jobs bw.2 ∧
      ∀ i b, bw.1 !! i = Some b → ∃ j, jobs !! i = Some j ∧ build_from jobs j b) ∧
    ∃ b, bw.1 !! i = Some b ∧ holds_own j b bw.2) _ _ _ Hrun H0)).
  clear - Hi Hlone. intros ? ? Hstep [[Hw Hall] (b & Hb & Hown)].
  destruct Hstep as [cs i' c w c' w' Hc Hs]. simpl in *.
  destruct (Hall _ _ Hc) as (k & Hk & Hfrom).
  destruct (build_from_step jobs k c w c' w') as [Hw' Hfrom'];
    [by eapply list_elem_of_lookup_2|done..|].
  split.
  - split; [done|]. intros i1 b1 [(-> & <- & _)|[_ ?]]%list_lookup_insert_Some; eauto.
  - destruct (decide (i' = i)) as [->|Hne].
    + simplify_eq. exists c'. split; [|by eapply holds_own_step].
      apply list_lookup_insert_eq. by eapply lookup_lt_Some.
    + exists b. rewrite list_lookup_insert_ne by done. split; [done|].
      by eapply (holds_own_other jobs j k _ c w c'); [eapply Hlone| | |].
Qed.

(** The calls a job still has to make. *)
Definition build_calls_left (b : build Chain Spec) : nat :=
  match b with
  | SetExtra _ => 6 | SetFee _ => 5 | NextEnv _ => 4 | NextContext _ _ => 3
  | ClearExtra _ _ _ => 2 | ClearFee _ _ _ => 1 | Prepared _ _ | Stopped => 0
  end.

Lemma build_call_decreases (b : build Chain Spec) s b' s' :
  proc_step b s = Some (b', s') →
  decreases (0%nat, build_calls_left b') (0%nat, build_calls_left b).
Proof.
  cbn [proc_step build_process]. rewrite build_call_run. right. split; [done|].
  destruct b; simplify_eq/=; lia.
Qed.

(** C18 What a job that runs with others can build with: all of them end prepared,
    whatever the order of their calls; the environment of each has the base fee of
    one of the jobs that go through its cell, or the library's, and its context the
    extra data of one of them, or the parent's, and is its own in all else; and a job
    that shares no cell with another has its own base fee and extra data. *)
Theorem concurrent_builds_sources jobs s0
    (Hnone : ∀ c, read_fee (Chain := Chain) c s0 = None ∧ read_extra c s0 = None) :
  let bs0 := SetExtra (Spec := Spec) <$> jobs in
  sn interleaved (bs0, s0) ∧
  ∀ bs s, rtc interleaved (bs0, s0) (bs, s) →
    (nf interleaved (bs, s) → Forall (λ b, ∃ env ctx, b = Prepared env ctx) bs) ∧
    ∀ i j env ctx, jobs !! i = Some j → bs !! i = Some (Prepared env ctx) →
      env_from jobs j env ∧ context_from jobs j ctx ∧
      ((∀ i' k, i' ≠ i → jobs !! i' = Some k → ¬ shares j k) →
       env = own_env j ∧ ctx = own_context j).
Proof.
  intros bs0.
  assert (Hs0 : cells_from jobs s0).
  { intros c. destruct (Hnone c) as [-> ->]. split; by left. }
  split; [by apply (interleaved_sn (λ _, 0%nat) build_calls_left), build_call_decreases|].
  intros bs s Hrun. destruct (jobs_from _ _ _ _ Hs0 Hrun) as [_ Hall]. split.
  - rewrite interleaved_stuck. intros Hnf. apply Forall_lookup_2. intros i b Hb.
    destruct (Hall _ _ Hb) as (j & _ & Hfrom).
    pose proof (Forall_lookup_1 _ _ _ _ Hnf Hb) as Hstop.
    cbn [proc_step build_process] in Hstop. rewrite build_call_run in Hstop.
    destruct b; try done. by do 2 eexists.
  - intros i j env ctx Hi Hb. destruct (Hall _ _ Hb) as (j' & ? & He & Hc). simplify_eq.
    split_and!; [done..|]. intros Hlone.
    destruct (lone_job_holds_own _ _ _ _ _ _ Hs0 Hi Hlone Hrun) as (b & ? & Hown).
    by simplify_eq.
Qed.

(** The job of a payload's attributes. *)
Definition payload_job {Tx} (cfg : KasplexEvmConfig Chain) (parent : SealedHeader)
    (attrs : BuilderAttributes.t Z Tx) : Job Chain :=
  mkJob cfg (BuilderAttributes.extra_data attrs) (BuilderAttributes.base_fee_per_gas attrs) parent
    (next_attributes attrs).

Lemma builder_is_alone {B Provider Tx Block PErr} {BB : BlockBuilder B Spec Provider Tx Block PErr}
    cfg parent attrs provider s :
  let j := payload_job cfg parent attrs in
  ∃ s', rtc alone (SetExtra j, s) (Prepared (own_env j) (own_context j), s') ∧
    builder_for_next_block cfg parent attrs (BuilderAttributes.base_fee_per_gas attrs) provider s
    = (Ok (create_block_builder (own_env j) parent (own_context j) provider), s').
Proof.
  intros j. eexists. split.
  - etrans; [apply alone_writes|]. etrans; [apply alone_reads|].
    autorewrite with cells. rewrite !decide_True by done. done.
  - unfold builder_for_next_block. simpl.
    unfold config_set_extra_data, config_set_base_fee, config_next_evm_env,
      config_context_for_next_block, config_clear_extra_data, config_clear_base_fee.
    run. autorewrite with cells. rewrite !decide_True by done. run. done.
Qed.

(** C27 The cells do not serve two jobs at once.  Alone a job builds in its own
    environment, as [kasplex_payload] does; but of two jobs that share the cells one
    can end with the base fee and the extra data of the other, and the other with the
    library's base fee and the parent's extra data. *)
Theorem concurrent_builds_mix_attributes {B Provider Tx Block PErr}
    {BB : BlockBuilder B Spec Provider Tx Block PErr} jobs s0 i i' j k
    (Hne : i ≠ i') (Hi : jobs !! i = Some j) (Hi' : jobs !! i' = Some k)
    (Hx : current_extra_data (job_config j) = current_extra_data (job_config k))
    (Hf : current_base_fee_per_gas (job_config j) = current_base_fee_per_gas (job_config k)) :
  (∀ cfg parent attrs (provider : Provider) s, let j := payload_job cfg parent attrs in
    ∃ s', rtc alone (SetExtra j, s) (Prepared (own_env j) (own_context j), s') ∧
      builder_for_next_block cfg parent attrs (BuilderAttributes.base_fee_per_gas attrs) provider s
      = (Ok (create_block_builder (own_env j) parent (own_context j) provider), s')) ∧
  ∃ bs s, rtc interleaved (SetExtra (Spec := Spec) <$> jobs, s0) (bs, s) ∧
    bs !! i = Some (Prepared (env_with j (Some (job_base_fee k)))
                      (context_with j (Some (job_extra_data k)))) ∧
    bs !! i' = Some (Prepared (env_with k None) (context_with k None)).
Proof.
  split; [by intros; apply builder_is_alone|].
  assert (Hlt : (i < length jobs ∧ i' < length jobs)%nat) by (split; by eapply lookup_lt_Some).
  do 2 eexists. split.
  - etrans.
    { eapply (interleaved_alone _ i); [by rewrite list_lookup_fmap, Hi|apply alone_writes]. }
    etrans.
    { eapply (interleaved_alone _ i'); [|apply alone_writes].
      by rewrite list_lookup_insert_ne, list_lookup_fmap, Hi'. }
    etrans.
    { eapply (interleaved_alone _ i); [|apply alone_reads]. rewrite list_lookup_insert_ne by done.
      apply list_lookup_insert_eq. rewrite length_fmap. lia. }
    eapply (interleaved_alone _ i'); [|apply alone_reads]. rewrite list_lookup_insert_ne by done.
    apply list_lookup_insert_eq. rewrite length_insert, length_fmap. lia.
  - autorewrite with cells. rewrite Hx, Hf, !decide_True by done. split.
    + rewrite list_lookup_insert_ne by done.
      apply list_lookup_insert_eq. rewrite !length_insert, length_fmap. lia.
    + apply list_lookup_insert_eq. rewrite !length_insert, length_fmap. lia.
Qed.
End properties.

(** ** Witnesses

    Two jobs through clones of one configuration: the first is to build with 2000 GWei. *)
Definition sample_jobs : list (Job ()) :=
  [mkJob first_config [Byte.x01] 2000000000000 (mkSealedHeader Header.zero 5) sample_attributes;
   mkJob (clone first_config) [Byte.x02] 7 (mkSealedHeader Header.zero 5) sample_attributes].

Lemma concurrent_builds_sources_witness :
  sn interleaved (SetExtra (Spec := ()) <$> sample_jobs, one_cell None).
Proof.
  apply (concurrent_builds_sources (EC := PlainConfig.eth)).
  intros c. unfold read_fee, read_extra, one_cell. cbn [base_fee_cells extra_data_cells].
  split; rewrite lookup_singleton; by case_decide.
Defined.

Lemma concurrent_builds_mix_attributes_witness :
  ∃ bs s ctx, rtc interleaved (SetExtra (Spec := ()) <$> sample_jobs, one_cell None) (bs, s) ∧
    ∃ env, bs !! 0%nat = Some (Prepared env ctx) ∧ BlockEnv.basefee (block_env env) = 7 ∧
      ExecutionCtx.extra_data ctx = [Byte.x02].
Proof.
  destruct (concurrent_builds_mix_attributes (EC := PlainConfig.eth) (BB := PlainBuilder.builder)
    sample_jobs (one_cell None) 0 1 _ _ ltac:(done) eq_refl eq_refl eq_refl eq_refl)
    as (_ & bs & s & Hrun & H0 & _).
  exists bs, s. eexists. split; [exact Hrun|]. eexists. split; [exact H0|]. split; reflexivity.
Defined.
