(* ===== verification/Engine.v ===== *)
(** * Payloads of the engine ([crates/primitives/src/engine/], [crates/rpc/src/engine/validator.rs])

    The conversion of a block to an execution payload, which writes the submission
    numbers of its transactions, and the validation of a payload, which turns it
    back into a block and takes those numbers out of the mapping again.  The
    library's conversions, the header hash and signer recovery are parameters. *)

From stdpp Require Import prelude gmap list strings.
From Stdlib Require Import ZArith Lia.
From S2P Require Import Prelude Types TxMapping Chainspec Attributes BlockConfig.

(** ** Data ([types.rs]) *)

Record KasplexExecutionDataSidecar := mkSidecar {
  sidecar_tx_hash : B256;
  withdrawals_hash : B256;
  numbers : list Z;
  kasplex_block : bool;
}.

Record KasplexExecutionData := mkExecutionData {
  execution_payload : PayloadV1.t;
  kasplex_sidecar : KasplexExecutionDataSidecar;
}.

Definition into_payload (d : KasplexExecutionData) : ExecutionPayload :=
  PayloadV1Variant (execution_payload d).

(** The accessors of reth's payload trait. *)
Section accessors.
Implicit Type d : KasplexExecutionData.
Definition data_parent_hash d : B256 := PayloadV1.parent_hash (execution_payload d).
Definition data_block_hash d : B256 := PayloadV1.block_hash (execution_payload d).
Definition data_block_number d : Z := PayloadV1.block_number (execution_payload d).
Definition data_withdrawals d : option (list Z) := None.
Definition data_block_access_list d : option Bytes := None.
Definition data_parent_beacon_block_root d : option B256 := None.
Definition data_timestamp d : Z := PayloadV1.timestamp (execution_payload d).
Definition data_gas_used d : Z := PayloadV1.gas_used (execution_payload d).
Definition data_transaction_count d : nat :=
  length (PayloadV1.transactions (execution_payload d)).
End accessors.

(** [ExecutionData]: the Ethereum sidecar is always [none()]. *)
Record ExecutionData := mkEthExecutionData { payload : ExecutionPayload }.

(** ** What the conversions call *)

Inductive PayloadError (E : Type) : Type :=
| BaseFee (v : Z)
| BlockHash (execution consensus : B256)
| Conversion (e : E).
Arguments BaseFee {E} v.
Arguments BlockHash {E} execution consensus.
Arguments Conversion {E} e.

Inductive NewPayloadError (E R : Type) : Type :=
| OtherPayload (e : PayloadError E)
| OtherRecovery (e : R).
Arguments OtherPayload {E R} e.
Arguments OtherRecovery {E R} e.

Class PayloadLibrary (Tx Sender E R : Type) := {
  tx_hash : Tx → B256;
  EMPTY_WITHDRAWALS : B256;
  hash_slow : Header.t → B256;
  from_block_unchecked : B256 → Block.t Tx → PayloadV1.t;
  try_into_block : PayloadV1.t → outcome E (Block.t Tx);
  try_recover : Block.t Tx → outcome R (list Sender);
}.

(** A block with the hash it was sealed with, and with its senders. *)
Record SealedBlock {Tx : Type} := mkSealedBlock { sealed : Block.t Tx; seal_hash : B256 }.
Arguments SealedBlock : clear implicits.
Arguments mkSealedBlock {Tx} _ _.
Record RecoveredBlock {Tx Sender : Type} := mkRecoveredBlock {
  sealed_block : SealedBlock Tx;
  senders : list Sender;
}.
Arguments RecoveredBlock : clear implicits.
Arguments mkRecoveredBlock {Tx Sender} _ _.

Section engine.
Context {Tx Sender E R : Type} {PL : PayloadLibrary Tx Sender E R}.

Definition block_hashes (b : Block.t Tx) : list B256 := tx_hash <$> Block.transactions b.

(** ** From a block to a payload ([engine/mod.rs]) *)

Definition block_to_payload (block : SealedBlock Tx) : comp TxMappingState E ExecutionData :=
  let block_hash := seal_hash block in
  let unsealed := sealed block in
  numbers ← gets (λ st,
    (λ tx, default 0 (get_submission_block (tx_hash tx) st)) <$> Block.transactions unsealed);
  let payload := from_block_unchecked block_hash unsealed in
  _ ← for_in (zip (Block.transactions unsealed) numbers) ()
        (λ _ '(tx, number), modify (insert (tx_hash tx) number));
  mret (mkEthExecutionData (PayloadV1Variant payload)).

(** ** From a payload to a block ([validator.rs]) *)

Definition with_empty_withdrawals_root (block : Block.t Tx) : Block.t Tx :=
  match Header.withdrawals_root (Block.header block) with
  | None => Block.with_header block
              (Header.with_withdrawals_root (Block.header block) (Some EMPTY_WITHDRAWALS))
  | Some _ => block
  end.

(** The numbers of the sidecar are stored when there is one for each transaction. *)
Definition restore_numbers (kasplex_data : option KasplexExecutionData) (transactions : list Tx)
    : comp TxMappingState (PayloadError E) () :=
  match kasplex_data with
  | Some data =>
      let numbers := numbers (kasplex_sidecar data) in
      if negb (bool_decide (numbers = [])) && bool_decide (length numbers = length transactions)
      then for_in (zip transactions numbers) ()
             (λ _ '(tx, number), modify (insert (tx_hash tx) number))
      else mret ()
  | None => mret ()
  end.

(** [get_tx_number]: the number found is only logged. *)
Definition look_up_number (_ : ()) (tx : Tx) : comp TxMappingState (PayloadError E) () :=
  modify (λ st, (get_tx_number (tx_hash tx) st).2).

Definition process_kasplex_execution_data (payload : ExecutionPayload)
    (kasplex_data : option KasplexExecutionData)
    : comp TxMappingState (PayloadError E) (Block.t Tx) :=
  match payload with
  | PayloadV1Variant payload_v1 =>
      block ← lift (outcome_map_err Conversion (try_into_block payload_v1));
      let block := with_empty_withdrawals_root block in
      _ ← restore_numbers kasplex_data (Block.transactions block);
      _ ← for_in (Block.transactions block) () look_up_number;
      mret block
  | _ => fail (BaseFee 0)
  end.

Record KasplexEngineValidator {C : Type} := mkValidator { validator_chain_spec : C }.
Arguments KasplexEngineValidator : clear implicits.

(** On a mismatch of hashes the fields are compared for the log, which converts the
    payload's base fee to 64 bits. *)
Definition ensure_well_formed_payload (data : ExecutionData)
    : comp TxMappingState (NewPayloadError E R) (RecoveredBlock Tx Sender) :=
  let payload := payload data in
  let '(expected_hash, payload_for_debug) :=
    match payload with
    | PayloadV1Variant p => (PayloadV1.block_hash p, Some p)
    | _ => (0, None)
    end in
  block ← map_err OtherPayload (process_kasplex_execution_data payload None);
  let block_hash := hash_slow (Block.header block) in
  let sealed_block := mkSealedBlock block block_hash in
  let expected_hash := if expected_hash =? 0 then block_hash else expected_hash in
  if negb (expected_hash =? block_hash) then
    _ ← match payload_for_debug with
        | Some p => _ ← expect (u256_to_u64 (PayloadV1.base_fee_per_gas p)); mret ()
        | None => mret ()
        end;
    fail (OtherPayload (BlockHash block_hash expected_hash))
  else
    senders ← lift (outcome_map_err OtherRecovery (try_recover block));
    mret (mkRecoveredBlock sealed_block senders).

Definition convert_payload_to_block (data : ExecutionData)
    : comp TxMappingState (NewPayloadError E R) (SealedBlock Tx) :=
  recovered ← ensure_well_formed_payload data;
  mret (sealed_block recovered).
End engine.
Arguments KasplexEngineValidator : clear implicits.

(** ** The other checks of the validator *)

Inductive InvalidPayloadAttributesError : Type := InvalidTimestamp.

Definition validate_payload_attributes_against_header {W} (attr : KasplexPayloadAttributes W)
    (header : Header.t) : outcome InvalidPayloadAttributesError () :=
  if attributes_timestamp attr <? Header.timestamp header then Err InvalidTimestamp else Ok ().

Definition validate_version_specific_fields {V A E} (_version : V) (_payload_or_attrs : A)
    : outcome E () := Ok ().
Definition ensure_well_formed_attributes {V A E} (_version : V) (_attributes : A)
    : outcome E () := Ok ().

(** The error is the message with the two timestamps. *)
Definition validate_kasplex_block (block : Header.t) (parent_timestamp : Z)
    : outcome (Z * Z) () :=
  if Header.timestamp block <? parent_timestamp
  then Err (Header.timestamp block, parent_timestamp) else Ok ().

Section chain_checks.
Context {C : Type} {CC : KasplexChainCheck C}.

Definition kasplex_allow_reorg (chain_spec : C) : bool := is_kasplex chain_spec.

Definition kasplex_accept_tx_hash (chain_spec : C) (kasplex_data : option KasplexExecutionData)
    : bool :=
  if negb (is_kasplex chain_spec) then false
  else match kasplex_data with
       | Some data => negb (sidecar_tx_hash (kasplex_sidecar data) =? 0)
       | None => false
       end.
End chain_checks.

Definition is_kasplex_block (kasplex_data : option KasplexExecutionData) : bool :=
  match kasplex_data with
  | Some data => kasplex_block (kasplex_sidecar data)
  | None => false
  end.

(** reth's tree configuration: the two switches the validator's builder sets, and the other
    settings, which it keeps. *)
Record TreeConfig {O : Type} := mkTreeConfig {
  always_process_payload_attributes_on_canonical_head : bool;
  unwind_canonical_header : bool;
  other_settings : O;
}.
Arguments TreeConfig : clear implicits.
Arguments mkTreeConfig {O} _ _ _.
Definition build_tree_config {O} (tree_config : TreeConfig O) : TreeConfig O :=
  mkTreeConfig true true (other_settings tree_config).

(** ** Lemmas *)

Section lemmas.
Context {Tx Sender E R : Type} {PL : PayloadLibrary Tx Sender E R}.
Implicit Types (st : TxMappingState) (b : Block.t Tx) (p : PayloadV1.t).

(** A loop of insertions under hashes. *)
Lemma insert_loop_run {F} (txs : list Tx) (st0 st : TxMappingState) :
  for_in (zip txs ((λ tx, default 0 (get_submission_block (tx_hash tx) st0)) <$> txs)) ()
    (λ _ '(tx, number), (modify (insert (tx_hash tx) number) : comp TxMappingState F ())) st
  = (Ok (), record_numbers st0 (tx_hash <$> txs) st).
Proof. revert st. induction txs as [|tx txs IH]; intros st; [done|]. apply IH. Qed.

Lemma block_to_payload_run (b : SealedBlock Tx) st :
  block_to_payload b st
  = (Ok (mkEthExecutionData (PayloadV1Variant (from_block_unchecked (seal_hash b) (sealed b)))),
     record_numbers st (block_hashes (sealed b)) st).
Proof.
  unfold block_to_payload. rewrite bind_gets.
  by rewrite (bind_Ok _ _ _ _ _ (insert_loop_run _ st st)).
Qed.

Lemma look_up_loop_run (txs : list Tx) st :
  for_in txs () (look_up_number (E := E)) st = (Ok (), take_numbers (tx_hash <$> txs) st).
Proof. revert st. induction txs as [|tx txs IH]; intros st; [done|]. apply IH. Qed.

(** Restoring changes nothing but entries of the block. *)
Lemma restore_numbers_run data (txs : list Tx) st : ∃ st',
  restore_numbers (E := E) data txs st = (Ok (), st') ∧
  (∀ h, h ∉ tx_hash <$> txs → get_submission_block h st' = get_submission_block h st) ∧
  deleted st' = deleted st ∧ reorg_in_progress st' = reorg_in_progress st.
Proof.
  assert (Hloop : ∀ ns txs st, ∃ st',
    for_in (zip txs ns) () (λ _ '(tx, number),
      (modify (insert (tx_hash tx) number) : comp TxMappingState (PayloadError E) ())) st
    = (Ok (), st') ∧
    (∀ h, h ∉ tx_hash <$> txs → get_submission_block h st' = get_submission_block h st) ∧
    deleted st' = deleted st ∧ reorg_in_progress st' = reorg_in_progress st).
  { clear. induction ns as [|n ns IH]; intros [|tx txs] st; [by exists st..|].
    destruct (IH txs (insert (tx_hash tx) n st)) as (st' & E1 & Hh & Hd & Hr).
    exists st'. split_and!; [done| |done|done]. intros h Hin.
    rewrite Hh by set_solver. rewrite get_submission_block_insert.
    by rewrite decide_False by set_solver. }
  unfold restore_numbers. destruct data as [d|]; [|by exists st].
  destruct (_ && _); [apply Hloop|by exists st].
Qed.

(** A payload of the first version that converts: the block with its withdrawals
    root filled in, and the mapping without the block's transactions, whatever the
    sidecar says. *)
Lemma process_run p data st b :
  try_into_block p = Ok b →
  process_kasplex_execution_data (PayloadV1Variant p) data st
  = (Ok (with_empty_withdrawals_root b), take_numbers (block_hashes b) st).
Proof.
  intros Hb. unfold process_kasplex_execution_data. rewrite Hb. cbn [outcome_map_err].
  rewrite bind_lift_Ok.
  assert (Htx : Block.transactions (with_empty_withdrawals_root b) = Block.transactions b).
  { unfold with_empty_withdrawals_root. by destruct (Header.withdrawals_root _). }
  rewrite Htx.
  destruct (restore_numbers_run data (Block.transactions b) st) as (st1 & E1 & Hh & Hd & Hr).
  rewrite (bind_Ok _ _ _ _ _ E1), (bind_Ok _ _ _ _ _ (look_up_loop_run _ _)).
  rewrite run_mret. f_equal. fold (block_hashes b) in *.
  apply tx_mapping_ext.
  - intros h. rewrite !take_numbers_lookup. case_decide; [done|]. by apply Hh.
  - by rewrite !(proj1 (take_numbers_rest _ _)).
  - by rewrite !(proj2 (take_numbers_rest _ _)).
Qed.
End lemmas.

Section accept.
Context {Tx Sender E R : Type} {PL : PayloadLibrary Tx Sender E R}.

(** A payload that converts, with a matching or absent hash and known signers. *)
Lemma ensure_run p (b : Block.t Tx) st ss :
  try_into_block p = Ok b →
  PayloadV1.block_hash p = 0 ∨
    PayloadV1.block_hash p = hash_slow (Block.header (with_empty_withdrawals_root b)) →
  try_recover (with_empty_withdrawals_root b) = Ok ss →
  ensure_well_formed_payload (Sender := Sender) (mkEthExecutionData (PayloadV1Variant p)) st
  = (Ok (mkRecoveredBlock
           (mkSealedBlock (with_empty_withdrawals_root b)
              (hash_slow (Block.header (with_empty_withdrawals_root b)))) ss),
     take_numbers (block_hashes b) st).
Proof.
  intros Hb Hh Hs. unfold ensure_well_formed_payload, map_err. cbn [payload].
  unfold mbind at 1, comp_bind at 1. rewrite (process_run _ _ _ _ Hb). cbn [outcome_map_err].
  assert ((if PayloadV1.block_hash p =? 0
           then hash_slow (Block.header (with_empty_withdrawals_root b))
           else PayloadV1.block_hash p)
    = hash_slow (Block.header (with_empty_withdrawals_root b))) as ->.
  { destruct (Z.eqb_spec (PayloadV1.block_hash p) 0); naive_solver. }
  rewrite Z.eqb_refl, Hs. done.
Qed.

(** A payload that does not convert is refused before any number is touched. *)
Lemma ensure_unconverted p st e :
  try_into_block p = Err e →
  ensure_well_formed_payload (Sender := Sender) (mkEthExecutionData (PayloadV1Variant p)) st
  = (Err (OtherPayload (Conversion e)), st).
Proof.
  intros He. unfold ensure_well_formed_payload, process_kasplex_execution_data. simpl.
  by rewrite He.
Qed.

(** And what an accepted payload was. *)
Lemma ensure_inv data st r st' :
  ensure_well_formed_payload (Sender := Sender) data st = (Ok r, st') →
  ∃ p (b : Block.t Tx) ss, payload data = PayloadV1Variant p ∧ try_into_block p = Ok b ∧
    let b' := with_empty_withdrawals_root b in
    let h := hash_slow (Block.header b') in
    (PayloadV1.block_hash p = 0 ∨ PayloadV1.block_hash p = h) ∧
    try_recover b' = Ok ss ∧
    r = mkRecoveredBlock (mkSealedBlock b' h) ss ∧
    st' = take_numbers (block_hashes b) st.
Proof.
  unfold ensure_well_formed_payload, map_err. destruct (payload data) as [p|? ? ?|? ? ?]; [|done..].
  destruct (try_into_block p) as [b|e|] eqn:Hb;
    [|unfold process_kasplex_execution_data; by rewrite Hb..].
  unfold mbind at 1, comp_bind at 1. rewrite (process_run _ _ _ _ Hb). cbn [outcome_map_err].
  set (b' := with_empty_withdrawals_root b). set (h := hash_slow (Block.header b')).
  destruct (negb _) eqn:Hneg; [by destruct (u256_to_u64 _)|].
  destruct (try_recover b') as [ss|e|] eqn:Hs; [|done..].
  cbn [outcome_map_err]. rewrite bind_lift_Ok, run_mret. intros [= <- <-].
  exists p, b, ss. split_and!; try done.
  destruct (Z.eqb_spec (PayloadV1.block_hash p) 0) as [|_]; [by left|right].
  by apply Z.eqb_eq, negb_false_iff.
Qed.
End accept.

(** ** Properties *)

Section properties.
Context {Tx Sender E R : Type} {PL : PayloadLibrary Tx Sender E R}.
Implicit Types (st : TxMappingState) (b : Block.t Tx) (p : PayloadV1.t).

(** C13 Which payloads are accepted, and as what: exactly those of the first version
    that convert to a block whose header, with the empty withdrawals root filled in,
    hashes to the payload's block hash (a zero hash is not compared) and whose
    signers are recovered; the block is the converted one under its own hash. *)
Theorem well_formed_payload_accepts_exactly data st r st' :
  ensure_well_formed_payload (Sender := Sender) data st = (Ok r, st') ↔
  ∃ p b ss, payload data = PayloadV1Variant p ∧ try_into_block p = Ok b ∧
    let b' := with_empty_withdrawals_root b in
    let h := hash_slow (Block.header b') in
    (PayloadV1.block_hash p = 0 ∨ PayloadV1.block_hash p = h) ∧
    try_recover b' = Ok ss ∧
    r = mkRecoveredBlock (mkSealedBlock b' h) ss ∧
    st' = take_numbers (block_hashes b) st.
Proof.
  split; [apply ensure_inv|].
  intros (p & b & ss & Hp & Hb & Hh & Hs & -> & ->).
  destruct data as [pl]. cbn [payload] in Hp. subst pl. by apply ensure_run.
Qed.

(** Validation takes the submission numbers of a block out of the mapping as soon
    as the payload converts: a payload whose hash does not match is rejected, with
    both hashes, only after that, and the rest of the mapping is untouched. *)
Theorem mismatched_payload_erases_numbers data st p b
    (Hp : payload data = PayloadV1Variant p) (Hb : try_into_block p = Ok b)
    (Hnz : PayloadV1.block_hash p ≠ 0)
    (Hne : PayloadV1.block_hash p ≠ hash_slow (Block.header (with_empty_withdrawals_root b)))
    (Hfee : in_width 64 (PayloadV1.base_fee_per_gas p)) :
  ∃ st', ensure_well_formed_payload (Sender := Sender) data st
    = (Err (OtherPayload (BlockHash (hash_slow (Block.header (with_empty_withdrawals_root b)))
         (PayloadV1.block_hash p))), st') ∧
    ∀ h, get_submission_block h st'
      = if decide (h ∈ block_hashes b) then None else get_submission_block h st.
Proof.
  exists (take_numbers (block_hashes b) st). split; [|apply take_numbers_lookup].
  unfold ensure_well_formed_payload, map_err. rewrite Hp.
  unfold mbind at 1, comp_bind at 1. rewrite (process_run _ _ _ _ Hb). cbn [outcome_map_err].
  apply Z.eqb_neq in Hnz, Hne. rewrite Hnz, Hne. cbn [negb].
  by rewrite u256_to_u64_Some.
Qed.

(** Numbers sent with a payload do not survive its processing: whatever the
    sidecar holds, afterwards no transaction of the block has a number, every other
    transaction has the one it had, and the block does not depend on the sidecar. *)
Theorem sidecar_numbers_are_not_kept p data st b
    (Hb : try_into_block p = Ok b) :
  ∃ st', process_kasplex_execution_data (PayloadV1Variant p) data st
    = (Ok (with_empty_withdrawals_root b), st') ∧
    ∀ h, get_submission_block h st'
      = if decide (h ∈ block_hashes b) then None else get_submission_block h st.
Proof.
  exists (take_numbers (block_hashes b) st). split; [by apply process_run|].
  apply take_numbers_lookup.
Qed.

(** Converting a block to a payload keeps the numbers its transactions have and
    gives 0 to those without one, so converting it again changes nothing. *)
Theorem block_to_payload_keeps_numbers (blk : SealedBlock Tx) st :
  ∃ st', block_to_payload blk st
    = (Ok (mkEthExecutionData
         (PayloadV1Variant (from_block_unchecked (seal_hash blk) (sealed blk)))), st') ∧
    (∀ h, get_submission_block h st'
      = if decide (h ∈ block_hashes (sealed blk))
        then Some (default 0 (get_submission_block h st)) else get_submission_block h st) ∧
    (block_to_payload blk st').2 = st'.
Proof.
  exists (record_numbers st (block_hashes (sealed blk)) st).
  split; [apply block_to_payload_run|]. split; [apply record_numbers_lookup|].
  rewrite block_to_payload_run. cbn [snd]. apply tx_mapping_ext.
  - intros h. rewrite !record_numbers_lookup. by repeat case_decide.
  - apply record_numbers_rest.
  - apply record_numbers_rest.
Qed.
End properties.

(** ** A concrete library and the witnesses *)

(** Transactions are their hashes, encoded as a number of bytes; a header's hash is
    its number plus 1000. *)
Module PlainPayloads.
Definition encode (t : Z) : Bytes :=
  replicate (Z.to_nat (if t <? 0 then -2 * t - 1 else 2 * t)) Byte.x00.
Definition decode (raw : Bytes) : Z :=
  let n := Z.of_nat (length raw) in if Z.even n then n / 2 else - ((n + 1) / 2).

Lemma decode_encode t : decode (encode t) = t.
Proof.
  unfold decode, encode. rewrite length_replicate. destruct (Z.ltb_spec t 0).
  - rewrite Z2Nat.id by lia. replace (-2 * t - 1) with (1 + 2 * (- t - 1)) by lia.
    rewrite Z.even_add_mul_2. change (Z.even 1) with false. cbn iota.
    replace (1 + 2 * (- t - 1) + 1) with (- t * 2) by lia. rewrite Z.div_mul by lia. lia.
  - rewrite Z2Nat.id by lia. replace (2 * t) with (0 + 2 * t) at 1 by lia.
    rewrite Z.even_add_mul_2. change (Z.even 0) with true. cbn iota.
    rewrite Z.mul_comm. by rewrite Z.div_mul by lia.
Qed.

Definition v1_header (p : PayloadV1.t) (n : nat) : Header.t :=
  Header.mk (PayloadV1.parent_hash p)
    0x1dcc4de8dec75d7aab85b567b6ccd41ad312451b948a7413f0a142fd40d49347 (PayloadV1.fee_recipient p) (PayloadV1.state_root p)
    (Z.of_nat n) (PayloadV1.receipts_root p) None (PayloadV1.logs_bloom p) (PayloadV1.timestamp p)
    (PayloadV1.prev_randao p) 0 (Some (PayloadV1.base_fee_per_gas p)) (PayloadV1.block_number p)
    (PayloadV1.gas_limit p) 0 (PayloadV1.gas_used p) (PayloadV1.extra_data p) None None None None.

#[global] Instance library : PayloadLibrary Z () string string := {
  tx_hash t := t;
  EMPTY_WITHDRAWALS := 0x56e81f171bcc55a6ff8345e692c0f86e5b48e01b996cadc001622fb5e363b421;
  hash_slow h := Header.number h + 1000;
  from_block_unchecked hash b :=
    let h := Block.header b in
    PayloadV1.mk (Header.parent_hash h) (Header.beneficiary h) (Header.state_root h)
      (Header.receipts_root h) (Header.logs_bloom h) (Header.mix_hash h) (Header.number h)
      (Header.gas_limit h) (Header.gas_used h) (Header.timestamp h) (Header.extra_data h)
      (default 0 (Header.base_fee_per_gas h)) hash
      (encode <$> Block.transactions b);
  try_into_block p :=
    let txs := decode <$> PayloadV1.transactions p in
    if 32 <? Z.of_nat (length (PayloadV1.extra_data p)) then Err "extra data"%string
    else Ok (Block.mk (v1_header p (length txs)) txs [] None);
  try_recover b := Ok ((λ _, ()) <$> Block.transactions b);
}.
End PlainPayloads.

Definition sample_payload (hash : B256) : PayloadV1.t :=
  PayloadV1.mk 5 9 1 2 3 8 6 45000000 21000 10 [] 2000000000000 hash [replicate 4 Byte.x01].
Definition sample_converted (hash : B256) : Block.t Z :=
  Block.mk (PlainPayloads.v1_header (sample_payload hash) 1) [2] [] None.
Definition sample_numbers : TxMappingState := mkTxMappingState {[ 2 := 4; 3 := 5 ]} ∅ false.

Lemma well_formed_payload_accepts_exactly_witness :
  ∃ r, ensure_well_formed_payload (Sender := ())
    (mkEthExecutionData (PayloadV1Variant (sample_payload 0))) sample_numbers
    = (Ok r, take_numbers [2] sample_numbers).
Proof.
  eexists. apply (well_formed_payload_accepts_exactly
    (mkEthExecutionData (PayloadV1Variant (sample_payload 0))) sample_numbers).
  do 3 eexists. split; [reflexivity|]. split; [reflexivity|]. split; [by left|].
  split; [reflexivity|]. split; reflexivity.
Defined.

Lemma mismatched_payload_erases_numbers_witness :
  ∃ st', ensure_well_formed_payload (Sender := ())
      (mkEthExecutionData (PayloadV1Variant (sample_payload 7))) sample_numbers
    = (Err (OtherPayload (BlockHash 1006 7)), st') ∧
    get_submission_block 2 st' = None ∧ get_submission_block 3 st' = Some 5.
Proof.
  destruct (mismatched_payload_erases_numbers (PL := PlainPayloads.library)
    (mkEthExecutionData (PayloadV1Variant (sample_payload 7))) sample_numbers
    (sample_payload 7) (sample_converted 7) eq_refl eq_refl ltac:(done) ltac:(done) ltac:(vm_compute; by split))
    as (st' & E & H).
  exists st'. split; [exact E|]. split; [rewrite (H 2)|rewrite (H 3)]; vm_compute; reflexivity.
Defined.

Lemma sidecar_numbers_are_not_kept_witness :
  ∃ b st', process_kasplex_execution_data (PayloadV1Variant (sample_payload 0))
      (Some (mkExecutionData (sample_payload 0) (mkSidecar 1 0 [77] true))) sample_numbers
    = (Ok b, st') ∧ get_submission_block 2 st' = None.
Proof.
  destruct (sidecar_numbers_are_not_kept (PL := PlainPayloads.library) (sample_payload 0)
    (Some (mkExecutionData (sample_payload 0) (mkSidecar 1 0 [77] true))) sample_numbers
    (sample_converted 0) eq_refl)
    as (st' & E & H).
  do 2 eexists. split; [exact E|]. rewrite (H 2). vm_compute. reflexivity.
Defined.
