(* ===== verification/EngineApi.v ===== *)
(** * The engine API ([crates/rpc/src/engine/api.rs])

    [engine_newPayloadV2] and [engine_forkchoiceUpdatedV2]: reth's own handlers,
    followed by the maintenance of the transaction pool.  The inner engine and the
    chain provider are parameters; the inner call may change the chain, the pool and
    the mapping as it likes. *)

From stdpp Require Import prelude gmap list strings.
From Stdlib Require Import ZArith Lia.
From S2P Require Import Prelude Types TxMapping Chainspec TxPool Attributes Engine.

Definition KASPLEX_ENGINE_CAPABILITIES : list string :=
  ["engine_forkchoiceUpdatedV2"; "engine_getPayloadV2"; "engine_newPayloadV2"].

(** The methods the trait [KasplexEngineApi] declares, in its namespace. *)
Definition engine_api_methods : list string :=
  ["engine_newPayloadV2"; "engine_forkchoiceUpdatedV2"; "engine_getPayloadV2"].

Record ForkchoiceState := mkForkchoiceState {
  head_block_hash : B256;
  safe_block_hash : B256;
  finalized_block_hash : B256;
}.

(** The chain, and the pool with the mapping. *)
Record ApiWorld {Ch P : Type} := mkApiWorld { chain : Ch; pools : PoolWorld P }.
Arguments ApiWorld : clear implicits.
Arguments mkApiWorld {Ch P} _ _.

(** Queries of the provider: an error, or an answer. *)
Class Provider (Ch Spec PrErr : Type) := {
  block_by_hash : B256 → Ch → PrErr + option (list B256);
  header_number_by_hash : B256 → Ch → PrErr + option Z;
  best_block_number : Ch → PrErr + Z;
  chain_spec : Ch → Spec;
}.

(** reth's [EngineApi]. *)
Class InnerEngine (W Attrs RpcErr Status Updated Envelope : Type) := {
  inner_new_payload_v2 : ExecutionData → comp W RpcErr Status;
  inner_fork_choice_updated_v2 : ForkchoiceState → option Attrs → comp W RpcErr Updated;
  inner_get_payload_v2 : Bytes → comp W RpcErr Envelope;
}.

Section api.
Context {Ch P T PE Spec PrErr Attrs RpcErr Status Updated Envelope BoxError : Type}.
Context {TP : TransactionPool P T PE} {CC : KasplexChainCheck Spec}.
Context {PR : Provider Ch Spec PrErr}.
Context {IE : InnerEngine (ApiWorld Ch P) Attrs RpcErr Status Updated Envelope}.
Local Abbreviation World := (ApiWorld Ch P).

(** A call on the pool and the mapping whose error is only logged. *)
Definition logged {A} (m : comp (PoolWorld P) BoxError A) : comp World RpcErr () := λ w,
  let '(o, pw) := m (pools w) in
  (match o with Panicked => Panicked | _ => Ok () end, mkApiWorld (chain w) pw).

Definition new_payload_v2 (payload : KasplexExecutionData) : comp World RpcErr Status :=
  let block_hash := PayloadV1.block_hash (execution_payload payload) in
  let execution_data := mkEthExecutionData (PayloadV1Variant (execution_payload payload)) in
  result ← inner_new_payload_v2 execution_data;
  found ← gets (λ w, block_by_hash block_hash (chain w));
  _ ← match found with
      | inr (Some block_tx_hashes) =>
          logged (remove_included_transactions (TP := TP) block_tx_hashes)
      | _ => mret ()
      end;
  mret result.

Definition fork_choice_updated_v2 (fork_choice_state : ForkchoiceState)
    (payload_attributes : option Attrs) : comp World RpcErr Updated :=
  result ← inner_fork_choice_updated_v2 fork_choice_state payload_attributes;
  spec ← gets (λ w, chain_spec (chain w));
  head ← gets (λ w, header_number_by_hash (head_block_hash fork_choice_state) (chain w));
  _ ← match head with
      | inr (Some new_head_number) =>
          logged (handle_kasplex_pool_reorg (TP := TP) spec new_head_number)
      | _ =>
          best ← gets (λ w, best_block_number (chain w));
          match best with
          | inr best_number => logged (handle_kasplex_pool_reorg (TP := TP) spec best_number)
          | inl _ => mret ()
          end
      end;
  mret result.

Definition get_payload_v2 (payload_id : Bytes) : comp World RpcErr Envelope :=
  inner_get_payload_v2 payload_id.

(** The number the sweep runs with: the head's, or the best block's when the head is
    not known; none when neither is. *)
Definition sweep_number (hash : B256) (ch : Ch) : option Z :=
  match header_number_by_hash hash ch with
  | inr (Some n) => Some n
  | _ => match best_block_number ch with inr n => Some n | inl _ => None end
  end.

(** The two handlers, as what they make of the inner engine's answer. *)
Lemma new_payload_run payload (w : World) :
  new_payload_v2 payload w
  = let '(o, w1) := inner_new_payload_v2 (mkEthExecutionData
      (PayloadV1Variant (execution_payload payload))) w in
    (o, match o, block_by_hash (PayloadV1.block_hash (execution_payload payload)) (chain w1) with
        | Ok _, inr (Some hs) => mkApiWorld (chain w1)
            (remove_included_transactions (BoxError := BoxError) (TP := TP) hs (pools w1)).2
        | _, _ => w1
        end).
Proof.
  unfold new_payload_v2, logged, mbind, comp_bind, gets.
  destruct (inner_new_payload_v2 _ w) as [[r|e|] w1]; [|done..].
  destruct (block_by_hash _ _) as [e|[hs|]]; [done| |done].
  by rewrite remove_included_transactions_run.
Qed.

Lemma fork_choice_run state attrs (w : World) :
  fork_choice_updated_v2 state attrs w
  = let '(o, w1) := inner_fork_choice_updated_v2 state attrs w in
    (o, match o, sweep_number (head_block_hash state) (chain w1) with
        | Ok _, Some n => mkApiWorld (chain w1)
            (handle_kasplex_pool_reorg (BoxError := BoxError) (TP := TP)
               (chain_spec (chain w1)) n (pools w1)).2
        | _, _ => w1
        end).
Proof.
  unfold fork_choice_updated_v2, sweep_number, logged, mbind, comp_bind, gets.
  destruct (inner_fork_choice_updated_v2 _ _ w) as [[r|e|] w1]; [|done..].
  destruct (header_number_by_hash _ _) as [e|[n|]];
    [destruct (best_block_number _) as [e'|n]; [done|]| |
     destruct (best_block_number _) as [e'|n]; [done|]];
    by rewrite handle_kasplex_pool_reorg_run.
Qed.

(** ** Properties *)

(** [engine_newPayloadV2] answers what the inner engine answers, and does not
    look at the sidecar.  When the inner call succeeds and the provider has the
    block, the pool loses exactly the transactions the block includes; in every
    other case nothing is changed after the inner call, and the chain and the
    submission numbers never are. *)
Theorem new_payload_v2_drops_included {L : TransactionPoolLaws P T PE} payload (w : World) :
  let '(o, w1) := inner_new_payload_v2 (mkEthExecutionData
    (PayloadV1Variant (execution_payload payload))) w in
  let found := block_by_hash (PayloadV1.block_hash (execution_payload payload)) (chain w1) in
  ∃ w', new_payload_v2 payload w = (o, w') ∧
    chain w' = chain w1 ∧ tx_mapping (pools w') = tx_mapping (pools w1) ∧
    (∀ h, h ∈ pool_hashes (pool (pools w')) ↔
      h ∈ pool_hashes (pool (pools w1)) ∧
      match o, found with
      | Ok _, inr (Some hs) => h ∉ hs
      | _, _ => True
      end) ∧
    (∀ s, new_payload_v2 (mkExecutionData (execution_payload payload) s) w = (o, w')).
Proof.
  destruct (inner_new_payload_v2 _ w) as [o w1] eqn:E1. intros found.
  exists (new_payload_v2 payload w).2. rewrite new_payload_run, E1. fold found.
  split; [done|]. split; [by destruct o, found as [|[]]|].
  assert (∀ s, new_payload_v2 (mkExecutionData (execution_payload payload) s) w
    = (o, (new_payload_v2 payload w).2)) as Hs.
  { intros s. rewrite !new_payload_run. cbn [execution_payload]. by rewrite E1. }
  rewrite new_payload_run, E1 in Hs. fold found in Hs. simpl in Hs.
  destruct o as [r|e|]; [|split_and!; naive_solver..].
  destruct found as [e|[hs|]]; [split_and!; naive_solver| |split_and!; naive_solver].
  destruct (drop_included_effect (BoxError := BoxError) hs (pools w1)). by split_and!.
Qed.

(** C23 [engine_forkchoiceUpdatedV2] answers what the inner engine answers.  When it
    succeeds on a Kasplex chain and the head (or else the best block) is known to
    have number [n], the pool keeps exactly the transactions whose positive
    submission number is within the retention window of [n], the numbers are
    untouched and the reorg flag is down; with neither known, off Kasplex chains or
    after an error nothing is changed after the inner call. *)
Theorem fork_choice_updated_v2_sweeps {L : TransactionPoolLaws P T PE} state attrs (w : World)
    o w1 (Hinner : inner_fork_choice_updated_v2 state attrs w = (o, w1))
    (Hfit : map_Forall (λ _ n, retention_fits n) (mapping (tx_mapping (pools w1)))) :
  ∃ w', fork_choice_updated_v2 state attrs w = (o, w') ∧ chain w' = chain w1 ∧
    match o, sweep_number (head_block_hash state) (chain w1) with
    | Ok _, Some n =>
        if is_kasplex (chain_spec (chain w1)) then
          tx_mapping (pools w') = mark_pool_reorged (tx_mapping (pools w1)) ∧
          ∀ h, h ∈ pool_hashes (pool (pools w')) ↔
            h ∈ pool_hashes (pool (pools w1)) ∧
            ∀ k, get_submission_block h (tx_mapping (pools w1)) = Some k → 0 < k →
              k ≤ n ≤ k + UNEXECUTED_TX_RETENTION_BLOCKS
        else w' = w1
    | _, _ => w' = w1
    end.
Proof.
  exists (fork_choice_updated_v2 state attrs w).2. rewrite fork_choice_run, Hinner.
  destruct o as [r|e|]; [|done..]. destruct (sweep_number _ _) as [n|]; [|done].
  do 2 (split; [done|]).
  pose proof (sweep_effect (BoxError := BoxError) (chain_spec (chain w1)) n (pools w1)) as Heff.
  destruct (is_kasplex (chain_spec (chain w1))) eqn:Hk; [by apply Heff|].
  rewrite handle_kasplex_pool_reorg_run, Hk. by destruct w1.
Qed.
End api.

(** ** A concrete engine and the witnesses *)

(** The chain is a list of blocks: hash, number and transaction hashes.  The inner
    engine appends the payload of hash 77 with transactions 2 and 9 and knows every
    head. *)
Module PlainEngine.
Definition chain : Type := list (B256 * (Z * list B256)).

Definition find (hash : B256) (ch : chain) : option (Z * list B256) :=
  snd <$> List.find (λ b, b.1 =? hash) ch.

#[global] Instance is_kasplex_check : KasplexChainCheck Z := is_kasplex_id.

#[global] Instance provider : Provider chain Z string := {
  block_by_hash h ch := inr (snd <$> find h ch);
  header_number_by_hash h ch := inr (fst <$> find h ch);
  best_block_number ch := inr (Z.of_nat (length ch));
  chain_spec _ := 202555;
}.

#[global] Instance engine :
    InnerEngine (ApiWorld chain ListPool.t) () string string string () := {
  inner_new_payload_v2 _ := modify (λ w,
    mkApiWorld ((77, (500, [2; 9])) :: EngineApi.chain w) (pools w)) ;; mret "VALID";
  inner_fork_choice_updated_v2 _ _ := mret "VALID";
  inner_get_payload_v2 _ := fail "unknown";
}.
End PlainEngine.

Definition sample_api : ApiWorld PlainEngine.chain ListPool.t :=
  mkApiWorld [(5, (500, []))] (mkPoolWorld sample_pool sample_mapping).

Lemma new_payload_v2_drops_included_witness :
  ∃ w', new_payload_v2 (BoxError := ()) (mkExecutionData (sample_payload 77) (mkSidecar 0 0 [] true))
    sample_api = (Ok "VALID"%string, w') ∧ 2 ∉ pool_hashes (pool (pools w')).
Proof.
  destruct (new_payload_v2_drops_included (L := ListPool.list_pool_laws)
    (PR := PlainEngine.provider) (IE := PlainEngine.engine) (BoxError := ())
    (mkExecutionData (sample_payload 77) (mkSidecar 0 0 [] true)) sample_api)
    as (w' & E & _ & _ & H & _).
  exists w'. split; [exact E|]. intros [_ H2]%H. apply H2. vm_compute. left.
Defined.

Lemma fork_choice_updated_v2_sweeps_witness :
  ∃ w', fork_choice_updated_v2 (BoxError := ()) (mkForkchoiceState 5 5 5) None sample_api
      = (Ok "VALID"%string, w') ∧
    1 ∉ pool_hashes (pool (pools w')).
Proof.
  assert (Hfit : map_Forall (λ _ n, retention_fits n) (mapping sample_mapping)).
  { repeat apply map_Forall_insert_2; try apply map_Forall_empty; split; vm_compute; congruence. }
  destruct (fork_choice_updated_v2_sweeps (L := ListPool.list_pool_laws)
    (PR := PlainEngine.provider) (IE := PlainEngine.engine) (BoxError := ())
    (mkForkchoiceState 5 5 5) None sample_api (Ok "VALID"%string) sample_api eq_refl Hfit)
    as (w' & E & _ & H).
  exists w'. split; [exact E|]. destruct H as [_ H]. intros [_ H2]%H.
  destruct (H2 10 eq_refl ltac:(lia)) as [_ Hle]. revert Hle. vm_compute. congruence.
Defined.
