(* ===== verification/Rpc.v ===== *)
(** * The JSON-RPC extensions ([crates/rpc/src/eth/])

    The [kasplexAuth] namespace hands out prebuilt transaction lists, filters the
    pool by tip and takes raw transactions with their submission number.  Decoding,
    signer recovery and the conversions to pool and RPC transactions are parameters. *)

From stdpp Require Import prelude gmap list strings.
From Stdlib Require Import ZArith Lia Ascii Strings.Byte.
From S2P Require Import Prelude Types TxMapping Chainspec TxPool Treasury EngineApi.

(** 2000 GWei, as the handlers spell it. *)
Definition min_l2_base_fee : Z := 2000000000000.

(** What the handlers read of a pool transaction, and its RPC form. *)
Class PooledTransaction (T Rpc EthErr : Type) := {
  sender : T → Address;
  nonce : T → Z;
  max_fee_per_gas : T → Z;
  max_priority_fee_per_gas : T → option Z;
  gas_limit : T → Z;
  encoded_2718 : T → Bytes;
  fill_pending : T → outcome EthErr Rpc;
}.

(** ** Hexadecimal text *)

(** [hex::encode]: two lower-case digits a byte. *)
Definition hex_char (d : Z) : ascii :=
  Ascii.ascii_of_N (Z.to_N (if d <? 10 then 48 + d else 87 + d)).
Definition byte_value (b : Byte.byte) : Z := Z.of_N (Byte.to_N b).
Fixpoint hex_encode (bs : Bytes) : string :=
  match bs with
  | [] => EmptyString
  | b :: bs =>
      String (hex_char (byte_value b / 16))
        (String (hex_char (byte_value b `mod` 16)) (hex_encode bs))
  end.

(** The reader of such text, to state what the encoding means. *)
Fixpoint hex_decode (s : string) : option Bytes :=
  match s with
  | EmptyString => Some []
  | String c (String d s) =>
      h ← hex_digit c; l ← hex_digit d;
      b ← Byte.of_N (Z.to_N (16 * h + l));
      bs ← hex_decode s;
      Some (b :: bs)
  | _ => None
  end.

(** ** [kasplexAuth_txPoolContent] *)

(** [{ "txList": .., "estimatedGasUsed": .., "bytesLength": .. }] *)
Record PreBuiltTxList := mkPreBuiltTxList {
  txList : list string;
  estimatedGasUsed : Z;
  bytesLength : Z;
}.

(** [str::strip_prefix] *)
Fixpoint strip_prefix (prefix s : string) : option string :=
  match prefix, s with
  | EmptyString, _ => Some s
  | String p prefix, String c s => if decide (p = c) then strip_prefix prefix s else None
  | _, _ => None
  end.
Definition without_0x (s : string) : string := default s (strip_prefix "0x" s).

Section content.
Context {P T PE Rpc EthErr : Type} {TP : TransactionPool P T PE}.
Context {PT : PooledTransaction T Rpc EthErr}.
Variable address_from_str : string → option Address.

(** The loop over the pending transactions: [continue] skips one whose fee cap is
    below the base fee, [break] ends the list at the first that would exceed a limit. *)
Fixpoint select_transactions (base_fee block_max_gas_limit max_bytes_per_tx_list : Z)
    (pending : list T) (transactions : list T) (total_gas_used total_bytes : Z)
    : list T * Z * Z :=
  match pending with
  | [] => (transactions, total_gas_used, total_bytes)
  | tx :: rest =>
      if max_fee_per_gas tx <? base_fee
      then select_transactions base_fee block_max_gas_limit max_bytes_per_tx_list rest
             transactions total_gas_used total_bytes
      else
        let tx_gas := gas_limit tx in
        let tx_bytes := Z.of_nat (length (encoded_2718 tx)) in
        if block_max_gas_limit <? total_gas_used ⊞[64] tx_gas
        then (transactions, total_gas_used, total_bytes)
        else if max_bytes_per_tx_list <? total_bytes ⊞[64] tx_bytes
        then (transactions, total_gas_used, total_bytes)
        else select_transactions base_fee block_max_gas_limit max_bytes_per_tx_list rest
               (transactions ++ [tx]) (total_gas_used ⊞[64] tx_gas) (total_bytes ⊞[64] tx_bytes)
  end.

Definition local_addresses (locals : list string) : list Address :=
  omap (λ addr_str, address_from_str (without_0x addr_str)) locals.

(** Whether a transaction is local is worked out for each and not used. *)
Definition tx_pool_content (beneficiary : Address)
    (base_fee block_max_gas_limit max_bytes_per_tx_list : Z) (locals : list string)
    (max_transactions_lists : Z) (p : P) : list PreBuiltTxList :=
  let local_addresses := local_addresses locals in
  let _is_local := λ tx : T,
    if bool_decide (local_addresses = []) then false
    else bool_decide (sender tx ∈ local_addresses) in
  let '(transactions, total_gas_used, total_bytes) :=
    select_transactions base_fee block_max_gas_limit max_bytes_per_tx_list (pending p) [] 0 0 in
  let tx_list_hex := (λ tx, "0x" +:+ hex_encode (encoded_2718 tx)) <$> transactions in
  let pre_built_tx_list := mkPreBuiltTxList tx_list_hex total_gas_used total_bytes in
  if 0 <? max_transactions_lists then [pre_built_tx_list] else [].

(** The parameters as the registered method parses them. *)
Inductive ParamError : Type := InvalidBeneficiary | InvalidBaseFee.
Variable u256_from_hex : string → option Z.

Definition txPoolContent (beneficiary base_fee : string)
    (block_max_gas_limit max_bytes_per_tx_list : Z) (locals : list string)
    (max_transactions_lists : Z) (p : P) : outcome ParamError (list PreBuiltTxList) :=
  match address_from_str (without_0x beneficiary) with
  | None => Err InvalidBeneficiary
  | Some beneficiary_addr =>
      match u256_from_hex (without_0x base_fee) with
      | None => Err InvalidBaseFee
      | Some base_fee_u256 =>
          Ok (tx_pool_content beneficiary_addr base_fee_u256 block_max_gas_limit
                max_bytes_per_tx_list locals max_transactions_lists p)
      end
  end.

(** ** [kasplexAuth_txPoolContentWithMinTip] *)

Definition effective_tip (base_fee : Z) (tx : T) : Z :=
  if base_fee <? max_fee_per_gas tx then
    let fee_cap_tip := max_fee_per_gas tx - base_fee in
    match max_priority_fee_per_gas tx with
    | Some priority_fee => Z.min priority_fee fee_cap_tip
    | None => fee_cap_tip
    end
  else 0.

Abbreviation Content := (gmap Address (gmap string Rpc)).

Definition insert_with_min_tip (min_tip base_fee : Z) (content : Content) (tx : T)
    : outcome EthErr Content :=
  if min_tip <=? effective_tip base_fee tx then
    r ← fill_pending tx;
    mret (<[ sender tx :=
               <[ display_u64 (nonce tx) := r ]> (default ∅ (content !! sender tx)) ]> content)
  else Ok content.

Fixpoint insert_all (min_tip base_fee : Z) (txs : list T) (content : Content)
    : outcome EthErr Content :=
  match txs with
  | [] => Ok content
  | tx :: txs =>
      content ← insert_with_min_tip min_tip base_fee content tx;
      insert_all min_tip base_fee txs content
  end.

(** [TxpoolContent]: the pending and the queued transactions. *)
Definition tx_pool_content_with_min_tip (min_tip : Z) (p : P) : outcome EthErr (Content * Content) :=
  let base_fee := min_l2_base_fee in
  pending ← insert_all min_tip base_fee (pending p) ∅;
  queued ← insert_all min_tip base_fee (queued p) ∅;
  mret (pending, queued).
End content.
Arguments ParamError : clear implicits.

(** ** Raw transactions *)

Inductive SendError (D Cv PE : Type) : Type :=
| EmptyTransactionData
| DecodeFailed (e : D)
| MaxFeeTooLow (gas_fee_cap : Z)
| ConversionFailed (e : Cv)
| PoolRefused (e : PE).
Arguments EmptyTransactionData {D Cv PE}.
Arguments DecodeFailed {D Cv PE} e.
Arguments MaxFeeTooLow {D Cv PE} gas_fee_cap.
Arguments ConversionFailed {D Cv PE} e.
Arguments PoolRefused {D Cv PE} e.

(** Decoding with signer recovery, and the conversion to a pool transaction. *)
Class RawTransactions (Recovered T D Cv : Type) := {
  recover_raw_transaction : Bytes → outcome D Recovered;
  recovered_hash : Recovered → B256;
  recovered_max_fee : Recovered → Z;
  try_from_consensus : Recovered → outcome Cv T;
  from_pooled : Recovered → T;
}.

Class LatestHeader (Ch : Type) := { latest_number : Ch → option Z }.

Section send.
Context {Ch P T PE Recovered D Cv : Type} {TP : TransactionPool P T PE}.
Context {RT : RawTransactions Recovered T D Cv} {LH : LatestHeader Ch}.
Local Abbreviation World := (ApiWorld Ch P).
Local Abbreviation Error := (SendError D Cv PE).

Definition on_mapping_of (f : TxMappingState → TxMappingState) (w : World) : World :=
  mkApiWorld (chain w) (on_mapping f (pools w)).

Definition add_to_pool (tx : T) : comp World Error B256 := λ w,
  let '(o, p) := add_transaction tx (pool (pools w)) in
  (outcome_map_err PoolRefused o, mkApiWorld (chain w) (mkPoolWorld p (tx_mapping (pools w)))).

(** [kasplexAuth_sendRawTransaction] *)
Definition send_raw_transaction (tx : Bytes) : comp World Error B256 :=
  _ ← fail_if (bool_decide (tx = [])) EmptyTransactionData;
  recovered ← lift (outcome_map_err DecodeFailed (recover_raw_transaction tx));
  let gas_fee_cap := recovered_max_fee recovered in
  _ ← fail_if (gas_fee_cap <? min_l2_base_fee) (MaxFeeTooLow gas_fee_cap);
  latest ← gets (λ w, latest_number (chain w));
  _ ← match latest with
      | Some number =>
          let tx_number := number ⊞[64] 1 in
          modify (on_mapping_of (insert (recovered_hash recovered) tx_number))
      | None => mret ()
      end;
  pool_transaction ← lift (outcome_map_err ConversionFailed (try_from_consensus recovered));
  add_to_pool pool_transaction.

(** [kasplexAuth_sendRawTransactions]: a failure is logged and the next one tried. *)
Definition send_next (hashes : list B256) (tx : Bytes) : comp World Error (list B256) :=
  res ← try (send_raw_transaction tx);
  mret match res with
       | inr hash => hashes ++ [hash]
       | inl _ => hashes
       end.

Definition send_raw_transactions (txs : list Bytes) : comp World Error (list B256) :=
  for_in txs [] send_next.
End send.

(** ** The methods a module answers to *)

(** [KasplexAuthExt::into_rpc] registers its four methods by hand;
    [KasplexExt::into_rpc] makes a module and registers none. *)
Definition kasplex_auth_methods : list string :=
  ["kasplexAuth_txPoolContent"; "kasplexAuth_txPoolContentWithMinTip";
   "kasplexAuth_sendRawTransaction"; "kasplexAuth_sendRawTransactions"].
Definition kasplex_methods : list string := [].
(** [get_sync_mode], the handler [kasplex_getSyncMode] is declared to have. *)
Definition get_sync_mode : string := "full".

(** [KasplexApiError] ([error.rs]): JSON-RPC code and message. *)
Inductive KasplexApiError : Type := GethNotFound.
Definition error_object (e : KasplexApiError) : Z * string :=
  match e with GethNotFound => (-32004, "not found"%string) end.

(** ** Lemmas *)

Lemma hex_byte b :
  (h ← hex_digit (hex_char (byte_value b / 16));
   l ← hex_digit (hex_char (byte_value b `mod` 16));
   Byte.of_N (Z.to_N (16 * h + l))) = Some b.
Proof. destruct b; vm_compute; reflexivity. Qed.

Lemma hex_decode_encode bs : hex_decode (hex_encode bs) = Some bs.
Proof.
  induction bs as [|b bs IH]; [done|]. cbn [hex_encode hex_decode]. rewrite IH.
  pose proof (hex_byte b) as Hb.
  destruct (hex_digit (hex_char (byte_value b / 16))) as [h|]; [|done].
  destruct (hex_digit (hex_char (byte_value b `mod` 16))) as [l|]; [|done].
  cbn [mbind option_bind] in *. by rewrite Hb.
Qed.

Lemma string_of_digits_inj ds es :
  Forall (is_digit 10) ds → Forall (is_digit 10) es →
  string_of_digits ds = string_of_digits es → ds = es.
Proof.
  intros Hds Hes H. apply (digits_value_inj 16); [lia|..].
  - apply (Forall_impl _ _ _ Hds). intros d [??]. split; lia.
  - apply (Forall_impl _ _ _ Hes). intros d [??]. split; lia.
  - rewrite <-!length_string_of_digits. by rewrite H.
  - apply (f_equal hex_value) in H.
    rewrite !hex_value_string_of_digits in H by done. congruence.
Qed.

(** Numbers are told apart by their decimal display. *)
Lemma display_u64_inj a b :
  in_width 64 a → in_width 64 b → display_u64 a = display_u64 b → a = b.
Proof.
  intros Ha Hb H. destruct (u64_dec_digits a Ha) as [Hda Hva], (u64_dec_digits b Hb) as [Hdb Hvb].
  apply string_of_digits_inj in H; [|done..]. congruence.
Qed.

Section content_lemmas.
Context {P T PE Rpc EthErr : Type} {TP : TransactionPool P T PE}.
Context {PT : PooledTransaction T Rpc EthErr}.
Implicit Types (txs : list T).

Definition eligible (base_fee : Z) txs : list T := filter (λ tx, base_fee ≤ max_fee_per_gas tx) txs.
Definition byte_length (tx : T) : Z := Z.of_nat (length (encoded_2718 tx)).
(** No sum the loop computes wraps. *)
Definition sums_fit (gmax bmax : Z) txs : Prop :=
  0 ≤ gmax ∧ 0 ≤ bmax ∧
  Forall (λ tx, 0 ≤ gas_limit tx ∧ gmax + gas_limit tx < 2 ^ 64 ∧ bmax + byte_length tx < 2 ^ 64) txs.

Lemma select_transactions_spec fee gmax bmax txs acc g b :
  sums_fit gmax bmax txs → 0 ≤ g ≤ gmax → 0 ≤ b ≤ bmax →
  ∃ k, let sel := take k (eligible fee txs) in
    select_transactions fee gmax bmax txs acc g b
    = (acc ++ sel, g + sumZ gas_limit sel, b + sumZ byte_length sel) ∧
    g + sumZ gas_limit sel ≤ gmax ∧ b + sumZ byte_length sel ≤ bmax ∧
    (eligible fee txs = sel ∨ ∃ tx, eligible fee txs !! k = Some tx ∧
       (gmax < g + sumZ gas_limit sel + gas_limit tx ∨
        bmax < b + sumZ byte_length sel + byte_length tx)).
Proof.
  intros (Hg0 & Hb0 & Hfit). revert acc g b.
  induction Hfit as [|tx txs (Hgas & Hgfit & Hbfit) Hfit IH]; intros acc g b Hg Hb.
  { exists O. simpl. rewrite app_nil_r, !Z.add_0_r. split_and!; [done|lia|lia|by left]. }
  cbn [select_transactions]. unfold eligible in *. rewrite filter_cons.
  fold (byte_length tx). assert (0 ≤ byte_length tx) by (unfold byte_length; lia).
  destruct (Z.ltb_spec (max_fee_per_gas tx) fee) as [Hlow|Hok].
  { rewrite decide_False by lia. by apply IH. }
  rewrite decide_True by done. rewrite !wrapping_add_small by width.
  destruct (Z.ltb_spec gmax (g + gas_limit tx)).
  { exists O. simpl. rewrite app_nil_r, !Z.add_0_r.
    split_and!; [done|lia|lia|]. right. exists tx. split; [done|]. left. lia. }
  destruct (Z.ltb_spec bmax (b + byte_length tx)).
  { exists O. simpl. rewrite app_nil_r, !Z.add_0_r.
    split_and!; [done|lia|lia|]. right. exists tx. split; [done|]. right. lia. }
  destruct (IH (acc ++ [tx]) (g + gas_limit tx) (b + byte_length tx)) as (k & E & Hs1 & Hs2 & Hs3);
    [lia..|].
  exists (S k). simpl. rewrite E, <-app_assoc, !Z.add_assoc.
  split_and!; [done|done|done|]. destruct Hs3 as [Hs3|(t & Ht & Hs3)]; [left; congruence|right].
  exists t. by split.
Qed.

(** The key of a transaction in the filtered content. *)
Definition content_key (tx : T) : Address * string := (sender tx, display_u64 (nonce tx)).
Definition content_at (a : Address) (n : string) (content : gmap Address (gmap string Rpc)) :=
  content !! a ≫= (.!! n).

Lemma content_at_insert content tx (r : Rpc) a n :
  content_at a n
    (<[ sender tx := <[ display_u64 (nonce tx) := r ]> (default ∅ (content !! sender tx)) ]> content)
  = if decide ((a, n) = content_key tx) then Some r else content_at a n content.
Proof.
  unfold content_at, content_key. destruct (decide (a = sender tx)) as [->|Hne].
  - rewrite lookup_insert_eq. simpl. destruct (decide (n = display_u64 (nonce tx))) as [->|Hn].
    + by rewrite lookup_insert_eq, decide_True.
    + rewrite lookup_insert_ne, decide_False by congruence. by destruct (content !! _).
  - by rewrite lookup_insert_ne, decide_False by congruence.
Qed.

Lemma insert_all_spec min_tip fee txs (content content' : gmap Address (gmap string Rpc)) :
  insert_all min_tip fee txs content = Ok content' →
  NoDup (content_key <$> txs) →
  ∀ a n r, content_at a n content' = Some r ↔
    (∃ tx, tx ∈ txs ∧ content_key tx = (a, n) ∧ min_tip ≤ effective_tip fee tx ∧
       fill_pending tx = Ok r) ∨
    content_at a n content = Some r ∧
    ∀ tx, tx ∈ txs → content_key tx = (a, n) → effective_tip fee tx < min_tip.
Proof.
  revert content. induction txs as [|tx txs IH]; intros content H Hnd a n r.
  { injection H as <-. set_solver. }
  cbn [insert_all] in H. rewrite fmap_cons in Hnd. apply NoDup_cons in Hnd as [Hnew Hnd].
  assert (Hkeys : ∀ t, t ∈ txs → content_key t ≠ content_key tx).
  { intros t Ht Heq. apply Hnew. apply list_elem_of_fmap. by exists t. }
  unfold insert_with_min_tip in H.
  destruct (Z.leb_spec min_tip (effective_tip fee tx)) as [Htip|Htip].
  - destruct (fill_pending tx) as [r0|e|] eqn:Hr; [|done..].
    cbn [mbind outcome_mbind outcome_bind mret outcome_ret] in H.
    rewrite (IH _ H Hnd), content_at_insert.
    case_decide as Hk.
    + split.
      * intros [(t & ? & ? & ?)|[[= <-] _]]; [left; set_solver|]. left. exists tx. set_solver.
      * intros [(t & Ht & Hkt & ? & Hrt)|[_ Hno]].
        -- apply elem_of_cons in Ht as [->|Ht]; [|by destruct (Hkeys t Ht); congruence].
           right. split; [congruence|]. intros t' Ht' Hk'. destruct (Hkeys t' Ht'). congruence.
        -- specialize (Hno tx ltac:(set_solver) ltac:(done)). lia.
    + split.
      * intros [(t & ? & ? & ?)|[Hc Hno]]; [left; set_solver|]. right. split; [done|].
        intros t Ht Hkt. apply elem_of_cons in Ht as [->|Ht]; [congruence|by apply Hno].
      * intros [(t & Ht & Hkt & ? & Hrt)|[Hc Hno]].
        -- apply elem_of_cons in Ht as [->|Ht]; [congruence|]. left. by exists t.
        -- right. split; [done|]. intros t Ht. apply Hno. set_solver.
  - cbn [mbind outcome_mbind outcome_bind] in H. rewrite (IH _ H Hnd). split.
    + intros [(t & ? & ? & ?)|[Hc Hno]]; [left; set_solver|]. right. split; [done|].
      intros t Ht Hkt. apply elem_of_cons in Ht as [->|Ht]; [done|by apply Hno].
    + intros [(t & Ht & Hkt & ? & Hrt)|[Hc Hno]].
      * apply elem_of_cons in Ht as [->|Ht]; [lia|]. left. by exists t.
      * right. split; [done|]. intros t Ht. apply Hno. set_solver.
Qed.
End content_lemmas.

Section send_lemmas.
Context {Ch P T PE Recovered D Cv : Type} {TP : TransactionPool P T PE}.
Context {L : TransactionPoolLaws P T PE}.
Context {RT : RawTransactions Recovered T D Cv} {LH : LatestHeader Ch}.
Local Abbreviation World := (ApiWorld Ch P).
Local Abbreviation Error := (SendError D Cv PE).
Implicit Type w : World.

(** The pool form of a transaction keeps its hash. *)
Definition conversion_law (RT : RawTransactions Recovered T D Cv) : Prop :=
  ∀ r t, try_from_consensus r = Ok t → pool_tx_hash t = recovered_hash r.

(** The world after the number of [r] is recorded. *)
Definition with_number (r : Recovered) w : World :=
  match latest_number (chain w) with
  | Some n => on_mapping_of (insert (recovered_hash r) (n ⊞[64] 1)) w
  | None => w
  end.

(** A transaction that passes the first checks: its number is recorded, then it is
    converted and offered to the pool. *)
Lemma send_raw_transaction_checked raw (r : Recovered) w :
  raw ≠ [] → recover_raw_transaction raw = Ok r → min_l2_base_fee ≤ recovered_max_fee r →
  send_raw_transaction (PE := PE) raw w
  = (t ← lift (outcome_map_err ConversionFailed (try_from_consensus r)); add_to_pool t)
      (with_number r w).
Proof.
  intros Hne Hr Hfee. unfold send_raw_transaction. rewrite bool_decide_eq_false_2 by done.
  rewrite Hr. cbn [outcome_map_err fail_if]. rewrite bind_mret, bind_lift_Ok.
  destruct (Z.ltb_spec (recovered_max_fee r) min_l2_base_fee) as [|_]; [lia|].
  cbn [fail_if]. rewrite bind_mret, bind_gets. unfold with_number.
  by destruct (latest_number (chain w)).
Qed.

Lemma with_number_chain r w : chain (with_number r w) = chain w.
Proof. unfold with_number. by destruct (latest_number _). Qed.

Lemma with_number_lookup r w h :
  get_submission_block h (tx_mapping (pools (with_number r w)))
  = match latest_number (chain w) with
    | Some n => if decide (h = recovered_hash r) then Some (n ⊞[64] 1)
                else get_submission_block h (tx_mapping (pools w))
    | None => get_submission_block h (tx_mapping (pools w))
    end.
Proof.
  unfold with_number. destruct (latest_number _); [|done]. apply get_submission_block_insert.
Qed.

Lemma add_to_pool_leaves t w :
  (add_to_pool (D := D) (Cv := Cv) t w).2
  = mkApiWorld (chain w)
      (mkPoolWorld (add_transaction t (pool (pools w))).2 (tx_mapping (pools w))).
Proof. unfold add_to_pool. by destruct (add_transaction _ _). Qed.

(** The worlds a send can leave: the one before, the one with the number recorded,
    and that one with the transaction offered to the pool. *)
Lemma send_leaves raw w :
  let w' := (send_raw_transaction (PE := PE) raw w).2 in
  w' = w ∨ ∃ r, raw ≠ [] ∧ recover_raw_transaction raw = Ok r ∧
    min_l2_base_fee ≤ recovered_max_fee r ∧
    (w' = with_number r w ∨
     ∃ t, try_from_consensus r = Ok t ∧
       w' = (add_to_pool (D := D) (Cv := Cv) t (with_number r w)).2).
Proof.
  destruct (decide (raw = [])) as [->|Hne]; [by left|].
  destruct (recover_raw_transaction raw) as [r|e|] eqn:Hr.
  2,3: (unfold send_raw_transaction; rewrite bool_decide_eq_false_2, Hr by done; by left).
  destruct (Z.lt_ge_cases (recovered_max_fee r) min_l2_base_fee) as [Hlow|Hfee].
  { unfold send_raw_transaction. rewrite bool_decide_eq_false_2, Hr by done.
    cbn [outcome_map_err fail_if]. rewrite bind_mret, bind_lift_Ok.
    apply Z.ltb_lt in Hlow. rewrite Hlow. by left. }
  rewrite (send_raw_transaction_checked _ _ _ Hne Hr Hfee). right. exists r.
  split; [done|]. split; [done|]. split; [done|].
  destruct (try_from_consensus r) as [t|e|] eqn:Ht; [|by left..].
  right. exists t. split; [done|]. cbn [outcome_map_err]. by rewrite bind_lift_Ok.
Qed.

(** Every send leaves the chain, and writes at most the number of its transaction. *)
Lemma send_frame raw w o w' :
  send_raw_transaction (PE := PE) raw w = (o, w') →
  chain w' = chain w ∧
  ∀ h, get_submission_block h (tx_mapping (pools w'))
       = get_submission_block h (tx_mapping (pools w)) ∨
    ∃ n, latest_number (chain w) = Some n ∧
      get_submission_block h (tx_mapping (pools w')) = Some (n ⊞[64] 1).
Proof.
  intros H. pose proof (send_leaves raw w) as Hl. rewrite H in Hl. simpl in Hl.
  destruct Hl as [->|(r & _ & _ & _ & Hl)]; [by auto|].
  assert (chain w' = chain w ∧
    tx_mapping (pools w') = tx_mapping (pools (with_number r w))) as [Hc Hm].
  { rewrite <-(with_number_chain r w). destruct Hl as [->|(t & _ & ->)]; [done|].
    unfold add_to_pool. by destruct (add_transaction _ _). }
  split; [done|]. intros h. rewrite Hm, with_number_lookup.
  destruct (latest_number (chain w)) as [n|]; [|by left].
  case_decide; [right; by exists n|by left].
Qed.

(** An accepted send: what was checked, and what it leaves. *)
Lemma send_Ok raw w h w' :
  send_raw_transaction (PE := PE) raw w = (Ok h, w') →
  ∃ r t, raw ≠ [] ∧ recover_raw_transaction raw = Ok r ∧
    min_l2_base_fee ≤ recovered_max_fee r ∧ try_from_consensus r = Ok t ∧
    h = pool_tx_hash t ∧ h ∈ pool_hashes (pool (pools w')) ∧
    chain w' = chain w ∧ tx_mapping (pools w') = tx_mapping (pools (with_number r w)).
Proof.
  intros H. destruct (decide (raw = [])) as [->|Hne]; [done|].
  destruct (recover_raw_transaction raw) as [r|e|] eqn:Hr.
  2,3: (unfold send_raw_transaction in H; by rewrite bool_decide_eq_false_2, Hr in H by done).
  destruct (Z.lt_ge_cases (recovered_max_fee r) min_l2_base_fee) as [Hlow|Hfee].
  { unfold send_raw_transaction in H. rewrite bool_decide_eq_false_2, Hr in H by done.
    cbn [outcome_map_err fail_if] in H. rewrite bind_mret, bind_lift_Ok in H.
    apply Z.ltb_lt in Hlow. by rewrite Hlow in H. }
  rewrite (send_raw_transaction_checked _ _ _ Hne Hr Hfee) in H.
  destruct (try_from_consensus r) as [t|e|] eqn:Ht; [|done..].
  cbn [outcome_map_err] in H. rewrite bind_lift_Ok in H. unfold add_to_pool in H.
  destruct (add_transaction t _) as [[h'|e|] p] eqn:Ha; [|done..]. injection H as -> <-.
  destruct (add_transaction_Ok _ _ _ _ Ha) as [Hh Hin].
  exists r, t. rewrite <-(with_number_chain r w). done.
Qed.
End send_lemmas.

(** ** Properties *)

Section content_properties.
Context {P T PE Rpc EthErr : Type} {TP : TransactionPool P T PE}.
Context {PT : PooledTransaction T Rpc EthErr}.
Variable address_from_str : string → option Address.

(** The list handed out, and the run of transactions it is. *)
Lemma tx_pool_content_list beneficiary fee gmax bmax locals n (p : P) :
  sums_fit gmax bmax (pending p) → 0 < n →
  ∃ k l, tx_pool_content address_from_str beneficiary fee gmax bmax locals n p = [l] ∧
    let all := eligible fee (pending p) in
    let sel := take k all in
    (λ s, strip_prefix "0x" s ≫= hex_decode) <$> txList l = (λ tx, Some (encoded_2718 tx)) <$> sel ∧
    estimatedGasUsed l = sumZ gas_limit sel ∧ sumZ gas_limit sel ≤ gmax ∧
    bytesLength l = sumZ byte_length sel ∧ sumZ byte_length sel ≤ bmax ∧
    (all = sel ∨ ∃ tx, all !! k = Some tx ∧
       (gmax < sumZ gas_limit sel + gas_limit tx ∨ bmax < sumZ byte_length sel + byte_length tx)).
Proof.
  intros Hfit Hn. pose proof Hfit as (? & ? & _).
  destruct (select_transactions_spec fee gmax bmax (pending p) [] 0 0 Hfit)
    as (k & E & H1 & H2 & H3); [lia..|].
  unfold tx_pool_content. rewrite E. apply Z.ltb_lt in Hn. rewrite Hn.
  exists k. eexists. split; [reflexivity|]. cbn [txList estimatedGasUsed bytesLength app].
  split; [|by rewrite !Z.add_0_l in *].
  rewrite <-list_fmap_compose. apply list_fmap_ext. intros i tx _.
  exact (hex_decode_encode (encoded_2718 tx)).
Qed.

(** C37 A prebuilt list, when its sums stay within 64 bits: the encodings, in
    hexadecimal, of the longest run of pending transactions that can pay the base
    fee whose gas and bytes stay within the two limits, with those two sums; the
    first one left out would exceed a limit.  One list is returned however many are
    asked for, none when none is, and neither the beneficiary nor the local
    addresses have any effect. *)
Theorem tx_pool_content_is_longest_run beneficiary fee gmax bmax locals n (p : P)
    (Hfit : sums_fit gmax bmax (pending p)) :
  (0 < n → ∃ k l, tx_pool_content address_from_str beneficiary fee gmax bmax locals n p = [l] ∧
    let all := eligible fee (pending p) in
    let sel := take k all in
    (λ s, strip_prefix "0x" s ≫= hex_decode) <$> txList l = (λ tx, Some (encoded_2718 tx)) <$> sel ∧
    estimatedGasUsed l = sumZ gas_limit sel ∧ sumZ gas_limit sel ≤ gmax ∧
    bytesLength l = sumZ byte_length sel ∧ sumZ byte_length sel ≤ bmax ∧
    (all = sel ∨ ∃ tx, all !! k = Some tx ∧
       (gmax < sumZ gas_limit sel + gas_limit tx ∨ bmax < sumZ byte_length sel + byte_length tx))) ∧
  (n ≤ 0 → tx_pool_content address_from_str beneficiary fee gmax bmax locals n p = []) ∧
  (∀ beneficiary' locals',
     tx_pool_content address_from_str beneficiary fee gmax bmax locals n p
     = tx_pool_content address_from_str beneficiary' fee gmax bmax locals' n p).
Proof.
  split_and!; [by apply tx_pool_content_list| |done].
  intros Hn. unfold tx_pool_content. destruct (select_transactions _ _ _ _ _ _ _) as [[??]?].
  by destruct (Z.ltb_spec 0 n); [lia|].
Qed.

(** The content filtered by tip: in each half of the pool, whose transactions
    differ in sender or nonce, the entry under a sender and a nonce is exactly the
    RPC form of the transaction with that sender and nonce, when its tip over the
    2000 GWei base fee reaches the minimum. *)
Theorem content_with_min_tip_spec min_tip (p : P) pend que
    (Hrun : tx_pool_content_with_min_tip min_tip p = Ok (pend, que))
    (Hw : Forall (λ tx, in_width 64 (nonce tx)) (pending p ++ queued p))
    (Hp : NoDup ((λ tx, (sender tx, nonce tx)) <$> pending p))
    (Hq : NoDup ((λ tx, (sender tx, nonce tx)) <$> queued p)) a n r (Hn : in_width 64 n) :
  let passes := λ tx, sender tx = a ∧ nonce tx = n ∧
    min_tip ≤ effective_tip min_l2_base_fee tx ∧ fill_pending tx = Ok r in
  (content_at a (display_u64 n) pend = Some r ↔ ∃ tx, tx ∈ pending p ∧ passes tx) ∧
  (content_at a (display_u64 n) que = Some r ↔ ∃ tx, tx ∈ queued p ∧ passes tx).
Proof.
  cbv zeta. unfold tx_pool_content_with_min_tip in Hrun.
  apply Forall_app in Hw as [Hwp Hwq].
  assert (Hone : ∀ txs content,
    insert_all min_tip min_l2_base_fee txs ∅ = Ok content →
    Forall (λ tx, in_width 64 (nonce tx)) txs →
    NoDup ((λ tx, (sender tx, nonce tx)) <$> txs) →
    (content_at a (display_u64 n) content = Some r ↔ ∃ tx, tx ∈ txs ∧ sender tx = a ∧ nonce tx = n ∧
       min_tip ≤ effective_tip min_l2_base_fee tx ∧ fill_pending tx = Ok r)).
  { intros txs content H Hws Hnd. rewrite Forall_forall in Hws.
    rewrite (insert_all_spec _ _ _ _ _ H).
    - unfold content_key. split.
      + intros [(tx & Ht & [= Ha Hd] & ?)|[[=] _]]. exists tx.
        apply display_u64_inj in Hd; [done|by apply Hws|done].
      + intros (tx & ? & <- & <- & ?). left. by exists tx.
    - revert Hnd. rewrite !NoDup_alt. unfold content_key. intros Hnd i j k Hi Hj.
      rewrite list_lookup_fmap in Hi, Hj.
      destruct (txs !! i) as [ti|] eqn:Ei; [|done]. destruct (txs !! j) as [tj|] eqn:Ej; [|done].
      simplify_eq/=. apply (Hnd i j (sender ti, nonce ti)); rewrite list_lookup_fmap, ?Ei, ?Ej; [done|].
      simpl. do 2 f_equal; [done|]. symmetry.
      apply display_u64_inj; [by eapply Hws, list_elem_of_lookup_2..|done]. }
  destruct (insert_all _ _ (pending p) ∅) as [c1|e|] eqn:E1; [|done..].
  cbn [mbind outcome_mbind outcome_bind] in Hrun.
  destruct (insert_all _ _ (queued p) ∅) as [c2|e|] eqn:E2; [|done..].
  injection Hrun as -> ->. split; by apply Hone.
Qed.
End content_properties.

Section send_properties.
Context {Ch P T PE Recovered D Cv : Type} {TP : TransactionPool P T PE}.
Context {L : TransactionPoolLaws P T PE}.
Context {RT : RawTransactions Recovered T D Cv} {LH : LatestHeader Ch}.
Local Abbreviation World := (ApiWorld Ch P).
Implicit Type w : World.

(** C6 [kasplexAuth_sendRawTransaction]: empty data, data that does not decode and a
    fee cap under 2000 GWei are refused, in this order, with nothing changed; past
    these checks the number after the latest block is recorded for the hash, and it
    stays recorded when the conversion or the pool then refuses the transaction.  An
    accepted transaction is in the pool under the returned hash. *)
Theorem send_raw_transaction_spec raw w :
  let '(o, w') := send_raw_transaction (PE := PE) raw w in
  match decide (raw = []), recover_raw_transaction raw with
  | left _, _ => o = Err EmptyTransactionData ∧ w' = w
  | right _, Err e => o = Err (DecodeFailed e) ∧ w' = w
  | right _, Panicked => o = Panicked ∧ w' = w
  | right _, Ok r =>
      if decide (recovered_max_fee r < min_l2_base_fee)
      then o = Err (MaxFeeTooLow (recovered_max_fee r)) ∧ w' = w
      else
        chain w' = chain w ∧
        (∀ h, get_submission_block h (tx_mapping (pools w'))
          = match latest_number (chain w) with
            | Some n => if decide (h = recovered_hash r) then Some (n ⊞[64] 1)
                        else get_submission_block h (tx_mapping (pools w))
            | None => get_submission_block h (tx_mapping (pools w))
            end) ∧
        match try_from_consensus r with
        | Err e => o = Err (ConversionFailed e) ∧ pool (pools w') = pool (pools w)
        | Panicked => o = Panicked
        | Ok t =>
            o = outcome_map_err PoolRefused (add_transaction t (pool (pools w))).1 ∧
            pool (pools w') = (add_transaction t (pool (pools w))).2 ∧
            ∀ h, o = Ok h → h = pool_tx_hash t ∧ h ∈ pool_hashes (pool (pools w'))
        end
  end.
Proof.
  destruct (decide (raw = [])) as [->|Hne]; [done|].
  destruct (recover_raw_transaction raw) as [r|e|] eqn:Hr.
  2,3: (unfold send_raw_transaction; rewrite bool_decide_eq_false_2, Hr by done; done).
  case_decide as Hfee.
  { unfold send_raw_transaction. rewrite bool_decide_eq_false_2, Hr by done.
    cbn [outcome_map_err fail_if]. rewrite bind_mret, bind_lift_Ok.
    apply Z.ltb_lt in Hfee. by rewrite Hfee. }
  rewrite (send_raw_transaction_checked _ _ _ Hne Hr) by lia.
  assert (Hpool : pool (pools (with_number r w)) = pool (pools w)).
  { unfold with_number. by destruct (latest_number _). }
  destruct (try_from_consensus r) as [t|e|] eqn:Ht.
  2,3: (cbn [outcome_map_err]; split; [apply with_number_chain|];
        split; [intros; apply with_number_lookup|done]).
  cbn [outcome_map_err]. rewrite bind_lift_Ok. unfold add_to_pool. rewrite Hpool.
  destruct (add_transaction t _) as [o p] eqn:Ha. cbn [chain pools pool tx_mapping fst snd].
  split; [apply with_number_chain|]. split; [apply with_number_lookup|]. do 2 (split; [done|]).
  intros h Ho. destruct o as [h'|e|]; [|done..]. injection Ho as ->.
  by eapply add_transaction_Ok.
Qed.

(** A batch never fails as a whole unless a step panics, and the chain having a
    latest block [n], after it every returned hash has the number [n + 1], and every
    other entry is the one before the batch or [n + 1]. *)
Theorem batch_records_next_number txs w n hashes w'
    (Hlaw : conversion_law RT) (Hn : latest_number (chain w) = Some n)
    (Hrun : send_raw_transactions (PE := PE) txs w = (Ok hashes, w')) :
  (∀ h, h ∈ hashes → get_submission_block h (tx_mapping (pools w')) = Some (n ⊞[64] 1)) ∧
  (∀ h, get_submission_block h (tx_mapping (pools w'))
        = get_submission_block h (tx_mapping (pools w)) ∨
        get_submission_block h (tx_mapping (pools w')) = Some (n ⊞[64] 1)).
Proof.
  assert (Hgen : ∀ txs acc w hashes w', latest_number (chain w) = Some n →
    for_in txs acc (send_next (PE := PE)) w = (Ok hashes, w') →
    (∀ h, h ∈ acc → get_submission_block h (tx_mapping (pools w)) = Some (n ⊞[64] 1)) →
    (∀ h, h ∈ hashes → get_submission_block h (tx_mapping (pools w')) = Some (n ⊞[64] 1)) ∧
    (∀ h, get_submission_block h (tx_mapping (pools w'))
          = get_submission_block h (tx_mapping (pools w)) ∨
          get_submission_block h (tx_mapping (pools w')) = Some (n ⊞[64] 1))).
  { clear -Hlaw L. induction txs as [|raw txs IH]; intros acc w hashes w' Hn H Hacc.
    { injection H as <- <-. auto. }
    cbn [for_in] in H. apply bind_Ok_inv in H as (acc1 & w1 & H1 & H).
    unfold send_next in H1. apply bind_Ok_inv in H1 as (res & w2 & H1 & Hr).
    injection Hr as <- <-. unfold try in H1.
    destruct (send_raw_transaction raw w) as [o w3] eqn:Es.
    destruct (send_frame _ _ _ _ Es) as [Hc Hm].
    assert (w2 = w3 ∧ ∀ h, res = inr h → o = Ok h) as [-> Hres].
    { destruct o; simplify_eq/=; split; naive_solver. }
    assert (Hacc1 : ∀ h, h ∈ match res with inr h => acc ++ [h] | inl _ => acc end →
      get_submission_block h (tx_mapping (pools w3)) = Some (n ⊞[64] 1)).
    { intros h Hin.
      assert (h ∈ acc ∨ res = inr h) as [Hold|Hnew] by (destruct res; set_solver).
      - destruct (Hm h) as [->|(m & Hm' & ->)]; [by apply Hacc|congruence].
      - rewrite (Hres _ Hnew) in Es.
        destruct (send_Ok _ _ _ _ Es) as (r & t & _ & _ & _ & Ht & -> & _ & _ & ->).
        rewrite with_number_lookup, Hn, (Hlaw _ _ Ht). by rewrite decide_True. }
    destruct (IH _ w3 _ _ ltac:(by rewrite Hc) H Hacc1) as [IH1 IH2]. split; [done|].
    intros h. destruct (IH2 h) as [-> | ->]; [|by right].
    destruct (Hm h) as [->|(m & Hm' & ->)]; [by left|right; congruence]. }
  by apply (Hgen txs [] w hashes w'); [..|set_solver].
Qed.

(** When a transaction accepted over [kasplexAuth] at latest block [n] survives a
    sweep: exactly when the new head is one of the [n + 1] to [n + 101] blocks.  In
    particular a forkchoice update that stays at block [n] drops it from the pool. *)
Theorem accepted_transaction_survives_exactly raw w h w' n head
    (Hlaw : conversion_law RT) (Hn : latest_number (chain w) = Some n)
    (Hfit : 0 ≤ n ∧ n + 1 + UNEXECUTED_TX_RETENTION_BLOCKS < 2 ^ 64)
    (Hrun : send_raw_transaction (PE := PE) raw w = (Ok h, w')) :
  h ∈ pool_hashes (pool (pools w')) ∧
  (stale (tx_mapping (pools w')) head h = false ↔
   n + 1 ≤ head ≤ n + 1 + UNEXECUTED_TX_RETENTION_BLOCKS).
Proof.
  destruct (send_Ok _ _ _ _ Hrun) as (r & t & _ & _ & _ & Ht & -> & Hin & _ & Hm).
  split; [done|]. unfold stale, is_transaction_expired_for_pool.
  rewrite Hm, with_number_lookup, Hn, (Hlaw _ _ Ht), decide_True by done.
  unfold UNEXECUTED_TX_RETENTION_BLOCKS in *. cbn [default from_option].
  rewrite (wrapping_add_small n 1) by width. cbv zeta beta.
  rewrite (wrapping_add_small (n + 1) 100) by width.
  unfold id. destruct (Z.ltb_spec 0 (n + 1)); [|lia].
  rewrite andb_true_l, orb_false_iff, !Z.ltb_ge. lia.
Qed.
End send_properties.

(** ** Concrete transactions and the witnesses *)

(** A pool transaction is its hash [t]: sender [t mod 10], nonce [t / 10], fee cap
    2000 GWei and [t]; a raw one is decoded to its length, which is its hash; the
    chain is the number of its latest block. *)
Module PlainRpc.
#[global] Instance pooled : PooledTransaction Z Z string := {
  sender t := t `mod` 10;
  nonce t := t / 10;
  max_fee_per_gas t := 2000000000000 + t;
  max_priority_fee_per_gas _ := Some 2;
  gas_limit _ := 21000;
  encoded_2718 t := replicate (Z.to_nat t) Byte.xab;
  fill_pending t := Ok t;
}.

#[global] Instance raw : RawTransactions Z Z string string := {
  recover_raw_transaction bytes := Ok (Z.of_nat (length bytes));
  recovered_hash r := r;
  recovered_max_fee r := 2000000000000 + 7 - r;
  try_from_consensus r := Ok r;
  from_pooled r := r;
}.

#[global] Instance latest : LatestHeader Z := { latest_number n := Some n }.

Lemma plain_conversion : conversion_law raw.
Proof. by intros r t [= ->]. Qed.

(** Block 500; the pool of [TxPool.v]. *)
Definition world : ApiWorld Z ListPool.t :=
  mkApiWorld 500 (mkPoolWorld sample_pool sample_mapping).
End PlainRpc.

Lemma tx_pool_content_is_longest_run_witness :
  ∃ l, tx_pool_content (λ _, None) 9 2000000000002 50000 1000 [] 1 sample_pool = [l] ∧
    estimatedGasUsed l ≤ 50000.
Proof.
  destruct (tx_pool_content_is_longest_run (PT := PlainRpc.pooled) (λ _, None) 9 2000000000002
    50000 1000 [] 1 sample_pool) as ((k & l & E & _ & Hg & Hle & _) & _).
  - unfold sums_fit. by_evaluation.
  - lia.
  - exists l. split; [exact E|]. by rewrite Hg.
Defined.

Definition sample_pending : gmap Address (gmap string Z) :=
  <[ 3 := {[ "0"%string := 3 ]} ]> {[ 2 := {[ "0"%string := 2 ]} ]}.
Definition sample_queued : gmap Address (gmap string Z) := {[ 4 := {[ "0"%string := 4 ]} ]}.

Lemma sample_content :
  tx_pool_content_with_min_tip (TP := ListPool.list_pool) (PT := PlainRpc.pooled) 2 sample_pool
  = Ok (sample_pending, sample_queued).
Proof. vm_compute. reflexivity. Qed.

Lemma content_with_min_tip_spec_witness : content_at 2 (display_u64 0) sample_pending = Some 2.
Proof.
  apply (content_with_min_tip_spec (TP := ListPool.list_pool) (PT := PlainRpc.pooled) 2 sample_pool
    sample_pending sample_queued sample_content).
  - unfold in_width. by_evaluation.
  - by_evaluation.
  - by_evaluation.
  - vm_compute. by split.
  - exists 2. split; [by_evaluation|]. vm_compute. repeat split; congruence.
Defined.

(** A transaction whose hash 2 is in the pool already: refused, its number replaced. *)
Lemma send_raw_transaction_spec_witness :
  get_submission_block 2 (tx_mapping (pools
    (send_raw_transaction [Byte.x00; Byte.x00] PlainRpc.world).2)) = Some 501.
Proof.
  pose proof (send_raw_transaction_spec (L := ListPool.list_pool_laws) (RT := PlainRpc.raw)
    (LH := PlainRpc.latest) [Byte.x00; Byte.x00] PlainRpc.world) as H.
  destruct (send_raw_transaction _ _) as [o w']. cbn [snd].
  rewrite decide_False in H by done. change (recover_raw_transaction _) with (Ok (E := string) 2) in H.
  cbn iota in H. rewrite decide_False in H by (vm_compute; congruence).
  destruct H as (_ & H & _). rewrite (H 2). vm_compute. reflexivity.
Defined.

Lemma batch_records_next_number_witness :
  ∃ w', send_raw_transactions [replicate 5 Byte.x00; []; replicate 6 Byte.x00] PlainRpc.world
      = (Ok [5; 6], w') ∧
    get_submission_block 6 (tx_mapping (pools w')) = Some 501.
Proof.
  set (r := send_raw_transactions [replicate 5 Byte.x00; []; replicate 6 Byte.x00] PlainRpc.world).
  exists r.2. split; [vm_compute; reflexivity|].
  apply (batch_records_next_number (L := ListPool.list_pool_laws) (RT := PlainRpc.raw)
    (LH := PlainRpc.latest) [replicate 5 Byte.x00; []; replicate 6 Byte.x00] PlainRpc.world 500
    [5; 6] r.2 PlainRpc.plain_conversion eq_refl ltac:(vm_compute; reflexivity)).
  right. left.
Defined.

(** Accepted at block 500, dropped by an update that stays there. *)
Lemma accepted_transaction_survives_exactly_witness :
  stale (tx_mapping (pools (send_raw_transaction (replicate 5 Byte.x00) PlainRpc.world).2)) 500 5
  ≠ false.
Proof.
  intros H.
  apply (accepted_transaction_survives_exactly (L := ListPool.list_pool_laws) (RT := PlainRpc.raw)
    (LH := PlainRpc.latest) (replicate 5 Byte.x00) PlainRpc.world 5
    (send_raw_transaction (replicate 5 Byte.x00) PlainRpc.world).2 500 500 PlainRpc.plain_conversion eq_refl)
    in H; [lia|vm_compute; by split|vm_compute; reflexivity].
Defined.
