(* ===== verification/EthApi.v ===== *)
(** * The eth namespace ([crates/rpc/src/eth/types.rs], [builder.rs])

    [KasplexEthApi] wraps reth's [EthApi].  reth's handlers of the namespace are
    written against traits whose few required methods it hands on to the inner API;
    [eth_sendRawTransaction] it defines itself. *)

From stdpp Require Import prelude gmap list.
From Stdlib Require Import ZArith Lia.
From S2P Require Import Prelude TxMapping Chainspec TxPool EngineApi Rpc.

(** ** The required methods

    The types of what the methods return references to. *)
Record EthTypes := mkEthTypes {
  Converter : Type;
  PoolHandle : Type;
  EvmHandle : Type;
  NetworkHandle : Type;
  ProviderHandle : Type;
  StateCache : Type;
  TaskSpawner : Type;
  TaskPool : Type;
  TaskGuard : Type;
  IoGuard : Type;
  GasOracle : Type;
  FeeHistory : Type;
  PendingBlock : Type;
  PendingKind : Type;
  EnvBuilder : Type;
  Signers : Type;
}.

(** The methods of reth's [EthApi] that the wrapper calls. *)
Class EthApiLib (Ty : EthTypes) (A : Type) := {
  lib_converter : A → Converter Ty;
  lib_pool : A → PoolHandle Ty;
  lib_evm_config : A → EvmHandle Ty;
  lib_network : A → NetworkHandle Ty;
  lib_provider : A → ProviderHandle Ty;
  lib_cache : A → StateCache Ty;
  lib_task_spawner : A → TaskSpawner Ty;
  lib_blocking_task_pool : A → TaskPool Ty;
  lib_blocking_task_guard : A → TaskGuard Ty;
  lib_blocking_io_task_guard : A → IoGuard Ty;
  lib_gas_oracle : A → GasOracle Ty;
  lib_fee_history_cache : A → FeeHistory Ty;
  lib_gas_cap : A → Z;
  lib_max_simulate_blocks : A → Z;
  lib_evm_memory_limit : A → Z;
  lib_eth_proof_window : A → Z;
  lib_pending_block : A → PendingBlock Ty;
  lib_pending_block_kind : A → PendingKind Ty;
  lib_pending_env_builder : A → EnvBuilder Ty;
  lib_signers : A → Signers Ty;
  lib_send_raw_transaction_sync_timeout : A → Z;
  lib_starting_block : A → Z;
}.

(** The traits of which the handlers are provided methods, with the methods they
    require; [EthTransactions] also lets an implementation replace the two methods
    that send a transaction (below). *)
Class EthApiTypes (Ty : EthTypes) (A : Type) := { converter : A → Converter Ty }.
Class RpcNodeCore (Ty : EthTypes) (A : Type) := {
  api_pool : A → PoolHandle Ty;
  evm_config : A → EvmHandle Ty;
  network : A → NetworkHandle Ty;
  provider : A → ProviderHandle Ty;
}.
Class RpcNodeCoreExt (Ty : EthTypes) (A : Type) := { cache : A → StateCache Ty }.
Class SpawnBlocking (Ty : EthTypes) (A : Type) := {
  io_task_spawner : A → TaskSpawner Ty;
  tracing_task_pool : A → TaskPool Ty;
  tracing_task_guard : A → TaskGuard Ty;
  blocking_io_task_guard : A → IoGuard Ty;
}.
Class LoadFee (Ty : EthTypes) (A : Type) := {
  gas_oracle : A → GasOracle Ty;
  fee_history_cache : A → FeeHistory Ty;
}.
Class Call (Ty : EthTypes) (A : Type) := {
  call_gas_limit : A → Z;
  max_simulate_blocks : A → Z;
  evm_memory_limit : A → Z;
}.
Class EthState (Ty : EthTypes) (A : Type) := { max_proof_window : A → Z }.
Class LoadPendingBlock (Ty : EthTypes) (A : Type) := {
  pending_block : A → PendingBlock Ty;
  pending_block_kind : A → PendingKind Ty;
  pending_env_builder : A → EnvBuilder Ty;
}.
Class EthTransactions (Ty : EthTypes) (A : Type) := {
  signers : A → Signers Ty;
  send_raw_transaction_sync_timeout : A → Z;
}.
Class EthApiSpec (Ty : EthTypes) (A : Type) := { starting_block : A → Z }.

Record KasplexEthApi {A : Type} := mkKasplexEthApi { inner_api : A }.
Arguments KasplexEthApi : clear implicits.
Arguments mkKasplexEthApi {A} _.

(** [KasplexEthApiBuilder::build_eth_api]: the wrapper around the API reth's context
    builds. *)
Definition build_eth_api {A} (build : outcome () A) : outcome () (KasplexEthApi A) :=
  api ← build; mret (mkKasplexEthApi api).

Section forwarding.
Context {Ty : EthTypes} {A : Type} {AL : EthApiLib Ty A}.

Definition eth_api_clone (clone_inner : A → A) (self : KasplexEthApi A) : KasplexEthApi A :=
  mkKasplexEthApi (clone_inner (inner_api self)).

#[export] Instance kasplex_eth_api_types : EthApiTypes Ty (KasplexEthApi A) := {
  converter self := lib_converter (inner_api self);
}.

#[export] Instance kasplex_rpc_node_core : RpcNodeCore Ty (KasplexEthApi A) := {
  api_pool self := lib_pool (inner_api self);
  evm_config self := lib_evm_config (inner_api self);
  network self := lib_network (inner_api self);
  provider self := lib_provider (inner_api self);
}.

#[export] Instance kasplex_rpc_node_core_ext : RpcNodeCoreExt Ty (KasplexEthApi A) := {
  cache self := lib_cache (inner_api self);
}.

#[export] Instance kasplex_spawn_blocking : SpawnBlocking Ty (KasplexEthApi A) := {
  io_task_spawner self := lib_task_spawner (inner_api self);
  tracing_task_pool self := lib_blocking_task_pool (inner_api self);
  tracing_task_guard self := lib_blocking_task_guard (inner_api self);
  blocking_io_task_guard self := lib_blocking_io_task_guard (inner_api self);
}.

#[export] Instance kasplex_load_fee : LoadFee Ty (KasplexEthApi A) := {
  gas_oracle self := lib_gas_oracle (inner_api self);
  fee_history_cache self := lib_fee_history_cache (inner_api self);
}.

#[export] Instance kasplex_call : Call Ty (KasplexEthApi A) := {
  call_gas_limit self := lib_gas_cap (inner_api self);
  max_simulate_blocks self := lib_max_simulate_blocks (inner_api self);
  evm_memory_limit self := lib_evm_memory_limit (inner_api self);
}.

#[export] Instance kasplex_eth_state : EthState Ty (KasplexEthApi A) := {
  max_proof_window self := lib_eth_proof_window (inner_api self);
}.

#[export] Instance kasplex_load_pending_block : LoadPendingBlock Ty (KasplexEthApi A) := {
  pending_block self := lib_pending_block (inner_api self);
  pending_block_kind self := lib_pending_block_kind (inner_api self);
  pending_env_builder self := lib_pending_env_builder (inner_api self);
}.

#[export] Instance kasplex_eth_transactions : EthTransactions Ty (KasplexEthApi A) := {
  signers self := lib_signers (inner_api self);
  send_raw_transaction_sync_timeout self := lib_send_raw_transaction_sync_timeout (inner_api self);
}.

#[export] Instance kasplex_eth_api_spec : EthApiSpec Ty (KasplexEthApi A) := {
  starting_block self := lib_starting_block (inner_api self);
}.
End forwarding.

(** ** [eth_sendRawTransaction] and [eth_sendTransaction]

    The node as the namespace sees it, with what was broadcast to the subscribers of
    raw transactions. *)
Record EthWorld {Ch P : Type} := mkEthWorld {
  api : ApiWorld Ch P;
  broadcasts : list Bytes;
}.
Arguments EthWorld : clear implicits.
Arguments mkEthWorld {Ch P} _ _.

Section send.
Context {Ch P T PE Recovered D Cv : Type} {TP : TransactionPool P T PE}.
Context {RT : RawTransactions Recovered T D Cv}.
Local Abbreviation World := (EthWorld Ch P).
Local Abbreviation Error := (SendError D Cv PE).

Definition broadcast_raw_transaction (tx : Bytes) (w : World) : World :=
  mkEthWorld (api w) (broadcasts w ++ [tx]).
Definition on_api {A} (m : comp (ApiWorld Ch P) Error A) : comp World Error A := λ w,
  let '(o, a) := m (api w) in (o, mkEthWorld a (broadcasts w)).

Definition eth_send_raw_transaction (tx : Bytes) : comp World Error B256 :=
  recovered ← lift (outcome_map_err DecodeFailed (recover_raw_transaction tx));
  _ ← modify (broadcast_raw_transaction tx);
  let pool_transaction := from_pooled recovered in
  on_api (add_to_pool pool_transaction).

(** [eth_sendTransaction] is the inner API's. *)
Definition eth_send_transaction {Encoded} (inner_send : Encoded → comp World Error B256)
    (tx : Encoded) : comp World Error B256 := inner_send tx.
End send.

(** ** Lemmas *)

Section lemmas.
Context {Ch P T PE Recovered D Cv : Type} {TP : TransactionPool P T PE}.
Context {RT : RawTransactions Recovered T D Cv}.
Implicit Type w : EthWorld Ch P.

Lemma eth_send_run raw w :
  eth_send_raw_transaction (PE := PE) (D := D) (Cv := Cv) raw w
  = match recover_raw_transaction raw with
    | Ok r =>
        let '(o, p) := add_transaction (from_pooled r) (pool (pools (api w))) in
        (outcome_map_err PoolRefused o,
         mkEthWorld (mkApiWorld (chain (api w)) (mkPoolWorld p (tx_mapping (pools (api w)))))
           (broadcasts w ++ [raw]))
    | Err e => (Err (DecodeFailed e), w)
    | Panicked => (Panicked, w)
    end.
Proof.
  unfold eth_send_raw_transaction. destruct (recover_raw_transaction raw); [|done..].
  cbn [outcome_map_err]. run. unfold on_api, add_to_pool. simpl.
  by destruct (add_transaction _ _).
Qed.

(** An accepted transaction is in the pool, and the mapping is as it was. *)
Lemma eth_send_Ok {L : TransactionPoolLaws P T PE} raw w h w' :
  eth_send_raw_transaction (PE := PE) (D := D) (Cv := Cv) raw w = (Ok h, w') →
  h ∈ pool_hashes (pool (pools (api w'))) ∧
  tx_mapping (pools (api w')) = tx_mapping (pools (api w)).
Proof.
  rewrite eth_send_run. destruct (recover_raw_transaction raw) as [r|e|]; [|done..].
  destruct (add_transaction _ _) as [[h'|e|] p] eqn:Ea; intros [= <- <-]. simpl.
  by apply add_transaction_Ok in Ea as [_ ?].
Qed.
End lemmas.

(** ** Properties *)

Section properties.
Context {Ch P T PE Recovered D Cv : Type} {TP : TransactionPool P T PE}.
Context {L : TransactionPoolLaws P T PE} {RT : RawTransactions Recovered T D Cv}.
Implicit Type w : EthWorld Ch P.

(** C32 [eth_sendRawTransaction] on every branch.  Data that does not decode changes
    nothing and is not broadcast; anything that decodes is broadcast before the pool is
    asked, and stays broadcast when the pool refuses it.  The answer is the pool's, an
    accepted transaction is in the pool, no fee is checked, and no number is recorded,
    so no sweep will ever find the transaction stale if it had none. *)
Theorem eth_send_raw_transaction_spec raw w :
  let '(o, w') := eth_send_raw_transaction (PE := PE) (D := D) (Cv := Cv) raw w in
  match recover_raw_transaction raw with
  | Err e => o = Err (DecodeFailed e) ∧ w' = w
  | Panicked => o = Panicked ∧ w' = w
  | Ok r =>
      broadcasts w' = broadcasts w ++ [raw] ∧
      chain (api w') = chain (api w) ∧
      o = outcome_map_err PoolRefused
            (add_transaction (from_pooled r) (pool (pools (api w)))).1 ∧
      pool (pools (api w')) = (add_transaction (from_pooled r) (pool (pools (api w)))).2 ∧
      tx_mapping (pools (api w')) = tx_mapping (pools (api w)) ∧
      (∀ h, o = Ok h → h ∈ pool_hashes (pool (pools (api w')))) ∧
      ∀ h, get_submission_block h (tx_mapping (pools (api w))) = None →
        ∀ head, stale (tx_mapping (pools (api w'))) head h = false
  end.
Proof.
  pose proof (λ h w', eth_send_Ok (Cv := Cv) raw w h w') as Hok. revert Hok. rewrite eth_send_run.
  destruct (recover_raw_transaction raw) as [r|e|]; [|done..].
  destruct (add_transaction _ _) as [o p]. intros Hok. simpl.
  do 5 (split; [done|]). split.
  - intros h Ho. rewrite Ho in Hok. by destruct (Hok _ _ eq_refl).
  - intros h Hh head. unfold stale. by rewrite Hh.
Qed.
End properties.

(** ** Witness *)

Definition sample_eth_world : EthWorld Z ListPool.t := mkEthWorld PlainRpc.world [].

(** Transaction 4 is pooled already: refused, and broadcast all the same. *)
Lemma eth_send_raw_transaction_spec_witness :
  (eth_send_raw_transaction (RT := PlainRpc.raw) (replicate 4 Byte.x00) sample_eth_world).1
  = Err (PoolRefused ()) ∧
  broadcasts (eth_send_raw_transaction (RT := PlainRpc.raw) (replicate 4 Byte.x00)
    sample_eth_world).2 = [replicate 4 Byte.x00].
Proof.
  pose proof (eth_send_raw_transaction_spec (L := ListPool.list_pool_laws) (RT := PlainRpc.raw)
    (replicate 4 Byte.x00) sample_eth_world) as H.
  destruct (eth_send_raw_transaction _ _) as [o w']. destruct H as (Hb & _ & Ho & _).
  split; [exact Ho|exact Hb].
Defined.
