(* ===== verification/Interleaving.v ===== *)
(** * Concurrent clients of the pool and the mapping

    The engine's handlers, the RPC submissions, the payload builder, the conversion of
    blocks and the validation of payloads run at the same time over one pool and one mapping.  Each
    call takes the lock of the table or of the pool for itself only, so a client is a
    sequence of atomic steps with local variables between them, and an execution is
    an interleaving of the clients' steps.  Alone, a client does what the function
    it stands for does ([TxPool.v], [PayloadBuilder.v], [Engine.v], [Rpc.v]). *)

From stdpp Require Import prelude gmap list relations.
From Stdlib Require Import ZArith Lia.
From S2P Require Import Prelude Processes Types TxMapping Chainspec TxPool BlockConfig Attributes PayloadBuilder Engine EngineApi Rpc.

(** ** Clients

    A client between two of its calls, with what it has read so far. *)
Inductive client {T : Type} : Type :=
(** [handle_kasplex_pool_reorg] on a Kasplex chain *)
| SweepStart (new_head_number : Z)
| SweepSnapshot (new_head_number : Z)
| SweepScan (new_head_number : Z) (todo txs_to_remove : list B256)
| SweepRemove (txs_to_remove : list B256)
| SweepEnd
(** [send_raw_transaction]: the number, then the pool *)
| SubmitNumber (tx_hash : B256) (tx_number : Z) (pool_transaction : T)
| SubmitToPool (pool_transaction : T)
(** [block_to_payload]: the numbers of all transactions are read, then written *)
| ReadNumbers (todo : list B256) (numbers : list (B256 * Z))
| WriteNumbers (numbers : list (B256 * Z))
(** the last loop of [process_kasplex_execution_data] *)
| TakeNumbers (todo : list B256)
(** [kasplex_payload]: the number of each transaction tried is read before it is
    executed, and given up when the execution fails (the flag); those kept are
    written after the block is finished *)
| BuildNumbers (todo : list (B256 * bool)) (numbers : list (B256 * Z))
(** [remove_included_transactions] *)
| IncludedSnapshot (block_tx_hashes : list B256)
| IncludedRemove (txs_to_remove : list B256)
| Done.
Arguments client : clear implicits.

Section interleaving.
Context {P T PE : Type} {TP : TransactionPool P T PE}.
Local Abbreviation World := (PoolWorld P).
Local Abbreviation Client := (client T).
Implicit Types (w : World) (c : Client) (cs : list Client).

(** The next call of each kind of client; none when it is done. *)
Definition sweep_step c w : option (Client * World) :=
  match c with
  | SweepStart head => Some (SweepSnapshot head, on_mapping mark_start_pool_reorg w)
  | SweepSnapshot head => Some (SweepScan head (pool_hashes (pool w)) [], w)
  | SweepScan head [] txs_to_remove =>
      Some (if (0 <? length txs_to_remove)%nat then SweepRemove txs_to_remove else SweepEnd, w)
  | SweepScan head (tx_hash :: todo) txs_to_remove =>
      match collect_stale (BoxError := ()) head txs_to_remove tx_hash w with
      | (Ok txs_to_remove, w) => Some (SweepScan head todo txs_to_remove, w)
      | (_, w) => Some (Done, w)
      end
  | SweepRemove txs_to_remove =>
      Some (SweepEnd, on_pool (λ p, (remove_transactions txs_to_remove p).2) w)
  | SweepEnd => Some (Done, on_mapping mark_pool_reorged w)
  | _ => None
  end.

Definition submit_step c w : option (Client * World) :=
  match c with
  | SubmitNumber tx_hash tx_number tx =>
      Some (SubmitToPool tx, on_mapping (insert tx_hash tx_number) w)
  | SubmitToPool tx => Some (Done, on_pool (λ p, (add_transaction tx p).2) w)
  | _ => None
  end.

Definition convert_step c w : option (Client * World) :=
  match c with
  | ReadNumbers [] numbers => Some (WriteNumbers numbers, w)
  | ReadNumbers (tx_hash :: todo) numbers =>
      Some (ReadNumbers todo
              (numbers ++ [(tx_hash, default 0 (get_submission_block tx_hash (tx_mapping w)))]), w)
  | WriteNumbers [] => Some (Done, w)
  | WriteNumbers ((tx_hash, number) :: numbers) =>
      Some (WriteNumbers numbers, on_mapping (insert tx_hash number) w)
  | _ => None
  end.

Definition take_step c w : option (Client * World) :=
  match c with
  | TakeNumbers [] => Some (Done, w)
  | TakeNumbers (tx_hash :: todo) =>
      Some (TakeNumbers todo, on_mapping (λ st, (get_tx_number tx_hash st).2) w)
  | _ => None
  end.

Definition build_numbers_step c w : option (Client * World) :=
  match c with
  | BuildNumbers [] numbers => Some (WriteNumbers numbers, w)
  | BuildNumbers ((tx_hash, executes) :: todo) numbers =>
      let tx_number := default 0 (get_submission_block tx_hash (tx_mapping w)) in
      Some (BuildNumbers todo (if executes : bool then numbers ++ [(tx_hash, tx_number)]
                               else numbers), w)
  | _ => None
  end.

Definition included_step c w : option (Client * World) :=
  match c with
  | IncludedSnapshot block_tx_hashes =>
      let txs_to_remove :=
        foldl (collect_included block_tx_hashes)
          (foldl (collect_included block_tx_hashes) [] (pending_hashes (pool w)))
          (queued_hashes (pool w)) in
      Some (if (0 <? length txs_to_remove)%nat then IncludedRemove txs_to_remove else Done, w)
  | IncludedRemove txs_to_remove =>
      Some (Done, on_pool (λ p, (remove_transactions txs_to_remove p).2) w)
  | _ => None
  end.

Definition client_step c : World → option (Client * World) :=
  match c with
  | SweepStart _ | SweepSnapshot _ | SweepScan _ _ _ | SweepRemove _ | SweepEnd => sweep_step c
  | SubmitNumber _ _ _ | SubmitToPool _ => submit_step c
  | ReadNumbers _ _ | WriteNumbers _ => convert_step c
  | TakeNumbers _ => take_step c
  | BuildNumbers _ _ => build_numbers_step c
  | IncludedSnapshot _ | IncludedRemove _ => included_step c
  | Done => λ _, None
  end.

#[export] Instance client_process : Process Client World := {| proc_step := client_step |}.

Lemma Done_finished : finished (W := World) (Done : Client).
Proof. done. Qed.

(** The client a sweep is on a given chain. *)
Definition sweep_client {C} {CC : KasplexChainCheck C} (chain_spec : C) (head : Z) : Client :=
  if is_kasplex chain_spec then SweepStart head else Done.

(** ** Alone, a client is the function it stands for *)

Lemma alone_scan head todo acc w :
  rtc alone (SweepScan head todo acc, w)
    (SweepScan head [] (acc ++ filter (λ h, stale (tx_mapping w) head h) todo), w).
Proof.
  revert acc. induction todo as [|h todo IH]; intros acc; [by rewrite app_nil_r|].
  eapply rtc_l.
  - constructor. cbn [proc_step client_process client_step sweep_step]. rewrite collect_stale_reads. reflexivity.
  - rewrite filter_cons. destruct (decide (stale (tx_mapping w) head h)); [|apply IH].
    rewrite (app_assoc acc [h] (filter _ todo) : acc ++ h :: _ = _). apply IH.
Qed.

(** Where a sweep ends. *)
Definition swept head w : World :=
  on_mapping mark_pool_reorged
    (remove_if_any (filter (λ h, stale (tx_mapping w) head h) (pool_hashes (pool w)))
       (on_mapping mark_start_pool_reorg w)).

Lemma alone_sweep_start head w : rtc alone (SweepStart head, w) (Done, swept head w).
Proof.
  eapply rtc_l; [by constructor|]. eapply rtc_l; [by constructor|].
  etrans; [apply alone_scan|]. rewrite app_nil_l. cbn [tx_mapping pool on_mapping].
  change (stale (mark_start_pool_reorg (tx_mapping w)) head) with (stale (tx_mapping w) head).
  unfold swept. set (doomed := filter _ _). eapply rtc_l; [by constructor|]. unfold remove_if_any.
  destruct (0 <? length doomed)%nat.
  - eapply rtc_l; [by constructor|]. apply rtc_once. by constructor.
  - apply rtc_once. by constructor.
Qed.

Lemma alone_sweep {C BoxError} {CC : KasplexChainCheck C} (spec : C) head w :
  rtc alone (sweep_client spec head, w)
    (Done, (handle_kasplex_pool_reorg (BoxError := BoxError) spec head w).2).
Proof.
  rewrite handle_kasplex_pool_reorg_run. unfold sweep_client. cbn [snd].
  destruct (is_kasplex spec); [apply alone_sweep_start|done].
Qed.

Lemma alone_write st0 hs w :
  rtc alone (WriteNumbers ((λ h, (h, default 0 (get_submission_block h st0))) <$> hs), w)
    (Done, on_mapping (record_numbers st0 hs) w).
Proof.
  revert w. induction hs as [|h hs IH]; intros w.
  - destruct w. apply rtc_once. by constructor.
  - eapply rtc_l; [by constructor|]. apply IH.
Qed.

Lemma alone_read hs acc w :
  rtc alone (ReadNumbers hs acc, w)
    (WriteNumbers (acc ++ ((λ h, (h, default 0 (get_submission_block h (tx_mapping w)))) <$> hs)), w).
Proof.
  revert acc. induction hs as [|h hs IH]; intros acc.
  - rewrite app_nil_r. apply rtc_once. by constructor.
  - eapply rtc_l; [by constructor|]. rewrite fmap_cons, (app_assoc acc [_] (_ <$> hs) : acc ++ _ :: _ = _).
    apply IH.
Qed.

Lemma alone_convert hs w :
  rtc alone (ReadNumbers hs [], w) (Done, on_mapping (record_numbers (tx_mapping w) hs) w).
Proof. etrans; [apply alone_read|]. apply alone_write. Qed.

Lemma alone_take hs w :
  rtc alone (TakeNumbers hs, w) (Done, on_mapping (take_numbers hs) w).
Proof.
  revert w. induction hs as [|h hs IH]; intros w.
  - destruct w. apply rtc_once. by constructor.
  - eapply rtc_l; [by constructor|]. apply IH.
Qed.

(** The hashes of the transactions tried that execute. *)
Definition kept (tries : list (B256 * bool)) : list B256 := (filter (λ t, t.2 = true) tries).*1.

Lemma alone_build tries w :
  rtc alone (BuildNumbers tries [], w)
    (Done, on_mapping (record_numbers (tx_mapping w) (kept tries)) w).
Proof.
  set (read := λ h, (h, default 0 (get_submission_block h (tx_mapping w)))).
  assert (H : ∀ acc, rtc alone (BuildNumbers tries acc, w)
    (WriteNumbers (acc ++ (read <$> kept tries)), w)).
  { induction tries as [|[h []] tries IH]; intros acc.
    - rewrite app_nil_r. apply rtc_once. by constructor.
    - eapply rtc_l; [by constructor|].
      change (read <$> kept ((h, true) :: tries)) with ([read h] ++ (read <$> kept tries)).
      rewrite (app_assoc acc). apply IH.
    - eapply rtc_l; [by constructor|]. apply IH. }
  etrans; [apply H|]. apply alone_write.
Qed.

Lemma alone_included {BoxError} hs w :
  rtc alone (IncludedSnapshot hs, w)
    (Done, (remove_included_transactions (BoxError := BoxError) hs w).2).
Proof.
  rewrite remove_included_transactions_run. unfold remove_if_any. cbn [snd].
  eapply rtc_l; [by constructor|]. rewrite collect_included_loops.
  destruct (0 <? length _)%nat; [|done]. apply rtc_once. by constructor.
Qed.

End interleaving.

(** A step computed, and the cases of a step: one for each kind of client and shape
    of its list. *)
Ltac step := cbn [proc_step client_process client_step sweep_step submit_step convert_step take_step build_numbers_step included_step].
Ltac client_cases c :=
  destruct c as [hd|hd|hd [|x todo] rm|rm| |x n t|t|[|x todo] ns|[|[x n] ns]|[|x todo]|[|[x []] todo] ns|hs|rm|];
  step;
  rewrite ?collect_stale_reads.

(** ** The numbers the clients hold

    The numbers a client may still write: every step keeps what holds of all of them
    and of those in the table, if it holds of 0. *)
Definition offers {T} (c : client T) : list (B256 * Z) :=
  match c with
  | SubmitNumber tx_hash n _ => [(tx_hash, n)]
  | ReadNumbers _ numbers | WriteNumbers numbers | BuildNumbers _ numbers => numbers
  | _ => []
  end.

Section numbers.
Context {P T PE : Type} {TP : TransactionPool P T PE}.
Variable Q : B256 → Z → Prop.
Hypothesis Q_zero : ∀ h, Q h 0.

Definition only_from (st : TxMappingState) : Prop :=
  ∀ h n, get_submission_block h st = Some n → Q h n.
Definition offers_from (c : client T) : Prop := ∀ h n, (h, n) ∈ offers c → Q h n.

Lemma only_from_default st h :
  only_from st → Q h (default 0 (get_submission_block h st)).
Proof using Q_zero.
  intros H. destruct (get_submission_block h st) as [n|] eqn:E; simpl; [by apply H|done].
Qed.

Lemma only_from_insert st h n : only_from st → Q h n → only_from (insert h n st).
Proof.
  intros H Hn h' n'. rewrite get_submission_block_insert. case_decide; [|apply H].
  by intros [= <-]; subst.
Qed.

Lemma only_from_take st h : only_from st → only_from (get_tx_number h st).2.
Proof. intros H h' n'. rewrite get_submission_block_take. case_decide; [done|apply H]. Qed.

Lemma numbers_step (w : PoolWorld P) (c : client T) w' c' :
  only_from (tx_mapping w) → offers_from c → client_step c w = Some (c', w') →
  only_from (tx_mapping w') ∧ offers_from c'.
Proof using Q_zero.
  intros Hw Hc.
  assert (Hread : ∀ x ns, (∀ h n, (h, n) ∈ ns → Q h n) → ∀ h n,
    (h, n) ∈ ns ++ [(x, default 0 (get_submission_block x (tx_mapping w)))] → Q h n).
  { intros x ns Hns h n [?|[= -> ->]%list_elem_of_singleton]%elem_of_app; [by apply Hns|].
    by apply only_from_default. }
  unfold offers_from in *.
  client_cases c; cbn [offers] in Hc; intros E; simplify_eq; split; cbn [offers]; try done;
    try (match goal with |- context [(0 <? ?n)%nat] => by destruct (0 <? n)%nat end); eauto;
    try set_solver.
  - apply only_from_insert; [done|]. apply Hc. by left.
  - apply only_from_insert; [done|]. apply Hc. by left.
  - by apply only_from_take.
Qed.
End numbers.

Section survival.
Context {P T PE : Type} {TP : TransactionPool P T PE}.
Local Abbreviation World := (PoolWorld P).
Local Abbreviation Client := (client T).
Implicit Types (w : World) (c : Client) (cs : list Client).

(** ** A live transaction

    A recorded number that lies in the retention window of every head; what a client
    may hold about [h] so that it does not take it out of the pool. *)
Definition in_window (heads : list Z) (n : Z) : Prop :=
  0 < n → retention_fits n ∧
    ∀ head, head ∈ heads → n ≤ head ≤ n + UNEXECUTED_TX_RETENTION_BLOCKS.

Definition live (h : B256) (heads : list Z) (st : TxMappingState) : Prop :=
  ∀ n, get_submission_block h st = Some n → in_window heads n.

(** What a client may hold about [h] so that it does not take it out of the pool. *)
Definition spares_in_pool (h : B256) (heads : list Z) c : Prop :=
  match c with
  | SweepStart head | SweepSnapshot head => head ∈ heads
  | SweepScan head _ txs_to_remove => head ∈ heads ∧ h ∉ txs_to_remove
  | SweepRemove txs_to_remove | IncludedRemove txs_to_remove => h ∉ txs_to_remove
  | IncludedSnapshot block_tx_hashes => h ∉ block_tx_hashes
  | _ => True
  end.

Definition spares (h : B256) (heads : list Z) c : Prop :=
  (∀ n, (h, n) ∈ offers c → in_window heads n) ∧ spares_in_pool h heads c.

Lemma live_not_stale h heads st head :
  live h heads st → head ∈ heads → stale st head h = false.
Proof.
  unfold live, stale, is_transaction_expired_for_pool. intros Hl Hh.
  destruct (get_submission_block h st) as [n|]; simpl; [|done].
  destruct (Z.ltb_spec 0 n) as [Hn|]; [|done].
  destruct (Hl n eq_refl Hn) as [Hfit Hwin]. by apply expired_test_window, Hwin.
Qed.

Lemma spares_step {L : TransactionPoolLaws P T PE} h heads c w c' w' :
  live h heads (tx_mapping w) → spares h heads c → client_step c w = Some (c', w') →
  live h heads (tx_mapping w') ∧ spares h heads c'.
Proof.
  intros Hl [Hn Hc] Hs.
  destruct (numbers_step (λ h' n, h' = h → in_window heads n) ltac:(by intros ? _ ?; lia)
    w c w' c') as [Hl' Hn']; [by intros ? n ? ->; apply Hl|by intros ? n ? ->; apply Hn|done|].
  split; [intros n ?; by apply (Hl' h)|]. split; [intros n ?; by apply (Hn' h)|].
  clear Hn Hn' Hl'. revert Hs.
  client_cases c; cbn [spares_in_pool] in Hc; intros E; simplify_eq; cbn [spares_in_pool]; try done.
  - split; [done|set_solver].
  - by destruct Hc, (_ <? _)%nat.
  - destruct Hc as [Hh Hrm]. split; [done|]. case_decide as Hst; [|done].
    apply not_elem_of_app. split; [done|]. intros ->%list_elem_of_singleton.
    rewrite (live_not_stale _ _ _ _ Hl Hh) in Hst. done.
  - rewrite collect_included_loops.
    destruct (0 <? _)%nat; [|done]. cbn [spares_in_pool]. rewrite list_elem_of_filter. tauto.
Qed.

(** The step at which the pool, taking in another transaction, gives up [h] by itself:
    it replaces a transaction of the same sender and nonce, and it has limits. *)
Inductive displaces (h : B256) : list Client * World → list Client * World → Prop :=
| displaces_submission cs i t w :
    cs !! i = Some (SubmitToPool t) → h ∈ pool_hashes (pool w) →
    h ∉ pool_hashes (add_transaction t (pool w)).2 →
    displaces h (cs, w) (<[i := Done]> cs, on_pool (λ p, (add_transaction t p).2) w).

(** Such a step lies between two states of a run. *)
Definition displaced (h : B256) a b : Prop :=
  ∃ x y, rtc interleaved a x ∧ displaces h x y ∧ rtc interleaved y b.

Lemma pool_step {L : TransactionPoolLaws P T PE} h heads c w c' w' :
  spares h heads c → h ∈ pool_hashes (pool w) → client_step c w = Some (c', w') →
  h ∈ pool_hashes (pool w') ∨
  ∃ t, c = SubmitToPool t ∧ c' = Done ∧ w' = on_pool (λ p, (add_transaction t p).2) w ∧
    h ∉ pool_hashes (add_transaction t (pool w)).2.
Proof.
  intros [_ Hc] Hp.
  client_cases c; cbn [spares_in_pool] in Hc; intros E; simplify_eq; try (by left).
  - left. simpl. by apply remove_transactions_left.
  - destruct (decide (h ∈ pool_hashes (add_transaction t (pool w)).2)); [by left|].
    right. by exists t.
  - left. simpl. by apply remove_transactions_left.
Qed.

(** A live transaction that every client spares is pooled at the end of a run, or the
    pool displaced it on the way. *)
Lemma live_run {L : TransactionPoolLaws P T PE} h heads cs0 w0 cs w :
  live h heads (tx_mapping w0) → h ∈ pool_hashes (pool w0) → Forall (spares h heads) cs0 →
  rtc interleaved (cs0, w0) (cs, w) →
  (h ∈ pool_hashes (pool w) ∨ displaced h (cs0, w0) (cs, w)) ∧ live h heads (tx_mapping w).
Proof.
  intros Hl Hp Hcs Hrun. split.
  - apply (run_keeps_or_breaks
      (λ csw, live h heads (tx_mapping csw.2) ∧ Forall (spares h heads) csw.1)
      (λ csw, h ∈ pool_hashes (pool csw.2)) (displaces h) (cs0, w0) (cs, w));
      [..|exact Hrun|done|done].
    + intros ? ? Hs [Hl1 Hcs1]. destruct Hs as [cs1 i c w1 c' w1' Hi Hc]. simpl in *.
      pose proof (Forall_lookup_1 _ _ _ _ Hcs1 Hi) as Hsp.
      destruct (spares_step _ _ _ _ _ _ Hl1 Hsp Hc). split; [done|]. by apply Forall_insert.
    + intros ? ? Hs [_ Hcs1]. destruct Hs as [cs1 i c w1 c' w1' Hi Hc]. simpl in *. intros Hp1.
      destruct (pool_step _ _ _ _ _ _ (Forall_lookup_1 _ _ _ _ Hcs1 Hi) Hp1 Hc)
        as [?|(t & -> & -> & -> & Hno)]; [by left|right]. by constructor.
  - apply (interleaved_invariant (λ w, live h heads (tx_mapping w)) (spares h heads) cs0 w0 cs w);
      [|done..]. intros. by eapply spares_step.
Qed.

(** ** The reorg flag *)

Definition in_sweep c : bool :=
  match c with SweepSnapshot _ | SweepScan _ _ _ | SweepRemove _ | SweepEnd => true | _ => false end.
Definition is_sweep c : bool := match c with SweepStart _ => true | _ => in_sweep c end.

(** What a step does to the flag: nothing, or it is of a sweep that begins or goes
    on, or it ends one. *)
Lemma client_step_flag c w c' w' :
  client_step c w = Some (c', w') →
  is_sweep c = false ∧ is_sweep c' = false ∧
    is_reorg_complete (tx_mapping w') = is_reorg_complete (tx_mapping w) ∨
  is_sweep c = true ∧ in_sweep c' = true ∧
    (is_reorg_complete (tx_mapping w') = false ∨
     in_sweep c = true ∧
     is_reorg_complete (tx_mapping w') = is_reorg_complete (tx_mapping w)) ∨
  is_sweep c = true ∧ is_sweep c' = false ∧ is_reorg_complete (tx_mapping w') = true.
Proof.
  client_cases c; intros E; simplify_eq; simpl;
    try (match goal with |- context [(0 <? ?n)%nat] => destruct (0 <? n)%nat end); naive_solver.
Qed.

Definition under_way cs : Prop := ∃ i c, cs !! i = Some c ∧ in_sweep c = true.
Definition one_sweep cs : Prop := ∀ i j c d,
  cs !! i = Some c → cs !! j = Some d → is_sweep c = true → is_sweep d = true → i = j.

Lemma in_sweep_is_sweep c : in_sweep c = true → is_sweep c = true.
Proof. by destruct c. Qed.

(** Whether a client of the list is one after a step of client [i]. *)
Lemma lookup_stepped cs i (c' : Client) j d :
  <[i := c']> cs !! j = Some d → j = i ∧ d = c' ∨ j ≠ i ∧ cs !! j = Some d.
Proof. rewrite list_lookup_insert_Some. naive_solver. Qed.

Lemma under_way_insert cs i c c' :
  cs !! i = Some c → in_sweep c' = true → under_way (<[i := c']> cs).
Proof.
  intros Hi Hc. exists i, c'. split; [|done]. apply list_lookup_insert_eq. by eapply lookup_lt_Some.
Qed.

Lemma flag_up_step csw csw' :
  interleaved csw csw' →
  (is_reorg_complete (tx_mapping csw.2) = false → under_way csw.1) →
  is_reorg_complete (tx_mapping csw'.2) = false → under_way csw'.1.
Proof.
  intros Hs. destruct Hs as [cs i c w c' w' Hi Hc]. simpl. intros IH Hup.
  destruct (client_step_flag _ _ _ _ Hc) as [(Hns & _ & Hf)|[(_ & Hin & _)|(_ & _ & Hf)]];
    [|by eapply under_way_insert|congruence].
  destruct (IH ltac:(congruence)) as (j & d & Hj & Hd). exists j, d. split; [|done].
  rewrite list_lookup_insert_ne; [done|]. intros ->. simplify_eq.
  apply in_sweep_is_sweep in Hd. congruence.
Qed.

Lemma one_sweep_step csw csw' :
  interleaved csw csw' →
  one_sweep csw.1 ∧ (under_way csw.1 → is_reorg_complete (tx_mapping csw.2) = false) →
  one_sweep csw'.1 ∧ (under_way csw'.1 → is_reorg_complete (tx_mapping csw'.2) = false).
Proof.
  intros Hs. destruct Hs as [cs i c w c' w' Hi Hc]. simpl. intros [Hone IH].
  pose proof (client_step_flag _ _ _ _ Hc) as Hflag.
  assert (Hsw : is_sweep c' = true → is_sweep c = true) by naive_solver congruence.
  split.
  - intros j k d e Hj Hk Hd He.
    apply lookup_stepped in Hj as [[-> ->]|[? Hj]], Hk as [[-> ->]|[? Hk]]; eauto.
  - intros (j & d & Hj & Hd). pose proof (in_sweep_is_sweep _ Hd) as Hd'.
    apply lookup_stepped in Hj as [[-> ->]|[Hne Hj]].
    + assert (is_sweep c' = true → in_sweep c = true →
        is_reorg_complete (tx_mapping w) = false) by (intros; apply IH; by exists i, c).
      destruct Hflag as [(?&?&?)|[(?&?&[?|[? ?]])|(?&?&?)]]; naive_solver congruence.
    + assert (is_sweep c = false) as Hc'.
      { destruct (is_sweep c) eqn:E; [|done]. destruct (Hne (Hone _ _ _ _ Hj Hi Hd' E)). }
      destruct Hflag as [(?&?&->)|[(?&?&?)|(?&?&?)]]; [|congruence..].
      apply IH. by exists j, d.
Qed.
End survival.

(** ** Numbers under conversion and validation *)

(** A value a hash can have, given the one it had first. *)
Definition original (st0 : TxMappingState) (h : B256) (n : Z) : Prop :=
  n = 0 ∨ get_submission_block h st0 = Some n.

(** ** Builds

    The hash of every transaction of a build, and whether it was included. *)
Section builds.
Context {B Spec Provider Tx Block PErr : Type} {BB : BlockBuilder B Spec Provider Tx Block PErr}.
Implicit Types tries : list (Tx * option Z).

Definition tried tries : list (B256 * bool) :=
  (λ t, (PayloadBuilder.tx_hash t.1, bool_decide (is_Some t.2))) <$> tries.

Lemma tried_fst tries : (tried tries).*1 = hashes tries.*1.
Proof. unfold tried, hashes. by rewrite <-!list_fmap_compose. Qed.

Lemma kept_tried tries : kept (tried tries) = hashes (included tries).*1.
Proof.
  induction tries as [|[tx [g|]] tries IH]; [done| |exact IH].
  by apply (f_equal (cons (PayloadBuilder.tx_hash tx))) in IH.
Qed.
End builds.

(** ** Properties *)

Section properties.
Context {P T PE : Type} {TP : TransactionPool P T PE} {L : TransactionPoolLaws P T PE}.
Implicit Types (w : PoolWorld P) (cs : list (client T)).

(** C26 The clients are the functions they stand for: alone, the sweep, the submission
    of an acceptable transaction, the writes of the conversion of a block, the
    removals of the validation of a payload, the removal of included transactions and
    the numbers of a whole build always run to their end, and leave the pool and the
    mapping as the whole functions do. *)
Theorem clients_alone_are_the_functions {C BoxError Tx Sender E R Ch Recovered D Cv}
    {S' C' Chain Spec Provider B Tx' Block PErr}
    {CC : KasplexChainCheck C} {PL : PayloadLibrary Tx Sender E R}
    {RT : RawTransactions Recovered T D Cv} {LH : LatestHeader Ch}
    {EC : EthEvmConfig Chain Spec} {chain_of : C' → Chain}
    {NB : NextBlockConfig S' C' Spec (PayloadBuilderError PErr)}
    {NL : NextBlockConfigLaws S' C' Chain Spec (PayloadBuilderError PErr) chain_of}
    {BB : BlockBuilder B Spec Provider Tx' Block PErr}
    {BL : BlockBuilderLaws B Spec Provider Tx' Block PErr}
    (spec : C) head hs (blk : SealedBlock Tx) p b (Hb : try_into_block p = Ok b)
    raw r t (ch : Ch) n (Hraw : raw ≠ []) (Hr : recover_raw_transaction raw = Ok r)
    (Hfee : min_l2_base_fee ≤ recovered_max_fee r) (Ht : try_from_consensus r = Ok t)
    (Hn : latest_number ch = Some n) :
  performs (sweep_client spec head) Done
    (λ w, (handle_kasplex_pool_reorg (BoxError := BoxError) spec head w).2) ∧
  performs (IncludedSnapshot hs) Done
    (λ w, (remove_included_transactions (BoxError := BoxError) hs w).2) ∧
  performs (SubmitNumber (recovered_hash r) (n ⊞[64] 1) t) Done
    (λ w, pools (send_raw_transaction (PE := PE) raw (mkApiWorld ch w)).2) ∧
  performs (ReadNumbers (block_hashes (sealed blk)) []) Done
    (on_mapping (λ st, (block_to_payload blk st).2)) ∧
  performs (TakeNumbers (block_hashes b)) Done
    (on_mapping (λ st, (process_kasplex_execution_data (PayloadV1Variant p) None st).2)) ∧
  (∀ state_by_block_hash cfg (args : BuildArguments Tx') s w built bw,
    kasplex_payload state_by_block_hash cfg args (mkBuildWorld s (tx_mapping w))
    = (Ok (Freeze built), bw) →
    ∃ tries, tries.*1 = hashes (BuilderAttributes.transactions (attributes args)) ∧
      kept tries = hashes (block_transactions (built_block built)) ∧
      ∀ w', rtc alone (BuildNumbers tries [], w) (Done, w') ↔
        w' = mkPoolWorld (pool w) (build_mapping bw)).
Proof.
  split_and!; try (apply performs_intro; [done|intros w]).
  - apply alone_sweep.
  - apply alone_included.
  - rewrite (send_raw_transaction_checked _ r) by done.
    unfold with_number, add_to_pool. cbn [chain]. rewrite Hn, Ht.
    eapply rtc_l; [by constructor|]. apply rtc_once. constructor.
    cbn [outcome_map_err]. rewrite bind_lift_Ok. step. unfold on_pool.
    cbn [on_mapping on_mapping_of pool tx_mapping pools chain].
    by destruct (add_transaction t (pool w)).
  - unfold on_mapping. rewrite block_to_payload_run. apply alone_convert.
  - unfold on_mapping. rewrite (process_run _ _ _ _ Hb). apply alone_take.
  - intros state_by_block_hash cfg args s w built bw Hbuild.
    apply kasplex_payload_Freeze in Hbuild as (provider & b0 & b1 & tries & Hbuild).
    destruct Hbuild as (_ & _ & Ht' & _ & _ & Hblk & _ & _ & Em).
    exists (tried tries). split_and!; [by rewrite <-Ht', tried_fst|by rewrite kept_tried, Hblk|].
    rewrite Em, <-kept_tried. apply (performs_intro _ _ _ Done_finished (alone_build (tried tries))).
Qed.

(** C7 No interleaving loses a live transaction: a pooled transaction whose number,
    and any number under which it is submitted again, lies in the retention window of
    the head of every sweep, and which no block includes, stays in the pool however
    many sweeps, removals, submissions, builds, conversions and validations run at the
    same time and wherever they are.  The one way out of the pool is the pool's own: a
    submission that it takes in the transaction's place, by replacement or eviction. *)
Theorem live_transaction_survives_interleavings h heads cs0 w0 cs w
    (Hlive : live h heads (tx_mapping w0)) (Hpool : h ∈ pool_hashes (pool w0))
    (Hcs : Forall (spares h heads) cs0)
    (Hrun : rtc interleaved (cs0, w0) (cs, w)) :
  (h ∈ pool_hashes (pool w) ∨ displaced h (cs0, w0) (cs, w)) ∧ live h heads (tx_mapping w).
Proof. by apply live_run. Qed.

(** C28 The reorg flag under interleaving: while it is up some sweep is under way; with
    at most one sweep it is up exactly while that one is under way; but it is not
    counted, so of two sweeps the first to end takes it down although the other is
    still under way. *)
Theorem reorg_flag_interleaved cs0 w0
    (Hidle : Forall (λ c, in_sweep c = false) cs0)
    (Hdown : is_reorg_complete (tx_mapping w0) = true) :
  (∀ cs w, rtc interleaved (cs0, w0) (cs, w) →
    (is_reorg_complete (tx_mapping w) = false → under_way cs) ∧
    (one_sweep cs0 → under_way cs → is_reorg_complete (tx_mapping w) = false)) ∧
  (∀ i j a b, i ≠ j → cs0 !! i = Some (SweepStart a) → cs0 !! j = Some (SweepStart b) →
    ∃ cs w, rtc interleaved (cs0, w0) (cs, w) ∧ cs !! i = Some Done ∧
      under_way cs ∧ is_reorg_complete (tx_mapping w) = true).
Proof.
  split.
  - intros cs w Hrun. split.
    + apply (run_invariant _ _ _ flag_up_step Hrun). simpl. rewrite Hdown. done.
    + intros Hone. apply (run_invariant _ _ _ one_sweep_step Hrun). split; [done|].
      intros (i & c & Hi & Hc). pose proof (Forall_lookup_1 _ _ _ _ Hidle Hi). naive_solver.
  - intros i j a b Hne Hi Hj.
    exists (<[i := Done]> (<[j := SweepSnapshot b]> cs0)). eexists. split_and!.
    + etrans; [eapply (interleaved_alone _ j); [done|apply rtc_once; by constructor]|].
      eapply (interleaved_alone _ i); [by rewrite list_lookup_insert_ne|].
      apply (alone_sweep_start a).
    + apply list_lookup_insert_eq. rewrite length_insert. by eapply lookup_lt_Some.
    + exists j, (SweepSnapshot b). split; [|done]. rewrite list_lookup_insert_ne by done.
      apply list_lookup_insert_eq. by eapply lookup_lt_Some.
    + done.
Qed.

(** C29 A conversion of a block is not atomic: it reads all numbers before it writes
    them.  Interleaved with a validation that takes the numbers of the same block it
    never invents one (each stays the original, 0 or none), but it can put back every
    number the validation took, which neither of the two does when it runs after the
    other: then the numbers are all gone, or all 0. *)
Theorem concurrent_conversion_puts_numbers_back hs w0 :
  let convert := ReadNumbers hs [] in
  let take := TakeNumbers hs in
  (∀ cs w h n, rtc interleaved ([convert; take], w0) (cs, w) →
    get_submission_block h (tx_mapping w) = Some n → original (tx_mapping w0) h n) ∧
  (∃ w, rtc interleaved ([convert; take], w0) ([Done; Done], w) ∧
    ∀ h, h ∈ hs → get_submission_block h (tx_mapping w)
      = Some (default 0 (get_submission_block h (tx_mapping w0)))) ∧
  (∀ w1 w2, rtc alone (convert, w0) (Done, w1) → rtc alone (take, w1) (Done, w2) →
    ∀ h, h ∈ hs → get_submission_block h (tx_mapping w2) = None) ∧
  (∀ w1 w2, rtc alone (take, w0) (Done, w1) → rtc alone (convert, w1) (Done, w2) →
    ∀ h, h ∈ hs → get_submission_block h (tx_mapping w2) = Some 0).
Proof.
  intros convert take. split_and!.
  - intros cs w h n Hrun.
    destruct (interleaved_invariant (λ w, only_from (original (tx_mapping w0)) (tx_mapping w))
      (offers_from (original (tx_mapping w0))) [convert; take] w0 cs w) as [Ho _];
      [|done|by right|by repeat constructor; set_solver|].
    + intros c w1 c' w' Hw Hc Hs. apply (numbers_step _ (λ _, or_introl eq_refl) _ _ _ _ Hw Hc Hs).
    + apply Ho.
  - eexists. split.
    + etrans; [eapply (interleaved_alone _ 0); [done|apply alone_read]|].
      etrans; [eapply (interleaved_alone _ 1); [done|apply alone_take]|].
      match goal with |- rtc _ (?cs, _) _ => change [Done; Done] with (<[0%nat := Done]> cs) end.
      eapply interleaved_alone; [done|apply alone_write].
    + intros h Hh. simpl. rewrite record_numbers_lookup. by rewrite decide_True.
  - intros w1 w2 H1 H2 h Hh. apply (performs_intro _ _ _ Done_finished (alone_convert hs)) in H1 as ->.
    apply (performs_intro _ _ _ Done_finished (alone_take hs)) in H2 as ->. simpl.
    rewrite take_numbers_lookup. by rewrite decide_True.
  - intros w1 w2 H1 H2 h Hh. apply (performs_intro _ _ _ Done_finished (alone_take hs)) in H1 as ->.
    apply (performs_intro _ _ _ Done_finished (alone_convert hs)) in H2 as ->. simpl.
    rewrite record_numbers_lookup, take_numbers_lookup. by rewrite !decide_True.
Qed.
End properties.

(** ** Witnesses *)

Local Abbreviation sample_world := (mkPoolWorld sample_pool sample_mapping).

Lemma clients_alone_are_the_functions_witness :
  performs (sweep_client (CC := id_check) 202555 500) Done
    (λ w, (handle_kasplex_pool_reorg (BoxError := ()) (CC := id_check) 202555 500 w).2) ∧
  ∃ tries, kept tries = [11; 12] ∧
    rtc alone (BuildNumbers tries [], mkPoolWorld sample_pool (build_mapping PayloadBuilder.sample_world))
      (Done, mkPoolWorld sample_pool (build_mapping sample_build.2)).
Proof.
  destruct (clients_alone_are_the_functions (BoxError := ()) (CC := id_check)
    (PL := PlainPayloads.library) (RT := PlainRpc.raw) (LH := PlainRpc.latest)
    (EC := PlainConfig.eth) (NL := kasplex_next_block_config_laws (EC := PlainConfig.eth))
    (BL := PlainBuilder.laws)
    202555 500 [] (mkSealedBlock (sample_converted 0) 0) (sample_payload 0) (sample_converted 0)
    eq_refl (replicate 5 Byte.x00) 5 5 500 500 ltac:(done) eq_refl
    ltac:(by_evaluation) eq_refl eq_refl) as (H1 & _ & _ & _ & _ & H2).
  split; [exact H1|].
  destruct (H2 (λ _, Ok ()) first_config sample_args (one_cell None)
    (mkPoolWorld sample_pool (build_mapping PayloadBuilder.sample_world)) _ _
    ltac:(vm_compute; reflexivity)) as (tries & _ & Hk & H).
  exists tries. split; [exact Hk|]. apply H. vm_compute. reflexivity.
Defined.

Lemma list_pool_keeps h t (p : ListPool.t) :
  h ∈ pool_hashes p → h ∈ pool_hashes (add_transaction t p).2.
Proof.
  rewrite !ListPool.pool_hashes_list_pool. simpl. unfold ListPool.add.
  case_decide; simpl; set_solver.
Qed.

Lemma list_pool_displaces_none h a b :
  ¬ displaced (T := B256) (P := ListPool.t) h a b.
Proof. intros (x & y & _ & Hd & _). destruct Hd as [cs i t w _ Hin []]. by apply list_pool_keeps. Qed.

(** Transaction 3, of block 450, while the chain goes to 500 and 470 and the number of
    transaction 1 is taken. *)
Lemma live_transaction_survives_interleavings_witness :
  3 ∈ pool_hashes (pool (swept 500 sample_world)).
Proof.
  destruct (live_transaction_survives_interleavings 3 [500; 470]
    [SweepStart 500; SweepStart 470; TakeNumbers [1]] sample_world
    [Done; SweepStart 470; TakeNumbers [1]] (swept 500 sample_world)) as [[H|H] _].
  - intros n [= <-] _. split; [by_evaluation|].
    intros head Hh. repeat (apply elem_of_cons in Hh as [->|Hh]; [by_evaluation|]).
    by apply not_elem_of_nil in Hh.
  - by_evaluation.
  - assert (Hno : ∀ n, (3, n) ∉ @nil (B256 * Z)) by (intros n; apply not_elem_of_nil).
    repeat apply Forall_cons_2; try apply Forall_nil_2; (split; [intros n []%Hno|]);
      [by left|by right; left|done].
  - apply (interleaved_alone [SweepStart 500; SweepStart 470; TakeNumbers [1]] 0
      (SweepStart 500) _ Done); [done|]. apply alone_sweep_start.
  - exact H.
  - destruct (list_pool_displaces_none _ _ _ H).
Defined.

(** Two sweeps: the first to end takes the flag down. *)
Lemma reorg_flag_interleaved_witness :
  ∃ cs w, rtc interleaved ([SweepStart 500; SweepStart 470], sample_world) (cs, w) ∧
    under_way cs ∧ is_reorg_complete (tx_mapping w) = true.
Proof.
  destruct (reorg_flag_interleaved [SweepStart 500; SweepStart 470] sample_world
    ltac:(by repeat constructor) eq_refl) as [_ H].
  destruct (H 0%nat 1%nat 500 470 ltac:(done) eq_refl eq_refl) as (cs & w & Hrun & _ & Hw).
  exists cs, w. split; [exact Hrun|exact Hw].
Defined.

Lemma concurrent_conversion_puts_numbers_back_witness :
  ∃ w, rtc interleaved ([ReadNumbers [2] []; TakeNumbers [2]], sample_world) ([Done; Done], w) ∧
    get_submission_block 2 (tx_mapping w) = Some 500.
Proof.
  destruct (concurrent_conversion_puts_numbers_back [2] sample_world) as (_ & (w & Hrun & H) & _).
  exists w. split; [exact Hrun|]. apply H. left.
Defined.
