(* ===== verification/Schedules.v ===== *)
(** * What holds of every schedule of the clients

    Over the clients of [Interleaving.v]: no schedule runs for ever, no client is
    ever stuck, no number comes from nowhere, and a transaction of the eth namespace
    never expires. *)

From stdpp Require Import prelude gmap list relations.
From Stdlib Require Import ZArith Lia.
From S2P Require Import Prelude Processes Types TxMapping Chainspec TxPool BlockConfig Attributes PayloadBuilder Engine EngineApi Rpc Interleaving EthApi.

(** ** A measure that every step decreases

    A sweep looks at the pool as it is when it takes its copy, so the number of
    calls a client still has to make is not bounded before that.  A measure of two
    parts decreases all the same: first the copies that are still to be taken, then
    the calls left. *)
Section measure.
Context {P T PE : Type} {TP : TransactionPool P T PE}.
Local Abbreviation World := (PoolWorld P).
Local Abbreviation Client := (client T).
Implicit Types (w : World) (c : Client) (cs : list Client).

Definition copies_left c : nat :=
  match c with
  | SweepStart _ => 2
  | SweepSnapshot _ | IncludedSnapshot _ => 1
  | _ => 0
  end.

Definition calls_left c : nat :=
  match c with
  | SweepStart _ | SweepSnapshot _ | IncludedSnapshot _ | Done => 0
  | SweepScan _ todo _ => length todo + 3
  | SweepRemove _ => 2
  | SweepEnd | SubmitToPool _ | IncludedRemove _ => 1
  | SubmitNumber _ _ _ => 2
  | ReadNumbers todo numbers => 2 * length todo + length numbers + 2
  | BuildNumbers todo numbers => 2 * length todo + length numbers + 2
  | WriteNumbers numbers => length numbers + 1
  | TakeNumbers todo => length todo + 1
  end.

Lemma client_step_decreases c w c' w' :
  proc_step c w = Some (c', w') →
  decreases (copies_left c', calls_left c') (copies_left c, calls_left c).
Proof.
  unfold decreases.
  client_cases c; intros E; simplify_eq; simpl; try lia;
    try (match goal with |- context [(0 <? ?n)%nat] => destruct (0 <? n)%nat end; simpl; lia);
    rewrite ?length_app; simpl; lia.
Qed.

(** A client can step unless it is done. *)
Lemma client_step_stuck c w : client_step c w = None ↔ c = Done.
Proof. client_cases c; done. Qed.

Lemma clients_stuck cs w : nf interleaved (cs, w) ↔ Forall (.= Done) cs.
Proof. rewrite interleaved_stuck. apply Forall_iff. intros c. apply client_step_stuck. Qed.
End measure.

(** No step marks a transaction deleted. *)
Lemma client_step_deleted {P T PE} {TP : TransactionPool P T PE} (w : PoolWorld P) (c : client T) c' w' :
  client_step c w = Some (c', w') → deleted (tx_mapping w') = deleted (tx_mapping w).
Proof. client_cases c; intros E; by simplify_eq. Qed.

Section properties.
Context {P T PE : Type} {TP : TransactionPool P T PE} {L : TransactionPoolLaws P T PE}.
Implicit Types (w : PoolWorld P) (cs : list (client T)).

(** C19 Every schedule ends: whatever clients run over a pool and a mapping and however
    their calls interleave, there is no infinite run; a state in which no client can
    make a call is one in which all are done, so none is ever stuck; some schedule
    reaches one; and in each of them the reorg flag is down, if it was at the start. *)
Theorem schedules_end cs w :
  sn interleaved (cs, w) ∧
  (∃ cs' w', rtc interleaved (cs, w) (cs', w') ∧ Forall (.= Done) cs') ∧
  ∀ cs' w', rtc interleaved (cs, w) (cs', w') →
    (nf interleaved (cs', w') ↔ Forall (.= Done) cs') ∧
    (nf interleaved (cs', w') →
     is_reorg_complete (tx_mapping w) = true → is_reorg_complete (tx_mapping w') = true).
Proof.
  split; [by apply (interleaved_sn copies_left calls_left), client_step_decreases|]. split.
  { destruct (interleaved_finishes copies_left calls_left client_step_decreases (cs, w))
      as ([cs' w'] & ? & ?%clients_stuck). by exists cs', w'. }
  intros cs' w' Hrun. split; [apply clients_stuck|].
  rewrite clients_stuck. intros Hd Hdown.
  destruct (is_reorg_complete (tx_mapping w')) eqn:Hf; [done|].
  destruct (run_invariant _ _ _ flag_up_step Hrun) as (i & c & Hi & Hc); [|done|].
  - simpl. by rewrite Hdown.
  - simpl in Hi. by apply (Forall_lookup_1 _ _ _ _ Hd) in Hi as ->.
Qed.

(** C30 No schedule invents a number or marks a transaction deleted: a number the table
    has for a hash after any schedule is 0, or the one the table had for it at the
    start, or one a client of the start was to write for it (a submission of that
    hash, or a conversion or build already under way); the deleted marks are those of
    the start. *)
Theorem numbers_have_a_source cs0 w0 cs w h n
    (Hrun : rtc interleaved (cs0, w0) (cs, w))
    (Hn : get_submission_block h (tx_mapping w) = Some n) :
  (n = 0 ∨ get_submission_block h (tx_mapping w0) = Some n ∨
   ∃ c, c ∈ cs0 ∧ (h, n) ∈ offers c) ∧
  deleted (tx_mapping w) = deleted (tx_mapping w0).
Proof.
  set (Q h n := n = 0 ∨ get_submission_block h (tx_mapping w0) = Some n ∨
    ∃ c, c ∈ cs0 ∧ (h, n) ∈ offers c).
  destruct (interleaved_invariant
    (λ w, only_from Q (tx_mapping w) ∧ deleted (tx_mapping w) = deleted (tx_mapping w0))
    (offers_from Q) cs0 w0 cs w) as [[Hq Hd] _]; [|done|..].
  - clear. intros c w c' w' [Hw Hd] Ho Hs.
    destruct (numbers_step Q (λ _, or_introl eq_refl) w c w' c') as [? ?]; [done..|].
    split; [split; [done|]|done]. rewrite <-Hd. apply (client_step_deleted _ _ _ _ Hs).
  - split; [|done]. intros h' n' H. by right; left.
  - apply Forall_forall. intros c Hc h' n' H. right; right. by exists c.
  - split; [by apply Hq|done].
Qed.
End properties.

(** ** Transactions of the eth namespace

    A transaction no client takes out or is to write a number for other than 0. *)
Definition no_number_for {T} (h : B256) (c : client T) : Prop := ∀ n, (h, n) ∈ offers c → n = 0.
Definition never_removes {T} (h : B256) (c : client T) : Prop :=
  match c with
  | SweepScan _ _ hs | SweepRemove hs | IncludedSnapshot hs | IncludedRemove hs => h ∉ hs
  | _ => True
  end.
Definition heads_of {T} (c : client T) : list Z :=
  match c with SweepStart head | SweepSnapshot head | SweepScan head _ _ => [head] | _ => [] end.

Lemma never_removes_spares {T} h (c : client T) heads :
  (∀ head, head ∈ heads_of c → head ∈ heads) → no_number_for h c → never_removes h c →
  spares h heads c.
Proof.
  intros Hh Hn Hr. split; [intros n ->%Hn Hpos; lia|].
  destruct c; simpl in *; try done; try split; try done; apply Hh; by left.
Qed.

Section eth_transactions.
Context {Ch P T PE Recovered D Cv : Type} {TP : TransactionPool P T PE}.
Context {L : TransactionPoolLaws P T PE} {RT : RawTransactions Recovered T D Cv}.

(** C33 A transaction accepted over [eth_sendRawTransaction] never expires: it gets no
    number.  When the table had none for it before, then under every schedule of sweeps
    to whatever heads, submissions, builds, conversions and validations in which no one
    submits it with a number and no block includes it, its number stays none or 0, and it
    stays in the pool unless the pool itself drops it as it takes in another. *)
Theorem eth_transaction_never_expires raw (w w' : EthWorld Ch P) h cs0 cs w1
    (Hrun : eth_send_raw_transaction (PE := PE) (D := D) (Cv := Cv) raw w = (Ok h, w'))
    (Hnew : get_submission_block h (tx_mapping (pools (api w))) = None)
    (Hnum : Forall (no_number_for h) cs0) (Hrem : Forall (never_removes h) cs0)
    (Hsched : rtc interleaved (cs0, pools (api w')) (cs, w1)) :
  (h ∈ pool_hashes (pool w1) ∨ displaced h (cs0, pools (api w')) (cs, w1)) ∧
  default 0 (get_submission_block h (tx_mapping w1)) = 0.
Proof.
  destruct (eth_send_Ok _ _ _ _ Hrun) as [Hpool Hmap]. split.
  - apply (live_run h (cs0 ≫= heads_of) cs0 (pools (api w')) cs w1); [|done| |done].
    + intros n. by rewrite Hmap, Hnew.
    + apply Forall_forall. intros c Hc. rewrite Forall_forall in Hnum, Hrem.
      apply never_removes_spares; [|by apply Hnum|by apply Hrem].
      intros head Hh. apply list_elem_of_bind. by exists c.
  - destruct (interleaved_invariant
      (λ w, only_from (λ h' n, h' = h → n = 0) (tx_mapping w))
      (offers_from (λ h' n, h' = h → n = 0)) cs0 (pools (api w')) cs w1) as [Ho _]; [|done|..].
    + intros c w2 c' w3 Hw Hc Hs. by apply (numbers_step _ (λ _ _, eq_refl) _ _ _ _ Hw Hc Hs).
    + intros h' n Hh ->. by rewrite Hmap, Hnew in Hh.
    + eapply Forall_impl; [exact Hnum|]. intros c Hc h' n Hn ->. by apply Hc.
    + destruct (get_submission_block h (tx_mapping w1)) as [n|] eqn:En; [exact (Ho h n En eq_refl)|done].
Qed.
End eth_transactions.

(** ** Witnesses

    A sweep while transaction 4 is submitted for block 451 and the number of
    transaction 1 is taken. *)
Definition sample_clients : list (client B256) :=
  [SweepStart 500; SubmitNumber 4 451 4; TakeNumbers [1]].
Definition sample_start : PoolWorld ListPool.t := mkPoolWorld sample_pool sample_mapping.

Lemma schedules_end_witness :
  ∃ cs w, rtc interleaved (sample_clients, sample_start) (cs, w) ∧ Forall (.= Done) cs ∧
    is_reorg_complete (tx_mapping w) = true.
Proof.
  destruct (schedules_end sample_clients sample_start) as (_ & (cs & w & Hrun & Hd) & H).
  exists cs, w. split; [exact Hrun|]. split; [exact Hd|].
  destruct (H cs w Hrun) as [Hnf Hflag]. apply Hflag; [by apply Hnf|reflexivity].
Defined.

Lemma sample_after_submission :
  rtc interleaved (sample_clients, sample_start)
    ([SweepStart 500; SubmitToPool 4; TakeNumbers [1]], on_mapping (insert 4 451) sample_start).
Proof.
  apply (interleaved_alone sample_clients 1 (SubmitNumber 4 451 4) _ (SubmitToPool 4));
    [done|]. apply rtc_once. by constructor.
Qed.

Lemma numbers_have_a_source_witness :
  ∃ c, c ∈ sample_clients ∧ (4, 451) ∈ offers c.
Proof.
  destruct (numbers_have_a_source sample_clients sample_start _ _ 4 451
    sample_after_submission eq_refl) as [[H|[H|H]] _]; [discriminate H|discriminate H|exact H].
Defined.

Lemma eth_transaction_never_expires_witness :
  5 ∈ pool_hashes (pool (swept 9999
    (pools (api (eth_send_raw_transaction (replicate 5 Byte.x00) sample_eth_world).2)))).
Proof.
  destruct (eth_transaction_never_expires (L := ListPool.list_pool_laws) (RT := PlainRpc.raw)
    (replicate 5 Byte.x00) sample_eth_world
    (eth_send_raw_transaction (replicate 5 Byte.x00) sample_eth_world).2 5
    [SweepStart 9999] [Done] (swept 9999
      (pools (api (eth_send_raw_transaction (replicate 5 Byte.x00) sample_eth_world).2))))
    as [[H|H] _].
  - vm_compute. reflexivity.
  - reflexivity.
  - apply Forall_cons_2; [|by apply Forall_nil_2]. intros n Hn. by apply not_elem_of_nil in Hn.
  - by repeat constructor.
  - apply (interleaved_alone [SweepStart 9999] 0 (SweepStart 9999) _ Done); [done|].
    apply alone_sweep_start.
  - exact H.
  - destruct (list_pool_displaces_none _ _ _ H).
Defined.
