(* ===== verification/System.v ===== *)
(** * Properties across components

    A block from its attributes through assembly, conversion to a payload and
    validation; what consensus makes of it; and the submission numbers of its
    transactions on the way. *)

From stdpp Require Import prelude gmap list strings.
From Stdlib Require Import ZArith Lia.
From S2P Require Import Prelude Types TxMapping Chainspec TxPool Treasury EvmWrapper.
From S2P Require Import Consensus BlockConfig BlockExecution Attributes PayloadBuilder.
From S2P Require Import Engine EngineApi Rpc.

(** ** From a sealed block to a payload and back

    A payload of the first version carries the fields of a post-merge header before
    Shanghai; converting it back fills in the constants of the others. *)
Definition v1_header (ommers : B256) (h : Header.t) : Header.t :=
  Header.mk (Header.parent_hash h) ommers (Header.beneficiary h) (Header.state_root h)
    (Header.transactions_root h) (Header.receipts_root h) None (Header.logs_bloom h)
    (Header.timestamp h) (Header.mix_hash h) 0 (Header.base_fee_per_gas h) (Header.number h)
    (Header.gas_limit h) 0 (Header.gas_used h) (Header.extra_data h) None None None None.

Definition payload_v1_law {Tx Receipt Log Sender E R} (RO : Assembler.Roots Tx Receipt Log)
    (PL : PayloadLibrary Tx Sender E R) : Prop :=
  ∀ hash (b : Block.t Tx) fee,
    let h := Block.header b in
    Header.base_fee_per_gas h = Some fee → in_width 64 fee →
    (length (Header.extra_data h) ≤ 32)%nat →
    Header.transactions_root h = Assembler.calculate_transaction_root (Block.transactions b) →
    try_into_block (from_block_unchecked hash b)
    = Ok (Block.mk (v1_header Assembler.EMPTY_OMMER_ROOT_HASH h) (Block.transactions b) [] None) ∧
    PayloadV1.block_hash (from_block_unchecked hash b) = hash.

(** A payload carries the extra data of its block, and does not convert when that is longer
    than a header may have. *)
Definition payload_extra_data_law {Tx Sender E R} (PL : PayloadLibrary Tx Sender E R) : Prop :=
  (∀ hash b, PayloadV1.extra_data (from_block_unchecked hash b) = Header.extra_data (Block.header b)) ∧
  (∀ p, (32 < length (PayloadV1.extra_data p))%nat → ∃ e, try_into_block p = Err e).

Section round_trip.
Context {Spec Tx Receipt Log Sender E R AE : Type}.
Context {RO : Assembler.Roots Tx Receipt Log} {PL : PayloadLibrary Tx Sender E R}.

(** The payload of an assembled block converts back to the block without its list of
    withdrawals. *)
Lemma assembled_payload_converts (env : EvmEnv Spec) ctx txs
    (out : BlockExecutionResult Receipt) root b
    (Hlaw : payload_v1_law RO PL)
    (Hw : Assembler.EMPTY_WITHDRAWALS = EMPTY_WITHDRAWALS)
    (Hb : Assembler.assemble_block (E := AE) env ctx txs out root = Ok b)
    (Hroot : ExecutionCtx.parent_beacon_block_root ctx = None)
    (Hdiff : BlockEnv.difficulty (block_env env) = 0)
    (Hfee : in_width 64 (BlockEnv.basefee (block_env env)))
    (Hextra : (length (ExecutionCtx.extra_data ctx) ≤ 32)%nat) :
  let p := from_block_unchecked (hash_slow (Block.header b)) b in
  ∃ b', try_into_block p = Ok b' ∧ PayloadV1.block_hash p = hash_slow (Block.header b) ∧
    with_empty_withdrawals_root b' = Block.mk (Block.header b) txs [] None ∧
    block_hashes b' = block_hashes b.
Proof.
  cbv zeta. apply Assembler.assemble_Ok in Hb as (_ & _ & ->).
  set (b := Assembler.assembled_block _ _ _ _ _ _ _) in *.
  destruct (Hlaw (hash_slow (Block.header b)) b (BlockEnv.basefee (block_env env)))
    as [Htry Hhash]; [done..|].
  eexists. split; [exact Htry|]. split; [done|]. split; [|done].
  unfold with_empty_withdrawals_root, v1_header, b, Assembler.assembled_block,
    Header.with_withdrawals_root, Block.with_header. simpl. by rewrite Hroot, Hdiff, Hw.
Qed.

(** The payload of an assembled block that was sealed with its own hash, validated. *)
Lemma assembled_payload_run (env : EvmEnv Spec) ctx txs
    (out : BlockExecutionResult Receipt) root b ss st
    (Hlaw : payload_v1_law RO PL)
    (Hw : Assembler.EMPTY_WITHDRAWALS = EMPTY_WITHDRAWALS)
    (Hb : Assembler.assemble_block (E := AE) env ctx txs out root = Ok b)
    (Hroot : ExecutionCtx.parent_beacon_block_root ctx = None)
    (Hdiff : BlockEnv.difficulty (block_env env) = 0)
    (Hfee : in_width 64 (BlockEnv.basefee (block_env env)))
    (Hextra : (length (ExecutionCtx.extra_data ctx) ≤ 32)%nat)
    (Hss : try_recover (Block.mk (Block.header b) txs [] None) = Ok ss) :
  let hash := hash_slow (Block.header b) in
  ensure_well_formed_payload
    (mkEthExecutionData (PayloadV1Variant (from_block_unchecked hash b))) st
  = (Ok (mkRecoveredBlock (mkSealedBlock (Block.mk (Block.header b) txs [] None) hash) ss),
     take_numbers (block_hashes b) st).
Proof.
  destruct (assembled_payload_converts env ctx txs out root b Hlaw Hw Hb Hroot Hdiff Hfee Hextra)
    as (b' & Htry & Hhash & Hblock & Hhs).
  pose proof (ensure_run _ _ st ss Htry) as Hrun. rewrite Hblock, Hhs in Hrun.
  apply Hrun; [by right|done].
Qed.

(** When it is accepted, it is accepted as that block. *)
Lemma assembled_payload_inv (env : EvmEnv Spec) ctx txs
    (out : BlockExecutionResult Receipt) root b r st st'
    (Hlaw : payload_v1_law RO PL)
    (Hw : Assembler.EMPTY_WITHDRAWALS = EMPTY_WITHDRAWALS)
    (Hb : Assembler.assemble_block (E := AE) env ctx txs out root = Ok b)
    (Hroot : ExecutionCtx.parent_beacon_block_root ctx = None)
    (Hdiff : BlockEnv.difficulty (block_env env) = 0)
    (Hfee : in_width 64 (BlockEnv.basefee (block_env env)))
    (Hextra : (length (ExecutionCtx.extra_data ctx) ≤ 32)%nat) :
  let hash := hash_slow (Block.header b) in
  ensure_well_formed_payload (Sender := Sender)
    (mkEthExecutionData (PayloadV1Variant (from_block_unchecked hash b))) st = (Ok r, st') →
  sealed_block r = mkSealedBlock (Block.mk (Block.header b) txs [] None) hash ∧
  st' = take_numbers (block_hashes b) st.
Proof.
  destruct (assembled_payload_converts env ctx txs out root b Hlaw Hw Hb Hroot Hdiff Hfee Hextra)
    as (b' & Htry & _ & Hblock & Hhs).
  intros hash (p & b1 & ss & [= <-] & Hb1 & _ & _ & -> & ->)%ensure_inv.
  fold hash in Htry. rewrite Htry in Hb1. injection Hb1 as <-. by rewrite Hblock, Hhs.
Qed.

(** C11 Round trip: a block the assembler built after the merge, without a beacon root,
    sealed with its own hash and converted to a payload; its transactions keep their
    numbers in the conversion.  With at most 32 bytes of extra data, which the assembler
    does not check, and known signers, payload validation accepts it as a block with the
    same header, hash and transactions, and takes their numbers.  With more extra data
    validation refuses it and leaves every number. *)
Theorem assembled_block_survives_payload (env : EvmEnv Spec) ctx txs
    (out : BlockExecutionResult Receipt) root b ss st
    (Hlaw : payload_v1_law RO PL) (Hlong : payload_extra_data_law PL)
    (Hw : Assembler.EMPTY_WITHDRAWALS = EMPTY_WITHDRAWALS)
    (Hb : Assembler.assemble_block (E := AE) env ctx txs out root = Ok b)
    (Hroot : ExecutionCtx.parent_beacon_block_root ctx = None)
    (Hdiff : BlockEnv.difficulty (block_env env) = 0)
    (Hfee : in_width 64 (BlockEnv.basefee (block_env env)))
    (Hss : try_recover (Block.mk (Block.header b) txs [] None) = Ok ss) :
  let hash := hash_slow (Block.header b) in
  ∃ d st1, block_to_payload (mkSealedBlock b hash) st = (Ok d, st1) ∧
    (∀ h, get_submission_block h st1
      = if decide (h ∈ block_hashes b) then Some (default 0 (get_submission_block h st))
        else get_submission_block h st) ∧
    if decide (length (ExecutionCtx.extra_data ctx) ≤ 32)%nat then
      ∃ st2, ensure_well_formed_payload d st1
        = (Ok (mkRecoveredBlock
                 (mkSealedBlock (Block.mk (Block.header b) txs [] None) hash) ss), st2) ∧
        ∀ h, get_submission_block h st2
          = if decide (h ∈ block_hashes b) then None else get_submission_block h st
    else
      ∃ e, ensure_well_formed_payload (Sender := Sender) d st1
        = (Err (OtherPayload (Conversion e)), st1).
Proof.
  cbv zeta. do 2 eexists. split; [apply block_to_payload_run|].
  split; [intros h; apply record_numbers_lookup|]. case_decide as Hextra.
  - eexists. split; [by eapply assembled_payload_run|].
    intros h. rewrite take_numbers_lookup, record_numbers_lookup. cbn [sealed]. by case_decide.
  - apply Assembler.assemble_Ok in Hb as (_ & _ & Hb).
    destruct (proj2 Hlong (from_block_unchecked (hash_slow (Block.header b)) b)) as [e He].
    { rewrite (proj1 Hlong), Hb. simpl. lia. }
    exists e. by apply ensure_unconverted.
Qed.
End round_trip.

(** ** Attributes and consensus *)

Section attributes.
Context {Chain Spec CSpec Body Receipt Tx Log Withdrawal VE AE : Type}.
Context {EC : EthEvmConfig Chain Spec} {RO : Assembler.Roots Tx Receipt Log}.
Context {V : Validators CSpec Body Receipt VE}.
Implicit Type parent : SealedHeader.

(** The environment a payload of these attributes is built in. *)
Definition environment_of {Rec} chain parent (attrs : BuilderAttributes.t Z Rec) : EvmEnv Spec :=
  let env := eth_next_evm_env chain (sealed_header parent) (next_attributes attrs) in
  mkEvmEnv (BlockEnv.with_basefee (block_env env) (BuilderAttributes.base_fee_per_gas attrs))
    (cfg_env env).

(** What makes a built block acceptable to consensus against its parent: when the
    library's check of hash and number passes, exactly that the attributes' base fee
    is 2000 GWei and their timestamp is not before the parent's. *)
Theorem attributes_decide_acceptance {Rec} (c : KasplexBeaconConsensus CSpec) chain parent
    (attrs : BuilderAttributes.t Z Rec) ctx txs (out : BlockExecutionResult Receipt) root b hash
    (Hlaw : eth_env_law EC)
    (Hb : Assembler.assemble_block (E := AE) (environment_of chain parent attrs) ctx txs out root
          = Ok b)
    (Hlib : validate_against_parent_hash_number (Block.header b) parent = Ok ()) :
  validate_header_against_parent c (mkSealedHeader (Block.header b) hash) parent = Ok () ↔
  BuilderAttributes.base_fee_per_gas attrs = KASPLEX_BASE_FEE ∧
  Header.timestamp (sealed_header parent) ≤ timestamp attrs.
Proof.
  rewrite validate_header_against_parent_Ok. simpl.
  apply Assembler.assemble_Ok in Hb as (_ & _ & ->).
  destruct (eth_next_evm_env_block _ Hlaw chain (sealed_header parent) (next_attributes attrs))
    as (f & E).
  unfold environment_of in *. simpl in *. rewrite E in *. simpl in *.
  split; [intros (_ & Hle & [= Hf]); by split|intros [Hf Hle]].
  split_and!; [done|done|by rewrite Hf].
Qed.

(** The attributes the local builder makes give blocks consensus rejects: they
    carry base fee 0, so the header check of any block assembled for them fails. *)
Theorem local_attributes_give_rejected_blocks {Rec T RlpError : Type}
    (c : KasplexBeaconConsensus CSpec) chain parent
    sha256 keccak256 encode (rlp : Bytes → outcome RlpError (list T * Bytes))
    (recover : T → option Rec) eth_build version attrs ctx txs
    (out : BlockExecutionResult Receipt) root b hash
    (Hattrs : try_new sha256 keccak256 encode rlp recover (sealed_header_hash parent)
                (build_local_attributes eth_build parent) version = Ok attrs)
    (Hb : Assembler.assemble_block (E := AE) (environment_of chain parent attrs) ctx txs out root
          = Ok b) :
  validate_header c (mkSealedHeader (Block.header b) hash) ≠ Ok ().
Proof.
  rewrite validate_header_Ok. intros (_ & _ & _ & _ & _ & _ & Hfee).
  apply Assembler.assemble_Ok in Hb as (_ & _ & ->).
  unfold try_new in Hattrs. destruct (u256_to_u64 _); [|done]. injection Hattrs as <-.
  unfold environment_of in Hfee. simpl in Hfee. discriminate.
Qed.

(** The three timestamp rules are one: a child passes the engine's rule for
    attributes, its rule for blocks and, when everything else is right, consensus
    exactly when its timestamp is not before its parent's. *)
Theorem timestamp_rules_agree (c : KasplexBeaconConsensus CSpec)
    (attr : KasplexPayloadAttributes Withdrawal) (h parent : SealedHeader)
    (Hts : attributes_timestamp attr = Header.timestamp (sealed_header h))
    (Hlib : validate_against_parent_hash_number (sealed_header h) parent = Ok ())
    (Hfee : Header.base_fee_per_gas (sealed_header h) = Some KASPLEX_BASE_FEE) :
  (validate_payload_attributes_against_header attr (sealed_header parent) = Ok () ↔
   validate_header_against_parent c h parent = Ok ()) ∧
  (validate_kasplex_block (sealed_header h) (Header.timestamp (sealed_header parent)) = Ok () ↔
   validate_header_against_parent c h parent = Ok ()).
Proof.
  rewrite validate_header_against_parent_Ok.
  unfold validate_payload_attributes_against_header, validate_kasplex_block. rewrite Hts.
  destruct (Z.ltb_spec (Header.timestamp (sealed_header h))
    (Header.timestamp (sealed_header parent))); split; split; intros; try done;
    destruct_and?; try done; exfalso; lia.
Qed.
End attributes.

(** ** Fees *)

(** The base fee is one number everywhere: the EVM's and consensus's constants
    agree, and a transaction the authenticated endpoint accepts can pay the base
    fee of every header consensus accepts. *)
Theorem accepted_fee_cap_covers_accepted_headers
    {Ch P T PE Recovered D Cv CSpec Body Receipt VE : Type} {TP : TransactionPool P T PE}
    {L : TransactionPoolLaws P T PE} {RT : RawTransactions Recovered T D Cv} {LH : LatestHeader Ch}
    {V : Validators CSpec Body Receipt VE} (c : KasplexBeaconConsensus CSpec)
    raw (w : ApiWorld Ch P) hash w' (h : SealedHeader) fee
    (Hsend : send_raw_transaction (PE := PE) raw w = (Ok hash, w'))
    (Hheader : validate_header c h = Ok ())
    (Hfee : Header.base_fee_per_gas (sealed_header h) = Some fee) :
  fee = Treasury.KASPLEX_BASE_FEE ∧
  ∃ r, recover_raw_transaction raw = Ok r ∧ fee ≤ recovered_max_fee r.
Proof.
  apply validate_header_Ok in Hheader as (_ & _ & _ & _ & _ & _ & H).
  rewrite Hfee in H. injection H as ->. split; [done|].
  destruct (send_Ok _ _ _ _ Hsend) as (r & t & _ & Hr & Hcap & _). by exists r.
Qed.

(** ** Witnesses *)

Lemma plain_payload_v1_law : payload_v1_law PlainMachine.roots PlainPayloads.library.
Proof.
  intros hash b fee h Hfee _ Hextra Hroot. split; [|done].
  unfold try_into_block, from_block_unchecked. simpl. fold h.
  destruct (Z.ltb_spec 32 (Z.of_nat (length (Header.extra_data h)))) as [|_]; [lia|].
  assert (Htx : PlainPayloads.decode <$> (PlainPayloads.encode <$> Block.transactions b)
    = Block.transactions b).
  { rewrite <-list_fmap_compose. rewrite <-(list_fmap_id (Block.transactions b)) at 2.
    apply list_fmap_ext. intros i t _. apply PlainPayloads.decode_encode. }
  rewrite Htx. do 2 f_equal. unfold PlainPayloads.v1_header, v1_header. simpl.
  fold h. rewrite Hfee, Hroot. done.
Qed.

Lemma plain_payload_extra_data_law : payload_extra_data_law PlainPayloads.library.
Proof.
  split; [done|]. intros p Hp. exists "extra data"%string. simpl.
  by rewrite (proj2 (Z.ltb_lt _ _)) by lia.
Qed.

Definition sample_ctx : ExecutionCtx.t := ExecutionCtx.mk 100 None [] (Some []) 0 [].
Definition sample_output : BlockExecutionResult (Z * Z) :=
  mkExecutionResult [(21000, 21000)] [] 21000 0.

(** With 33 bytes of extra data. *)
Definition long_ctx : ExecutionCtx.t := ExecutionCtx.mk 100 None [] (Some []) 0 (replicate 33 Byte.x07).
Definition long_block : Block.t Z :=
  match Assembler.assemble_block (E := string) (R := PlainMachine.roots) BlockExecution.sample_env
      long_ctx [21000] sample_output 5 with
  | Ok b => b
  | _ => sample_block
  end.

Lemma assembled_block_survives_payload_witness :
  (∃ d st1 st2,
    block_to_payload (mkSealedBlock sample_block 1006)
      (mkTxMappingState {[ 21000 := 4 ]} ∅ false) = (Ok d, st1) ∧
    get_submission_block 21000 st1 = Some 4 ∧ get_submission_block 21000 st2 = None ∧
    ∃ r, ensure_well_formed_payload d st1 = (Ok r, st2) ∧
      Block.header (sealed (sealed_block r)) = Block.header sample_block) ∧
  ∃ d st1 e,
    block_to_payload (PL := PlainPayloads.library)
      (mkSealedBlock long_block (hash_slow (PayloadLibrary := PlainPayloads.library) (Block.header long_block)))
      (mkTxMappingState {[ 21000 := 4 ]} ∅ false) = (Ok d, st1) ∧
    ensure_well_formed_payload (Sender := ()) d st1
    = (Err (OtherPayload (Conversion e)), st1).
Proof.
  pose proof (λ ctx b Hb, assembled_block_survives_payload (RO := PlainMachine.roots)
    (PL := PlainPayloads.library) (AE := string) BlockExecution.sample_env ctx [21000]
    sample_output 5 b [()] (mkTxMappingState {[ 21000 := 4 ]} ∅ false)
    plain_payload_v1_law plain_payload_extra_data_law eq_refl Hb) as H.
  split.
  - destruct (H sample_ctx sample_block ltac:(vm_compute; reflexivity) eq_refl eq_refl
      ltac:(vm_compute; by split) eq_refl) as (d & st1 & E1 & Hn1 & E2).
    rewrite decide_True in E2 by (vm_compute; lia). destruct E2 as (st2 & E2 & Hn2).
    exists d, st1, st2. split; [exact E1|]. split; [|split].
    + etrans; [apply (Hn1 21000)|]. vm_compute. reflexivity.
    + etrans; [apply (Hn2 21000)|]. vm_compute. reflexivity.
    + eexists. split; [exact E2|]. reflexivity.
  - destruct (H long_ctx long_block ltac:(vm_compute; reflexivity) eq_refl eq_refl
      ltac:(vm_compute; by split) eq_refl) as (d & st1 & E1 & _ & E2).
    rewrite decide_False in E2 by (vm_compute; lia). destruct E2 as [e E2].
    exists d, st1, e. split; [exact E1|exact E2].
Defined.

(** Attributes with the given base fee, after the parent [sample_header 5]. *)
Definition sample_builder_attributes (fee : Z) : BuilderAttributes.t Z () :=
  BuilderAttributes.mk (Eth.mkBuilderAttributes [] 100 1010 9 8 [] None) 0 9 45000000 1010 8 fee [] [].
Definition sample_parent : SealedHeader := mkSealedHeader (sample_header 5 99 1000) 100.
Definition built_with (attrs : BuilderAttributes.t Z ()) : Block.t Z :=
  Assembler.assembled_block (environment_of (EC := PlainConfig.eth) () sample_parent attrs)
    sample_ctx [21000] sample_output 5 1010 6.
Definition sample_built (fee : Z) : Block.t Z := built_with (sample_builder_attributes fee).

Definition sample_local_builder : BuilderAttributes.t Z () :=
  BuilderAttributes.mk
    (Eth.mkBuilderAttributes (Byte.x02 :: replicate 7 Byte.x01) 100 1010 9 8 [] None)
    0 0 MAXIMUM_GAS_LIMIT_BLOCK 1010 8 0 [] [].

Lemma attributes_decide_acceptance_witness :
  validate_header_against_parent (V := PlainMachine.validators) (mkConsensus ())
    (mkSealedHeader (Block.header (sample_built KASPLEX_BASE_FEE)) 7) sample_parent = Ok () ∧
  validate_header_against_parent (V := PlainMachine.validators) (mkConsensus ())
    (mkSealedHeader (Block.header (sample_built 0)) 7) sample_parent ≠ Ok ().
Proof.
  pose proof (λ fee b Hb, attributes_decide_acceptance (EC := PlainConfig.eth)
    (RO := PlainMachine.roots) (V := PlainMachine.validators) (AE := string) (mkConsensus ()) ()
    sample_parent (sample_builder_attributes fee) sample_ctx [21000] sample_output 5 b 7
    plain_eth_env_law Hb eq_refl) as H.
  split.
  - apply (H KASPLEX_BASE_FEE (sample_built KASPLEX_BASE_FEE) ltac:(vm_compute; reflexivity)).
    split; [reflexivity|vm_compute; congruence].
  - intros [Hfee _]%(H 0 (sample_built 0) ltac:(vm_compute; reflexivity)). discriminate.
Defined.

Lemma local_attributes_give_rejected_blocks_witness :
  validate_header (V := PlainMachine.validators) (mkConsensus ())
    (mkSealedHeader (Block.header (built_with sample_local_builder)) 7) ≠ Ok ().
Proof.
  apply (local_attributes_give_rejected_blocks (EC := PlainConfig.eth)
    (RO := PlainMachine.roots) (V := PlainMachine.validators) (AE := string) (RlpError := ())
    (mkConsensus ()) () sample_parent (λ _, replicate 32 Byte.x01) (λ _, 0) (λ _, [])
    (λ _, Ok ([], [])) (λ _ : (), Some ()) (λ _, Eth.mkAttributes 1010 8 9 None None) Byte.x02
    sample_local_builder sample_ctx [21000] sample_output 5 (built_with sample_local_builder));
    vm_compute; reflexivity.
Defined.

Lemma timestamp_rules_agree_witness :
  validate_header_against_parent (V := PlainMachine.validators) (mkConsensus ())
    (mkSealedHeader (sample_header 6 100 1010) 101) sample_parent = Ok ().
Proof.
  apply (timestamp_rules_agree (V := PlainMachine.validators) (mkConsensus ())
    (sample_kasplex_attributes 0) (mkSealedHeader (sample_header 6 100 1010) 101) sample_parent);
    reflexivity.
Defined.

Lemma accepted_fee_cap_covers_accepted_headers_witness :
  KASPLEX_BASE_FEE = Treasury.KASPLEX_BASE_FEE.
Proof.
  apply (accepted_fee_cap_covers_accepted_headers (L := ListPool.list_pool_laws)
    (RT := PlainRpc.raw) (LH := PlainRpc.latest) (V := PlainMachine.validators) (mkConsensus ())
    (replicate 5 Byte.x00) PlainRpc.world 5 (send_raw_transaction (replicate 5 Byte.x00)
       PlainRpc.world).2 (mkSealedHeader (sample_header 6 100 1010) 101) KASPLEX_BASE_FEE);
    vm_compute; reflexivity.
Defined.
