(* ===== verification/EndToEnd.v ===== *)
(** * From payload attributes to an accepted block

    [kasplex_payload] builds with reth's block builder, which drives the executor and
    the assembler of [BlockExecution.v].  With what reth documents of that builder, a
    block is followed from the attributes it was asked for with to consensus, and to
    the payload the engine hands out and takes back. *)

From stdpp Require Import prelude gmap list strings.
From Stdlib Require Import ZArith Lia.
From S2P Require Import Prelude Types TxMapping Consensus BlockConfig BlockExecution Attributes PayloadBuilder.
From S2P Require Import EvmWrapper Engine System.

(** ** reth's block builder

    [BasicBlockBuilder] owns an executor made for the environment and the context it
    was created with; a transaction it executes is one the executor executes, and its
    block is what the assembler makes of the executor's result and of the environment
    of the executor's EVM. *)
Class BuilderParts (B Spec Provider Tx Block Evm ESpec Receipt Caller : Type) := {
  executor_of : B → Executor.t Evm ESpec Receipt Caller;
  executor_spec : ESpec;
  evm_with_env : Provider → EvmEnv Spec → Evm;
  evm_env_of : Evm → EvmEnv Spec;
  block_of : Block → Block.t Tx;
}.

Class BasicBlockBuilder (B Spec Provider Tx Block PErr Evm ESpec Res Account Receipt Log EvmErr BErr Caller Hook : Type)
    `{BB : BlockBuilder B Spec Provider Tx Block PErr}
    `{M : Executor.Machine Evm ESpec Tx Res Account Receipt EvmErr BErr Caller Hook}
    `{RO : Assembler.Roots Tx Receipt Log}
    `{BP : BuilderParts B Spec Provider Tx Block Evm ESpec Receipt Caller} : Prop := {
  create_parts env parent ctx p :
    executor_of (create_block_builder env parent ctx p)
    = Executor.new (evm_with_env p env) ctx executor_spec;
  pre_execution_parts b b' :
    builder_pre_execution b = (Ok (), b') →
    Executor.apply_pre_execution_changes (executor_of b) = (Ok (), executor_of b');
  execute_parts_Ok tx b b' g :
    execute_transaction tx b = (Ok g, b') →
    Executor.execute_transaction tx (executor_of b) = (Ok g, executor_of b');
  execute_parts_Err tx b b' e :
    execute_transaction tx b = (Err e, b') →
    ∃ e', Executor.execute_transaction tx (executor_of b) = (Err e', executor_of b');
  finish_parts b p blk :
    builder_finish b p = Ok blk → ∃ root,
    Assembler.assemble_block (E := PErr) (evm_env_of (Executor.evm (executor_of b)))
      (Executor.ctx (executor_of b)) (executed b) (Executor.finish (executor_of b)).2 root
    = Ok (block_of blk);
}.

(** The executor's EVM keeps the environment it was made for: a transaction does not
    set it, and a system call puts it back ([EvmWrapper.v]). *)
Class KeepsEnvironment (Spec Evm ESpec Tx Res Account Receipt EvmErr BErr Caller Hook : Type)
    `{M : Executor.Machine Evm ESpec Tx Res Account Receipt EvmErr BErr Caller Hook}
    (env_of : Evm → EvmEnv Spec) : Prop := {
  flag_env f e : env_of (Executor.set_state_clear_flag f e) = env_of e;
  blockhashes_env h ce :
    env_of (Executor.apply_blockhashes_contract_call h ce).2.2 = env_of ce.2;
  beacon_root_env r ce :
    env_of (Executor.apply_beacon_root_contract_call r ce).2.2 = env_of ce.2;
  transact_env tx e : env_of (Executor.transact tx e).2 = env_of e;
  commit_env changes e : env_of (Executor.db_commit changes e) = env_of e;
}.

(** ** The executor keeps its environment and its context *)

Section executor.
Context {Spec Evm ESpec Tx Res Account Receipt EvmErr BErr Caller Hook : Type}.
Context {M : Executor.Machine Evm ESpec Tx Res Account Receipt EvmErr BErr Caller Hook}.
Context {env_of : Evm → EvmEnv Spec}.
Context {KE : KeepsEnvironment Spec Evm ESpec Tx Res Account Receipt EvmErr BErr Caller Hook env_of}.
Implicit Types x y z : Executor.t Evm ESpec Receipt Caller.

Definition same_setting x y : Prop :=
  env_of (Executor.evm y) = env_of (Executor.evm x) ∧ Executor.ctx y = Executor.ctx x.

#[export] Instance same_setting_preorder : PreOrder same_setting.
Proof. split; [by intros x|]. intros x y z [H1 H2] [H3 H4]. split; congruence. Qed.

(** A call on the EVM alone changes nothing else. *)
Lemma on_evm_setting {E A} (m : comp Evm E A) x :
  (∀ e, env_of (m e).2 = env_of e) →
  same_setting x (Executor.on_evm m x).2 ∧
  Executor.gas_used (Executor.on_evm m x).2 = Executor.gas_used x ∧
  Executor.receipts (Executor.on_evm m x).2 = Executor.receipts x.
Proof.
  intros Hm. specialize (Hm (Executor.evm x)). unfold Executor.on_evm, same_setting.
  by destruct (m (Executor.evm x)).
Qed.

(** A system call, too, keeps the rest. *)
Lemma on_system_setting {E A} (m : comp (Caller * Evm) E A) x :
  (∀ ce, env_of (m ce).2.2 = env_of ce.2) →
  same_setting x (Executor.on_system m x).2 ∧
  Executor.gas_used (Executor.on_system m x).2 = Executor.gas_used x ∧
  Executor.receipts (Executor.on_system m x).2 = Executor.receipts x.
Proof.
  intros Hm. specialize (Hm (Executor.system_caller x, Executor.evm x)).
  unfold Executor.on_system, same_setting. by destruct (m _) as [o [c e]].
Qed.

Lemma without_commit_setting tx x :
  same_setting x (Executor.execute_transaction_without_commit tx x).2.
Proof using KE.
  unfold Executor.execute_transaction_without_commit, map_err.
  destruct (on_evm_setting (Executor.transact tx) x (transact_env tx)) as [H _].
  by destruct (Executor.on_evm _ x).
Qed.

Lemma pre_execution_setting x x' :
  Executor.apply_pre_execution_changes x = (Ok (), x') →
  same_setting x x' ∧ Executor.gas_used x' = Executor.gas_used x ∧
  Executor.receipts x' = Executor.receipts x.
Proof using KE.
  unfold Executor.apply_pre_execution_changes. run.
  destruct (u256_to_u64 _) as [n|]; [|done]. run.
  set (y := Executor.with_evm _ x).
  assert (Hy : same_setting x y) by (split; [apply flag_env|done]).
  intros (u & y1 & H1 & H2)%bind_Ok_inv.
  destruct (on_system_setting (Executor.apply_blockhashes_contract_call
    (ExecutionCtx.parent_hash (Executor.ctx x))) y (blockhashes_env _)) as (S1 & G1 & R1).
  rewrite H1 in S1, G1, R1. cbn [snd] in *.
  destruct (on_system_setting (Executor.apply_beacon_root_contract_call
    (ExecutionCtx.parent_beacon_block_root (Executor.ctx x))) y1 (beacon_root_env _))
    as (S2 & G2 & R2).
  rewrite H2 in S2, G2, R2. cbn [snd] in *. split_and!; [|by rewrite G2, G1|by rewrite R2, R1].
  etrans; [exact Hy|]. by etrans.
Qed.

(** A transaction executed with success: the environment stays, the gas is added. *)
Lemma execute_Ok_setting tx x g x' :
  Executor.execute_transaction tx x = (Ok g, x') →
  same_setting x x' ∧ Executor.gas_used x' = Executor.gas_used x ⊞[64] g ∧
  length (Executor.receipts x') = S (length (Executor.receipts x)).
Proof using KE.
  unfold Executor.execute_transaction. intros (out & x1 & H1 & H2)%bind_Ok_inv.
  pose proof (without_commit_setting tx x) as Hset. rewrite H1 in Hset. cbn [snd] in Hset.
  apply Executor.without_commit_keeps in H1 as (Hr & Hg & _).
  unfold Executor.commit_transaction in H2. injection H2 as <- <-. simpl.
  rewrite Hg, Hr, length_app. simpl. split_and!; [|done|lia].
  destruct Hset as [He Hc]. split; [|done]. simpl. by rewrite commit_env.
Qed.

Lemma execute_Err_setting tx x e x' :
  Executor.execute_transaction tx x = (Err e, x') →
  same_setting x x' ∧ Executor.gas_used x' = Executor.gas_used x ∧
  length (Executor.receipts x') = length (Executor.receipts x).
Proof using KE.
  unfold Executor.execute_transaction, mbind, comp_bind.
  pose proof (without_commit_setting tx x) as Hset.
  destruct (Executor.execute_transaction_without_commit tx x) as [[out|e'|] x1] eqn:H1;
    intros [= _ <-].
  apply Executor.without_commit_keeps in H1 as (-> & -> & _). done.
Qed.
End executor.

(** ** A build as a run of the executor *)

Section build.
Context {S C Chain Spec Provider B Tx Block PErr Evm ESpec Res Account Receipt Log EvmErr BErr Caller Hook : Type}.
Context {EC : EthEvmConfig Chain Spec} {chain_of : C → Chain}.
Context {NB : NextBlockConfig S C Spec (PayloadBuilderError PErr)}.
Context {NL : NextBlockConfigLaws S C Chain Spec (PayloadBuilderError PErr) chain_of}.
Context {BB : BlockBuilder B Spec Provider Tx Block PErr}.
Context {BL : BlockBuilderLaws B Spec Provider Tx Block PErr}.
Context {M : Executor.Machine Evm ESpec Tx Res Account Receipt EvmErr BErr Caller Hook}.
Context {RO : Assembler.Roots Tx Receipt Log}.
Context {BP : BuilderParts B Spec Provider Tx Block Evm ESpec Receipt Caller}.
Context {BBB : BasicBlockBuilder B Spec Provider Tx Block PErr Evm ESpec Res Account Receipt Log EvmErr BErr Caller Hook}.
Context {KE : KeepsEnvironment Spec Evm ESpec Tx Res Account Receipt EvmErr BErr Caller Hook evm_env_of}.
Hypothesis evm_with_env_law : ∀ p env, evm_env_of (evm_with_env p env) = env.
Implicit Types (b : B) (attrs : BuilderAttributes.t Z Tx) (parent : SealedHeader).

(** The transactions of a build are the executor's: the setting stays, each included
    transaction adds its gas and one receipt. *)
Lemma builds_executor b tries b' :
  builds b tries b' →
  same_setting (env_of := evm_env_of) (executor_of b) (executor_of b') ∧
  (in_width 64 (Executor.gas_used (executor_of b)) →
   Executor.gas_used (executor_of b')
   = wrap 64 (Executor.gas_used (executor_of b) + sumZ snd (included tries))) ∧
  length (Executor.receipts (executor_of b'))
  = (length (Executor.receipts (executor_of b)) + length (included tries))%nat.
Proof using BBB KE.
  induction 1 as [b|b b1 b2 tx g tries Hx _ IH|b b1 b2 tx e tries _ Hx _ IH].
  - split_and!; [done| |simpl; lia]. intros. simpl. by rewrite Z.add_0_r, wrap_small.
  - apply execute_parts_Ok, execute_Ok_setting in Hx as (Hs & Hg & Hl).
    destruct IH as (IHs & IHg & IHl). change (included ((tx, Some g) :: tries))
      with ((tx, g) :: included tries).
    split_and!; [by etrans| |rewrite IHl, Hl; simpl; lia]. intros _.
    rewrite IHg, Hg by (rewrite Hg; by apply wrap_range). unfold wrapping_add, wrap. simpl.
    rewrite Zplus_mod_idemp_l. f_equal. lia.
  - apply execute_parts_Err in Hx as (e' & Hx). apply execute_Err_setting in Hx as (Hs & Hg & Hl).
    destruct IH as (IHs & IHg & IHl). change (included ((tx, None) :: tries)) with (included tries).
    split_and!; [by etrans| |by rewrite IHl, Hl]. rewrite <-Hg. exact IHg.
Qed.

(** The executor a build begins with. *)
Lemma payload_builder_executor chain parent attrs provider :
  let x := executor_of (payload_builder chain parent attrs provider) in
  evm_env_of (Executor.evm x) = environment_of chain parent attrs ∧
  Executor.ctx x = ExecutionCtx.mk (sealed_header_hash parent) None [] (Some [])
    (default 0 (Header.base_fee_per_gas (sealed_header parent)))
    (BuilderAttributes.extra_data attrs) ∧
  Executor.gas_used x = 0 ∧ Executor.receipts x = [].
Proof using BBB evm_with_env_law.
  intros x. unfold x, payload_builder. rewrite create_parts. simpl. by rewrite evm_with_env_law.
Qed.

(** A finished build, as a call of the assembler, and its fees. *)
Lemma built_block_run state_by_block_hash cfg (args : BuildArguments Tx) w p w' :
  let attrs := attributes args in
  kasplex_payload state_by_block_hash cfg args w = (Ok (Freeze p), w') →
  ∃ tries out root,
    (∃ provider b0 b1, state_by_block_hash (sealed_header_hash (parent_header args)) = Ok provider ∧
       builder_pre_execution (payload_builder (chain_of cfg) (parent_header args) attrs provider)
       = (Ok (), b0) ∧ builds b0 tries b1) ∧
    built_fees p
    = wrap 256 (sumZ (fee_of (BuilderAttributes.base_fee_per_gas attrs)) (included tries)) ∧
    tries.*1 = BuilderAttributes.transactions attrs ∧
    block_transactions (built_block p) = (included tries).*1 ∧
    build_mapping w' = record_numbers (build_mapping w) (hashes (included tries).*1) (build_mapping w) ∧
    result_gas_used out = wrap 64 (sumZ snd (included tries)) ∧
    length (result_receipts out) = length (included tries) ∧
    Assembler.assemble_block (E := PErr) (environment_of (chain_of cfg) (parent_header args) attrs)
      (ExecutionCtx.mk (sealed_header_hash (parent_header args)) None [] (Some [])
        (default 0 (Header.base_fee_per_gas (sealed_header (parent_header args))))
        (BuilderAttributes.extra_data attrs))
      (included tries).*1 out root = Ok (block_of (built_block p)).
Proof using NL BL BBB KE evm_with_env_law.
  intros attrs (provider & b0 & b1 & tries & Hp & Hpre & Ht & Hbs & Hfin & Hblk & _ & Hfees & Hm)%kasplex_payload_Freeze.
  subst attrs.
  destruct (payload_builder_executor (chain_of cfg) (parent_header args) (attributes args) provider)
    as (Henv & Hctx & Hgas & Hrec).
  assert (Hfrom : ∃ provider b0 b1,
    state_by_block_hash (sealed_header_hash (parent_header args)) = Ok provider ∧
    builder_pre_execution (payload_builder (chain_of cfg) (parent_header args) (attributes args)
      provider) = (Ok (), b0) ∧ builds b0 tries b1) by (by exists provider, b0, b1).
  apply pre_execution_parts, (pre_execution_setting (env_of := evm_env_of)) in Hpre
    as ([He0 Hc0] & Hg0 & Hr0).
  apply builds_executor in Hbs as ([He Hc] & Hg & Hr).
  rewrite Hg0, Hgas in Hg. rewrite Hr0, Hrec in Hr.
  pose proof (finish_parts _ _ _ Hfin) as (root & Has).
  exists tries, (Executor.finish (executor_of b1)).2, root.
  rewrite He, He0, Henv, Hc, Hc0, Hctx in Has.
  rewrite <-(finish_transactions _ _ _ Hfin), Hblk in Has. simpl. split_and!; try done.
  by apply Hg.
Qed.

Lemma built_block_assembled state_by_block_hash cfg (args : BuildArguments Tx) w p w' :
  let attrs := attributes args in
  kasplex_payload state_by_block_hash cfg args w = (Ok (Freeze p), w') →
  ∃ tries out root,
    tries.*1 = BuilderAttributes.transactions attrs ∧
    block_transactions (built_block p) = (included tries).*1 ∧
    build_mapping w' = record_numbers (build_mapping w) (hashes (included tries).*1) (build_mapping w) ∧
    result_gas_used out = wrap 64 (sumZ snd (included tries)) ∧
    length (result_receipts out) = length (included tries) ∧
    Assembler.assemble_block (E := PErr) (environment_of (chain_of cfg) (parent_header args) attrs)
      (ExecutionCtx.mk (sealed_header_hash (parent_header args)) None [] (Some [])
        (default 0 (Header.base_fee_per_gas (sealed_header (parent_header args))))
        (BuilderAttributes.extra_data attrs))
      (included tries).*1 out root = Ok (block_of (built_block p)).
Proof using NL BL BBB KE evm_with_env_law.
  intros attrs (tries & out & root & _ & _ & H)%built_block_run. by exists tries, out, root.
Qed.
End build.

(** ** Properties *)

Section properties.
Context {S C Chain Spec Provider B Tx Block PErr Evm ESpec Res Account Receipt Log EvmErr BErr Caller Hook : Type}.
Context {CSpec Body VE Sender E R : Type}.
Context {EC : EthEvmConfig Chain Spec} {chain_of : C → Chain}.
Context {NB : NextBlockConfig S C Spec (PayloadBuilderError PErr)}.
Context {NL : NextBlockConfigLaws S C Chain Spec (PayloadBuilderError PErr) chain_of}.
Context {BB : BlockBuilder B Spec Provider Tx Block PErr}.
Context {BL : BlockBuilderLaws B Spec Provider Tx Block PErr}.
Context {M : Executor.Machine Evm ESpec Tx Res Account Receipt EvmErr BErr Caller Hook}.
Context {RO : Assembler.Roots Tx Receipt Log}.
Context {BP : BuilderParts B Spec Provider Tx Block Evm ESpec Receipt Caller}.
Context {BBB : BasicBlockBuilder B Spec Provider Tx Block PErr Evm ESpec Res Account Receipt Log EvmErr BErr Caller Hook}.
Context {KE : KeepsEnvironment Spec Evm ESpec Tx Res Account Receipt EvmErr BErr Caller Hook evm_env_of}.
Context {V : Validators CSpec Body Receipt VE} {PL : PayloadLibrary Tx Sender E R}.

(** C8 The block of a build is the one its attributes ask for.  It comes after their
    parent, with their timestamp, fee recipient, randomness, gas limit, base fee and
    extra data; its transactions are the attributes' that executed, in order, its
    transactions root is theirs, and its gas is the sum of the gas each used. *)
Theorem built_block_matches_attributes state_by_block_hash cfg (args : BuildArguments Tx) w p w'
    (Hlaw : eth_env_law EC) (Henv : ∀ q env, evm_env_of (evm_with_env q env) = env)
    (Hrun : kasplex_payload state_by_block_hash cfg args w = (Ok (Freeze p), w')) :
  let attrs := attributes args in
  let parent := parent_header args in
  let blk := block_of (built_block p) in
  let h := Block.header blk in
  Header.parent_hash h = sealed_header_hash parent ∧
  Header.number h = Header.number (sealed_header parent) + 1 ∧
  Header.timestamp h = timestamp attrs ∧
  Header.beneficiary h = suggested_fee_recipient attrs ∧
  Header.mix_hash h = prev_randao attrs ∧
  Header.gas_limit h = BuilderAttributes.gas_limit attrs ∧
  Header.base_fee_per_gas h = Some (BuilderAttributes.base_fee_per_gas attrs) ∧
  Header.extra_data h = BuilderAttributes.extra_data attrs ∧
  ∃ tries : list (Tx * option Z), tries.*1 = BuilderAttributes.transactions attrs ∧
    Block.transactions blk = (included tries).*1 ∧
    Header.transactions_root h = Assembler.calculate_transaction_root (Block.transactions blk) ∧
    Header.gas_used h = wrap 64 (sumZ snd (included tries)).
Proof.
  apply (built_block_assembled Henv) in Hrun as (tries & out & root & Ht & _ & _ & Hg & _ & Has).
  apply Assembler.assemble_Ok in Has as (_ & _ & ->). cbv zeta. unfold environment_of.
  destruct (eth_next_evm_env_block _ Hlaw (chain_of cfg) (sealed_header (parent_header args))
    (next_attributes (attributes args))) as (f & ->).
  simpl. do 8 (split; [done|]). by exists tries.
Qed.

(** C2 From attributes to acceptance: a block built for attributes with base fee 2000
    GWei, a timestamp not before the parent's and at most 32 bytes of extra data passes
    consensus on its own and against its parent wherever the library's checks do; sealed
    with its own hash it goes out as a payload with, for each of its transactions, the
    number that had been recorded before the build, and the payload is accepted back as
    the same block. *)
Theorem built_block_is_accepted state_by_block_hash cfg (args : BuildArguments Tx) w p w'
    (c : KasplexBeaconConsensus CSpec) ss
    (Hlaw : eth_env_law EC) (Henv : ∀ q env, evm_env_of (evm_with_env q env) = env)
    (Hv1 : payload_v1_law RO PL) (Hw : Assembler.EMPTY_WITHDRAWALS = EMPTY_WITHDRAWALS)
    (Hommers : Assembler.EMPTY_OMMER_ROOT_HASH = EMPTY_OMMER_ROOT_HASH)
    (Hhash : ∀ tx : Tx, PayloadBuilder.tx_hash tx = Engine.tx_hash tx)
    (Hrun : kasplex_payload state_by_block_hash cfg args w = (Ok (Freeze p), w')) :
  let attrs := attributes args in
  let parent := parent_header args in
  let blk := block_of (built_block p) in
  let h := Block.header blk in
  BuilderAttributes.base_fee_per_gas attrs = KASPLEX_BASE_FEE →
  Header.timestamp (sealed_header parent) ≤ timestamp attrs →
  (length (BuilderAttributes.extra_data attrs) ≤ 32)%nat →
  validate_header_extra_data h 32 = Ok () → validate_header_gas h = Ok () →
  validate_header_base_fee h (chain_spec c) = Ok () →
  validate_against_parent_hash_number h parent = Ok () →
  try_recover (Block.mk h (Block.transactions blk) [] None) = Ok ss →
  validate_header c (mkSealedHeader h (hash_slow h)) = Ok () ∧
  validate_header_against_parent c (mkSealedHeader h (hash_slow h)) parent = Ok () ∧
  ∃ d st1 r st2,
    block_to_payload (mkSealedBlock blk (hash_slow h)) (build_mapping w') = (Ok d, st1) ∧
    (∀ x, x ∈ block_hashes blk → get_submission_block x st1
      = Some (default 0 (get_submission_block x (build_mapping w)))) ∧
    ensure_well_formed_payload d st1 = (Ok r, st2) ∧
    Block.header (sealed (sealed_block r)) = h ∧
    Block.transactions (sealed (sealed_block r)) = Block.transactions blk ∧
    seal_hash (sealed_block r) = hash_slow h.
Proof.
  intros attrs parent blk h Hfee Hts Hextra Hx Hgas Hbf Hlib Hss.
  apply (built_block_assembled Henv) in Hrun as (tries & out & root & _ & Htxs & Hm & _ & _ & Has).
  fold attrs parent blk in Has.
  assert (Hblk : Block.transactions blk = (included tries).*1).
  { by apply Assembler.assemble_Ok in Has as (_ & _ & ->). }
  assert (Hhashes : hashes (included tries).*1 = block_hashes blk).
  { unfold block_hashes, hashes. rewrite Hblk. apply list_fmap_ext. intros i tx _. apply Hhash. }
  destruct (eth_next_evm_env_block _ Hlaw (chain_of cfg) (sealed_header parent)
    (next_attributes attrs)) as (f & Hblockenv).
  assert (Hrules : header_rules c h).
  { eapply assembled_header_rules; [done|exact Has|]. unfold environment_of. rewrite Hblockenv.
    by split_and!. }
  split; [by apply validate_header_Ok|]. split.
  { apply validate_header_against_parent_Ok. split; [done|]. split; [|by apply Hrules].
    simpl. unfold h. apply Assembler.assemble_Ok in Has as (_ & _ & ->).
    unfold environment_of. rewrite Hblockenv. done. }
  do 4 eexists. split; [apply block_to_payload_run|]. split.
  { intros x Hin. rewrite record_numbers_lookup, decide_True, Hm, Hhashes by done.
    by rewrite record_numbers_lookup, decide_True. }
  split.
  { eapply assembled_payload_run; [done..|exact Has|done| | |done|].
    - unfold environment_of. by rewrite Hblockenv.
    - unfold environment_of. rewrite Hblockenv. simpl. rewrite Hfee. by_evaluation.
    - by rewrite <-Hblk. }
  simpl. by rewrite Hblk.
Qed.
(** C15 The block gas limit is left to consensus.  Whether a transaction executes does not
    depend on the gas the block has used, so a build goes on past the limit its attributes
    name; the block's gas is the sum of what its transactions used, modulo [2^64], and the node's
    own header check rejects the block it froze when that is more than the limit. *)
Theorem over_full_block_is_frozen_and_rejected state_by_block_hash cfg (args : BuildArguments Tx)
    w p w' (c : KasplexBeaconConsensus CSpec)
    (Hlaw : eth_env_law EC) (Henv : ∀ q env, evm_env_of (evm_with_env q env) = env)
    (Hgas : header_gas_law V)
    (Hrun : kasplex_payload state_by_block_hash cfg args w = (Ok (Freeze p), w')) :
  let attrs := attributes args in
  let blk := block_of (built_block p) in
  (∀ tx (x y : Executor.t Evm ESpec Receipt Caller), Executor.evm x = Executor.evm y →
     (Executor.execute_transaction_without_commit tx x).1
     = (Executor.execute_transaction_without_commit tx y).1) ∧
  ∃ tries : list (Tx * option Z), tries.*1 = BuilderAttributes.transactions attrs ∧
    Block.transactions blk = (included tries).*1 ∧
    Header.gas_used (Block.header blk) = wrap 64 (sumZ snd (included tries)) ∧
    (BuilderAttributes.gas_limit attrs < wrap 64 (sumZ snd (included tries)) →
     ∀ hash, validate_header c (mkSealedHeader (Block.header blk) hash) ≠ Ok ()).
Proof.
  intros attrs blk. split; [intros tx x y; apply Executor.without_commit_outcome|].
  apply (built_block_assembled Henv) in Hrun as (tries & out & root & Ht & _ & _ & Hg & _ & Has).
  fold attrs blk in Has. exists tries. split; [done|].
  apply Assembler.assemble_Ok in Has as (_ & _ & Hblk). rewrite Hblk. do 2 (split; [done|]).
  intros Hover hash (_ & _ & _ & _ & Hok & _)%validate_header_Ok.
  apply Hgas in Hok. simpl in Hok. unfold environment_of in Hok.
  destruct (eth_next_evm_env_block _ Hlaw (chain_of cfg) (sealed_header (parent_header args))
    (next_attributes attrs)) as (f & Hblockenv).
  rewrite Hblockenv, Hg in Hok. simpl in Hok. fold attrs in Hok. lia.
Qed.
End properties.

(** ** A concrete builder and the witnesses *)

(** A transaction is its gas and its hash, refused when negative; the state is the
    environment alone, and the builder is an executor with what it executed. *)
Module PlainBasic.
#[global] Instance machine : Executor.Machine (EvmEnv ()) () Z Z () (Z * Z) string string () () := {
  block_number _ := 1;
  is_spurious_dragon_active_at_block _ _ := true;
  set_state_clear_flag _ e := e;
  system_caller_new _ := ();
  with_state_hook _ c := c;
  on_state _ _ c := c;
  apply_blockhashes_contract_call _ := mret ();
  apply_beacon_root_contract_call _ := mret ();
  transact tx := if tx <? 0 then fail "gas" else mret (mkResultAndState tx ∅);
  evm_error e _ := e;
  trie_hash tx := tx;
  gas_used_of r := r;
  build_receipt _ tx _ _ total := (tx, total);
  db_commit _ e := e;
}.

Definition t : Type := Executor.t (EvmEnv ()) () (Z * Z) () * list Z.

Definition execute (tx : Z) : comp t BlockExecutionError Z := λ b,
  match Executor.execute_transaction tx b.1 with
  | (Ok g, x) => (Ok g, (x, b.2 ++ [tx]))
  | (Err _, x) => (Err InvalidTx, (x, b.2))
  | (Panicked, x) => (Panicked, (x, b.2))
  end.

Definition prepare : comp t BlockExecutionError () := λ b,
  match Executor.apply_pre_execution_changes b.1 with
  | (Ok _, x) => (Ok (), (x, b.2))
  | (_, x) => (Err InternalExecution, (x, b.2))
  end.

#[global] Instance builder : BlockBuilder t () () Z (Block.t Z) string := {
  create_block_builder env _ ctx _ := (Executor.new env ctx (), []);
  builder_pre_execution := prepare;
  execute_transaction := execute;
  builder_finish b _ :=
    Assembler.assemble_block (Executor.evm b.1) (Executor.ctx b.1) b.2 (Executor.finish b.1).2 5;
  block_transactions := Block.transactions;
  executed := snd;
  tx_hash tx := tx;
  effective_tip_per_gas _ _ := Some 3;
}.

#[global] Instance laws : BlockBuilderLaws t () () Z (Block.t Z) string.
Proof.
  split; simpl; try done.
  - intros b b' o. unfold prepare.
    by destruct (Executor.apply_pre_execution_changes b.1) as [[]]; intros [= _ <-].
  - intros tx b b' g. unfold execute.
    by destruct (Executor.execute_transaction tx b.1) as [[]]; intros [= _ <-].
  - intros tx b b' g. unfold execute.
    by destruct (Executor.execute_transaction tx b.1) as [[]]; intros [= _ <-].
  - by intros b p blk (_ & _ & ->)%Assembler.assemble_Ok.
Qed.

#[global] Instance parts : BuilderParts t () () Z (Block.t Z) (EvmEnv ()) () (Z * Z) () := {
  executor_of := fst;
  executor_spec := ();
  evm_with_env _ env := env;
  evm_env_of := id;
  block_of := id;
}.

#[global] Instance basic :
  BasicBlockBuilder t () () Z (Block.t Z) string (EvmEnv ()) () Z () (Z * Z) () string string () ().
Proof.
  split; simpl; try done.
  - intros b b'. unfold prepare.
    destruct (Executor.apply_pre_execution_changes b.1) as [[[]|e|] x]; by intros [= <-].
  - intros tx b b' g. unfold execute.
    destruct (Executor.execute_transaction tx b.1) as [[]] eqn:E; intros [= <- <-]. done.
  - intros tx b b' e. unfold execute.
    destruct (Executor.execute_transaction tx b.1) as [[]] eqn:E; intros [= <- <-]. by eexists.
  - intros b p blk Hb. by exists 5.
Qed.

#[global] Instance keeps : KeepsEnvironment () (EvmEnv ()) () Z Z () (Z * Z) string string () () id.
Proof. split; try done. intros tx e. simpl. by destruct (tx <? 0). Qed.
End PlainBasic.

(** Transactions 21000, -1 and 50000 after the parent [sample_header 5], of which the
    first has the number 4. *)
Definition sample_request : BuildArguments Z :=
  mkBuildArguments sample_parent
    (BuilderAttributes.mk (Eth.mkBuilderAttributes [Byte.x02] 100 1010 9 8 [] None) 0 9 45000000 1010
       8 KASPLEX_BASE_FEE [21000; -1; 50000] [Byte.x01])
    (λ _, false).
Definition sample_request_world : BuildWorld Cells :=
  mkBuildWorld (one_cell None) (mkTxMappingState {[ 21000 := 4 ]} ∅ false).
Definition sample_run :
    outcome (PayloadBuilderError string) (BuildOutcome (Block.t Z)) * BuildWorld Cells :=
  kasplex_payload (NB := kasplex_next_block_config (Spec := ()) (EC := PlainConfig.eth))
    (BB := PlainBasic.builder) (λ _, Ok ()) first_config sample_request sample_request_world.
Definition sample_frozen : EthBuiltPayload (Block.t Z) :=
  match sample_run.1 with Ok (Freeze p) => p | _ => mkBuiltPayload [] sample_block 0 end.

Definition sample_built_block : Block.t Z := block_of (built_block sample_frozen).

Lemma built_block_matches_attributes_witness :
  Header.number (Block.header sample_built_block) = 6 ∧
  ∃ tries, tries.*1 = [21000; -1; 50000] ∧
    Block.transactions sample_built_block = (included tries).*1.
Proof.
  destruct (built_block_matches_attributes (EC := PlainConfig.eth)
    (NL := kasplex_next_block_config_laws (EC := PlainConfig.eth)) (BL := PlainBasic.laws)
    (RO := PlainMachine.roots) (BBB := PlainBasic.basic) (KE := PlainBasic.keeps)
    (λ _, Ok ()) first_config sample_request sample_request_world sample_frozen sample_run.2
    plain_eth_env_law ltac:(done) ltac:(vm_compute; reflexivity))
    as (_ & Hnum & _ & _ & _ & _ & _ & _ & tries & Ht & Hb & _).
  split; [etrans; [exact Hnum|vm_compute; reflexivity]|].
  exists tries. split; [exact Ht|exact Hb].
Defined.

Lemma built_block_is_accepted_witness :
  validate_header (V := PlainMachine.validators) (mkConsensus ())
    (mkSealedHeader (Block.header sample_built_block) 1006) = Ok () ∧
  ∃ d st1, block_to_payload (mkSealedBlock sample_built_block 1006)
      (build_mapping sample_run.2) = (Ok d, st1) ∧
    get_submission_block 21000 st1 = Some 4.
Proof.
  pose proof (built_block_is_accepted (EC := PlainConfig.eth)
    (NL := kasplex_next_block_config_laws (EC := PlainConfig.eth)) (BL := PlainBasic.laws)
    (RO := PlainMachine.roots) (BBB := PlainBasic.basic) (KE := PlainBasic.keeps)
    (V := PlainMachine.validators) (PL := PlainPayloads.library)
    (λ _, Ok ()) first_config sample_request sample_request_world sample_frozen sample_run.2
    (mkConsensus ()) [(); ()] plain_eth_env_law (λ _ _, eq_refl) plain_payload_v1_law
    eq_refl eq_refl (λ _, eq_refl) ltac:(vm_compute; reflexivity)) as H.
  cbv zeta in H. unfold sample_built_block.
  assert (Hhash : hash_slow (Block.header (block_of (built_block sample_frozen))) = 1006)
    by (vm_compute; reflexivity).
  rewrite Hhash in H.
  destruct H as (H1 & _ & d & st1 & r & st2 & Hd & Hn & _);
    [vm_compute; reflexivity|by_evaluation|by_evaluation|vm_compute; reflexivity..|].
  split; [exact H1|]. exists d, st1. split; [exact Hd|].
  etrans; [apply Hn; by_evaluation|vm_compute; reflexivity].
Defined.

(** Two transactions that fit a block of 45 million gas one by one but not together. *)
Definition greedy_request : BuildArguments Z :=
  mkBuildArguments sample_parent
    (BuilderAttributes.mk (Eth.mkBuilderAttributes [Byte.x02] 100 1010 9 8 [] None) 0 9 45000000 1010
       8 KASPLEX_BASE_FEE [30000000; 30000000] [])
    (λ _, false).
Definition greedy_run :
    outcome (PayloadBuilderError string) (BuildOutcome (Block.t Z)) * BuildWorld Cells :=
  kasplex_payload (NB := kasplex_next_block_config (Spec := ()) (EC := PlainConfig.eth))
    (BB := PlainBasic.builder) (λ _, Ok ()) first_config greedy_request sample_request_world.
Definition greedy_frozen : EthBuiltPayload (Block.t Z) :=
  match greedy_run.1 with Ok (Freeze p) => p | _ => mkBuiltPayload [] sample_block 0 end.

Lemma over_full_block_is_frozen_and_rejected_witness :
  greedy_run.1 = Ok (Freeze greedy_frozen) ∧
  validate_header (V := PlainMachine.validators) (mkConsensus ())
    (mkSealedHeader (Block.header (block_of (built_block greedy_frozen))) 7) ≠ Ok ().
Proof.
  split; [vm_compute; reflexivity|].
  destruct (over_full_block_is_frozen_and_rejected (EC := PlainConfig.eth)
    (NL := kasplex_next_block_config_laws (EC := PlainConfig.eth)) (BL := PlainBasic.laws)
    (RO := PlainMachine.roots) (BBB := PlainBasic.basic) (KE := PlainBasic.keeps)
    (V := PlainMachine.validators)
    (λ _, Ok ()) first_config greedy_request sample_request_world greedy_frozen greedy_run.2
    (mkConsensus ()) plain_eth_env_law (λ _ _, eq_refl) PlainMachine.gas_rule
    ltac:(vm_compute; reflexivity)) as (_ & tries & _ & _ & Hg & H).
  apply H. rewrite <-Hg. vm_compute. reflexivity.
Defined.
