(* ===== verification/BlockFees.v ===== *)
(** * Where the fees of a block go

    The payload builder adds up the tips of the transactions it includes and the fee handler
    of the EVM pays each to the beneficiary, with the base fee to the treasury.  The two
    count the same. *)

From stdpp Require Import prelude gmap list strings.
From Stdlib Require Import ZArith Lia.
From S2P Require Import Prelude Types TxMapping Chainspec Treasury EvmHandler Consensus BlockConfig.
From S2P Require Import BlockExecution Attributes PayloadBuilder EvmWrapper System EndToEnd.

Section fees.
Context {S C Chain Spec Prov B Tx Block PErr Evm ESpec Res Account Receipt Log EvmErr BErr Caller Hook : Type}.
Context {EC : EthEvmConfig Chain Spec} {chain_of : C → Chain}.
Context {NB : NextBlockConfig S C Spec (PayloadBuilderError PErr)}.
Context {NL : NextBlockConfigLaws S C Chain Spec (PayloadBuilderError PErr) chain_of}.
Context {BB : BlockBuilder B Spec Prov Tx Block PErr}.
Context {BL : BlockBuilderLaws B Spec Prov Tx Block PErr}.
Context {M : Executor.Machine Evm ESpec Tx Res Account Receipt EvmErr BErr Caller Hook}.
Context {RO : Assembler.Roots Tx Receipt Log}.
Context {BP : BuilderParts B Spec Prov Tx Block Evm ESpec Receipt Caller}.
Context {BBB : BasicBlockBuilder B Spec Prov Tx Block PErr Evm ESpec Res Account Receipt Log EvmErr BErr Caller Hook}.
Context {KE : KeepsEnvironment Spec Evm ESpec Tx Res Account Receipt EvmErr BErr Caller Hook evm_env_of}.
Context {TxEnv TxError J Info DbError Cfg : Type}.
Context {TE : TransactionEnv TxEnv TxError} {JO : Journal J Info DbError} {JL : JournalLaws J Info DbError}.
(** A transaction as the EVM has it ([FromRecoveredTx]), the chain's configuration, and the
    reading of addresses. *)
Variables (tx_env : Tx → TxEnv) (chain_id : Z) (chain_cfg : Cfg).
Variable address_from_str : string → option Address.
Implicit Types (attrs : BuilderAttributes.t Z Tx) (j : J).

(** What the handler sees when it runs a transaction of the block. *)
Definition handler_env attrs (tx : Tx) : HandlerEnv TxEnv Cfg :=
  mkHandlerEnv _ _ (suggested_fee_recipient attrs) (BuilderAttributes.base_fee_per_gas attrs) chain_id
    chain_cfg (tx_env tx).
Local Abbreviation price attrs tx :=
  (effective_gas_price (tx_env tx) (BuilderAttributes.base_fee_per_gas attrs)).
Local Abbreviation treasury := (get_treasury_address address_from_str chain_id).
Local Abbreviation beneficiary attrs := (suggested_fee_recipient attrs).

(** The transactions of a list that execute from [b] on, each with its gas. *)
Fixpoint executing (b : B) (txs : list Tx) : list (Tx * Z) :=
  match txs with
  | [] => []
  | tx :: txs =>
      match PayloadBuilder.execute_transaction tx b with
      | (Ok gas, b') => (tx, gas) :: executing b' txs
      | (_, b') => executing b' txs
      end
  end.

Lemma builds_executing (b b' : B) (tries : list (Tx * option Z)) :
  builds b tries b' → included tries = executing b tries.*1.
Proof.
  induction 1 as [b|b b1 b2 tx g tries Hx _ IH|b b1 b2 tx e tries _ Hx _ IH]; simpl; [done|..];
    rewrite Hx; simpl; unfold included in *; simpl; by rewrite IH.
Qed.

(** The rewards of a block's transactions, each with the gas it used, and what they bring
    the beneficiary and the treasury.  The rest of the execution (deductions, calls,
    reimbursements) comes in between and may change the journal in any way. *)
Inductive rewards attrs : J → list (Tx * Z) → Z → Z → J → Prop :=
| rewards_nil j : rewards attrs j [] 0 0 j
| rewards_other j j' txs to_beneficiary to_treasury j'' :
    rewards attrs j' txs to_beneficiary to_treasury j'' →
    rewards attrs j txs to_beneficiary to_treasury j''
| rewards_tx j gas tx j' txs to_beneficiary to_treasury j'' :
    fees_in_range (handler_env attrs tx) gas →
    (∀ a, account_balance a j + price attrs tx * tx_gas_limit (tx_env tx) < 2 ^ 256) →
    reward_beneficiary address_from_str (handler_env attrs tx) gas j = (Ok (), j') →
    rewards attrs j' txs to_beneficiary to_treasury j'' →
    rewards attrs j ((tx, gas_used gas) :: txs)
      (account_balance (beneficiary attrs) j' - account_balance (beneficiary attrs) j
       + to_beneficiary)
      (account_balance treasury j' - account_balance treasury j + to_treasury) j''.

(** One reward. *)
Lemma reward_income attrs gas tx j j' :
  beneficiary attrs ≠ treasury →
  fees_in_range (handler_env attrs tx) gas →
  (∀ a, account_balance a j + price attrs tx * tx_gas_limit (tx_env tx) < 2 ^ 256) →
  reward_beneficiary address_from_str (handler_env attrs tx) gas j = (Ok (), j') →
  let base_fee := BuilderAttributes.base_fee_per_gas attrs in
  base_fee ≤ price attrs tx ∧
  account_balance (beneficiary attrs) j' - account_balance (beneficiary attrs) j
  = (price attrs tx - base_fee) * gas_used gas ∧
  account_balance treasury j' - account_balance treasury j = base_fee * gas_used gas.
Proof using JL.
  intros Hne Hr Hfit Hrun base_fee. destruct (fee_amounts _ _ Hr) as (Et & Eb & _).
  destruct Hr as [? ? Hlim _ Href Hbf _]. simpl in *. fold base_fee in Hbf, Et, Eb, Hfit |- *.
  set (price := effective_gas_price (tx_env tx) base_fee) in *.
  assert (0 ≤ gas_used gas ≤ tx_gas_limit (tx_env tx)) as Hu by (unfold gas_used; lia).
  assert (0 ≤ (price - base_fee) * gas_used gas) by nia.
  assert (0 ≤ base_fee * gas_used gas) by nia.
  assert (Hb : ∀ a, account_balance a j + (price - base_fee) * gas_used gas
    + base_fee * gas_used gas < 2 ^ 256) by (intros a; specialize (Hfit a); nia).
  pose proof (reward_Ok _ _ _ _ _ Hrun) as Hcr. rewrite Et, Eb in Hcr. simpl in Hcr.
  specialize (Hcr ltac:(done) ltac:(done)).
  specialize (Hcr ltac:(specialize (Hb (beneficiary attrs)); lia) (Hb treasury)).
  rewrite !Hcr. split; [lia|].
  repeat case_decide; try done; try (by destruct Hne); lia.
Qed.

(** All of them. *)
Lemma rewards_income attrs j txs to_beneficiary to_treasury j' :
  beneficiary attrs ≠ treasury →
  (∀ tx, let base_fee := BuilderAttributes.base_fee_per_gas attrs in
     base_fee ≤ effective_gas_price (tx_env tx) base_fee →
     effective_tip_per_gas tx base_fee = Some (effective_gas_price (tx_env tx) base_fee - base_fee)) →
  rewards attrs j txs to_beneficiary to_treasury j' →
  to_beneficiary = sumZ (fee_of (BuilderAttributes.base_fee_per_gas attrs)) txs ∧
  to_treasury = BuilderAttributes.base_fee_per_gas attrs * sumZ snd txs.
Proof using JL.
  intros Hne Htip.
  induction 1 as [j|j j1 txs tb tt j' _ IH|j gas tx j1 txs tb tt j' Hr Hfit Hrun _ [-> ->]];
    [simpl; lia|done|].
  destruct (reward_income _ _ _ _ _ Hne Hr Hfit Hrun) as (Hle & -> & ->).
  simpl. unfold fee_of at 2. simpl. rewrite (Htip tx Hle). simpl. lia.
Qed.

(** ** Properties *)

(** C10 The fees of a payload are the income of its beneficiary.  Whatever else happens in
    the journal while a built block is executed, the rewards of its transactions bring the
    beneficiary of its attributes exactly the fees the payload reports (modulo [2^256]), and
    the treasury the base fee on the gas the transactions used, which is the gas of the
    header (modulo [2^64]); the two are different accounts. *)
Theorem payload_fees_are_beneficiary_income state_by_block_hash cfg (args : BuildArguments Tx) w p w'
    (Henv : ∀ (q : Prov) env, evm_env_of (evm_with_env q env) = env)
    (Hrun : kasplex_payload state_by_block_hash cfg args w = (Ok (Freeze p), w')) :
  let attrs := attributes args in
  let base_fee := BuilderAttributes.base_fee_per_gas attrs in
  (∀ tx, base_fee ≤ effective_gas_price (tx_env tx) base_fee →
     effective_tip_per_gas tx base_fee
     = Some (effective_gas_price (tx_env tx) base_fee - base_fee)) →
  beneficiary attrs ≠ treasury →
  ∃ provider b0,
    state_by_block_hash (sealed_header_hash (parent_header args)) = Ok provider ∧
    builder_pre_execution (payload_builder (chain_of cfg) (parent_header args) attrs provider)
    = (Ok (), b0) ∧
    let txs := executing b0 (BuilderAttributes.transactions attrs) in
    Block.transactions (block_of (built_block p)) = txs.*1 ∧
    Header.gas_used (Block.header (block_of (built_block p))) = wrap 64 (sumZ snd txs) ∧
    ∀ j to_beneficiary to_treasury j', rewards attrs j txs to_beneficiary to_treasury j' →
      built_fees p = wrap 256 to_beneficiary ∧
      to_treasury = base_fee * sumZ snd txs.
Proof.
  intros attrs base_fee Htip Hne.
  apply (built_block_run Henv) in Hrun as (tries & out & root & Hfrom & Hfees & Ht & _ & _ & Hg & _ & Has).
  destruct Hfrom as (provider & b0 & b1 & Hp & Hpre & Hbs). exists provider, b0.
  do 2 (split; [done|]). subst attrs. rewrite <-Ht, <-(builds_executing _ _ _ Hbs). cbv zeta.
  apply Assembler.assemble_Ok in Has as (_ & _ & ->). do 2 (split; [done|]). intros j tb tt j' Hrewards.
  destruct (rewards_income _ _ _ _ _ _ Hne Htip Hrewards) as [-> ->]. done.
Qed.
End fees.

(** ** Witness *)

(** Every transaction of [PlainBasic] pays the tip 3 its builder counts. *)
Definition plain_tx_env (tx : Z) : Ledger.tx :=
  Ledger.mkTx 1 true 7 50000 (Consensus.KASPLEX_BASE_FEE + 3) 0.
Definition fees_before : Ledger.t := Ledger.mkLedger {[ 1 := 10 ^ 18 ]} ∅.
Definition reward_of (gas : Z) (j : Ledger.t) : Ledger.t :=
  (reward_beneficiary read_address
     (handler_env plain_tx_env 167012 () (attributes sample_request) 0)
     (mkGas gas (50000 - gas) 0) j).2.
Definition fees_after : Ledger.t := reward_of 50000 (reward_of 21000 fees_before).

Lemma plain_range gas :
  0 ≤ gas ≤ 50000 →
  fees_in_range (handler_env plain_tx_env 167012 () (attributes sample_request) 0)
    (mkGas gas (50000 - gas) 0).
Proof. intros. split; simpl; unfold in_width, Consensus.KASPLEX_BASE_FEE; lia. Qed.

Lemma sample_rewards : ∃ to_beneficiary to_treasury,
  rewards plain_tx_env 167012 () read_address (attributes sample_request)
    fees_before [(21000, 21000); (50000, 50000)] to_beneficiary to_treasury fees_after.
Proof.
  do 2 eexists.
  eapply (rewards_tx _ _ _ _ _ _ (mkGas 21000 29000 0) 21000 (reward_of 21000 fees_before));
    [by apply plain_range|fits|vm_compute; reflexivity|].
  eapply (rewards_tx _ _ _ _ _ _ (mkGas 50000 0 0) 50000 fees_after);
    [by apply (plain_range 50000)|fits|vm_compute; reflexivity|].
  constructor.
Qed.

Lemma payload_fees_are_beneficiary_income_witness :
  ∃ to_beneficiary to_treasury,
    rewards plain_tx_env 167012 () read_address (attributes sample_request)
      fees_before [(21000, 21000); (50000, 50000)] to_beneficiary to_treasury fees_after ∧
    wrap 256 to_beneficiary = 3 * 71000 ∧ to_treasury = Consensus.KASPLEX_BASE_FEE * 71000.
Proof.
  destruct sample_rewards as (tb & tt & Hr). exists tb, tt. split; [exact Hr|].
  destruct (payload_fees_are_beneficiary_income (EC := PlainConfig.eth)
    (NL := kasplex_next_block_config_laws (EC := PlainConfig.eth)) (BL := PlainBasic.laws)
    (RO := PlainMachine.roots) (BBB := PlainBasic.basic) (KE := PlainBasic.keeps)
    (JL := Ledger.laws) plain_tx_env 167012 () read_address
    (λ _, Ok ()) first_config sample_request sample_request_world sample_frozen sample_run.2
    (λ _ _, eq_refl) ltac:(vm_compute; reflexivity) ltac:(by intros tx _) ltac:(by_evaluation))
    as (provider & b0 & _ & Hpre & _ & _ & H).
  destruct provider. vm_compute in Hpre. injection Hpre as <-.
  destruct (H _ _ _ _ Hr) as [Hb Ht].
  split; [rewrite <-Hb; vm_compute; reflexivity|rewrite Ht; vm_compute; reflexivity].
Defined.
