(* ===== verification/Production.v ===== *)
(** * A node that builds its own chain

    One block after the other, each built on the block before: what holds along a chain
    of builds by [kasplex_payload], whatever attempts fail and whatever other clients do
    to the mapping in between. *)

From stdpp Require Import prelude gmap list strings.
From Stdlib Require Import ZArith Lia.
From S2P Require Import Prelude Types TxMapping Consensus BlockConfig BlockExecution Attributes PayloadBuilder.
From S2P Require Import EvmWrapper Engine System EndToEnd.

(** What reth documents of the checks a header goes through: at most that much extra data,
    gas within the limit and the limit within its maximum, a base fee, and the number and
    hash of the parent. *)
Record shared_checks_law {Spec Body Receipt E} (V : Validators Spec Body Receipt E) : Prop := {
  extra_data_check h n :
    validate_header_extra_data h n = Ok () ↔ Z.of_nat (length (Header.extra_data h)) ≤ n;
  gas_check h :
    validate_header_gas h = Ok () ↔
    Header.gas_used h ≤ Header.gas_limit h ≤ MAXIMUM_GAS_LIMIT_BLOCK;
  base_fee_check h spec : is_Some (Header.base_fee_per_gas h) → validate_header_base_fee h spec = Ok ();
  parent_check h p :
    validate_against_parent_hash_number h p = Ok () ↔
    Header.number h = Header.number (sealed_header p) + 1 ∧
    Header.parent_hash h = sealed_header_hash p;
}.

Section production.
Context {S C Chain Spec Provider B Tx Block PErr Evm ESpec Res Account Receipt Log EvmErr BErr Caller Hook : Type}.
Context {CSpec Body VE Sender E R : Type}.
Context {EC : EthEvmConfig Chain Spec} {chain_of : C → Chain}.
Context {NB : NextBlockConfig S C Spec (PayloadBuilderError PErr)}.
Context {NL : NextBlockConfigLaws S C Chain Spec (PayloadBuilderError PErr) chain_of}.
Context {BB : BlockBuilder B Spec Provider Tx Block PErr}.
Context {BL : BlockBuilderLaws B Spec Provider Tx Block PErr}.
Context {M : Executor.Machine Evm ESpec Tx Res Account Receipt EvmErr BErr Caller Hook}.
Context {RO : Assembler.Roots Tx Receipt Log}.
Context {BP : BuilderParts B Spec Provider Tx Block Evm ESpec Receipt Caller}.
Context {BBB : BasicBlockBuilder B Spec Provider Tx Block PErr Evm ESpec Res Account Receipt Log EvmErr BErr Caller Hook}.
Context {KE : KeepsEnvironment Spec Evm ESpec Tx Res Account Receipt EvmErr BErr Caller Hook evm_env_of}.
Context {V : Validators CSpec Body Receipt VE} {PL : PayloadLibrary Tx Sender E R}.
Variable cfg : C.
Implicit Types (head : SealedHeader) (w : BuildWorld S) (b : Block.t Tx).
Local Abbreviation Attrs := (BuilderAttributes.t Z Tx).
Implicit Type attrs : Attrs.

(** A block sealed with the hash of its header. *)
Definition seal b : SealedHeader := mkSealedHeader (Block.header b) (hash_slow (Block.header b)).

(** What the attributes of the next block have to be, and its gas. *)
Definition valid_next head attrs : Prop :=
  BuilderAttributes.base_fee_per_gas attrs = KASPLEX_BASE_FEE ∧
  Header.timestamp (sealed_header head) ≤ timestamp attrs ∧
  (length (BuilderAttributes.extra_data attrs) ≤ 32)%nat.
Definition gas_within b : Prop :=
  Header.gas_used (Block.header b) ≤ Header.gas_limit (Block.header b) ≤ MAXIMUM_GAS_LIMIT_BLOCK.

(** The blocks built one on the other from [head], with their attributes.  Builds that
    end otherwise, for any parent, and the other clients of the mapping come in between. *)
Inductive produces : SealedHeader → BuildWorld S → list (Attrs * Block.t Tx) → BuildWorld S → Prop :=
| produces_nil head w : produces head w [] w
| produces_block state_by_block_hash args head w p w' bs w'' :
    parent_header args = head →
    kasplex_payload state_by_block_hash cfg args w = (Ok (Freeze p), w') →
    produces (seal (block_of (built_block p))) w' bs w'' →
    produces head w ((attributes args, block_of (built_block p)) :: bs) w''
| produces_other state_by_block_hash args o head w w' bs w'' :
    kasplex_payload state_by_block_hash cfg args w = (o, w') →
    (∀ p, o ≠ Ok (Freeze p)) →
    produces head w' bs w'' → produces head w bs w''
| produces_mapping f head w bs w'' :
    produces head (on_build_mapping f w) bs w'' → produces head w bs w''.

(** The block asked for by [attrs] after [head]. *)
Definition asked_for head attrs b : Prop :=
  let h := Block.header b in
  Header.parent_hash h = sealed_header_hash head ∧
  Header.number h = Header.number (sealed_header head) + 1 ∧
  Header.timestamp h = timestamp attrs ∧
  Header.beneficiary h = suggested_fee_recipient attrs ∧
  Header.mix_hash h = prev_randao attrs ∧
  Header.gas_limit h = BuilderAttributes.gas_limit attrs ∧
  Header.base_fee_per_gas h = Some (BuilderAttributes.base_fee_per_gas attrs) ∧
  Header.extra_data h = BuilderAttributes.extra_data attrs ∧
  Block.transactions b `sublist_of` BuilderAttributes.transactions attrs.

Section links.
Hypothesis eth_law : eth_env_law EC.
Hypothesis evm_law : ∀ (q : Provider) env, evm_env_of (evm_with_env q env) = env.
Hypothesis ommers_law : Assembler.EMPTY_OMMER_ROOT_HASH = EMPTY_OMMER_ROOT_HASH.
Hypothesis checks_law : shared_checks_law V.

Lemma included_sublist (tries : list (Tx * option Z)) : (included tries).*1 `sublist_of` tries.*1.
Proof.
  induction tries as [|[tx [g|]] tries IH]; simpl; [done|by apply sublist_skip|by apply sublist_cons].
Qed.

(** One link: the block is the one asked for, and consensus accepts it exactly when its
    attributes and its gas are right. *)
Lemma link state_by_block_hash args w p w' (c : KasplexBeaconConsensus CSpec) :
  let b := block_of (built_block p) in
  kasplex_payload state_by_block_hash cfg args w = (Ok (Freeze p), w') →
  asked_for (parent_header args) (attributes args) b ∧
  (validate_header c (seal b) = Ok () ∧
   validate_header_against_parent c (seal b) (parent_header args) = Ok () ↔
   valid_next (parent_header args) (attributes args) ∧ gas_within b).
Proof using BL BBB KE NL eth_law evm_law ommers_law checks_law.
  intros b Hrun.
  apply (built_block_assembled evm_law) in Hrun as (tries & out & root & Ht & _ & _ & _ & _ & Has).
  fold b in Has.
  destruct (eth_next_evm_env_block _ eth_law (chain_of cfg) (sealed_header (parent_header args))
    (next_attributes (attributes args))) as (f & Henv).
  assert (Hasked : asked_for (parent_header args) (attributes args) b).
  { apply Assembler.assemble_Ok in Has as (_ & _ & ->). unfold asked_for, environment_of.
    rewrite Henv. split_and!; try done. simpl. rewrite <-Ht. apply included_sublist. }
  split; [done|]. destruct Hasked as (Hp & Hn & Htime & _ & _ & _ & Hbf & Hex & _).
  rewrite validate_header_Ok, validate_header_against_parent_Ok. cbn [sealed_header seal].
  rewrite (assembled_header_rules c _ _ _ _ _ _ ommers_law Has). unfold environment_of. rewrite Henv.
  rewrite (extra_data_check _ checks_law), (gas_check _ checks_law), (parent_check _ checks_law).
  rewrite Htime, Hbf, Hex. unfold valid_next, gas_within. simpl.
  pose proof (base_fee_check _ checks_law (Block.header b) (chain_spec c)) as Hfee.
  rewrite Hbf in Hfee. specialize (Hfee ltac:(by eexists)).
  assert (∀ x, Some x = Some KASPLEX_BASE_FEE ↔ x = KASPLEX_BASE_FEE) as -> by naive_solver.
  assert (∀ n : nat, Z.of_nat n ≤ 32 ↔ (n ≤ 32)%nat) as -> by lia. tauto.
Qed.
End links.

(** ** Properties *)

(** C9 A node's own chain.  Blocks built one on the other, whatever builds failed and
    whatever was done to the mapping in between, count up from the head, each names the
    hash of the one before, and each has what its own attributes ask for and nothing of
    another build's.  Consensus accepts all of them, header by header and link by link,
    exactly when the attributes of each have base fee 2000 GWei, a timestamp not before
    its parent's and at most 32 bytes of extra data, and the gas of each is within its
    gas limit and that within reth's maximum. *)
Theorem own_chain_is_accepted head w bs w' (c : KasplexBeaconConsensus CSpec)
    (Hlaw : eth_env_law EC) (Henv : ∀ (q : Provider) env, evm_env_of (evm_with_env q env) = env)
    (Hommers : Assembler.EMPTY_OMMER_ROOT_HASH = EMPTY_OMMER_ROOT_HASH)
    (Hchecks : shared_checks_law V) (Hrun : produces head w bs w') :
  let headers := seal ∘ snd <$> bs in
  (∀ i attrs b, bs !! i = Some (attrs, b) →
    Header.number (Block.header b) = Header.number (sealed_header head) + Z.of_nat i + 1 ∧
    ∃ prev, (head :: headers) !! i = Some prev ∧ asked_for prev attrs b) ∧
  (Forall (λ h, validate_header c h = Ok ()) headers ∧ accepted_chain c head headers ↔
   ∀ i attrs b prev, bs !! i = Some (attrs, b) → (head :: headers) !! i = Some prev →
     valid_next prev attrs ∧ gas_within b).
Proof.
  induction Hrun as [head w|sbh args head w p w1 bs w' <- Hrun _ [IHb IHc]
    |sbh args o head w w1 bs w' _ _ _ IH|f head w bs w' _ IH]; cbv zeta; [|..|exact IH|exact IH].
  { split; [done|]. split; [done|]. intros _. split; constructor. }
  destruct (link Hlaw Henv Hommers Hchecks _ _ _ _ _ c Hrun) as (Hasked & Hok).
  set (b := block_of (built_block p)) in *. split.
  - intros [|i] attrs b' Hb.
    + injection Hb as <- <-. split; [destruct Hasked as (_ & -> & _); lia|].
      by exists (parent_header args).
    + destruct (IHb i attrs b' Hb) as (Hn & prev & Hprev & Ha). split; [|by exists prev].
      rewrite Hn. simpl. destruct Hasked as (_ & -> & _). lia.
  - simpl. rewrite Forall_cons, accepted_chain_cons. split.
    + intros [[Hv Hvs] [Hp Hc]] [|i] attrs b' prev Hb Hprev.
      * injection Hb as <- <-. injection Hprev as <-. by apply Hok.
      * by apply (proj1 IHc (conj Hvs Hc) i).
    + intros Hall. destruct (proj2 Hok (Hall 0%nat _ _ _ eq_refl eq_refl)) as [Hv Hp].
      destruct (proj2 IHc (λ i attrs b' prev Hb Hprev, Hall (Datatypes.S i) attrs b' prev Hb Hprev)). done.
Qed.
End production.

(** ** Witness *)

(** reth's checks, for receipts that are pairs. *)
Module StrictValidators.
#[global] Instance validators : Validators () () (Z * Z) string :=
  let V := PlainValidators.validators in {|
  EMPTY_OMMER_ROOT_HASH := Consensus.EMPTY_OMMER_ROOT_HASH (Validators := V);
  validate_header_extra_data := Consensus.validate_header_extra_data (Validators := V);
  validate_header_gas h :=
    if (Header.gas_used h <=? Header.gas_limit h) && (Header.gas_limit h <=? MAXIMUM_GAS_LIMIT_BLOCK)
    then Ok () else Err "gas"%string;
  validate_header_base_fee := Consensus.validate_header_base_fee (Validators := V);
  validate_against_parent_hash_number :=
    Consensus.validate_against_parent_hash_number (Validators := V);
  reth_validate_body_against_header := Consensus.reth_validate_body_against_header (Validators := V);
  reth_validate_block_post_execution _ _ _ _ _ := Ok ();
|}.

Lemma shared_checks : shared_checks_law validators.
Proof.
  split.
  - intros h n. simpl. destruct (Z.leb_spec (Z.of_nat (length (Header.extra_data h))) n); split; try done; lia.
  - intros h. simpl. destruct (Z.leb_spec (Header.gas_used h) (Header.gas_limit h)),
      (Z.leb_spec (Header.gas_limit h) MAXIMUM_GAS_LIMIT_BLOCK); simpl; split; try done; lia.
  - intros h spec [fee Hfee]. simpl. by rewrite Hfee.
  - intros h p. split; [apply PlainValidators.parent_rule|]. intros [Hn Hp]. simpl.
    by rewrite Hn, Hp, !Z.eqb_refl.
Qed.
End StrictValidators.

(** The block of [sample_request], a build for an unknown parent, a number recorded by
    another client, and a block without extra data and at the same timestamp on the first. *)
Definition first_built : SealedHeader := seal (PL := PlainPayloads.library) sample_built_block.
Definition second_request : BuildArguments Z :=
  mkBuildArguments first_built
    (BuilderAttributes.mk (Eth.mkBuilderAttributes [Byte.x02] 100 1010 9 8 [] None) 0 9 45000000 1010
       8 KASPLEX_BASE_FEE [60000] [])
    (λ _, false).
Definition second_world : BuildWorld Cells :=
  on_build_mapping (insert 60000 7) sample_run.2.
Definition second_run :
    outcome (PayloadBuilderError string) (BuildOutcome (Block.t Z)) * BuildWorld Cells :=
  kasplex_payload (NB := kasplex_next_block_config (Spec := ()) (EC := PlainConfig.eth))
    (BB := PlainBasic.builder) (λ _, Ok ()) first_config second_request second_world.
Definition second_frozen : EthBuiltPayload (Block.t Z) :=
  match second_run.1 with Ok (Freeze p) => p | _ => mkBuiltPayload [] sample_block 0 end.

Lemma sample_produces :
  produces (BB := PlainBasic.builder) (BP := PlainBasic.parts)
    (PL := PlainPayloads.library) (NB := kasplex_next_block_config (Spec := ()) (EC := PlainConfig.eth))
    first_config sample_parent sample_request_world
    [(attributes sample_request, sample_built_block);
     (attributes second_request, block_of (built_block second_frozen))] second_run.2.
Proof.
  apply (produces_block _ (λ _, Ok ()) sample_request _ _ sample_frozen sample_run.2);
    [reflexivity|vm_compute; reflexivity|].
  eapply (produces_other _ (λ _, Err "unknown") sample_request _ _ _ sample_run.2);
    [vm_compute; reflexivity|done|].
  apply (produces_mapping _ (insert 60000 7)).
  apply (produces_block _ (λ _, Ok ()) second_request _ _ second_frozen second_run.2);
    [reflexivity|vm_compute; reflexivity|].
  constructor.
Qed.

(** A chain of two, link by link. *)
Lemma two_links {A B H} (R : H → A → B → Prop) h a1 b1 a2 b2 (seal_of : A * B → H) :
  R h a1 b1 → R (seal_of (a1, b1)) a2 b2 →
  ∀ i a b q, [(a1, b1); (a2, b2)] !! i = Some (a, b) →
    (h :: (seal_of <$> [(a1, b1); (a2, b2)])) !! i = Some q → R q a b.
Proof. intros H1 H2 [|[|i]] a b q [= <- <-] [= <-]; done. Qed.

Lemma sample_first :
  valid_next sample_parent (attributes sample_request) ∧ gas_within sample_built_block.
Proof. split; by_evaluation. Qed.
Lemma sample_second :
  valid_next first_built (attributes second_request) ∧
  gas_within (block_of (built_block second_frozen)).
Proof. split; by_evaluation. Qed.

Lemma own_chain_is_accepted_witness :
  validate_header_against_parent (V := StrictValidators.validators) (mkConsensus ())
    (seal (PL := PlainPayloads.library) (block_of (built_block second_frozen)))
    (seal (PL := PlainPayloads.library) sample_built_block) = Ok () ∧
  Header.number (Block.header (block_of (built_block second_frozen))) = 7 ∧
  Header.extra_data (Block.header (block_of (built_block second_frozen))) = [].
Proof.
  destruct (own_chain_is_accepted (EC := PlainConfig.eth)
    (NL := kasplex_next_block_config_laws (EC := PlainConfig.eth)) (BL := PlainBasic.laws)
    (RO := PlainMachine.roots) (BBB := PlainBasic.basic) (KE := PlainBasic.keeps)
    (V := StrictValidators.validators) (PL := PlainPayloads.library)
    first_config sample_parent sample_request_world _ second_run.2
    (mkConsensus ()) plain_eth_env_law (λ _ _, eq_refl) eq_refl StrictValidators.shared_checks
    sample_produces) as (Hb & Hchain).
  destruct (Hb 1%nat _ _ eq_refl) as (Hn & prev & _ & Ha).
  destruct (proj2 Hchain) as [_ Hc].
  - apply (two_links (λ q a b, valid_next q a ∧ gas_within b)); [apply sample_first|apply sample_second].
  - split; [by apply (accepted_chain_link _ _ _ 1%nat _ _ Hc)|].
    split; [etrans; [exact Hn|vm_compute; reflexivity]|].
    etrans; [apply Ha|reflexivity].
Defined.
