(* ===== verification/Prebuilt.v ===== *)
(** * From a prebuilt list to an accepted block

    The consensus client asks [kasplexAuth_txPoolContent] for a list, puts its
    transactions into payload attributes, and a block is built for them.  The builder
    itself never looks at the gas limit ([EndToEnd.v]); the list is what keeps the block
    within it. *)

From stdpp Require Import prelude gmap list strings.
From Stdlib Require Import ZArith Lia Strings.Byte.
From S2P Require Import Prelude Types TxMapping TxPool Consensus BlockConfig BlockExecution Attributes PayloadBuilder.
From S2P Require Import EvmWrapper Engine Rpc System EndToEnd Production.

(** What a client reads of a list: the bytes of its transactions. *)
Definition list_bytes (l : PreBuiltTxList) : option (list Bytes) :=
  mapM (λ s, strip_prefix "0x" s ≫= hex_decode) (txList l).

Lemma mapM_read {A B X} (f : A → option B) (g : X → B) (l : list A) (xs : list X) :
  f <$> l = (λ x, Some (g x)) <$> xs → mapM f l = Some (g <$> xs).
Proof.
  revert xs. induction l as [|a l IH]; intros [|x xs] H; [done..|].
  injection H as Ha Hl. simpl. by rewrite Ha, (IH _ Hl).
Qed.

Section prebuilt.
Context {S C Chain Spec Provider B Tx Block PErr Evm ESpec Res Account Receipt Log EvmErr BErr Caller Hook : Type}.
Context {CSpec Body VE Sender E R : Type}.
Context {EC : EthEvmConfig Chain Spec} {chain_of : C → Chain}.
Context {NB : NextBlockConfig S C Spec (PayloadBuilderError PErr)}.
Context {NL : NextBlockConfigLaws S C Chain Spec (PayloadBuilderError PErr) chain_of}.
Context {BB : BlockBuilder B Spec Provider Tx Block PErr}.
Context {BL : BlockBuilderLaws B Spec Provider Tx Block PErr}.
Context {M : Executor.Machine Evm ESpec Tx Res Account Receipt EvmErr BErr Caller Hook}.
Context {RO : Assembler.Roots Tx Receipt Log}.
Context {BP : BuilderParts B Spec Provider Tx Block Evm ESpec Receipt Caller}.
Context {BBB : BasicBlockBuilder B Spec Provider Tx Block PErr Evm ESpec Res Account Receipt Log EvmErr BErr Caller Hook}.
Context {KE : KeepsEnvironment Spec Evm ESpec Tx Res Account Receipt EvmErr BErr Caller Hook evm_env_of}.
Context {V : Validators CSpec Body Receipt VE} {PL : PayloadLibrary Tx Sender E R}.
Context {P T PE Rpc EthErr Signed RlpError : Type} {TP : TransactionPool P T PE}.
Context {PT : PooledTransaction T Rpc EthErr}.
Variable cfg : C.
(** [clone_into_consensus], without and with the signer. *)
Variables (signed_of : T → Signed) (recovered_of : T → Tx).
(** The list of encoded transactions as RLP, and its reader. *)
Variable rlp_list : list Bytes → Bytes.
Variable rlp_decode_transactions : Bytes → outcome RlpError (list Signed * Bytes).
Variable try_into_recovered : Signed → option Tx.
Implicit Types (txs : list T).

(** What is relied on: the reader reads what was written, signers of pooled transactions
    are recovered, and execution stays within the gas limit of the transaction. *)
Record prebuilt_laws : Prop := {
  rlp_law txs : rlp_decode_transactions (rlp_list (encoded_2718 <$> txs)) = Ok (signed_of <$> txs, []);
  recover_law tx : try_into_recovered (signed_of tx) = Some (recovered_of tx);
  gas_law tx (b : B) g b' :
    execute_transaction (recovered_of tx) b = (Ok g, b') → 0 ≤ g ≤ gas_limit tx;
}.

(** Attributes that carry the list. *)
Definition carries (l : PreBuiltTxList) (a : KasplexPayloadAttributes Z) : Prop :=
  rlp_list <$> list_bytes l = Some (KasplexBlockMetadata.tx_list (block_metadata a)).

Lemma recovered_list txs :
  prebuilt_laws → omap try_into_recovered (signed_of <$> txs) = recovered_of <$> txs.
Proof.
  intros Hlaw. induction txs as [|tx txs IH]; [done|]. simpl. rewrite (recover_law Hlaw).
  f_equal. exact IH.
Qed.

(** The attributes' transactions are those of the list, in its order. *)
Lemma carried_transactions sha256 keccak256 encode_withdrawals parent a v
    (b : BuilderAttributes.t Z Tx) (l : PreBuiltTxList) txs :
  prebuilt_laws →
  (λ s, strip_prefix "0x" s ≫= hex_decode) <$> txList l = (λ tx, Some (encoded_2718 tx)) <$> txs →
  carries l a →
  try_new sha256 keccak256 encode_withdrawals rlp_decode_transactions try_into_recovered parent a v
  = Ok b →
  BuilderAttributes.transactions b = recovered_of <$> txs ∧
  BuilderAttributes.gas_limit b = KasplexBlockMetadata.gas_limit (block_metadata a).
Proof.
  intros Hlaw Hread Hcarries [-> ->]%try_new_Ok. split; [|done].
  unfold carries, list_bytes in Hcarries. rewrite (mapM_read _ _ _ _ Hread) in Hcarries.
  injection Hcarries as <-. unfold decoded_or_empty, decode_transactions.
  rewrite (rlp_law Hlaw). by apply recovered_list.
Qed.

(** What a build uses of the gas limits of its transactions. *)
Lemma builds_gas (b : B) tries b' txs :
  prebuilt_laws → builds b tries b' → tries.*1 = recovered_of <$> txs →
  Forall (λ tx, 0 ≤ gas_limit tx) txs →
  0 ≤ sumZ snd (included tries) ≤ sumZ gas_limit txs.
Proof.
  intros Hlaw Hb. revert txs.
  induction Hb as [b|b b1 b2 tx g tries Hx _ IH|b b1 b2 tx e tries _ Hx _ IH];
    intros [|t txs] Htx Hpos; try done; cbn in Htx; injection Htx as -> Htx;
    apply Forall_cons in Hpos as [Ht Hpos]; specialize (IH txs Htx Hpos).
  - apply (gas_law Hlaw) in Hx. change (included ((_, Some g) :: tries))
      with ((recovered_of t, g) :: included tries). simpl. lia.
  - change (included ((_, None) :: tries)) with (included tries). simpl. lia.
Qed.

Lemma sums_fit_gas gmax bmax txs k fee :
  sums_fit gmax bmax txs → Forall (λ tx, 0 ≤ gas_limit tx) (take k (eligible fee txs)).
Proof.
  intros (_ & _ & Hfit). apply Forall_take, Forall_forall. rewrite Forall_forall in Hfit.
  intros tx [_ Hin]%list_elem_of_filter. by apply Hfit.
Qed.

(** ** Property *)

(** C16 A block built from a prebuilt list keeps within the gas limit.  When attributes
    carry a list handed out by [kasplexAuth_txPoolContent], and their gas limit is at least
    the list's estimate and at most reth's maximum, the build tries exactly the
    transactions of the list, in order; the gas of its block is the plain sum of what they
    used, at most the estimate; and the block passes consensus exactly when the attributes
    have base fee 2000 GWei, a timestamp not before the parent's and at most 32 bytes of
    extra data, so never fails for its gas. *)
Theorem prebuilt_block_is_accepted address_from_str beneficiary fee gmax bmax locals n (p : P) l
    sha256 keccak256 encode_withdrawals parent a v state_by_block_hash (args : BuildArguments Tx)
    w built w' (c : KasplexBeaconConsensus CSpec)
    (Hlaw : eth_env_law EC) (Henv : ∀ (q : Provider) env, evm_env_of (evm_with_env q env) = env)
    (Hommers : Assembler.EMPTY_OMMER_ROOT_HASH = EMPTY_OMMER_ROOT_HASH)
    (Hchecks : shared_checks_law V) (Hpre : prebuilt_laws)
    (Hfit : sums_fit gmax bmax (pending p))
    (Hlist : tx_pool_content address_from_str beneficiary fee gmax bmax locals n p = [l])
    (Hcarries : carries l a)
    (Hattrs : try_new sha256 keccak256 encode_withdrawals rlp_decode_transactions
       try_into_recovered parent a v = Ok (attributes args))
    (Hlimit : estimatedGasUsed l ≤ KasplexBlockMetadata.gas_limit (block_metadata a)
       ≤ MAXIMUM_GAS_LIMIT_BLOCK)
    (Hrun : kasplex_payload state_by_block_hash cfg args w = (Ok (Freeze built), w')) :
  let b := block_of (built_block built) in
  ∃ txs tries, txs `prefix_of` eligible fee (pending p) ∧
    estimatedGasUsed l = sumZ gas_limit txs ∧
    tries.*1 = recovered_of <$> txs ∧ Block.transactions b = (included tries).*1 ∧
    Header.gas_used (Block.header b) = sumZ snd (included tries) ∧
    Header.gas_used (Block.header b) ≤ estimatedGasUsed l ≤ Header.gas_limit (Block.header b) ∧
    (validate_header c (seal b) = Ok () ∧
     validate_header_against_parent c (seal b) (parent_header args) = Ok () ↔
     valid_next (parent_header args) (attributes args)).
Proof.
  intros b.
  assert (Hn : 0 < n).
  { destruct (Z.lt_ge_cases 0 n); [done|]. unfold tx_pool_content in Hlist.
    destruct (select_transactions _ _ _ _ _ _ _) as [[??]?]. by destruct (Z.ltb_spec 0 n); [lia|]. }
  destruct (tx_pool_content_list address_from_str beneficiary fee gmax bmax locals n p Hfit Hn)
    as (k & l' & Hl' & Hread & Hgas & Hmax & _).
  rewrite Hlist in Hl'. injection Hl' as <-.
  set (txs := take k (eligible fee (pending p))) in *.
  destruct (carried_transactions _ _ _ _ _ _ _ _ _ Hpre Hread Hcarries Hattrs) as [Htxs Hgl].
  destruct (built_block_run Henv _ _ _ _ _ _ Hrun)
    as (tries & out & root & (q & b0 & b1 & _ & _ & Hbs) & _ & Ht & _ & _ & Hused & _ & Has).
  rewrite Htxs in Ht.
  destruct (builds_gas _ _ _ _ Hpre Hbs Ht (sums_fit_gas _ _ _ _ _ Hfit)) as [Hlo Hhi].
  fold b in Has. apply Assembler.assemble_Ok in Has as (_ & _ & Hb).
  destruct (eth_next_evm_env_block _ Hlaw (chain_of cfg) (sealed_header (parent_header args))
    (next_attributes (attributes args))) as (f & Hblockenv).
  assert (Hhead : Header.gas_used (Block.header b) = sumZ snd (included tries) ∧
    Header.gas_limit (Block.header b) = KasplexBlockMetadata.gas_limit (block_metadata a) ∧
    Block.transactions b = (included tries).*1).
  { rewrite Hb. unfold environment_of. rewrite Hblockenv. simpl. rewrite Hused. split_and!; [|done..].
    apply wrap_small. unfold MAXIMUM_GAS_LIMIT_BLOCK in Hlimit. width. }
  destruct Hhead as (Hu & Hg & Htr). exists txs, tries. rewrite Hu, Hg.
  split_and!; [by eexists; symmetry; apply take_drop|done|done|done|done|lia|lia|].
  destruct (link cfg Hlaw Henv Hommers Hchecks _ _ _ _ _ c Hrun) as [_ Hok]. fold b in Hok.
  rewrite Hok. unfold gas_within. split; [by intros [? _]|]. intros Hvalid. split; [done|lia].
Qed.
End prebuilt.

(** ** Witness *)

(** A transaction is its hash and its gas limit; an encoding ends where it says. *)
Module PlainCodec.
Fixpoint bits (p : positive) : Bytes :=
  match p with
  | xH => [Byte.x02]
  | xO p => Byte.x00 :: bits p
  | xI p => Byte.x01 :: bits p
  end.
Definition encode (t : Z) : Bytes :=
  match t with
  | Z0 => [Byte.x00]
  | Zpos p => Byte.x01 :: bits p
  | Zneg p => Byte.x02 :: bits p
  end.

Fixpoint read_bits (bs : Bytes) : option (positive * Bytes) :=
  match bs with
  | Byte.x00 :: bs => '(p, bs) ← read_bits bs; Some (xO p, bs)
  | Byte.x01 :: bs => '(p, bs) ← read_bits bs; Some (xI p, bs)
  | Byte.x02 :: bs => Some (xH, bs)
  | _ => None
  end.
Definition read (bs : Bytes) : option (Z * Bytes) :=
  match bs with
  | Byte.x00 :: bs => Some (0, bs)
  | Byte.x01 :: bs => '(p, bs) ← read_bits bs; Some (Zpos p, bs)
  | Byte.x02 :: bs => '(p, bs) ← read_bits bs; Some (Zneg p, bs)
  | _ => None
  end.
Fixpoint read_all (fuel : nat) (bs : Bytes) : list Z :=
  match fuel with
  | O => []
  | S fuel => match read bs with Some (t, bs) => t :: read_all fuel bs | None => [] end
  end.

(** As many turns as there are bytes. *)
Definition decode (bs : Bytes) : outcome () (list Z * Bytes) := Ok (read_all (length bs) bs, []).

Lemma read_bits_app p bs : read_bits (bits p ++ bs) = Some (p, bs).
Proof. induction p as [p IH|p IH|]; simpl; [by rewrite IH..|done]. Qed.
Lemma read_encode t bs : read (encode t ++ bs) = Some (t, bs).
Proof. destruct t; simpl; [done|by rewrite read_bits_app..]. Qed.

Lemma read_all_concat ts fuel :
  (length (concat (encode <$> ts)) ≤ fuel)%nat → read_all fuel (concat (encode <$> ts)) = ts.
Proof.
  revert fuel. induction ts as [|t ts IH]; intros fuel Hf; [by destruct fuel|].
  cbn in *. rewrite length_app in Hf. assert (1 ≤ length (encode t))%nat by (destruct t; simpl; lia).
  destruct fuel as [|fuel]; [lia|]. cbn [read_all]. rewrite read_encode, IH by lia. done.
Qed.

Lemma decode_concat ts : decode (concat (encode <$> ts)) = Ok (ts, []).
Proof. unfold decode. by rewrite read_all_concat. Qed.

#[global] Instance pooled : PooledTransaction Z Z string := {
  sender t := t `mod` 10;
  nonce t := t / 10;
  max_fee_per_gas t := KASPLEX_BASE_FEE + t;
  max_priority_fee_per_gas _ := None;
  gas_limit t := t;
  encoded_2718 := encode;
  fill_pending t := Ok t;
}.

Lemma codec_laws :
  prebuilt_laws (BB := PlainBasic.builder) (PT := pooled)
    id id (@concat _) decode Some.
Proof.
  split.
  - intros ts. simpl. rewrite list_fmap_id. apply decode_concat.
  - done.
  - intros t b g b'. simpl. unfold PlainBasic.execute, Executor.execute_transaction,
      Executor.execute_transaction_without_commit, Executor.on_evm, Executor.commit_transaction,
      mbind, comp_bind, map_err, modify, mret, comp_ret. simpl.
    destruct (Z.ltb_spec t 0); intros [= <- _]. lia.
Qed.
End PlainCodec.

(** Transactions 30000 and 50000 are pooled, and a list is asked for within 60000 gas. *)
Definition asked_pool : ListPool.t := ListPool.of_lists [30000; 50000] [7] I.
Definition asked_list : list PreBuiltTxList :=
  tx_pool_content (PT := PlainCodec.pooled) (λ _, None) 9 KASPLEX_BASE_FEE 60000 1000 [] 1 asked_pool.
Definition asked_attributes : KasplexPayloadAttributes Z :=
  mkKasplexAttributes (Eth.mkAttributes 1010 8 9 None None) KASPLEX_BASE_FEE
    (KasplexBlockMetadata.mk 9 45000000 1010 8 (PlainCodec.encode 30000) [Byte.x01]).
Definition asked_new : outcome () (BuilderAttributes.t Z Z) :=
  try_new (λ _, replicate 32 Byte.x01) (λ _, 0) (λ _, []) PlainCodec.decode Some 1
    asked_attributes Byte.x02.
Definition asked_request : BuildArguments Z :=
  match asked_new with
  | Ok attrs => mkBuildArguments sample_parent attrs (λ _, false)
  | _ => sample_request
  end.
Definition asked_run :
    outcome (PayloadBuilderError string) (BuildOutcome (Block.t Z)) * BuildWorld Cells :=
  kasplex_payload (NB := kasplex_next_block_config (Spec := ()) (EC := PlainConfig.eth))
    (BB := PlainBasic.builder) (λ _, Ok ()) first_config asked_request sample_request_world.
Definition asked_frozen : EthBuiltPayload (Block.t Z) :=
  match asked_run.1 with Ok (Freeze p) => p | _ => mkBuiltPayload [] sample_block 0 end.

Lemma prebuilt_block_is_accepted_witness :
  ∃ l, asked_list = [l] ∧ estimatedGasUsed l = 30000 ∧
    Header.gas_used (Block.header (block_of (built_block asked_frozen))) ≤ 30000 ∧
    validate_header (V := StrictValidators.validators) (mkConsensus ())
      (seal (PL := PlainPayloads.library) (block_of (built_block asked_frozen))) = Ok ().
Proof.
  set (l := mkPreBuiltTxList
    ["0x" +:+ hex_encode (PlainCodec.encode 30000)]%string 30000 (Z.of_nat (length (PlainCodec.encode 30000)))).
  exists l. split; [vm_compute; reflexivity|]. split; [reflexivity|].
  destruct (prebuilt_block_is_accepted (EC := PlainConfig.eth)
    (NL := kasplex_next_block_config_laws (EC := PlainConfig.eth)) (BL := PlainBasic.laws)
    (RO := PlainMachine.roots) (BBB := PlainBasic.basic) (KE := PlainBasic.keeps)
    (V := StrictValidators.validators) (PL := PlainPayloads.library) (PT := PlainCodec.pooled)
    first_config id id (@concat _) PlainCodec.decode Some
    (λ _, None) 9 KASPLEX_BASE_FEE 60000 1000 [] 1 asked_pool l
    (λ _, replicate 32 Byte.x01) (λ _, 0) (λ _, []) 1 asked_attributes Byte.x02
    (λ _, Ok ()) asked_request sample_request_world asked_frozen asked_run.2 (mkConsensus ())
    plain_eth_env_law (λ _ _, eq_refl) eq_refl StrictValidators.shared_checks PlainCodec.codec_laws)
    as (txs & tries & _ & _ & _ & _ & _ & [Hgas _] & Hok).
  - unfold sums_fit. by_evaluation.
  - vm_compute. reflexivity.
  - vm_compute. reflexivity.
  - vm_compute. reflexivity.
  - by_evaluation.
  - vm_compute. reflexivity.
  - split; [exact Hgas|]. apply Hok. by_evaluation.
Defined.
