(* ===== verification/Cycle.v ===== *)
(** * Block after block, through the engine API

    The round of a sequencing node: a block is built on the head, converted to a payload,
    handed back as a new payload, and made the head.  What the pool and the table of
    submission numbers are after any number of rounds. *)

From stdpp Require Import prelude gmap list strings.
From Stdlib Require Import ZArith Lia.
From S2P Require Import Prelude Types TxMapping Chainspec TxPool Consensus BlockConfig BlockExecution.
From S2P Require Import Attributes PayloadBuilder EvmWrapper Engine EngineApi System EndToEnd Production.

Section cycle.
Context {S C Chain Spec Prov B Tx Block PErr Evm ESpec Res Account Receipt Log EvmErr BErr Caller Hook : Type}.
Context {Sender E R : Type}.
Context {EC : EthEvmConfig Chain Spec} {chain_of : C → Chain}.
Context {NB : NextBlockConfig S C Spec (PayloadBuilderError PErr)}.
Context {NL : NextBlockConfigLaws S C Chain Spec (PayloadBuilderError PErr) chain_of}.
Context {BB : BlockBuilder B Spec Prov Tx Block PErr}.
Context {BL : BlockBuilderLaws B Spec Prov Tx Block PErr}.
Context {M : Executor.Machine Evm ESpec Tx Res Account Receipt EvmErr BErr Caller Hook}.
Context {RO : Assembler.Roots Tx Receipt Log}.
Context {BP : BuilderParts B Spec Prov Tx Block Evm ESpec Receipt Caller}.
Context {BBB : BasicBlockBuilder B Spec Prov Tx Block PErr Evm ESpec Res Account Receipt Log EvmErr BErr Caller Hook}.
Context {KE : KeepsEnvironment Spec Evm ESpec Tx Res Account Receipt EvmErr BErr Caller Hook evm_env_of}.
Context {PL : PayloadLibrary Tx Sender E R}.
Context {Ch P T PE NSpec PrErr Attrs RpcErr Status Updated Envelope BoxError : Type}.
Context {TP : TransactionPool P T PE} {L : TransactionPoolLaws P T PE} {CC : KasplexChainCheck NSpec}.
Context {PR : Provider Ch NSpec PrErr}.
Context {IE : InnerEngine (ApiWorld Ch P) Attrs RpcErr Status Updated Envelope}.
Variables (cfg : C) (valid : Status → Prop).
Local Abbreviation World := (ApiWorld Ch P).
Implicit Types (head : SealedHeader) (w : World) (b : Block.t Tx).

(** ** A round *)

Definition with_mapping (st : TxMappingState) w : World :=
  mkApiWorld (chain w) (on_mapping (λ _, st) (pools w)).

(** A build that ends with a payload, the conversion reth makes of it to answer
    [engine_getPayloadV2], and the two calls of the consensus client, the second with or
    without the attributes of the next build. *)
Inductive cycle : SealedHeader → S * World → Block.t Tx → S * World → Prop :=
| cycled state_by_block_hash args s w p s1 m1 pl m2 sidecar status w3 safe final attrs updated w4 :
    let b := block_of (built_block p) in
    let hash := hash_slow (Block.header b) in
    (length (BuilderAttributes.extra_data (attributes args)) ≤ 32)%nat →
    kasplex_payload state_by_block_hash cfg args (mkBuildWorld s (tx_mapping (pools w)))
    = (Ok (Freeze p), mkBuildWorld s1 m1) →
    block_to_payload (mkSealedBlock b hash) m1 = (Ok (mkEthExecutionData (PayloadV1Variant pl)), m2) →
    new_payload_v2 (BoxError := BoxError) (mkExecutionData pl sidecar) (with_mapping m2 w)
    = (Ok status, w3) → valid status →
    fork_choice_updated_v2 (BoxError := BoxError) (mkForkchoiceState hash safe final) attrs w3
    = (Ok updated, w4) →
    cycle (parent_header args) (s, w) b (s1, w4).

(** Rounds, each on the block of the one before. *)
Inductive cycles : SealedHeader → S * World → list (Block.t Tx) → SealedHeader → S * World → Prop :=
| cycles_nil head sw : cycles head sw [] head sw
| cycles_cons head sw b sw1 bs head' sw' :
    cycle head sw b sw1 → cycles (seal b) sw1 bs head' sw' → cycles head sw (b :: bs) head' sw'.

(** ** What is relied on

    The inner engine finds a payload valid only after the payload validator made a block
    of it; it then knows the block.  Making a known block the head leaves the pool and
    the table to the handler of the repository.  These are laws of the calls: what reth does
    to its pool on its own task, when the canonical chain changes, is an event of its own
    in [Lifetime.v]. *)
Record import_laws : Prop := {
  import_law d w status w' :
    inner_new_payload_v2 d w = (Ok status, w') → valid status →
    pool (pools w') = pool (pools w) ∧ chain_spec (chain w') = chain_spec (chain w) ∧
    ∃ (r : RecoveredBlock Tx Sender) st',
      ensure_well_formed_payload d (tx_mapping (pools w)) = (Ok r, st') ∧
      (∀ h, get_submission_block h (tx_mapping (pools w')) = get_submission_block h st') ∧
      block_by_hash (seal_hash (sealed_block r)) (chain w')
      = inr (Some (block_hashes (sealed (sealed_block r)))) ∧
      header_number_by_hash (seal_hash (sealed_block r)) (chain w')
      = inr (Some (Header.number (Block.header (sealed (sealed_block r)))));
  head_law state attrs w updated w' n :
    inner_fork_choice_updated_v2 state attrs w = (Ok updated, w') →
    header_number_by_hash (head_block_hash state) (chain w) = inr (Some n) →
    pools w' = pools w ∧ chain_spec (chain w') = chain_spec (chain w) ∧
    header_number_by_hash (head_block_hash state) (chain w') = inr (Some n);
}.

(** What a block leaves of a pool and a table, swept for the numbers from [first] to [last]. *)
Definition leaves_at (first last : Z) (hs : list B256) w w' (h : B256) : Prop :=
  get_submission_block h (tx_mapping (pools w'))
  = (if decide (h ∈ hs) then None else get_submission_block h (tx_mapping (pools w))) ∧
  (h ∈ pool_hashes (pool (pools w')) ↔
   h ∈ pool_hashes (pool (pools w)) ∧ h ∉ hs ∧
   ∀ k, get_submission_block h (tx_mapping (pools w)) = Some k → 0 < k →
     k ≤ first ∧ last ≤ k + UNEXECUTED_TX_RETENTION_BLOCKS).
Definition number_fits w (h : B256) : Prop :=
  ∀ k, get_submission_block h (tx_mapping (pools w)) = Some k → retention_fits k.
Definition numbers_fit w : Prop :=
  map_Forall (λ _ n, retention_fits n) (mapping (tx_mapping (pools w))).

Lemma leaves_fit first last hs w w' h :
  leaves_at first last hs w w' h → number_fits w h → number_fits w' h.
Proof. intros [Hget _] Hfit n Hn. rewrite Hget in Hn. case_decide; [done|]. by apply Hfit. Qed.

Section rounds.
Hypothesis eth_law : eth_env_law EC.
Hypothesis evm_law : ∀ (q : Prov) env, evm_env_of (evm_with_env q env) = env.
Hypothesis payload_law : payload_v1_law RO PL.
Hypothesis withdrawals_law : Assembler.EMPTY_WITHDRAWALS = EMPTY_WITHDRAWALS.
Hypothesis hash_law : ∀ tx : Tx, PayloadBuilder.tx_hash tx = Engine.tx_hash tx.
Hypothesis engine_laws : import_laws.

(** The payload of a round: its block's hash, and what a validation makes of it. *)
Lemma round_payload state_by_block_hash args s s1 p m m1 pl m2 :
  let b := block_of (built_block p) in
  (length (BuilderAttributes.extra_data (attributes args)) ≤ 32)%nat →
  kasplex_payload state_by_block_hash cfg args (mkBuildWorld s m)
  = (Ok (Freeze p), mkBuildWorld s1 m1) →
  block_to_payload (mkSealedBlock b (hash_slow (Block.header b))) m1
  = (Ok (mkEthExecutionData (PayloadV1Variant pl)), m2) →
  Header.number (Block.header b) = Header.number (sealed_header (parent_header args)) + 1 ∧
  PayloadV1.block_hash pl = hash_slow (Block.header b) ∧
  (∀ h, h ∉ block_hashes b → get_submission_block h m2 = get_submission_block h m) ∧
  ∀ (r : RecoveredBlock Tx Sender) st st',
    ensure_well_formed_payload (mkEthExecutionData (PayloadV1Variant pl)) st = (Ok r, st') →
    st' = take_numbers (block_hashes b) st ∧ seal_hash (sealed_block r) = hash_slow (Block.header b) ∧
    Block.header (sealed (sealed_block r)) = Block.header b ∧
    block_hashes (sealed (sealed_block r)) = block_hashes b.
Proof using NL BL BBB KE eth_law evm_law payload_law withdrawals_law hash_law.
  intros b Hextra Hrun Hpl. pose proof (kasplex_payload_fee_width _ _ _ _ _ _ Hrun) as Hfee.
  apply (built_block_assembled evm_law) in Hrun as (tries & out & root & _ & Htx & Hm & _ & _ & Has).
  fold b in Has. simpl in Hm.
  destruct (eth_next_evm_env_block _ eth_law (chain_of cfg) (sealed_header (parent_header args))
    (next_attributes (attributes args))) as (f & Henv).
  assert (Hb : Block.transactions b = (included tries).*1 ∧
    Header.number (Block.header b) = Header.number (sealed_header (parent_header args)) + 1).
  { apply Assembler.assemble_Ok in Has as (_ & _ & ->). unfold environment_of. by rewrite Henv. }
  destruct Hb as [Htxs Hnum].
  assert (Hhashes : hashes (included tries).*1 = block_hashes b).
  { unfold block_hashes, hashes. rewrite Htxs. apply list_fmap_ext. intros i tx _. apply hash_law. }
  rewrite block_to_payload_run in Hpl. injection Hpl as <- <-. cbn [sealed seal_hash].
  pose proof (assembled_payload_converts _ _ _ _ _ _ payload_law withdrawals_law Has) as Hconv.
  pose proof (λ r st st', assembled_payload_inv _ _ _ _ _ _ r st st' payload_law withdrawals_law Has)
    as Hinv.
  unfold environment_of in Hconv, Hinv. rewrite Henv in Hconv, Hinv.
  specialize (Hconv eq_refl eq_refl Hfee Hextra). destruct Hconv as (b' & _ & Hh & _).
  split; [done|]. split; [done|]. split.
  - intros h Hnin. rewrite record_numbers_lookup, decide_False, Hm by done.
    by rewrite record_numbers_lookup, decide_False by (by rewrite Hhashes).
  - intros r st st' Hr. apply (Hinv r st st' eq_refl eq_refl Hfee Hextra) in Hr as [-> ->].
    split_and!; [done..|]. unfold block_hashes. simpl. by rewrite Htxs.
Qed.

(** The two calls on the pool and the table. *)
Lemma round_calls d b w w3 w4 sidecar pl status safe final attrs updated n :
  d = mkEthExecutionData (PayloadV1Variant pl) →
  (∀ (r : RecoveredBlock Tx Sender) st st',
    ensure_well_formed_payload d st = (Ok r, st') →
    st' = take_numbers (block_hashes b) st ∧
    seal_hash (sealed_block r) = hash_slow (Block.header b) ∧
    Block.header (sealed (sealed_block r)) = Block.header b ∧
    block_hashes (sealed (sealed_block r)) = block_hashes b) →
  PayloadV1.block_hash pl = hash_slow (Block.header b) → Header.number (Block.header b) = n →
  new_payload_v2 (BoxError := BoxError) (mkExecutionData pl sidecar) w = (Ok status, w3) →
  valid status →
  fork_choice_updated_v2 (BoxError := BoxError)
    (mkForkchoiceState (hash_slow (Block.header b)) safe final) attrs w3 = (Ok updated, w4) →
  is_kasplex (chain_spec (chain w)) = true →
  (∀ h, (h ∉ block_hashes b → number_fits w h) → leaves_at n n (block_hashes b) w w4 h) ∧
  chain_spec (chain w4) = chain_spec (chain w) ∧
  header_number_by_hash (hash_slow (Block.header b)) (chain w4) = inr (Some n).
Proof using L engine_laws.
  intros -> Hens Hhash Hnum Hnew Hvalid Hfcu Hk.
  rewrite new_payload_run in Hnew. cbn [execution_payload] in Hnew.
  destruct (inner_new_payload_v2 _ w) as [o w1] eqn:Einner. injection Hnew as -> <-.
  destruct (import_law engine_laws _ _ _ _ Einner Hvalid)
    as (Hpool & Hspec & r & st' & Hr & Hget & Hby & Hnb).
  destruct (Hens _ _ _ Hr) as (-> & Hseal & Hhead & Hhs).
  rewrite Hhash, <-Hseal, Hby in Hfcu. rewrite Hhs in Hfcu.
  destruct (drop_included_effect (BoxError := BoxError) (block_hashes b) (pools w1)) as [Hm Hleft].
  rewrite fork_choice_run in Hfcu.
  destruct (inner_fork_choice_updated_v2 _ attrs _) as [o2 w2] eqn:Ehead.
  injection Hfcu as -> <-.
  rewrite Hhead, Hnum in Hnb.
  destruct (head_law engine_laws _ _ _ _ _ n Ehead Hnb) as (Hpools & Hspec2 & Hn2).
  unfold sweep_number. cbn [head_block_hash chain] in *. rewrite Hn2.
  split; [|split; [by etrans|by rewrite <-Hseal]]. intros h Hfit.
  assert (Htaken : get_submission_block h (tx_mapping (pools w2))
    = if decide (h ∈ block_hashes b) then None else get_submission_block h (tx_mapping (pools w))).
  { rewrite Hpools. cbn [pools]. rewrite Hm. etrans; [apply (Hget h)|]. apply take_numbers_lookup. }
  unfold leaves_at. cbn [pools]. rewrite sweep_numbers, sweep_effect_at.
  - split; [done|]. rewrite Htaken, Hpools. cbn [pools]. rewrite Hleft, Hpool.
    case_decide; naive_solver.
  - rewrite Hspec2. cbn [chain]. by rewrite Hspec.
  - rewrite Htaken. case_decide as Hin; [done|by apply Hfit].
Qed.

Lemma cycle_effect head s w b s' w' :
  cycle head (s, w) b (s', w') → is_kasplex (chain_spec (chain w)) = true →
  Header.number (Block.header b) = Header.number (sealed_header head) + 1 ∧
  (∀ h, number_fits w h → leaves_at (Header.number (Block.header b))
     (Header.number (Block.header b)) (block_hashes b) w w' h) ∧
  chain_spec (chain w') = chain_spec (chain w) ∧
  header_number_by_hash (hash_slow (Block.header b)) (chain w')
  = inr (Some (Header.number (Block.header b))).
Proof using BBB BL KE L NL engine_laws eth_law evm_law hash_law payload_law withdrawals_law.
  inversion 1 as [sbh args ? ? p s1 m1 pl m2 sidecar status w3 safe final attrs updated w4 b0 hash
    Hextra Hrun Hpl Hnew Hvalid Hfcu]; subst. subst b0 hash. intros Hk.
  destruct (round_payload _ _ _ _ _ _ _ _ _ Hextra Hrun Hpl) as (Hnum & Hhash & Hsame & Hens).
  destruct (round_calls _ _ (with_mapping m2 w) _ _ _ _ _ _ _ _ _ _ eq_refl Hens Hhash eq_refl
    Hnew Hvalid Hfcu Hk) as (Hleaves & Hspec & Hknown).
  split; [done|]. split; [|done]. intros h Hfit.
  assert (Hat : h ∉ block_hashes (block_of (built_block p)) →
    get_submission_block h (tx_mapping (pools (with_mapping m2 w)))
    = get_submission_block h (tx_mapping (pools w))) by apply Hsame.
  destruct (Hleaves h) as [Hget Hpool].
  { intros Hnin k. rewrite (Hat Hnin). apply Hfit. }
  unfold leaves_at. simpl in Hget, Hpool, Hat.
  destruct (decide (h ∈ block_hashes _)) as [|Hnin]; [naive_solver|].
  by rewrite (Hat Hnin) in Hget, Hpool.
Qed.

(** One round after the others. *)
Lemma leaves_trans first last n hs hs' w w1 w' h :
  n ≤ last → leaves_at first first hs w w1 h → leaves_at n last hs' w1 w' h → first ≤ n →
  leaves_at first last (hs ++ hs') w w' h.
Proof.
  intros Hle [Hg1 Hp1] [Hg2 Hp2] Hn. unfold leaves_at.
  assert (Hor : h ∈ hs ++ hs' ↔ h ∈ hs ∨ h ∈ hs') by apply elem_of_app.
  rewrite Hg2, Hg1, Hp2, Hp1, Hg1, not_elem_of_app. split.
  { repeat case_decide; tauto. }
  destruct (decide (h ∈ hs)) as [|Hnin]; [naive_solver|].
  split; [intros ((? & _ & Hk1) & ? & Hk2)|intros (? & (_ & ?) & Hk)].
  - split_and!; [done..|]. intros k Hk Hpos.
    specialize (Hk1 k Hk Hpos). specialize (Hk2 k Hk Hpos). lia.
  - split_and!; [done|done| |done|]; intros k Hget Hpos; specialize (Hk k Hget Hpos); lia.
Qed.

Lemma cycles_effect head sw bs head' sw' :
  cycles head sw bs head' sw' → is_kasplex (chain_spec (chain sw.2)) = true →
  Header.number (sealed_header head')
  = Header.number (sealed_header head) + Z.of_nat (length bs) ∧
  ∀ h, number_fits sw.2 h → bs ≠ [] →
    leaves_at (Header.number (sealed_header head) + 1) (Header.number (sealed_header head'))
      (bs ≫= block_hashes) sw.2 sw'.2 h.
Proof using BBB BL KE L NL engine_laws eth_law evm_law hash_law payload_law withdrawals_law.
  induction 1 as [head sw|head [s w] b [s1 w1] bs head' sw' Hc Hcs IH]; intros Hk;
    [split; [simpl; lia|done]|].
  destruct (cycle_effect _ _ _ _ _ _ Hc Hk) as (Hnum & Hl & Hspec & _). simpl in *.
  destruct IH as [Hn IH]; [by rewrite Hspec|]. rewrite Hnum in Hl, Hn.
  split; [lia|]. intros h Hfit _. specialize (Hl h Hfit).
  specialize (IH h (leaves_fit _ _ _ _ _ _ Hl Hfit)). destruct (decide (bs = [])) as [->|Hne].
  - inversion Hcs; subst. simpl. rewrite app_nil_r, Hnum. done.
  - rewrite Hnum in IH. eapply leaves_trans; [|exact Hl|by apply IH|]; [|lia].
    rewrite Hn. destruct bs; [done|]. simpl. lia.
Qed.
End rounds.

(** ** Properties *)

(** C4 What rounds leave in the pool.  On a Kasplex chain, after any number of rounds on
    a head: the head is that many blocks further; the transactions of the new blocks are
    out of the pool and of the table; of the others the pool keeps exactly those without
    a positive submission number and those whose number is at most the first new block's
    and at most the retention bound behind the last; and their numbers are untouched.  So
    a transaction submitted at the head is included, or still pooled with its number, for
    the next 101 blocks. *)
Theorem rounds_drop_exactly head s w bs head' s' w'
    (Hlaw : eth_env_law EC) (Henv : ∀ (q : Prov) env, evm_env_of (evm_with_env q env) = env)
    (Hv1 : payload_v1_law RO PL) (Hw : Assembler.EMPTY_WITHDRAWALS = EMPTY_WITHDRAWALS)
    (Hhash : ∀ tx : Tx, PayloadBuilder.tx_hash tx = Engine.tx_hash tx)
    (Hengine : import_laws)
    (Hrun : cycles head (s, w) bs head' (s', w')) (Hne : bs ≠ [])
    (Hk : is_kasplex (chain_spec (chain w)) = true) (Hfit : numbers_fit w) :
  Header.number (sealed_header head')
  = Header.number (sealed_header head) + Z.of_nat (length bs) ∧
  ∀ h, let included := h ∈ bs ≫= block_hashes in
    let number := get_submission_block h (tx_mapping (pools w)) in
    (included → h ∉ pool_hashes (pool (pools w')) ∧
       get_submission_block h (tx_mapping (pools w')) = None) ∧
    (¬ included →
       get_submission_block h (tx_mapping (pools w')) = number ∧
       (h ∈ pool_hashes (pool (pools w')) ↔
        h ∈ pool_hashes (pool (pools w)) ∧
        ∀ k, number = Some k → 0 < k →
          k ≤ Header.number (sealed_header head) + 1 ∧
          Header.number (sealed_header head') ≤ k + UNEXECUTED_TX_RETENTION_BLOCKS)).
Proof.
  destruct (cycles_effect Hlaw Henv Hv1 Hw Hhash Hengine _ _ _ _ _ Hrun Hk) as [Hn Hl].
  split; [done|]. intros h. destruct (Hl h (Hfit h) Hne) as [Hget Hpool]. cbv zeta. simpl in *.
  split; intros Hin; rewrite ?Hget, ?Hpool.
  - rewrite decide_True by done. tauto.
  - rewrite decide_False by done. tauto.
Qed.
(** C21 A transaction of a reorganised block never expires.  Rounds leave the transactions
    of their blocks without a number.  When a later forkchoice update leaves such a block
    and reth puts one of its transactions back into the pool, the sweep of that update and
    every sweep after it, for whatever head, keeps it; before it was included it would have
    been dropped beyond its retention bound. *)
Theorem reorganised_transaction_never_expires head s w bs head' s' w' state attrs updated w1 h k
    (Hlaw : eth_env_law EC) (Henv : ∀ (q : Prov) env, evm_env_of (evm_with_env q env) = env)
    (Hv1 : payload_v1_law RO PL) (Hw : Assembler.EMPTY_WITHDRAWALS = EMPTY_WITHDRAWALS)
    (Hhash : ∀ tx : Tx, PayloadBuilder.tx_hash tx = Engine.tx_hash tx)
    (Hengine : import_laws)
    (Hrun : cycles head (s, w) bs head' (s', w'))
    (Hk : is_kasplex (chain_spec (chain w)) = true) (Hfit : numbers_fit w)
    (Hnum : get_submission_block h (tx_mapping (pools w)) = Some k) (Hpos : 0 < k)
    (Hin : h ∈ bs ≫= block_hashes)
    (Hreorg : inner_fork_choice_updated_v2 state attrs w' = (Ok updated, w1))
    (Hback : h ∈ pool_hashes (pool (pools w1)))
    (Hsame : get_submission_block h (tx_mapping (pools w1))
             = get_submission_block h (tx_mapping (pools w'))) :
  let swept (spec : NSpec) n pw :=
    (handle_kasplex_pool_reorg (BoxError := BoxError) (TP := TP) spec n pw).2 in
  (∀ n, k + UNEXECUTED_TX_RETENTION_BLOCKS < n →
     h ∉ pool_hashes (pool (swept (chain_spec (chain w)) n (pools w)))) ∧
  let w2 := (fork_choice_updated_v2 (BoxError := BoxError) state attrs w').2 in
  ∀ spec heads, h ∈ pool_hashes (pool (foldr (swept spec) (pools w2) heads)).
Proof.
  intros swept. split.
  { intros n Hn Hpool. destruct (sweep_effect (BoxError := BoxError) _ n (pools w) Hk Hfit) as [_ He].
    apply He in Hpool as [_ Hpool]. specialize (Hpool k Hnum Hpos). lia. }
  intros w2 spec heads. assert (Hne : bs ≠ []) by (intros ->; by inversion Hin).
  destruct (cycles_effect Hlaw Henv Hv1 Hw Hhash Hengine _ _ _ _ _ Hrun Hk) as [_ Hl].
  destruct (Hl h (Hfit h) Hne) as [Hnone _]. simpl in Hnone. rewrite decide_True in Hnone by done.
  rewrite Hnone in Hsame.
  assert (H2 : h ∈ pool_hashes (pool (pools w2)) ∧
    get_submission_block h (tx_mapping (pools w2)) = None).
  { unfold w2. rewrite fork_choice_run, Hreorg. simpl. destruct (sweep_number _ _); [|done].
    by apply sweep_keeps_numberless. }
  enough (Hall : h ∈ pool_hashes (pool (foldr (swept spec) (pools w2) heads)) ∧
    get_submission_block h (tx_mapping (foldr (swept spec) (pools w2) heads)) = None) by apply Hall.
  induction heads as [|n heads [IH1 IH2]]; [done|]. by apply sweep_keeps_numberless.
Qed.
End cycle.

(** ** A concrete engine and the witness *)

(** It finds a payload valid when the validator makes a block of it, and keeps the block; a
    head it does not know is a reorganisation that puts transaction 2 back. *)
Module ImportEngine.
Local Abbreviation W := (ApiWorld PlainEngine.chain ListPool.t).

Definition import (d : ExecutionData) : comp W string string := λ w,
  match ensure_well_formed_payload (PL := PlainPayloads.library) d (tx_mapping (pools w)) with
  | (Ok r, st) =>
      let b := sealed_block r in
      (Ok "VALID"%string,
       mkApiWorld ((seal_hash b, (Header.number (Block.header (sealed b)), block_hashes (sealed b)))
                     :: chain w) (on_mapping (λ _, st) (pools w)))
  | (_, st) => (Ok "INVALID"%string, mkApiWorld (chain w) (on_mapping (λ _, st) (pools w)))
  end.

#[global] Instance engine : InnerEngine W () string string string () := {
  inner_new_payload_v2 := import;
  inner_fork_choice_updated_v2 state _ :=
    modify (λ w, match PlainEngine.find (head_block_hash state) (chain w) with
                 | Some _ => w
                 | None => mkApiWorld (chain w) (on_pool (λ p, (ListPool.add 2 p).2) (pools w))
                 end) ;;
    mret "VALID"%string;
  inner_get_payload_v2 _ := fail "unknown"%string;
}.

Lemma import_engine_laws : import_laws (PL := PlainPayloads.library) (PR := PlainEngine.provider) (IE := engine)
  (λ status, status = "VALID"%string).
Proof.
  split.
  - intros d w status w'. simpl. unfold import.
    destruct (ensure_well_formed_payload d _) as [[r|e|] st] eqn:E; intros [= <- <-] Hv; [|done..].
    split; [done|]. split; [done|]. exists r, st. split; [done|]. split; [done|].
    unfold PlainEngine.find. simpl. by rewrite Z.eqb_refl.
  - intros state attrs w updated w' n [= _ <-]. simpl. intros [= Hn].
    destruct (PlainEngine.find _ (chain w)) eqn:Ef; [|done]. rewrite Ef. by rewrite <-Hn.
Qed.
End ImportEngine.

(** A block with the transactions 2 and 5, and a pool with 2, with 6, which was submitted
    at the parent, and with 7, which was submitted before block 4. *)
Definition round_request : BuildArguments Z :=
  mkBuildArguments sample_parent
    (BuilderAttributes.mk (Eth.mkBuilderAttributes [Byte.x02] 100 1010 9 8 [] None) 0 9 45000000 1010
       8 KASPLEX_BASE_FEE [2; -1; 5] [Byte.x01])
    (λ _, false).
Definition round_world : ApiWorld PlainEngine.chain ListPool.t :=
  mkApiWorld [] (mkPoolWorld (ListPool.of_lists [2; 6; 7] [] I)
    (mkTxMappingState {[ 2 := 4; 6 := 6; 7 := 4 ]} ∅ false)).
(** The calls of a round, from any world. *)
Abbreviation round_build w :=
  (kasplex_payload (NB := kasplex_next_block_config (Spec := ()) (EC := PlainConfig.eth))
    (BB := PlainBasic.builder) (λ _, Ok ()) first_config round_request
    (mkBuildWorld (one_cell None) (tx_mapping (pools w)))).
Definition round_frozen : EthBuiltPayload (Block.t Z) :=
  match (round_build round_world).1 with Ok (Freeze p) => p | _ => mkBuiltPayload [] sample_block 0 end.
Abbreviation round_block := (block_of (BuilderParts := PlainBasic.parts) (built_block round_frozen)).
Abbreviation round_hash :=
  (hash_slow (PayloadLibrary := PlainPayloads.library) (Block.header round_block)).
Definition round_payload_of : PayloadV1.t :=
  from_block_unchecked (PayloadLibrary := PlainPayloads.library) round_hash round_block.
Abbreviation round_converted w :=
  (block_to_payload (PL := PlainPayloads.library) (mkSealedBlock round_block round_hash)
    (build_mapping (round_build w).2)).
Abbreviation round_imported w :=
  (new_payload_v2 (BoxError := ()) (PR := PlainEngine.provider) (IE := ImportEngine.engine)
    (mkExecutionData round_payload_of (mkSidecar 0 0 [] true))
    (with_mapping (round_converted w).2 w)).
Abbreviation round_end w :=
  (fork_choice_updated_v2 (BoxError := ()) (PR := PlainEngine.provider) (IE := ImportEngine.engine)
    (mkForkchoiceState round_hash 5 5) None (round_imported w).2).

Lemma answer_is {A W} (x : A * W) a : x.1 = a → x = (a, x.2).
Proof. by destruct x; intros <-. Qed.
Lemma build_is {A S} (x : A * BuildWorld S) a :
  x.1 = a → x = (a, mkBuildWorld (config_state x.2) (build_mapping x.2)).
Proof. by destruct x as [? []]; intros <-. Qed.

Lemma round_cycle (w : ApiWorld PlainEngine.chain ListPool.t) :
  (round_build w).1 = Ok (Freeze round_frozen) →
  (round_converted w).1 = Ok (mkEthExecutionData (PayloadV1Variant round_payload_of)) →
  (round_imported w).1 = Ok "VALID"%string → (round_end w).1 = Ok "VALID"%string →
  cycle (BB := PlainBasic.builder) (BP := PlainBasic.parts)
    (NB := kasplex_next_block_config (Spec := ()) (EC := PlainConfig.eth))
    (PL := PlainPayloads.library) (PR := PlainEngine.provider) (IE := ImportEngine.engine)
    (BoxError := ()) first_config (λ status, status = "VALID"%string)
    sample_parent (one_cell None, w) round_block (config_state (round_build w).2, (round_end w).2).
Proof.
  intros Hb%build_is Hc%answer_is Hi%answer_is He%answer_is.
  refine (cycled _ _ (λ _, Ok ()) round_request _ _ round_frozen _ _ _ _ _ _ _ _ _ None _ _
    _ Hb Hc Hi eq_refl He).
  vm_compute. lia.
Qed.

Lemma round_world_cycle :
  cycle (BB := PlainBasic.builder) (BP := PlainBasic.parts)
    (NB := kasplex_next_block_config (Spec := ()) (EC := PlainConfig.eth))
    (PL := PlainPayloads.library) (PR := PlainEngine.provider) (IE := ImportEngine.engine)
    (BoxError := ()) first_config (λ status, status = "VALID"%string)
    sample_parent (one_cell None, round_world) round_block
    (config_state (round_build round_world).2, (round_end round_world).2).
Proof. apply round_cycle; vm_compute; reflexivity. Qed.

Lemma rounds_drop_exactly_witness :
  6 ∈ pool_hashes (pool (pools (round_end round_world).2)) ∧
  2 ∉ pool_hashes (pool (pools (round_end round_world).2)) ∧
  get_submission_block 6 (tx_mapping (pools (round_end round_world).2)) = Some 6.
Proof.
  assert (Hfit : numbers_fit round_world).
  { repeat apply map_Forall_insert_2; try apply map_Forall_empty; split; vm_compute; congruence. }
  destruct (rounds_drop_exactly (EC := PlainConfig.eth)
    (NL := kasplex_next_block_config_laws (EC := PlainConfig.eth)) (BL := PlainBasic.laws)
    (RO := PlainMachine.roots) (BBB := PlainBasic.basic) (KE := PlainBasic.keeps)
    (L := ListPool.list_pool_laws) (BoxError := ())
    first_config (λ status, status = "VALID"%string) sample_parent (one_cell None) round_world
    [round_block] (seal (PL := PlainPayloads.library) round_block)
    (config_state (round_build round_world).2) (round_end round_world).2 plain_eth_env_law (λ _ _, eq_refl)
    plain_payload_v1_law eq_refl (λ _, eq_refl) ImportEngine.import_engine_laws
    (cycles_cons _ _ _ _ _ _ _ _ _ round_world_cycle (cycles_nil _ _ _ _))
    ltac:(discriminate) eq_refl Hfit) as [_ H].
  assert (Hin : 2 ∈ [round_block] ≫= block_hashes (PL := PlainPayloads.library)) by by_evaluation.
  assert (Hnin : 6 ∉ [round_block] ≫= block_hashes (PL := PlainPayloads.library)) by by_evaluation.
  destruct (H 2) as [[Hout _] _]; [exact Hin|].
  destruct (H 6) as [_ [Hnum Hpool]]; [exact Hnin|].
  split; [|split; [exact Hout|etrans; [exact Hnum|vm_compute; reflexivity]]].
  apply Hpool. split; [by_evaluation|]. intros k Hk _. vm_compute in Hk. injection Hk as <-.
  split; vm_compute; congruence.
Defined.

Local Abbreviation reorganised :=
  (inner_fork_choice_updated_v2 (InnerEngine := ImportEngine.engine) (mkForkchoiceState 77 5 5) None
     (round_end round_world).2).

Lemma reorganised_transaction_never_expires_witness :
  2 ∈ pool_hashes (pool (foldr
    (λ n pw, (handle_kasplex_pool_reorg (BoxError := ()) (TP := ListPool.list_pool) 202555 n pw).2)
    (pools (fork_choice_updated_v2 (BoxError := ()) (PR := PlainEngine.provider)
      (IE := ImportEngine.engine) (mkForkchoiceState 77 5 5) None (round_end round_world).2).2) [500; 1000])).
Proof.
  assert (Hfit : numbers_fit round_world).
  { repeat apply map_Forall_insert_2; try apply map_Forall_empty; split; vm_compute; congruence. }
  apply (reorganised_transaction_never_expires (EC := PlainConfig.eth)
    (NL := kasplex_next_block_config_laws (EC := PlainConfig.eth)) (BL := PlainBasic.laws)
    (RO := PlainMachine.roots) (BBB := PlainBasic.basic) (KE := PlainBasic.keeps)
    (L := ListPool.list_pool_laws) (BoxError := ())
    first_config (λ status, status = "VALID"%string) sample_parent (one_cell None) round_world
    [round_block] (seal (PL := PlainPayloads.library) round_block)
    (config_state (round_build round_world).2) (round_end round_world).2 (mkForkchoiceState 77 5 5) None "VALID"%string
    reorganised.2 2 4 plain_eth_env_law (λ _ _, eq_refl)
    plain_payload_v1_law eq_refl (λ _, eq_refl) ImportEngine.import_engine_laws
    (cycles_cons _ _ _ _ _ _ _ _ _ round_world_cycle (cycles_nil _ _ _ _))
    eq_refl Hfit).
  - vm_compute. reflexivity.
  - lia.
  - by_evaluation.
  - apply answer_is. vm_compute. reflexivity.
  - by_evaluation.
  - vm_compute. reflexivity.
Defined.
