(* ===== verification/Lifetime.v ===== *)
(** * The life of a submitted transaction

    What happens at a node between the submission of a transaction and its end: rounds
    that add a block, forkchoice updates that stay at the head, builds that come to
    nothing, other submissions in both namespaces, and what reth's pool gives up by itself.
    The history of these decides exactly whether the transaction is in the pool. *)

From stdpp Require Import prelude gmap list strings.
From Stdlib Require Import ZArith Lia.
From S2P Require Import Prelude Types TxMapping Chainspec TxPool Consensus BlockConfig BlockExecution.
From S2P Require Import Attributes PayloadBuilder EvmWrapper Engine EngineApi Rpc EthApi Interleaving System EndToEnd Production Cycle.

(** ** Events *)

(** [Round]: a block is built on the head, imported and made the head ([Cycle.v]).
    [Update]: a forkchoice update names the head again, which is how a build is asked for.
    [Build]: a build on any parent, whatever it ends with, whose block is not used.
    [Sent], [EthSent]: a raw transaction to [kasplexAuth] or to the eth namespace, with the
    transactions the pool gave up for it: it replaces one of the same sender and nonce,
    and it has limits.
    [Maintained]: reth's own maintenance of its pool, on its own task and outside of all
    calls of the repository, with what it gave up and what it took in. *)
Inductive event {Tx : Type} : Type :=
| Round (b : Block.t Tx)
| Update
| Build
| Sent (raw : Bytes) (given_up : list B256)
| EthSent (raw : Bytes) (given_up : list B256)
| Maintained (given_up taken_in : list B256).
Arguments event : clear implicits.

Section events.
Context {Tx : Type}.
Implicit Types (e : event Tx) (es : list (event Tx)).

Definition block_of_event e : option (Block.t Tx) :=
  match e with Round b => Some b | _ => None end.
Definition blocks es : list (Block.t Tx) := omap block_of_event es.

Definition given_up_at e : list B256 :=
  match e with
  | Sent _ given_up | EthSent _ given_up | Maintained given_up _ => given_up
  | _ => []
  end.
Definition given_up es : list B256 := es ≫= given_up_at.

(** The heads the pool is swept for, from the number of the first head. *)
Fixpoint sweeps (n : Z) es : list Z :=
  match es with
  | [] => []
  | Round _ :: es => (n + 1) :: sweeps (n + 1) es
  | Update :: es => n :: sweeps n es
  | _ :: es => sweeps n es
  end.

(** An update that stays at the first head. *)
Fixpoint updated_first es : bool :=
  match es with
  | [] | Round _ :: _ => false
  | Update :: _ => true
  | _ :: es => updated_first es
  end.

(** The window of a number given at [n] contains all sweeps. *)
Lemma sweeps_within n m es :
  n + 1 ≤ m ≤ n + 1 + UNEXECUTED_TX_RETENTION_BLOCKS →
  Forall (λ x, n + 1 ≤ x ≤ n + 1 + UNEXECUTED_TX_RETENTION_BLOCKS) (sweeps m es) ↔
  m + Z.of_nat (length (blocks es)) ≤ n + 1 + UNEXECUTED_TX_RETENTION_BLOCKS.
Proof.
  revert m. induction es as [|[b| | |raw hs|raw hs|hs hs'] es IH]; intros m Hm; simpl;
    rewrite ?Forall_cons; [| | |by apply IH..].
  - split; [lia|by constructor].
  - destruct (decide (m + 1 ≤ n + 1 + UNEXECUTED_TX_RETENTION_BLOCKS)); [|lia].
    rewrite IH by lia. lia.
  - rewrite IH by done. lia.
Qed.

Lemma sweeps_survived n es :
  Forall (λ x, n + 1 ≤ x ≤ n + 1 + UNEXECUTED_TX_RETENTION_BLOCKS) (sweeps n es) ↔
  updated_first es = false ∧
  Z.of_nat (length (blocks es)) ≤ UNEXECUTED_TX_RETENTION_BLOCKS + 1.
Proof.
  induction es as [|[b| | |raw hs|raw hs|hs hs'] es IH]; simpl; rewrite ?Forall_cons; [|..|done|done|done|done].
  - split; [|by constructor]. done.
  - rewrite sweeps_within by (unfold UNEXECUTED_TX_RETENTION_BLOCKS; lia).
    unfold UNEXECUTED_TX_RETENTION_BLOCKS. lia.
  - split; [lia|by intros []].
Qed.
End events.

Section lifetime.
Context {S C Chain Spec Prov B Tx Block PErr Evm ESpec Res Account Receipt Log EvmErr BErr Caller Hook : Type}.
Context {Sender E R : Type}.
Context {EC : EthEvmConfig Chain Spec} {chain_of : C → Chain}.
Context {NB : NextBlockConfig S C Spec (PayloadBuilderError PErr)}.
Context {NL : NextBlockConfigLaws S C Chain Spec (PayloadBuilderError PErr) chain_of}.
Context {BB : BlockBuilder B Spec Prov Tx Block PErr}.
Context {BL : BlockBuilderLaws B Spec Prov Tx Block PErr}.
Context {M : Executor.Machine Evm ESpec Tx Res Account Receipt EvmErr BErr Caller Hook}.
Context {RO : Assembler.Roots Tx Receipt Log}.
Context {BP : BuilderParts B Spec Prov Tx Block Evm ESpec Receipt Caller}.
Context {BBB : BasicBlockBuilder B Spec Prov Tx Block PErr Evm ESpec Res Account Receipt Log EvmErr BErr Caller Hook}.
Context {KE : KeepsEnvironment Spec Evm ESpec Tx Res Account Receipt EvmErr BErr Caller Hook evm_env_of}.
Context {PL : PayloadLibrary Tx Sender E R}.
Context {Ch P T PE NSpec PrErr Attrs RpcErr Status Updated Envelope BoxError : Type}.
Context {TP : TransactionPool P T PE} {L : TransactionPoolLaws P T PE} {CC : KasplexChainCheck NSpec}.
Context {PR : Provider Ch NSpec PrErr}.
Context {IE : InnerEngine (ApiWorld Ch P) Attrs RpcErr Status Updated Envelope}.
Context {Recovered D Cv : Type} {RT : RawTransactions Recovered T D Cv} {LH : LatestHeader Ch}.
Variables (cfg : C) (valid : Status → Prop).
Local Abbreviation World := (ApiWorld Ch P).
Local Abbreviation number head := (Header.number (sealed_header head)).
Local Abbreviation number_of h w := (get_submission_block h (tx_mapping (pools w))).
Local Abbreviation pooled h w := (h ∈ pool_hashes (pool (pools w))).
Implicit Types (head : SealedHeader) (w : World) (h : B256) (es : list (event Tx)).

(** ** Histories *)

(** What is in the pool before and not after. *)
Definition dropped w w' : list B256 :=
  filter (λ x, x ∉ pool_hashes (pool (pools w'))) (pool_hashes (pool (pools w))).

Inductive happens : SealedHeader → S * World → event Tx → SealedHeader → S * World → Prop :=
| happens_round head sw b sw' :
    cycle (BoxError := BoxError) cfg valid head sw b sw' → happens head sw (Round b) (seal b) sw'
| happens_update head s w safe final attrs updated w' :
    fork_choice_updated_v2 (BoxError := BoxError)
      (mkForkchoiceState (sealed_header_hash head) safe final) attrs w = (Ok updated, w') →
    happens head (s, w) Update head (s, w')
| happens_build head state_by_block_hash args o s w s' st :
    kasplex_payload state_by_block_hash cfg args (mkBuildWorld s (tx_mapping (pools w)))
    = (o, mkBuildWorld s' st) →
    happens head (s, w) Build head (s', with_mapping st w)
| happens_sent head s w raw w' :
    w' = (send_raw_transaction (PE := PE) (D := D) (Cv := Cv) raw w).2 →
    happens head (s, w) (Sent raw (dropped w w')) head (s, w')
| happens_eth_sent head s w raw w' :
    w' = api (eth_send_raw_transaction (PE := PE) (D := D) (Cv := Cv) raw (mkEthWorld w [])).2 →
    happens head (s, w) (EthSent raw (dropped w w')) head (s, w')
| happens_maintained head s w p' w' :
    w' = mkApiWorld (chain w) (mkPoolWorld p' (tx_mapping (pools w))) →
    happens head (s, w) (Maintained (dropped w w') (dropped w' w)) head (s, w').

Inductive history : SealedHeader → S * World → list (event Tx) → SealedHeader → S * World → Prop :=
| history_nil head sw : history head sw [] head sw
| history_cons head sw e head1 sw1 es head' sw' :
    happens head sw e head1 sw1 → history head1 sw1 es head' sw' →
    history head sw (e :: es) head' sw'.

(** No one submits [h], and reth does not put it back. *)
Definition submits_other h (e : event Tx) : Prop :=
  match e with
  | Sent raw _ | EthSent raw _ => ∀ r, recover_raw_transaction raw = Ok r → recovered_hash r ≠ h
  | Maintained _ taken_in => h ∉ taken_in
  | _ => True
  end.

(** What is relied on of the intake of transactions: the conversions keep the hash, and
    the pool takes in at most what it is offered.  What it gives up for that is its own
    affair. *)
Record intake_laws : Prop := {
  to_pool_law : conversion_law RT;
  from_pooled_law r : pool_tx_hash (from_pooled r) = recovered_hash r;
  takes_in_law t (p : P) x :
    x ∈ pool_hashes (add_transaction t p).2 → x ∈ pool_hashes p ∨ x = pool_tx_hash t;
}.

(** ** One event *)

(** An event without a sweep: the pool has [h] as before, if it is not among those given
    up, and its number, 0 counting as none, is the same. *)
Definition passes h (hs : list B256) w w' : Prop :=
  (pooled h w' ↔ pooled h w ∧ h ∉ hs) ∧
  default 0 (number_of h w') = default 0 (number_of h w) ∧
  ∀ k, number_of h w = Some k → number_of h w' = Some k.

(** A call that may only bring another transaction in. *)
Lemma passes_dropped h w w' :
  (pooled h w' → pooled h w) →
  default 0 (number_of h w') = default 0 (number_of h w) →
  (∀ k, number_of h w = Some k → number_of h w' = Some k) →
  passes h (dropped w w') w w'.
Proof.
  intros Hp Hd Hn. split; [|done]. unfold dropped. rewrite list_elem_of_filter.
  destruct (decide (h ∈ pool_hashes (pool (pools w')))); tauto.
Qed.

Lemma build_passes h state_by_block_hash args o s w s' st :
  kasplex_payload state_by_block_hash cfg args (mkBuildWorld s (tx_mapping (pools w)))
  = (o, mkBuildWorld s' st) →
  passes h [] w (with_mapping st w).
Proof using NL BL.
  intros Hrun. split; [pose proof (not_elem_of_nil h); simpl; tauto|].
  cbn [pools with_mapping on_mapping tx_mapping].
  destruct o as [[|p]|e|].
  2: { apply kasplex_payload_Freeze in Hrun as (? & ? & ? & tries & _ & _ & _ & _ & _ & _ & _ & _ & Hm).
    simpl in Hm. subst st. rewrite record_numbers_lookup. case_decide; [|done].
    split; [done|]. by intros k ->. }
  all: apply kasplex_payload_other in Hrun; [|done]; simpl in Hrun; by subst st.
Qed.

Lemma intake_other h t (p : P) :
  intake_laws → pool_tx_hash t ≠ h →
  h ∈ pool_hashes (add_transaction t p).2 → h ∈ pool_hashes p.
Proof. intros Hlaw Hne [?|Heq]%(takes_in_law Hlaw); [done|congruence]. Qed.

Lemma sent_passes h raw w :
  intake_laws → submits_other h (Sent raw []) →
  let w' := (send_raw_transaction (PE := PE) (D := D) (Cv := Cv) raw w).2 in
  passes h (dropped w w') w w' ∧ chain w' = chain w.
Proof.
  intros Hlaw Hother. pose proof (send_leaves (PE := PE) (D := D) (Cv := Cv) raw w) as Hl.
  cbv zeta in *. set (w' := (send_raw_transaction raw w).2) in *. clearbody w'.
  destruct Hl as [->|(r & _ & Hr & _ & Hl)]; [by split; [apply passes_dropped|]|].
  specialize (Hother r Hr).
  assert (Hnum : number_of h (with_number r w) = number_of h w).
  { rewrite with_number_lookup. destruct (latest_number _); [|done].
    by rewrite decide_False by done. }
  assert (Hpool : pool (pools (with_number r w)) = pool (pools w)).
  { unfold with_number. by destruct (latest_number _). }
  destruct Hl as [->|(t & Ht & ->)]; (split; [apply passes_dropped|]);
    rewrite ?add_to_pool_leaves; cbn [chain pools pool tx_mapping];
    rewrite ?with_number_chain, ?Hnum, ?Hpool; try done.
  apply (intake_other _ _ _ Hlaw). by rewrite (to_pool_law Hlaw _ _ Ht).
Qed.

Lemma eth_sent_passes h raw w :
  intake_laws → submits_other h (EthSent raw []) →
  let w' := api (eth_send_raw_transaction (PE := PE) (D := D) (Cv := Cv) raw (mkEthWorld w [])).2 in
  passes h (dropped w w') w w' ∧ chain w' = chain w.
Proof.
  intros Hlaw Hother. cbv zeta. rewrite eth_send_run. cbn [api].
  destruct (recover_raw_transaction raw) as [r|e|] eqn:Hr;
    [|by split; [apply passes_dropped|]..].
  pose proof (intake_other h (from_pooled r) (pool (pools w)) Hlaw) as Hin.
  destruct (add_transaction _ _) as [o1 p]. cbn [snd chain pools pool tx_mapping] in *.
  split; [|done]. apply passes_dropped; [|done..]. apply Hin. rewrite (from_pooled_law Hlaw).
  by apply Hother.
Qed.

(** Where a run of events begins: on a Kasplex chain, at a head the provider knows. *)
Definition at_head head w : Prop :=
  is_kasplex (chain_spec (chain w)) = true ∧
  header_number_by_hash (sealed_header_hash head) (chain w) = inr (Some (number head)).

(** What an event leaves of one transaction. *)
Definition effect_on h (e : event Tx) (n : Z) w w' : Prop :=
  match e with
  | Round b => leaves_at (n + 1) (n + 1) (block_hashes b) w w' h
  | Update => leaves_at n n [] w w' h
  | Build | Sent _ _ | EthSent _ _ | Maintained _ _ => passes h (given_up_at e) w w'
  end.
Definition next_head (e : event Tx) (n : Z) : Z :=
  match e with Round _ => n + 1 | _ => n end.

Section effects.
Hypothesis eth_law : eth_env_law EC.
Hypothesis evm_law : ∀ (q : Prov) env, evm_env_of (evm_with_env q env) = env.
Hypothesis payload_law : payload_v1_law RO PL.
Hypothesis withdrawals_law : Assembler.EMPTY_WITHDRAWALS = EMPTY_WITHDRAWALS.
Hypothesis hash_law : ∀ tx : Tx, PayloadBuilder.tx_hash tx = Engine.tx_hash tx.
Hypothesis engine_laws : import_laws valid.
Variable h : B256.
Hypothesis intake : intake_laws.

Lemma update_effect head w safe final attrs updated w' :
  fork_choice_updated_v2 (BoxError := BoxError)
    (mkForkchoiceState (sealed_header_hash head) safe final) attrs w = (Ok updated, w') →
  at_head head w → at_head head w' ∧ (number_fits w h → effect_on h Update (number head) w w').
Proof using L engine_laws.
  rewrite fork_choice_run. intros Hfcu [Hk Hknown].
  destruct (inner_fork_choice_updated_v2 _ attrs w) as [o w1] eqn:Ehead.
  injection Hfcu as -> <-.
  destruct (head_law valid engine_laws _ _ _ _ _ _ Ehead Hknown) as (Hpools & Hspec & Hn).
  unfold sweep_number, at_head. cbn [head_block_hash] in *. rewrite Hn. cbn [chain pools].
  split; [by rewrite Hspec|]. intros Hfit. unfold effect_on, leaves_at. cbn [pools].
  rewrite sweep_numbers, sweep_effect_at, Hpools by (by rewrite ?Hspec, ?Hpools).
  rewrite decide_False by apply not_elem_of_nil. split; [done|].
  pose proof (not_elem_of_nil h). tauto.
Qed.

Lemma happens_effect head s w e head' s' w' :
  happens head (s, w) e head' (s', w') → submits_other h e → at_head head w →
  number head' = next_head e (number head) ∧ at_head head' w' ∧
  (number_fits w h → effect_on h e (number head) w w').
Proof using BBB BL KE L NL engine_laws eth_law evm_law hash_law intake payload_law withdrawals_law.
  intros Hh Hother Hat.
  inversion Hh as [? ? b ? Hc|? ? ? safe final attrs updated ? Hu|? sbh args o ? ? ? st Hb
    |? ? ? raw ? Hw'|? ? ? raw ? Hw'|? ? ? p' ? Hw']; subst; simpl in *.
  - destruct Hat as [Hk _].
    destruct (cycle_effect cfg valid eth_law evm_law payload_law withdrawals_law hash_law engine_laws
      _ _ _ _ _ _ Hc Hk) as (Hn & Hl & Hspec & Hknown).
    rewrite Hn in Hl. split; [done|]. split; [|exact (Hl h)]. split; [by rewrite Hspec|done].
  - split; [done|]. by eapply update_effect.
  - split; [done|]. split; [done|]. intros _. by eapply build_passes.
  - destruct (sent_passes h raw w intake Hother) as [Hp Hc].
    split; [done|]. split; [|done]. unfold at_head. by rewrite Hc.
  - destruct (eth_sent_passes h raw w intake Hother) as [Hp Hc].
    split; [done|]. split; [|done]. unfold at_head. by rewrite Hc.
  - split; [done|]. split; [done|]. intros _. apply passes_dropped; [|done..].
    unfold dropped in Hother. rewrite list_elem_of_filter in Hother. simpl in *.
    destruct (decide (h ∈ pool_hashes (pool (pools w)))); tauto.
Qed.

(** ** A history *)

Definition gone w : Prop := ¬ pooled h w ∧ default 0 (number_of h w) = 0.

Lemma gone_fits w : gone w → number_fits w h.
Proof using Type.
  intros [_ Hz] k Hk. rewrite Hk in Hz. simpl in Hz. by subst k.
Qed.

Lemma effect_gone e n w w' : effect_on h e n w w' → gone w → gone w'.
Proof using Type.
  intros He [Hp Hz]. unfold gone. destruct e; simpl in He.
  1,2: destruct He as [Hn Hin]; rewrite Hin, Hn; split; [tauto|by case_decide].
  all: destruct He as (Hin & Hn & _); rewrite Hin, Hn; tauto.
Qed.

Lemma history_gone head sw es head' sw' :
  history head sw es head' sw' → Forall (submits_other h) es → at_head head sw.2 → gone sw.2 →
  number head' = number head + Z.of_nat (length (blocks es)) ∧ gone sw'.2.
Proof using BBB BL KE L NL engine_laws eth_law evm_law hash_law intake payload_law withdrawals_law.
  induction 1 as [head sw|head [s w] e head1 [s1 w1] es head' sw' He _ IH]; intros Hes Hat Hg.
  { split; [simpl; lia|done]. }
  apply Forall_cons in Hes as [Hother Hes]. simpl in *.
  destruct (happens_effect _ _ _ _ _ _ _ He Hother Hat) as (Hn & Hat1 & Heff).
  specialize (Heff (gone_fits _ Hg)).
  destruct (IH Hes Hat1 (effect_gone _ _ _ _ Heff Hg)) as [Hn' Hg']. split; [|done].
  rewrite Hn', Hn. destruct e; simpl; lia.
Qed.

Definition in_window (k x : Z) : Prop := k ≤ x ≤ k + UNEXECUTED_TX_RETENTION_BLOCKS.

(** An event that does not include the transaction keeps its number, and it in the pool
    if the sweep of the event is in the window and the pool does not give it up. *)
Lemma effect_live e n w w' k :
  effect_on h e n w w' → number_of h w = Some k → 0 < k →
  h ∉ blocks [e] ≫= block_hashes →
  number_of h w' = Some k ∧
  (pooled h w' ↔ pooled h w ∧ Forall (in_window k) (sweeps n [e]) ∧ h ∉ given_up_at e).
Proof using Type.
  intros He Hk Hpos Hnin. unfold in_window.
  pose proof (not_elem_of_nil h) as Hnil.
  destruct e as [b| | |raw hs|raw hs|hs hs']; simpl in *; rewrite ?Forall_singleton, ?Forall_nil.
  1: rewrite app_nil_r in Hnin.
  1,2: destruct He as [Hn Hin]; rewrite Hin, Hn, decide_False, Hk by done; split; [done|];
    split; [intros (? & _ & Hw); split; [done|]; split; [by apply Hw|done]|];
    intros (? & Hw & _); split_and!; [done|done|]; by intros k' [= <-] _.
  all: destruct He as (Hin & _ & Hn); rewrite Hin, (Hn k Hk); tauto.
Qed.

Lemma history_live head sw es head' sw' k :
  history head sw es head' sw' → Forall (submits_other h) es → at_head head sw.2 →
  number_of h sw.2 = Some k → 0 < k → retention_fits k →
  number head' = number head + Z.of_nat (length (blocks es)) ∧
  (h ∈ blocks es ≫= block_hashes → gone sw'.2) ∧
  (h ∉ blocks es ≫= block_hashes →
   number_of h sw'.2 = Some k ∧
   (pooled h sw'.2 ↔
    pooled h sw.2 ∧ Forall (in_window k) (sweeps (number head) es) ∧ h ∉ given_up es)).
Proof using BBB BL KE L NL engine_laws eth_law evm_law hash_law intake payload_law withdrawals_law.
  induction 1 as [head sw|head [s w] e head1 [s1 w1] es head' sw' He Hes' IH];
    intros Hes Hat Hk Hpos Hfit.
  { split; [simpl; lia|]. split; [intros H; by apply not_elem_of_nil in H|].
    intros _. simpl. rewrite Forall_nil. pose proof (not_elem_of_nil h). tauto. }
  apply Forall_cons in Hes as [Hother Hes]. cbn [snd] in *.
  destruct (happens_effect _ _ _ _ _ _ _ He Hother Hat) as (Hn & Hat1 & Heff).
  assert (Hf : number_fits w h) by (intros k'; rewrite Hk; by intros [= <-]).
  specialize (Heff Hf).
  assert (Hblocks : blocks (e :: es) = blocks [e] ++ blocks es) by (by destruct e).
  assert (Hsweeps : sweeps (number head) (e :: es)
    = sweeps (number head) [e] ++ sweeps (number head1) es) by (rewrite Hn; by destruct e).
  assert (Hlen : next_head e (number head) = number head + Z.of_nat (length (blocks [e])))
    by (destruct e; simpl; lia).
  unfold given_up in *. rewrite bind_cons, elem_of_app.
  rewrite Hblocks, bind_app, elem_of_app, length_app, Hsweeps, Forall_app.
  destruct (decide (h ∈ blocks [e] ≫= block_hashes)) as [Hin|Hnin].
  - assert (Hg : gone w1).
    { destruct e as [b| | |raw hs|raw hs|hs hs']; try by apply not_elem_of_nil in Hin.
      simpl in Hin, Heff. rewrite app_nil_r in Hin. destruct Heff as [Hn1 Hp1].
      unfold gone. rewrite Hp1, Hn1, decide_True by done. tauto. }
    destruct (history_gone _ _ _ _ _ Hes' Hes Hat1 Hg) as [Hn' Hg'].
    split; [rewrite Hn', Hn, Hlen; lia|]. split; [done|]. tauto.
  - destruct (effect_live _ _ _ _ _ Heff Hk Hpos Hnin) as [Hk1 Hp1].
    destruct (IH Hes Hat1 Hk1 Hpos Hfit) as (Hn' & Hin & Hout).
    split; [rewrite Hn', Hn, Hlen; lia|]. split; [tauto|].
    intros Hno. destruct Hout as [Hk' Hp']; [tauto|]. split; [done|]. rewrite Hp', Hp1. tauto.
Qed.
End effects.

(** ** Properties *)

(** C5 The whole life of a transaction accepted over [kasplexAuth] at head [n].  Whatever
    rounds, updates that stay at the head, abandoned builds, submissions of other
    transactions and maintenance of reth's pool follow: once a block includes it, it is out
    of the pool and has no number, unless reth puts it back.  Otherwise it keeps the number
    [n + 1], and it is in the pool exactly when no update named head [n] again before the
    next block, at most 101 blocks have been added, and the pool has not itself given it up,
    for another submission (a replacement, or its limits) or in its own maintenance.  So the update that asks for a build on the head it was accepted at removes it, and it is
    lost unless that build's block has it. *)
Theorem submitted_transaction_lifetime raw w0 w h head s es head' s' w'
    (Hlaw : eth_env_law EC) (Henv : ∀ (q : Prov) env, evm_env_of (evm_with_env q env) = env)
    (Hv1 : payload_v1_law RO PL) (Hw : Assembler.EMPTY_WITHDRAWALS = EMPTY_WITHDRAWALS)
    (Hhash : ∀ tx : Tx, PayloadBuilder.tx_hash tx = Engine.tx_hash tx)
    (Hengine : import_laws valid) (Hintake : intake_laws)
    (Hsend : send_raw_transaction (PE := PE) raw w0 = (Ok h, w))
    (Hlatest : latest_number (chain w0) = Some (number head)) (Hat : at_head head w0)
    (Hfit : 0 ≤ number head ∧ number head + 1 + UNEXECUTED_TX_RETENTION_BLOCKS < 2 ^ 64)
    (Hrun : history head (s, w) es head' (s', w')) (Hes : Forall (submits_other h) es) :
  number head' = number head + Z.of_nat (length (blocks es)) ∧
  if decide (h ∈ (blocks es ≫= block_hashes)) then
    h ∉ pool_hashes (pool (pools w')) ∧
    default 0 (get_submission_block h (tx_mapping (pools w'))) = 0
  else
    get_submission_block h (tx_mapping (pools w')) = Some (number head + 1) ∧
    (h ∈ pool_hashes (pool (pools w')) ↔
     updated_first es = false ∧
     Z.of_nat (length (blocks es)) ≤ UNEXECUTED_TX_RETENTION_BLOCKS + 1 ∧
     h ∉ given_up es).
Proof.
  destruct (send_Ok _ _ _ _ Hsend) as (r & t & _ & _ & _ & Ht & -> & Hin & Hc & Hm).
  unfold UNEXECUTED_TX_RETENTION_BLOCKS in Hfit.
  assert (Hk : number_of (pool_tx_hash t) w = Some (number head + 1)).
  { rewrite Hm, with_number_lookup, Hlatest, (to_pool_law Hintake _ _ Ht), decide_True by done.
    by rewrite wrapping_add_small by width. }
  destruct (history_live Hlaw Henv Hv1 Hw Hhash Hengine _ Hintake _ _ _ _ _ _ Hrun Hes
    ltac:(simpl; unfold at_head; by rewrite Hc) Hk) as (Hn & Hinc & Hout); [lia| |].
  { unfold retention_fits, UNEXECUTED_TX_RETENTION_BLOCKS. width. }
  split; [done|]. case_decide as Hd; [by apply Hinc|].
  destruct (Hout Hd) as [Hk' Hp]. split; [done|]. simpl in Hp. rewrite Hp.
  unfold in_window. rewrite sweeps_survived. tauto.
Qed.
End lifetime.

(** ** Witness *)

(** The head is block 5; transaction 6 is submitted at it. *)
#[local] Instance front_latest : LatestHeader PlainEngine.chain :=
  { latest_number ch := (λ b, b.2.1) <$> head ch }.
Definition life_world : ApiWorld PlainEngine.chain ListPool.t :=
  mkApiWorld [(sealed_header_hash sample_parent, (5, []))]
    (mkPoolWorld (ListPool.of_lists [2; 7] [] I) (mkTxMappingState {[ 2 := 4; 7 := 4 ]} ∅ false)).
Definition submitted_world : ApiWorld PlainEngine.chain ListPool.t :=
  (send_raw_transaction (PE := ()) (RT := PlainRpc.raw) (replicate 6 Byte.x00) life_world).2.

Lemma life_submitted :
  send_raw_transaction (PE := ()) (RT := PlainRpc.raw) (replicate 6 Byte.x00) life_world
  = (Ok 6, submitted_world).
Proof. apply answer_is. vm_compute. reflexivity. Qed.

Lemma life_head : at_head (PR := PlainEngine.provider) sample_parent life_world.
Proof. split; vm_compute; reflexivity. Qed.

Lemma plain_intake : intake_laws (TP := ListPool.list_pool) (RT := PlainRpc.raw).
Proof.
  split; [apply PlainRpc.plain_conversion|done|].
  intros t p x. rewrite !ListPool.pool_hashes_list_pool. simpl. unfold ListPool.add.
  case_decide; simpl; set_solver.
Qed.

Lemma replacing_intake : intake_laws (TP := ReplacingPool.pool) (RT := PlainRpc.raw).
Proof.
  split; [apply PlainRpc.plain_conversion|done|]. intros t p x Hx.
  apply (takes_in_law plain_intake t (ListPool.remove (ReplacingPool.replaced t p) p).2) in Hx
    as [Hx|?]; [left|by right].
  by apply (remove_transactions_left (TransactionPoolLaws := ListPool.list_pool_laws)) in Hx as [? _].
Qed.

Local Abbreviation plain_history :=
  (history (BB := PlainBasic.builder) (BP := PlainBasic.parts)
    (NB := kasplex_next_block_config (Spec := ()) (EC := PlainConfig.eth))
    (PL := PlainPayloads.library) (PR := PlainEngine.provider) (IE := ImportEngine.engine)
    (RT := PlainRpc.raw) (BoxError := ()) first_config (λ status, status = "VALID"%string)).

Local Abbreviation plain_happens :=
  (happens (BB := PlainBasic.builder) (BP := PlainBasic.parts)
    (NB := kasplex_next_block_config (Spec := ()) (EC := PlainConfig.eth))
    (PL := PlainPayloads.library) (PR := PlainEngine.provider) (IE := ImportEngine.engine)
    (RT := PlainRpc.raw) (BoxError := ()) first_config (λ status, status = "VALID"%string)).
Local Abbreviation round_head := (seal (PL := PlainPayloads.library) round_block).

(** An event at the head, and a round. *)
Lemma plain_round e w :
  plain_happens sample_parent (one_cell None, submitted_world) e sample_parent (one_cell None, w) →
  (round_build w).1 = Ok (Freeze round_frozen) →
  (round_converted w).1 = Ok (mkEthExecutionData (PayloadV1Variant round_payload_of)) →
  (round_imported w).1 = Ok "VALID"%string → (round_end w).1 = Ok "VALID"%string →
  plain_history sample_parent (one_cell None, submitted_world) [e; Round round_block] round_head
    (config_state (round_build w).2, (round_end w).2).
Proof.
  intros He ????. eapply history_cons; [exact He|]. eapply history_cons; [|apply history_nil].
  apply happens_round. by apply round_cycle.
Qed.

Definition other_world : ApiWorld PlainEngine.chain ListPool.t :=
  api (eth_send_raw_transaction (PE := ()) (RT := PlainRpc.raw) (replicate 3 Byte.x00)
    (mkEthWorld submitted_world [])).2.
Definition updated_world : ApiWorld PlainEngine.chain ListPool.t :=
  (fork_choice_updated_v2 (BoxError := ()) (PR := PlainEngine.provider) (IE := ImportEngine.engine)
    (mkForkchoiceState (sealed_header_hash sample_parent) 5 5) None submitted_world).2.

Lemma other_history :
  plain_history sample_parent (one_cell None, submitted_world)
    [EthSent (replicate 3 Byte.x00) []; Round round_block] round_head
    (config_state (round_build other_world).2, (round_end other_world).2).
Proof.
  apply plain_round; [|vm_compute; reflexivity..].
  replace (@nil B256) with (dropped submitted_world other_world) by (vm_compute; reflexivity).
  by apply happens_eth_sent.
Qed.

Lemma updated_history :
  plain_history sample_parent (one_cell None, submitted_world) [Update; Round round_block] round_head
    (config_state (round_build updated_world).2, (round_end updated_world).2).
Proof.
  apply plain_round; [|vm_compute; reflexivity..].
  refine (happens_update _ _ _ _ _ 5 5 None "VALID"%string _ _).
  apply answer_is. vm_compute. reflexivity.
Qed.

(** Transaction 106 comes to a pool in which it replaces 6. *)
Local Abbreviation held_send :=
  (send_raw_transaction (PE := ()) (TP := ReplacingPool.pool) (RT := PlainRpc.raw)
    (replicate 6 Byte.x00) life_world).
Definition held_world : ApiWorld PlainEngine.chain ListPool.t := held_send.2.
Definition replaced_world : ApiWorld PlainEngine.chain ListPool.t :=
  api (eth_send_raw_transaction (PE := ()) (TP := ReplacingPool.pool) (RT := PlainRpc.raw)
    (replicate 106 Byte.x00) (mkEthWorld held_world [])).2.

Lemma held_submitted : held_send = (Ok 6, held_world).
Proof. apply answer_is. vm_compute. reflexivity. Qed.

Lemma replaced_history :
  history (TP := ReplacingPool.pool) (BB := PlainBasic.builder) (BP := PlainBasic.parts)
    (NB := kasplex_next_block_config (Spec := ()) (EC := PlainConfig.eth))
    (PL := PlainPayloads.library) (PR := PlainEngine.provider) (IE := ImportEngine.engine)
    (RT := PlainRpc.raw) (BoxError := ()) first_config (λ status, status = "VALID"%string)
    sample_parent (one_cell None, held_world) [EthSent (replicate 106 Byte.x00) [6]] sample_parent
    (one_cell None, replaced_world).
Proof.
  eapply history_cons; [|apply history_nil].
  replace [6] with (dropped (TP := ReplacingPool.pool) held_world replaced_world)
    by (vm_compute; reflexivity).
  by apply happens_eth_sent.
Qed.

(** Another submission and a round: still pooled.  An update at the same head first: lost.
    A submission that replaces it: gone from the pool. *)
Lemma submitted_transaction_lifetime_witness :
  6 ∈ pool_hashes (pool (pools (round_end other_world).2)) ∧
  6 ∉ pool_hashes (pool (pools (round_end updated_world).2)) ∧
  6 ∉ pool_hashes (H := ReplacingPool.pool) (pool (pools replaced_world)).
Proof.
  pose proof (λ (TP : TransactionPool ListPool.t B256 ()) L Hintake w es head' s' w', submitted_transaction_lifetime (EC := PlainConfig.eth)
    (NL := kasplex_next_block_config_laws (EC := PlainConfig.eth)) (BL := PlainBasic.laws)
    (RO := PlainMachine.roots) (BBB := PlainBasic.basic) (KE := PlainBasic.keeps)
    (TP := TP) (L := L) (BoxError := ()) first_config (λ status, status = "VALID"%string)
    (replicate 6 Byte.x00) life_world w 6 sample_parent (one_cell None) es head' s' w'
    plain_eth_env_law (λ _ _, eq_refl) plain_payload_v1_law eq_refl (λ _, eq_refl)
    ImportEngine.import_engine_laws Hintake) as H.
  assert (Hout : 6 ∉ [round_block] ≫= block_hashes (PL := PlainPayloads.library)) by by_evaluation.
  destruct (H _ ListPool.list_pool_laws plain_intake _ _ _ _ _ life_submitted eq_refl life_head
    ltac:(by_evaluation) other_history) as [_ Hother].
  { repeat constructor. by intros r [= <-]. }
  destruct (H _ ListPool.list_pool_laws plain_intake _ _ _ _ _ life_submitted eq_refl life_head
    ltac:(by_evaluation) updated_history) as [_ Hupdated].
  { by repeat constructor. }
  destruct (H _ ReplacingPool.replacing_pool_laws replacing_intake _ _ _ _ _ held_submitted eq_refl life_head
    ltac:(by_evaluation) replaced_history) as [_ Hreplaced].
  { repeat constructor. intros r [= <-]. vm_compute. discriminate. }
  change (blocks _) with [round_block] in Hother.
  change (blocks _) with [round_block] in Hupdated.
  rewrite decide_False in Hother by exact Hout. rewrite decide_False in Hupdated by exact Hout.
  split; [|split; [by intros [Hno _]%Hupdated|]].
  - apply Hother. split; [done|]. split; [vm_compute; discriminate|apply not_elem_of_nil].
  - intros (_ & _ & Hno)%Hreplaced. apply Hno. left.
Defined.
