(* ===== verification/Session.v ===== *)
(** * Sessions of a node: the requests it serves, one after the other

    The engine's methods and the submissions of both namespaces as steps of one state
    machine over the chain, the pool and the mapping.  A ghost records the head of the
    last sweep and what came to the pool since; what the pool can hold between two
    sweeps is stated with it. *)

From stdpp Require Import prelude gmap list relations.
From Stdlib Require Import ZArith Lia.
From S2P Require Import Prelude Types TxMapping Chainspec TxPool BlockConfig Engine EngineApi Rpc EthApi.

(** ** Requests *)

Inductive request {Attrs : Type} : Type :=
| ForkchoiceUpdated (state : ForkchoiceState) (attributes : option Attrs)
| NewPayload (payload : KasplexExecutionData)
| GetPayload (payload_id : Bytes)
| SendRaw (tx : Bytes)
| SendRawBatch (txs : list Bytes)
| EthSendRaw (tx : Bytes).
Arguments request : clear implicits.

Section session.
Context {Ch P T PE Spec PrErr Attrs RpcErr Status Updated Envelope BoxError : Type}.
Context {Recovered D Cv : Type}.
Context {TP : TransactionPool P T PE} {CC : KasplexChainCheck Spec}.
Context {PR : Provider Ch Spec PrErr}.
Context {IE : InnerEngine (ApiWorld Ch P) Attrs RpcErr Status Updated Envelope}.
Context {RT : RawTransactions Recovered T D Cv} {LH : LatestHeader Ch}.
Local Abbreviation World := (ApiWorld Ch P).
Local Abbreviation Ghost := (option Z * list (B256 * option Z))%type.
Implicit Types (w : World) (g : Ghost) (r : request Attrs) (since : list (B256 * option Z)).

(** The state a request leaves, whatever its answer. *)
Definition serve r w : World :=
  match r with
  | ForkchoiceUpdated state attributes =>
      (fork_choice_updated_v2 (BoxError := BoxError) state attributes w).2
  | NewPayload payload => (new_payload_v2 (BoxError := BoxError) payload w).2
  | GetPayload payload_id => (get_payload_v2 payload_id w).2
  | SendRaw tx => (send_raw_transaction (PE := PE) (D := D) (Cv := Cv) tx w).2
  | SendRawBatch txs => (send_raw_transactions (PE := PE) (D := D) (Cv := Cv) txs w).2
  | EthSendRaw tx =>
      api (eth_send_raw_transaction (PE := PE) (D := D) (Cv := Cv) tx (mkEthWorld w [])).2
  end.

(** The transaction a call of [send_raw_transaction] submits, with the number it is given. *)
Definition submission tx w : list (B256 * option Z) :=
  if bool_decide (tx = []) then [] else
  match recover_raw_transaction tx with
  | Ok r =>
      if recovered_max_fee r <? min_l2_base_fee then []
      else [(recovered_hash r, (λ n, n ⊞[64] 1) <$> latest_number (chain w))]
  | _ => []
  end.

(** Those of a batch, each in the world the one before leaves. *)
Fixpoint submissions txs w : list (B256 * option Z) :=
  match txs with
  | [] => []
  | tx :: txs =>
      submission tx w ++
      match send_raw_transaction (PE := PE) (D := D) (Cv := Cv) tx w with
      | (Panicked, _) => []
      | (_, w') => submissions txs w'
      end
  end.

(** A transaction sent over the eth namespace has no number of that. *)
Definition eth_submission (tx : Bytes) : list (B256 * option Z) :=
  match recover_raw_transaction tx with
  | Ok r => [(pool_tx_hash (from_pooled r), None)]
  | _ => []
  end.

(** What [p'] has and [p] has not. *)
Definition taken_in (p p' : P) : list (B256 * option Z) :=
  (λ x, (x, None)) <$> filter (λ x, x ∉ pool_hashes p) (pool_hashes p').

(** The ghost after a request: a forkchoice update that sweeps starts it anew with its
    head; one that does not sweep leaves no head. *)
Definition note r w g : Ghost :=
  match r with
  | ForkchoiceUpdated state attributes =>
      match inner_fork_choice_updated_v2 state attributes w with
      | (Ok _, w1) =>
          (if is_kasplex (chain_spec (chain w1))
           then sweep_number (head_block_hash state) (chain w1) else None, [])
      | _ => (None, [])
      end
  | NewPayload _ | GetPayload _ => g
  | SendRaw tx => (g.1, submission tx w ++ g.2)
  | SendRawBatch txs => (g.1, submissions txs w ++ g.2)
  | EthSendRaw tx => (g.1, eth_submission tx ++ g.2)
  end.

(** A request, or reth changing its pool by itself between two of them. *)
Inductive session_step : World * Ghost → World * Ghost → Prop :=
| served r w g : session_step (w, g) (serve r w, note r w g)
| maintained p' w g :
    session_step (w, g)
      (mkApiWorld (chain w) (mkPoolWorld p' (tx_mapping (pools w))),
       (g.1, taken_in (pool (pools w)) p' ++ g.2)).

(** ** What is relied on

    Numbers change in the inner engine only where it validates and converts payloads:
    those of the table after are 0 or were there before; and neither method takes new
    transactions into the pool.  Nothing is said of the inner forkchoice update, which
    may put transactions of a reorganised block back. *)
Definition numbers_from w w' : Prop := ∀ h n,
  get_submission_block h (tx_mapping (pools w')) = Some n →
  n = 0 ∨ get_submission_block h (tx_mapping (pools w)) = Some n.
Definition adds_none w w' : Prop := ∀ h,
  h ∈ pool_hashes (pool (pools w')) → h ∈ pool_hashes (pool (pools w)).

Record session_laws : Prop := {
  inner_new_payload_law d w : let w' := (inner_new_payload_v2 d w).2 in
    numbers_from w w' ∧ adds_none w w';
  inner_get_payload_law id w : let w' := (inner_get_payload_v2 id w).2 in
    numbers_from w w' ∧ adds_none w w';
  adds_at_most t (p : P) h :
    h ∈ pool_hashes (add_transaction t p).2 → h ∈ pool_hashes p ∨ h = pool_tx_hash t;
  conversions : conversion_law RT;
}.

(** ** The invariant *)

(** Every pooled transaction the sweep for [head] would drop was submitted since, with the
    number it has, or came without one. *)
Definition fresh_for (head : Z) since w : Prop := ∀ h,
  h ∈ pool_hashes (pool (pools w)) → stale (tx_mapping (pools w)) head h = true →
  ∃ n, get_submission_block h (tx_mapping (pools w)) = Some n ∧
    ((h, Some n) ∈ since ∨ (h, None) ∈ since).
Definition fresh (wg : World * Ghost) : Prop :=
  match wg.2.1 with Some head => fresh_for head wg.2.2 wg.1 | None => True end.

Lemma stale_Some st head h : stale st head h = true → ∃ n, get_submission_block h st = Some n ∧ 0 < n.
Proof.
  unfold stale. destruct (get_submission_block h st) as [n|]; [|done]. simpl. intros H.
  exists n. split; [done|]. apply andb_true_iff in H as [H _]. lia.
Qed.

Lemma stale_same st st' head h :
  get_submission_block h st' = get_submission_block h st → stale st' head h = stale st head h.
Proof. intros H. unfold stale, is_transaction_expired_for_pool. by rewrite H. Qed.

Lemma fresh_for_from head ns w w' :
  numbers_from w w' → adds_none w w' → fresh_for head ns w → fresh_for head ns w'.
Proof.
  intros Hn Hp Hf h Hh Hs. destruct (stale_Some _ _ _ Hs) as (n & Hget & Hpos).
  destruct (Hn h n Hget) as [->|Hold]; [lia|]. rewrite Hget, <-Hold.
  apply Hf; [by apply Hp|]. rewrite <-Hs. symmetry. apply stale_same. by rewrite Hget.
Qed.

Lemma fresh_for_more head since since' w :
  fresh_for head since w → fresh_for head (since' ++ since) w.
Proof.
  intros Hf h Hh Hs. destruct (Hf h Hh Hs) as (n & ? & [?|?]); exists n; split; try done;
    [left|right]; apply elem_of_app; by right.
Qed.

(** ** The steps keep it *)

(** After a sweep no pooled transaction is stale for its head. *)
Lemma swept_fresh {L : TransactionPoolLaws P T PE} spec head (ch : Ch) (pw : PoolWorld P) ns :
  is_kasplex spec = true →
  fresh_for head ns (mkApiWorld ch
    (handle_kasplex_pool_reorg (BoxError := BoxError) (TP := TP) spec head pw).2).
Proof.
  intros Hk h. rewrite handle_kasplex_pool_reorg_run, Hk. simpl.
  rewrite remove_if_any_mapping, remove_if_any_left, list_elem_of_filter. simpl.
  intros [Hin Hns] Hs. destruct Hns. split; [|done].
  apply Is_true_true. rewrite <-Hs. by apply stale_same.
Qed.

Lemma new_payload_frame {L : TransactionPoolLaws P T PE} payload w :
  numbers_from w (inner_new_payload_v2 (mkEthExecutionData
    (PayloadV1Variant (execution_payload payload))) w).2 →
  adds_none w (inner_new_payload_v2 (mkEthExecutionData
    (PayloadV1Variant (execution_payload payload))) w).2 →
  numbers_from w (new_payload_v2 (BoxError := BoxError) payload w).2 ∧
  adds_none w (new_payload_v2 (BoxError := BoxError) payload w).2.
Proof.
  rewrite new_payload_run. destruct (inner_new_payload_v2 _ w) as [[r|e|] w1]; [|done..].
  intros Hn Hp. simpl in *. destruct (block_by_hash _ _) as [e|[hs|]]; [done| |done].
  destruct (drop_included_effect (BoxError := BoxError) hs (pools w1)) as [Hm Hleft]. split.
  - intros h n. simpl. rewrite Hm. apply Hn.
  - intros h. simpl. rewrite Hleft. intros [H _]. by apply Hp.
Qed.

(** A call that brings at most [x] into the pool and leaves the other numbers, when [x]
    is noted with the number it then has, or without one. *)
Lemma fresh_for_one head since w w' x m :
  (∀ h, h ∈ pool_hashes (pool (pools w')) → h ∈ pool_hashes (pool (pools w)) ∨ h = x) →
  (∀ h, h ≠ x → get_submission_block h (tx_mapping (pools w'))
                = get_submission_block h (tx_mapping (pools w))) →
  (∀ n, m = Some n → get_submission_block x (tx_mapping (pools w')) = Some n) →
  fresh_for head since w → fresh_for head ([(x, m)] ++ since) w'.
Proof.
  intros Hp Hn Hm Hf h Hh Hs. destruct (decide (h = x)) as [->|Hne].
  - destruct (stale_Some _ _ _ Hs) as (n & Hget & _). exists n. split; [done|].
    destruct m as [k|]; [|by right; left]. rewrite (Hm k) in Hget by done. simplify_eq. by left; left.
  - destruct (fresh_for_more head since [(x, m)] w Hf h) as (n & Hget & Hin).
    + by destruct (Hp h Hh).
    + rewrite <-Hs. symmetry. apply stale_same. by apply Hn.
    + exists n. split; [|exact Hin]. by rewrite (Hn h Hne).
Qed.

(** A submission keeps the pool fresh when it is noted. *)
Lemma send_fresh head since tx w (Hlaw : session_laws) :
  fresh_for head since w →
  fresh_for head (submission tx w ++ since)
    (send_raw_transaction (PE := PE) (D := D) (Cv := Cv) tx w).2.
Proof.
  intros Hf. pose proof (send_leaves (PE := PE) (Cv := Cv) tx w) as Hl. cbv zeta in *.
  destruct Hl as [->|(r & Hne & Hr & Hfee & Hl)]; [by apply fresh_for_more|].
  unfold submission. rewrite bool_decide_eq_false_2, Hr by done.
  destruct (Z.ltb_spec (recovered_max_fee r) min_l2_base_fee) as [|_]; [lia|].
  assert (Hpool : pool (pools (with_number r w)) = pool (pools w)).
  { unfold with_number. by destruct (latest_number _). }
  destruct Hl as [->|(t & Ht & ->)]; rewrite ?add_to_pool_leaves;
    (apply fresh_for_one with w; [| | |done]); cbn [pools pool tx_mapping chain];
    rewrite ?Hpool; intros h; rewrite ?with_number_lookup.
  1: by left.
  1,4: intros Hh; destruct (latest_number _); [by rewrite decide_False|done].
  1,3: destruct (latest_number _); [|done]; intros [= <-]; by rewrite decide_True.
  intros Hin. destruct (adds_at_most Hlaw _ _ _ Hin) as [?| ->]; [by left|right].
  apply (conversions Hlaw _ _ Ht).
Qed.

Lemma send_next_run acc tx w :
  send_next (PE := PE) (D := D) (Cv := Cv) acc tx w
  = match send_raw_transaction tx w with
    | (Ok h, w') => (Ok (acc ++ [h]), w')
    | (Err _, w') => (Ok acc, w')
    | (Panicked, w') => (Panicked, w')
    end.
Proof.
  unfold send_next, mbind, comp_bind, try. by destruct (send_raw_transaction _ _) as [[]].
Qed.

Lemma batch_fresh head since txs acc w (Hlaw : session_laws) :
  fresh_for head since w →
  fresh_for head (submissions txs w ++ since)
    (for_in txs acc (send_next (PE := PE) (D := D) (Cv := Cv)) w).2.
Proof.
  revert since acc w. induction txs as [|tx txs IH]; intros since acc w Hf; [done|].
  cbn [for_in submissions]. unfold mbind, comp_bind. rewrite send_next_run.
  pose proof (send_fresh head since tx w Hlaw Hf) as Hf'.
  destruct (send_raw_transaction tx w) as [[h|e|] w']; simpl in *;
    [..|by rewrite app_nil_r];
    intros x Hx Hs; destruct (IH _ _ _ Hf' x Hx Hs) as (n & Hn & Hin);
    exists n; (split; [done|]); revert Hin; rewrite !elem_of_app; tauto.
Qed.

Lemma eth_send_fresh head since tx w (Hlaw : session_laws) :
  fresh_for head since w →
  fresh_for head (eth_submission tx ++ since) (serve (EthSendRaw tx) w).
Proof.
  cbn [serve]. unfold eth_submission. rewrite eth_send_run.
  destruct (recover_raw_transaction tx) as [r|e|]; [|done..]. intros Hf.
  pose proof (adds_at_most Hlaw (from_pooled r) (pool (pools w))) as Hat.
  cbn [api pools chain]. destruct (add_transaction _ _) as [o p].
  apply fresh_for_one with w; [exact Hat|done..].
Qed.

Lemma maintained_fresh head since p' w :
  fresh_for head since w →
  fresh_for head (taken_in (pool (pools w)) p' ++ since)
    (mkApiWorld (chain w) (mkPoolWorld p' (tx_mapping (pools w)))).
Proof.
  intros Hf h Hh Hs. cbn [pools pool tx_mapping] in *.
  destruct (decide (h ∈ pool_hashes (pool (pools w)))) as [Hin|Hnin].
  - by apply (fresh_for_more head since _ w Hf h).
  - destruct (stale_Some _ _ _ Hs) as (n & Hget & _). exists n. split; [done|]. right.
    apply elem_of_app. left. apply list_elem_of_fmap. exists h. split; [done|].
    by apply list_elem_of_filter.
Qed.

Lemma session_step_fresh {L : TransactionPoolLaws P T PE} wg wg' (Hlaw : session_laws) :
  fresh wg → session_step wg wg' → fresh wg'.
Proof.
  intros Hf Hs. destruct Hs as [r w [[head|] since]|p' w [[head|] since]];
    unfold fresh in *; simpl in Hf; [..|by apply maintained_fresh|done].
  all: destruct r; cbn [note snd fst]; try done.
  (* the updates *)
  1,7: cbn [serve]; rewrite fork_choice_run;
    destruct (inner_fork_choice_updated_v2 _ _ w) as [[o|e|] w1]; simpl; [|done..];
    destruct (is_kasplex _) eqn:Hk; [|done];
    destruct (sweep_number _ _) as [n|]; [|done]; by apply swept_fresh.
  - destruct (inner_new_payload_law Hlaw (mkEthExecutionData
      (PayloadV1Variant (execution_payload payload))) w) as [Hn Hp].
    destruct (new_payload_frame payload w Hn Hp). by eapply fresh_for_from.
  - destruct (inner_get_payload_law Hlaw payload_id w) as [Hn Hp]. by eapply fresh_for_from.
  - by apply send_fresh.
  - by apply batch_fresh.
  - by apply eth_send_fresh.
Qed.

(** C12 What the pool holds between two sweeps.  Along any session of engine calls and
    submissions in both namespaces, whatever the answers, whatever the inner engine's
    forkchoice updates do and whatever reth does to its pool by itself: a pooled
    transaction whose number [k] is positive is in the retention window of the head of
    the last sweep, or since that sweep it was submitted and given this very number, or
    it came to the pool without a number of its own (over the eth namespace, or put
    there by reth). *)
Theorem session_pool_is_fresh {L : TransactionPoolLaws P T PE} w0 w head since h k
    (Hlaw : session_laws)
    (Hrun : rtc session_step (w0, (None, [])) (w, (Some head, since)))
    (Hh : h ∈ pool_hashes (pool (pools w)))
    (Hk : get_submission_block h (tx_mapping (pools w)) = Some k) (Hpos : 0 < k)
    (Hfit : retention_fits k) :
  k ≤ head ≤ k + UNEXECUTED_TX_RETENTION_BLOCKS ∨ (h, Some k) ∈ since ∨ (h, None) ∈ since.
Proof.
  assert (Hf : fresh_for head since w).
  { refine (rtc_ind_r (λ wg, fresh wg) (w0, (None, [])) I _ _ Hrun).
    intros wg1 wg2 _ Hs Hf. by eapply session_step_fresh. }
  destruct (stale (tx_mapping (pools w)) head h) eqn:Hs.
  - right. destruct (Hf h Hh Hs) as (n & ? & ?). by simplify_eq.
  - left. unfold stale, is_transaction_expired_for_pool in Hs. rewrite Hk in Hs. simpl in Hs.
    apply andb_false_iff in Hs as [Hs|Hs]; [apply Z.ltb_ge in Hs; lia|].
    by apply (expired_test_window _ _ Hfit).
Qed.
End session.
Arguments session_laws {_ _ _ _ _ _ _ _ _ _ _ _} _ _ _.

(** ** Witness *)

#[local] Instance plain_latest : LatestHeader PlainEngine.chain :=
  { latest_number ch := Some (Z.of_nat (length ch)) }.

Lemma plain_session_laws :
  session_laws ListPool.list_pool PlainEngine.engine PlainRpc.raw.
Proof.
  split.
  - intros d w. split; [by intros h n ?; right|by intros h].
  - intros id w. split; [by intros h n ?; right|by intros h].
  - intros t p h. simpl. unfold ListPool.add. case_decide; [|by left].
    unfold pool_hashes, pending_hashes, queued_hashes. simpl. rewrite !list_fmap_id. set_solver.
  - apply PlainRpc.plain_conversion.
Qed.

(** A forkchoice update to block 500, which is in the sample chain, and a submission
    of transaction 5 after it. *)
Local Abbreviation requests := (list (request ())).
Definition serve_all (rs : requests) : ApiWorld PlainEngine.chain ListPool.t :=
  foldl (λ w r, serve (BoxError := ()) (RT := PlainRpc.raw) r w) sample_api rs.
Definition sample_requests : requests :=
  [ForkchoiceUpdated (mkForkchoiceState 5 5 5) None; SendRaw (replicate 5 Byte.x00)].

Lemma session_pool_is_fresh_witness :
  2 ≤ 500 ≤ 2 + UNEXECUTED_TX_RETENTION_BLOCKS ∨
  (5, Some 2) ∈ [(5, Some 2)] ∨ (5, None) ∈ [(5, Some 2)].
Proof.
  refine (session_pool_is_fresh (BoxError := ()) (L := ListPool.list_pool_laws) sample_api
    (serve_all sample_requests) 500 [(5, Some 2)] 5 2 plain_session_laws _ _ _ _ _).
  - eapply rtc_l; [apply (served (ForkchoiceUpdated (mkForkchoiceState 5 5 5) None))|].
    eapply rtc_l; [apply (served (SendRaw (replicate 5 Byte.x00)))|].
    apply rtc_refl.
  - vm_compute. left.
  - vm_compute. reflexivity.
  - done.
  - by_evaluation.
Defined.
