(* ===== verification/Node.v ===== *)
(** * The components of a node (crates/node, network, [consensus/src/builder.rs],
    [payload/src/lib.rs], [rpc/src/engine/builder.rs], [bin/kasplex-reth/src/main.rs])

    reth's node builder asks the builders of the repository for the parts of a node,
    handing each the context and the parts made before it.  The handles that go
    around (provider, pool, network, ...) are [Arc]s: a clone is the same handle.
    The launch world is reth's own state and the cells of EVM configurations. *)

From stdpp Require Import prelude gmap strings list.
From Stdlib Require Import ZArith Lia.
From S2P Require Import Prelude TxMapping BlockConfig Consensus Engine EngineApi Rpc EthApi ConcurrentBuilds.

(** ** reth's parts and handles *)

Record HostTypes := mkHostTypes {
  Provider : Type;
  Pool : Type;
  NetworkBuilder : Type;
  Network : Type;
  TaskExecutor : Type;
  BeaconHandle : Type;
  PayloadHandle : Type;
  PayloadStore : Type;
  Converter : Type;
  Datadir : Type;
  DatadirPath : Type;
  InvalidBlockHook : Type;
  ChangesetCache : Type;
  InnerEngineApi : Type;
  TreeValidator : Type;
  TreeSettings : Type;
}.

(** [ClientVersionV1] *)
Record ClientVersionV1 := mkClientVersion {
  client_code : string;
  client_name : string;
  client_version : string;
  client_commit : string;
}.

(** [BuilderContext], and the builder of Ethereum's pool. *)
Class BuilderContext (H : HostTypes) (Chain W E Ctx : Type) := {
  context_chain_spec : Ctx → Chain;
  context_provider : Ctx → Provider H;
  ethereum_build_pool : Ctx → comp W E (Pool H);
  network_builder : Ctx → comp W E (NetworkBuilder H);
  start_network : Ctx → NetworkBuilder H → Pool H → comp W E (Network H);
}.

Record LaunchWorld {W : Type} := mkLaunchWorld { host : W; config_cells : Cells }.
Arguments LaunchWorld : clear implicits.
Arguments mkLaunchWorld {W} _ _.

Definition on_host {W E A} (m : comp W E A) : comp (LaunchWorld W) E A := λ w,
  let '(o, h) := m (host w) in (o, mkLaunchWorld h (config_cells w)).
Definition on_cells {W E A} (m : comp Cells E A) : comp (LaunchWorld W) E A := λ w,
  let '(o, s) := m (config_cells w) in (o, mkLaunchWorld (host w) s).

(** ** The builders *)

(** [KasplexPoolBuilder] ([node/src/pool.rs]); its inner builder has no settings. *)
Record KasplexPoolBuilder := mkPoolBuilder { builder_mapping : option TxMapping }.

Definition pool_builder_new : KasplexPoolBuilder :=
  mkPoolBuilder (Some (tx_mapping_clone get_global_tx_mapping)).
Definition with_tx_mapping (self : KasplexPoolBuilder) (tx_mapping : TxMapping)
    : KasplexPoolBuilder := mkPoolBuilder (Some tx_mapping).

(** [KasplexPayloadBuilder] ([payload/src/builder.rs]) *)
Record KasplexPayloadBuilder {Client Chain : Type} := mkPayloadBuilder {
  builder_client : Client;
  builder_evm_config : KasplexEvmConfig Chain;
}.
Arguments KasplexPayloadBuilder : clear implicits.
Arguments mkPayloadBuilder {Client Chain} _ _.

(** [KasplexEngineApi] ([rpc/src/engine/api.rs]) *)
Record KasplexEngineApi {Inner P Po : Type} := mkEngineApi {
  engine_inner : Inner;
  engine_provider : P;
  engine_pool : Po;
}.
Arguments KasplexEngineApi : clear implicits.
Arguments mkEngineApi {Inner P Po} _ _ _.

(** [KasplexExt] and [KasplexAuthExt] ([rpc/src/eth]) *)
Record KasplexExt {P : Type} := mkKasplexExt { ext_provider : P }.
Arguments KasplexExt : clear implicits.
Arguments mkKasplexExt {P} _.
Record KasplexAuthExt {P Po Eth Evm : Type} := mkKasplexAuthExt {
  auth_provider : P;
  auth_pool : Po;
  auth_tx_resp_builder : Eth;
  auth_evm_config : Evm;
}.
Arguments KasplexAuthExt : clear implicits.
Arguments mkKasplexAuthExt {P Po Eth Evm} _ _ _ _.

Section builders.
Context {H : HostTypes} {Chain W E Ctx : Type} {BCx : BuilderContext H Chain W E Ctx}.
Local Abbreviation World := (LaunchWorld W).
Local Abbreviation Config := (KasplexEvmConfig Chain).

(** The mapping of the builder is only named in the log. *)
Definition build_pool (self : KasplexPoolBuilder) (ctx : Ctx) : comp World E (Pool H) :=
  pool ← on_host (ethereum_build_pool ctx);
  mret pool.

Definition build_network (ctx : Ctx) (pool : Pool H) : comp World E (Network H) :=
  network ← on_host (network_builder ctx);
  handle ← on_host (start_network ctx network pool);
  mret handle.

Definition build_evm (ctx : Ctx) : comp World E Config :=
  on_cells (config_new (context_chain_spec ctx)).

Definition build_consensus (ctx : Ctx) : comp World E (KasplexBeaconConsensus Chain) :=
  mret (mkConsensus (context_chain_spec ctx)).

Definition build_payload_builder (ctx : Ctx) (pool : Pool H) (evm_config : Config)
    : comp World E (KasplexPayloadBuilder (Provider H) Chain) :=
  mret (mkPayloadBuilder (context_provider ctx) evm_config).

(** The parts of a launched node, and the settings its add-ons see. *)
Record NodeComponents := mkNodeComponents {
  node_provider : Provider H;
  node_pool : Pool H;
  node_network : Network H;
  node_evm_config : Config;
  node_consensus : KasplexBeaconConsensus Chain;
  node_payload_handle : PayloadHandle H;
  node_task_executor : TaskExecutor H;
}.
Record AddOnsContext := mkAddOnsContext {
  addons_node : NodeComponents;
  config_chain : Chain;
  config_datadir : Datadir H;
  accept_execution_requests_hash : bool;
  beacon_engine_handle : BeaconHandle H;
}.

(** reth's constructors for the engine's parts. *)
Class EngineLib := {
  spec_chain : Chain → Z;
  resolve_datadir : Datadir H → Z → DatadirPath H;
  create_invalid_block_hook : AddOnsContext → DatadirPath H → comp W E (InvalidBlockHook H);
  payload_store_new : PayloadHandle H → PayloadStore H;
  CLIENT_CODE : string;
  name_client : string;
  cargo_pkg_version : string;
  vergen_git_sha : string;
  (** [EngineCapabilities::default()] *)
  default_capabilities : list string;
  engine_api_new : Provider H → Chain → BeaconHandle H → PayloadStore H → Pool H →
    TaskExecutor H → ClientVersionV1 → list string → KasplexEngineValidator Chain → bool →
    Network H → InnerEngineApi H;
  basic_engine_validator_new : Provider H → KasplexBeaconConsensus Chain → Config →
    KasplexEngineValidator Chain → TreeConfig (TreeSettings H) → InvalidBlockHook H → ChangesetCache H →
    TreeValidator H;
}.

(** [KasplexEngineValidatorBuilder] *)
Definition validator_build (ctx : AddOnsContext) : comp World E (KasplexEngineValidator Chain) :=
  mret (mkValidator _ (config_chain ctx)).

Definition build_tree_validator {EL : EngineLib} (ctx : AddOnsContext)
    (tree_config : TreeConfig (TreeSettings H)) (changeset_cache : ChangesetCache H) : comp World E (TreeValidator H) :=
  validator ← validator_build ctx;
  let data_dir := resolve_datadir (config_datadir ctx) (spec_chain (config_chain ctx)) in
  invalid_block_hook ← on_host (create_invalid_block_hook ctx data_dir);
  let tree_config := build_tree_config tree_config in
  mret (basic_engine_validator_new (node_provider (addons_node ctx))
          (node_consensus (addons_node ctx)) (clone (node_evm_config (addons_node ctx)))
          validator tree_config invalid_block_hook changeset_cache).

(** [KasplexEngineApiBuilder], over the builder of the validator. *)
Definition build_engine_api {EL : EngineLib}
    (payload_validator_build : AddOnsContext → comp World E (KasplexEngineValidator Chain))
    (ctx : AddOnsContext)
    : comp World E (KasplexEngineApi (InnerEngineApi H) (Provider H) (Pool H)) :=
  engine_validator ← payload_validator_build ctx;
  let client := mkClientVersion CLIENT_CODE name_client cargo_pkg_version vergen_git_sha in
  let provider := node_provider (addons_node ctx) in
  let pool := node_pool (addons_node ctx) in
  let network := node_network (addons_node ctx) in
  let inner_engine_api := engine_api_new provider (config_chain ctx) (beacon_engine_handle ctx)
    (payload_store_new (node_payload_handle (addons_node ctx))) pool
    (node_task_executor (addons_node ctx)) client default_capabilities engine_validator
    (accept_execution_requests_hash ctx) network in
  mret (mkEngineApi inner_engine_api provider pool).
End builders.
Arguments NodeComponents : clear implicits.
Arguments AddOnsContext : clear implicits.
Arguments EngineLib : clear implicits.

(** ** The node and its add-ons (node/src/lib.rs) *)

Section node.
Context {H : HostTypes} {Chain W E Ctx A : Type} {BCx : BuilderContext H Chain W E Ctx}.
Context {EL : EngineLib H Chain W E}.
Local Abbreviation World := (LaunchWorld W).
Local Abbreviation Config := (KasplexEvmConfig Chain).
Local Abbreviation AddOnsCtx := (AddOnsContext H Chain).
Local Abbreviation Api := (KasplexEngineApi (InnerEngineApi H) (Provider H) (Pool H)).

(** reth's [ComponentsBuilder]: the builder of each part. *)
Record ComponentsBuilder := mkComponentsBuilder {
  components_pool : Ctx → comp World E (Pool H);
  components_executor : Ctx → comp World E Config;
  components_payload : Ctx → Pool H → Config →
    comp World E (KasplexPayloadBuilder (Provider H) Chain);
  components_network : Ctx → Pool H → comp World E (Network H);
  components_consensus : Ctx → comp World E (KasplexBeaconConsensus Chain);
}.

Definition components_builder : ComponentsBuilder :=
  mkComponentsBuilder (build_pool pool_builder_new) build_evm build_payload_builder
    build_network build_consensus.

(** A payload validator builder is known by what it builds. *)
Local Abbreviation PVB := (AddOnsCtx → comp World E (KasplexEngineValidator Chain)).

(** reth's [BasicEngineValidatorBuilder] around a payload validator builder, and
    [RpcAddOns]. *)
Record BasicEngineValidatorBuilder := mkBasicBuilder { basic_payload_validator : PVB }.
Record RpcAddOns := mkRpcAddOns {
  eth_api_builder : outcome () A → outcome () (KasplexEthApi A);
  payload_validator_builder : PVB;
  engine_api_builder : AddOnsCtx → comp World E Api;
  rpc_engine_validator_builder : BasicEngineValidatorBuilder;
}.

(** [KasplexAddOns::default], for the payload validator builder [PVB::default()] gives. *)
Definition KasplexAddOns_default (pvb_default : PVB) : RpcAddOns :=
  mkRpcAddOns build_eth_api pvb_default (build_engine_api pvb_default) (mkBasicBuilder pvb_default).

(** [EngineValidatorAddOn for KasplexAddOns]: the inner add-ons' builder. *)
Definition engine_validator_builder (self : RpcAddOns) : BasicEngineValidatorBuilder :=
  rpc_engine_validator_builder self.

(** [Node for KasplexNode]: the payload validator builder is the repository's. *)
Definition add_ons : RpcAddOns := KasplexAddOns_default validator_build.

(** What the add-ons hand on to [RpcAddOns]: the launch, and a change of the hooks that run
    when the servers start. *)
Definition launch_add_ons {Handle} (rpc_launch_add_ons : RpcAddOns → AddOnsCtx → comp World E Handle)
    (self : RpcAddOns) (ctx : AddOnsCtx) : comp World E Handle := rpc_launch_add_ons self ctx.
Definition hooks_mut {Hooks} (rpc_hooks_mut : (Hooks → Hooks) → RpcAddOns → RpcAddOns)
    (change : Hooks → Hooks) (self : RpcAddOns) : RpcAddOns := rpc_hooks_mut change self.
End node.

(** [DebugNode for KasplexNode]: reth's conversion of an RPC block, and its builder of local
    attributes, whose attributes are those of [Attributes.build_local_attributes]. *)
Definition rpc_to_primitive_block {RpcBlock ConsensusBlock PrimitiveBlock}
    (into_consensus : RpcBlock → ConsensusBlock)
    (convert_transactions : ConsensusBlock → PrimitiveBlock) (rpc_block : RpcBlock)
    : PrimitiveBlock := convert_transactions (into_consensus rpc_block).
Definition local_payload_attributes_builder {Chain LocalBuilder}
    (local_builder_new : Chain → LocalBuilder) (chain_spec : Chain) : LocalBuilder :=
  local_builder_new chain_spec.
Arguments ComponentsBuilder : clear implicits.
Arguments RpcAddOns : clear implicits.
Arguments BasicEngineValidatorBuilder : clear implicits.

(** ** The extension of the RPC modules (main.rs) *)

(** jsonrpsee's [RpcModule]: what the methods share, and the methods registered. *)
Record RpcModule {C : Type} := mkRpcModule { module_context : C; module_methods : list string }.
Arguments RpcModule : clear implicits.
Arguments mkRpcModule {C} _ _.

(** The modules of the server's transports, and those of the authenticated server. *)
Class RpcRegistry (W E : Type) := {
  configured_methods : W → list string;
  auth_methods : W → list string;
  merge_configured : ∀ {C : Type}, RpcModule C → comp W E ();
  merge_auth_methods : ∀ {C : Type}, RpcModule C → comp W E ();
}.

(** A module that is merged adds its methods to its server. *)
Class RpcRegistryLaws (W E : Type) {RR : RpcRegistry W E} : Prop := {
  merge_configured_Ok C (m : RpcModule C) w w' : merge_configured m w = (Ok (), w') →
    configured_methods w' = configured_methods w ++ module_methods m ∧
    auth_methods w' = auth_methods w;
  merge_auth_Ok C (m : RpcModule C) w w' : merge_auth_methods m w = (Ok (), w') →
    auth_methods w' = auth_methods w ++ module_methods m ∧
    configured_methods w' = configured_methods w;
}.

Section extension.
Context {H : HostTypes} {Chain W E : Type} {RR : RpcRegistry W E}.

Definition kasplex_ext_into_rpc (self : KasplexExt (Provider H)) :=
  mkRpcModule self kasplex_methods.
Definition auth_ext_into_rpc {Eth}
    (self : KasplexAuthExt (Provider H) (Pool H) Eth (KasplexEvmConfig Chain)) :=
  mkRpcModule self kasplex_auth_methods.

(** [KasplexEngineApi::into_rpc_module]: the methods of its trait, without the context. *)
Definition engine_into_rpc_module {Inner}
    (self : KasplexEngineApi Inner (Provider H) (Pool H)) : RpcModule () :=
  mkRpcModule () engine_api_methods.

(** The extension of the authenticated namespace of a node. *)
Definition auth_ext (node : NodeComponents H Chain) (converter : Converter H) :=
  mkKasplexAuthExt (node_provider node) (node_pool node) converter (clone (node_evm_config node)).

Definition extend_rpc_modules (node : NodeComponents H Chain) (converter : Converter H)
    : comp (LaunchWorld W) E () :=
  let provider := node_provider node in
  let kasplex_rpc_ext := mkKasplexExt provider in
  _ ← on_host (merge_configured (kasplex_ext_into_rpc kasplex_rpc_ext));
  let kasplex_auth_rpc_ext := auth_ext node converter in
  let auth_rpc_module := auth_ext_into_rpc kasplex_auth_rpc_ext in
  _ ← on_host (merge_auth_methods auth_rpc_module);
  mret ().
End extension.

(** ** The launch (main.rs) *)

Section launch.
Context {H : HostTypes} {Chain W E Ctx A : Type} {BCx : BuilderContext H Chain W E Ctx}.
Context {EL : EngineLib H Chain W E} {RR : RpcRegistry W E}.
Local Abbreviation World := (LaunchWorld W).

(** A launched node, and the wait for its exit. *)
Record NodeHandle := mkNodeHandle {
  node : NodeComponents H Chain;
  node_exit_future : comp World E ();
}.

(** The closure [main] gives to the command line: reth launches the node with the
    components, the add-ons and the extension it is given. *)
Definition launch_kasplex
    (launch : ComponentsBuilder H Chain W E Ctx → RpcAddOns H Chain W E A →
       (NodeComponents H Chain → Converter H → comp World E ()) → comp World E NodeHandle)
    (install_ress_subprotocol : Provider H → KasplexEvmConfig Chain → Network H →
       TaskExecutor H → comp W E ())
    (ress_enabled : bool) : comp World E () :=
  handle ← launch components_builder add_ons extend_rpc_modules;
  let n := node handle in
  _ ← (if ress_enabled
       then on_host (install_ress_subprotocol (node_provider n) (clone (node_evm_config n))
              (node_network n) (node_task_executor n))
       else mret ());
  node_exit_future handle.
End launch.
Arguments NodeHandle : clear implicits.

(** ** Lemmas *)

Lemma on_host_Ok_inv {W E A} (m : comp W E A) w a w' :
  on_host m w = (Ok a, w') → m (host w) = (Ok a, host w') ∧ config_cells w' = config_cells w.
Proof. unfold on_host. destruct (m (host w)). by intros [= -> <-]. Qed.

Section lemmas.
Context {H : HostTypes} {Chain W E Ctx : Type} {BCx : BuilderContext H Chain W E Ctx}.
Implicit Type w : LaunchWorld W.

(** The pool is Ethereum's, whatever mapping the builder has. *)
Lemma build_pool_run (self : KasplexPoolBuilder) ctx w :
  build_pool self ctx w = on_host (ethereum_build_pool ctx) w.
Proof. unfold build_pool, mbind, comp_bind. by destruct (on_host _ w) as [[]]. Qed.

(** The configuration is for the chain of the context; its cells are new and empty. *)
Lemma build_evm_Ok ctx w c w' :
  build_evm ctx w = (Ok c, w') →
  config_chain_spec c = context_chain_spec ctx ∧
  assembler_chain_spec (block_assembler c) = context_chain_spec ctx ∧ host w' = host w ∧
  extra_data_cells (config_cells w) !! current_extra_data c = None ∧
  base_fee_cells (config_cells w) !! current_base_fee_per_gas c = None ∧
  read_extra c (config_cells w') = None ∧ read_fee c (config_cells w') = None.
Proof.
  unfold build_evm, on_cells, config_new, new_with_evm_factory. intros [= <- <-].
  unfold read_extra, read_fee. simpl. simplify_map_eq. split_and!; try done;
    apply not_elem_of_dom, is_fresh.
Qed.
End lemmas.

Section engine_lemmas.
Context {H : HostTypes} {Chain W E : Type} {EL : EngineLib H Chain W E}.
Implicit Type ctx : AddOnsContext H Chain.

Lemma build_engine_api_Ok ctx (w : LaunchWorld W) api w' :
  build_engine_api validator_build ctx w = (Ok api, w') →
  engine_provider api = node_provider (addons_node ctx) ∧
  engine_pool api = node_pool (addons_node ctx) ∧
  ∃ client, engine_inner api =
    engine_api_new (node_provider (addons_node ctx)) (config_chain ctx) (beacon_engine_handle ctx)
      (payload_store_new (node_payload_handle (addons_node ctx))) (node_pool (addons_node ctx))
      (node_task_executor (addons_node ctx)) client default_capabilities
      (mkValidator _ (config_chain ctx))
      (accept_execution_requests_hash ctx) (node_network (addons_node ctx)).
Proof. intros [= <- <-]. split_and!; [done..|]. by eexists. Qed.
End engine_lemmas.

(** ** Properties *)

Section properties.
Context {H : HostTypes} {Chain W E Ctx : Type} {BCx : BuilderContext H Chain W E Ctx}.
Context {EL : EngineLib H Chain W E}.
Implicit Types (w : LaunchWorld W) (n : NodeComponents H Chain) (ctx : AddOnsContext H Chain).

(** Node [n] was put together from the builders: the configuration was made in [w]
    and left [w'], the other parts at any time, the payload builder from handles of
    the node's, and the add-ons saw the node and the chain of the context. *)
Record put_together (bctx : Ctx) w w' n ctx pb v api : Prop := {
  made_pool : ∃ w1 w2, components_pool components_builder bctx w1 = (Ok (node_pool n), w2);
  made_evm : components_executor components_builder bctx w = (Ok (node_evm_config n), w');
  made_payload_builder : ∃ w1 w2, components_payload components_builder bctx (node_pool n)
    (clone (node_evm_config n)) w1 = (Ok pb, w2);
  made_consensus : ∃ w1 w2, components_consensus components_builder bctx w1
    = (Ok (node_consensus n), w2);
  add_ons_node : addons_node ctx = n;
  add_ons_chain : config_chain ctx = context_chain_spec bctx;
  made_validator : ∃ w1 w2, payload_validator_builder (A := ()) add_ons ctx w1 = (Ok v, w2);
  made_engine_api : ∃ w1 w2, engine_api_builder (A := ()) add_ons ctx w1 = (Ok api, w2);
}.

(** C35 A node is built around one configuration.  Consensus, the EVM configuration,
    the payload builder, the authenticated namespace, the engine's validator and the
    assembler of every configuration among them have the chain of the context; the payload builder and the authenticated namespace go
    through the cells of the node's configuration, which are new and empty when it is
    made, so all payload jobs share both cells with each other and with no
    configuration made before; and pool and provider of the node are those of the
    engine API and of the authenticated namespace, the pool being the one Ethereum's
    builder makes. *)
Theorem node_shares_one_configuration bctx w w' n ctx pb v api converter
    (Hn : put_together bctx w w' n ctx pb v api) :
  let auth := auth_ext n converter in
  Forall (.= context_chain_spec bctx)
    [config_chain_spec (node_evm_config n); config_chain_spec (builder_evm_config pb);
     config_chain_spec (auth_evm_config auth); Consensus.chain_spec (node_consensus n);
     validator_chain_spec v; assembler_chain_spec (block_assembler (node_evm_config n));
     assembler_chain_spec (block_assembler (builder_evm_config pb));
     assembler_chain_spec (block_assembler (auth_evm_config auth))] ∧
  (∀ j k : Job Chain, job_config j = clone (builder_evm_config pb) →
     shares j k ↔
     current_extra_data (job_config k) = current_extra_data (auth_evm_config auth) ∨
     current_base_fee_per_gas (job_config k) = current_base_fee_per_gas (auth_evm_config auth)) ∧
  (∀ j k : Job Chain, job_config j = clone (builder_evm_config pb) →
     is_Some (extra_data_cells (config_cells w) !! current_extra_data (job_config k)) →
     is_Some (base_fee_cells (config_cells w) !! current_base_fee_per_gas (job_config k)) →
     ¬ shares j k) ∧
  read_extra (builder_evm_config pb) (config_cells w') = None ∧
  read_fee (builder_evm_config pb) (config_cells w') = None ∧
  engine_pool api = node_pool n ∧ auth_pool auth = node_pool n ∧
  engine_provider api = node_provider n ∧ auth_provider auth = node_provider n ∧
  ∃ h h', ethereum_build_pool (BuilderContext := BCx) bctx h = (Ok (node_pool n), h').
Proof.
  destruct Hn as [(p1 & p2 & Hpool) Hevm (b1 & b2 & Hpb) (c1 & c2 & Hcons) Hnode Hchain
    (v1 & v2 & Hv) (a1 & a2 & Hapi)].
  apply build_evm_Ok in Hevm as (Hspec & Hasm & _ & Hx & Hf & Rx & Rf).
  injection Hpb as <- _. injection Hcons as Hcons _. injection Hv as <- _.
  apply build_engine_api_Ok in Hapi as (Hprov & Hpo & _). rewrite Hnode in Hprov, Hpo.
  simpl in Hpool. rewrite build_pool_run in Hpool. apply on_host_Ok_inv in Hpool as [Hpool _].
  intros auth. split_and!; try done.
  - rewrite <-Hcons. repeat (apply Forall_cons_2; [done|]). by apply Forall_nil_2.
  - intros j k Hj. unfold shares. rewrite Hj. simpl.
    split; (intros [?|?]; [by left|by right]).
  - intros j k Hj [x Ex] [f Ef]. unfold shares. rewrite Hj. simpl. intros [Heq|Heq]; congruence.
  - by do 2 eexists.
Qed.
End properties.

Section tree_validator.
Context {H : HostTypes} {Chain W E : Type} {EL : EngineLib H Chain W E}.
Implicit Types (w : LaunchWorld W) (ctx : AddOnsContext H Chain).

(** The tree validator of the node of [ctx] under a tree configuration. *)
Definition validator_with ctx (tree_config : TreeConfig (TreeSettings H))
    (hook : InvalidBlockHook H) (changeset_cache : ChangesetCache H) : TreeValidator H :=
  basic_engine_validator_new (node_provider (addons_node ctx)) (node_consensus (addons_node ctx))
    (clone (node_evm_config (addons_node ctx))) (mkValidator _ (config_chain ctx)) tree_config
    hook changeset_cache.

(** What a [BasicEngineValidatorBuilder] is documented to do: make a tree validator
    from the node, a payload validator its builder made, and the tree configuration it
    is given. *)
Definition builds_basic_validators
    (build : BasicEngineValidatorBuilder H Chain W E → AddOnsContext H Chain →
       TreeConfig (TreeSettings H) → ChangesetCache H → comp (LaunchWorld W) E (TreeValidator H)) : Prop :=
  ∀ b ctx tc cc w tv w', build b ctx tc cc w = (Ok tv, w') →
    ∃ v w1 w2 hook, basic_payload_validator b ctx w1 = (Ok v, w2) ∧
      tv = basic_engine_validator_new (node_provider (addons_node ctx))
             (node_consensus (addons_node ctx)) (clone (node_evm_config (addons_node ctx)))
             v tc hook cc.

(** C39 The node's engine runs without the switches of the repository's builder.
    [KasplexEngineValidatorBuilder] builds a tree validator with both switches on,
    and the other settings as they were, exactly when the invalid block hook can be made; but the add-ons hand out reth's
    basic builder around it, which only uses its payload validator, so the node's tree
    validator has the tree configuration it was given. *)
Theorem node_leaves_tree_switches {A} build ctx tc cc w
    (Hbuild : builds_basic_validators build) :
  (∀ w' tv, build (engine_validator_builder (A := A) add_ons) ctx tc cc w = (Ok tv, w') →
     ∃ hook, tv = validator_with ctx tc hook cc) ∧
  match create_invalid_block_hook ctx
          (resolve_datadir (config_datadir ctx) (spec_chain (config_chain ctx))) (host w) with
  | (Ok hook, h) => build_tree_validator ctx tc cc w
      = (Ok (validator_with ctx (mkTreeConfig true true (other_settings tc)) hook cc),
         mkLaunchWorld h (config_cells w))
  | (Err e, h) => build_tree_validator ctx tc cc w = (Err e, mkLaunchWorld h (config_cells w))
  | (Panicked, h) => build_tree_validator ctx tc cc w = (Panicked, mkLaunchWorld h (config_cells w))
  end.
Proof.
  split.
  - intros w' tv (v & w1 & w2 & hook & Hv & ->)%Hbuild. injection Hv as <- _. by exists hook.
  - unfold build_tree_validator, validator_build. run. unfold mbind, comp_bind, on_host.
    by destruct (create_invalid_block_hook _ _ _) as [[]].
Qed.
End tree_validator.

Section registration.
Context {H : HostTypes} {Chain W E : Type} {RR : RpcRegistry W E} {RL : RpcRegistryLaws W E}.
Implicit Types (w : LaunchWorld W) (n : NodeComponents H Chain).

(** What a node answers to.  When the extension of the RPC modules succeeds, the
    authenticated server has the four methods of [kasplexAuth] more, and the public
    transports have no method more: the module of [kasplex] is merged empty, and
    [kasplex_getSyncMode] is not served.  When merging that module fails the
    authenticated server is not touched; no configuration cell ever is. *)
Theorem extension_registers_auth_only n converter w :
  let '(o, w') := extend_rpc_modules n converter w in
  config_cells w' = config_cells w ∧
  match o with
  | Ok _ =>
      configured_methods (host w') = configured_methods (host w) ∧
      auth_methods (host w') = auth_methods (host w) ++
        ["kasplexAuth_txPoolContent"; "kasplexAuth_txPoolContentWithMinTip";
         "kasplexAuth_sendRawTransaction"; "kasplexAuth_sendRawTransactions"]%string
  | Err e =>
      merge_configured (kasplex_ext_into_rpc (mkKasplexExt (node_provider n))) (host w)
        = (Err e, host w') ∨
      ∃ h, merge_configured (kasplex_ext_into_rpc (mkKasplexExt (node_provider n))) (host w)
             = (Ok (), h) ∧
           merge_auth_methods (auth_ext_into_rpc (auth_ext n converter)) h = (Err e, host w')
  | Panicked => True
  end.
Proof.
  unfold extend_rpc_modules, mbind, comp_bind, on_host.
  destruct (merge_configured _ _) as [[[]|e|] h] eqn:Ec; simpl; [|by eauto..].
  destruct (merge_auth_methods _ _) as [[[]|e|] h'] eqn:Ea; simpl; [|by eauto..].
  apply merge_configured_Ok in Ec as [Hc Ha]. apply merge_auth_Ok in Ea as [Ha' Hc'].
  split; [done|]. rewrite Hc', Hc, Ha', Ha. split; [apply app_nil_r|done].
Qed.
End registration.

(** ** A concrete host, and witnesses *)

Module PlainHost.
Definition types : HostTypes :=
  mkHostTypes () Z () () () () () () () () () () () () (TreeConfig Z) Z.

(** Pool 7; no hook when the node has no directory. *)
#[global] Instance context : BuilderContext types () (list string * list string) string () := {
  context_chain_spec _ := ();
  context_provider _ := ();
  ethereum_build_pool _ := mret 7;
  network_builder _ := mret ();
  start_network _ _ _ := mret ();
}.
#[global] Instance engine : EngineLib types () (list string * list string) string := {
  spec_chain _ := 167012;
  resolve_datadir _ _ := ();
  create_invalid_block_hook _ _ := mret ();
  payload_store_new _ := ();
  CLIENT_CODE := "RH";
  name_client := "Reth";
  cargo_pkg_version := "1.10.1";
  vergen_git_sha := "";
  default_capabilities := [];
  engine_api_new _ _ _ _ _ _ _ _ _ _ _ := ();
  basic_engine_validator_new _ _ _ _ tc _ _ := tc;
}.
#[global] Instance registry : RpcRegistry (list string * list string) string := {
  configured_methods := fst;
  auth_methods := snd;
  merge_configured _ m := modify (λ w, (w.1 ++ module_methods m, w.2));
  merge_auth_methods _ m := modify (λ w, (w.1, w.2 ++ module_methods m));
}.
#[global] Instance registry_laws : RpcRegistryLaws (list string * list string) string.
Proof. split; by intros C m w w' [= <-]. Qed.

Definition start : LaunchWorld (list string * list string) :=
  mkLaunchWorld ([], []) (mkCells ∅ ∅).
Definition components : NodeComponents types () :=
  mkNodeComponents (H := types) () 7 () first_config (mkConsensus ()) () ().
Definition add_ons_context : AddOnsContext types () :=
  mkAddOnsContext components () () false ().
End PlainHost.

(** The first configuration of the process: its cells are at location 1. *)
Lemma node_shares_one_configuration_witness :
  read_fee first_config (one_cell None) = None ∧
  ∃ h h', ethereum_build_pool (BuilderContext := PlainHost.context) () h = (Ok 7, h').
Proof.
  destruct (node_shares_one_configuration (BCx := PlainHost.context) (EL := PlainHost.engine) ()
    PlainHost.start (mkLaunchWorld ([], []) (one_cell None)) PlainHost.components
    PlainHost.add_ons_context (mkPayloadBuilder () first_config) (mkValidator _ ())
    (mkEngineApi () () 7) ()) as (_ & _ & _ & _ & Hf & _ & _ & _ & _ & Hp).
  - split; [exists PlainHost.start; eexists; reflexivity|vm_compute; reflexivity
      |exists PlainHost.start; eexists; reflexivity|exists PlainHost.start; eexists; reflexivity
      |reflexivity|reflexivity|exists PlainHost.start; eexists; reflexivity
      |exists PlainHost.start; eexists; reflexivity].
  - split; [exact Hf|exact Hp].
Defined.

(** A basic builder at the concrete host. *)
Definition plain_basic_build (b : BasicEngineValidatorBuilder PlainHost.types ()
    (list string * list string) string) (ctx : AddOnsContext PlainHost.types ())
    (tc : TreeConfig Z) (_ : ()) : comp (LaunchWorld (list string * list string)) string (TreeConfig Z) :=
  _ ← basic_payload_validator b ctx; mret tc.

Lemma plain_basic_builds : builds_basic_validators plain_basic_build.
Proof.
  intros b ctx tc cc w tv w' (v & w1 & Hv & Hm)%bind_Ok_inv. injection Hm as <- <-.
  by exists v, w, w1, ().
Qed.

Lemma node_leaves_tree_switches_witness :
  plain_basic_build (engine_validator_builder (A := ()) add_ons) PlainHost.add_ons_context
    (mkTreeConfig false false 64) () PlainHost.start = (Ok (mkTreeConfig false false 64), PlainHost.start) ∧
  ∃ hook, mkTreeConfig false false 64
    = validator_with PlainHost.add_ons_context (mkTreeConfig false false 64) hook ().
Proof.
  split; [reflexivity|].
  apply (proj1 (node_leaves_tree_switches (A := ()) _ PlainHost.add_ons_context
    (mkTreeConfig false false 64) () PlainHost.start plain_basic_builds) PlainHost.start).
  reflexivity.
Defined.

Lemma extension_registers_auth_only_witness :
  configured_methods (host (extend_rpc_modules PlainHost.components ()
    (E := string) PlainHost.start).2) = [] ∧
  length (auth_methods (host (extend_rpc_modules PlainHost.components ()
    (E := string) PlainHost.start).2)) = 4%nat.
Proof.
  pose proof (extension_registers_auth_only (RL := PlainHost.registry_laws) PlainHost.components ()
    PlainHost.start) as [_ [Hc Ha]].
  split; [exact Hc|]. exact (f_equal length Ha).
Defined.
