(* ===== verification/Cli.v ===== *)
(** * The command line (crates/cli, [bin/kasplex-reth/src/main.rs])

    [KasplexCli] wraps reth's command line: it runs the node command with
    [KasplexNodeCommand] and all others with reth's own code, some of which it gives
    the EVM configuration and the consensus rules to use. *)

From stdpp Require Import prelude gmap strings list.
From Stdlib Require Import ZArith Lia.
From S2P Require Import Prelude BlockConfig Consensus Node.

(** ** Parsed arguments *)

(** The groups of arguments, and the commands that are reth's alone. *)
Record CliTypes := mkCliTypes {
  DatadirArgs : Type; ConfigPath : Type; Metrics : Type; NetworkArgs : Type; RpcArgs : Type;
  TxpoolArgs : Type; BuilderArgs : Type; DebugArgs : Type; DbArgs : Type; DevArgs : Type;
  PruningArgs : Type; ExtArgs : Type; EngineArgs : Type; EraArgs : Type; StaticFilesArgs : Type;
  InitCommand : Type; InitStateCommand : Type; ImportCommand : Type; ImportEraCommand : Type;
  ExportEraCommand : Type; DumpGenesisCommand : Type; DbCommand : Type; DownloadCommand : Type;
  StageCommand : Type; P2PCommand : Type; ConfigCommand : Type; PruneCommand : Type;
  ReExecuteCommand : Type;
  LogDirectory : Type; LogSettings : Type; Executor : Type; DataDirPath : Type; DbPath : Type;
  DatabaseArguments : Type; DatabaseEnv : Type; NodeBuilder : Type; WithLaunchContext : Type;
}.

Section arguments.
Context {Ty : CliTypes} {Chain : Type}.

(** reth's [NodeCommand]. *)
Record NodeCommand := mkNodeCommand {
  datadir : DatadirArgs Ty;
  config : ConfigPath Ty;
  chain : Chain;
  metrics : Metrics Ty;
  instance : option Z;
  with_unused_ports : bool;
  network : NetworkArgs Ty;
  rpc : RpcArgs Ty;
  txpool : TxpoolArgs Ty;
  builder : BuilderArgs Ty;
  debug : DebugArgs Ty;
  db : DbArgs Ty;
  dev : DevArgs Ty;
  pruning : PruningArgs Ty;
  ext : ExtArgs Ty;
  engine : EngineArgs Ty;
  era : EraArgs Ty;
  static_files : StaticFilesArgs Ty;
}.

(** reth's [NodeConfig]. *)
Record NodeConfig := mkNodeConfig {
  config_datadir : DatadirArgs Ty;
  config_config : ConfigPath Ty;
  config_chain : Chain;
  config_metrics : Metrics Ty;
  config_instance : option Z;
  config_network : NetworkArgs Ty;
  config_rpc : RpcArgs Ty;
  config_txpool : TxpoolArgs Ty;
  config_builder : BuilderArgs Ty;
  config_debug : DebugArgs Ty;
  config_db : DbArgs Ty;
  config_dev : DevArgs Ty;
  config_pruning : PruningArgs Ty;
  config_engine : EngineArgs Ty;
  config_era : EraArgs Ty;
  config_static_files : StaticFilesArgs Ty;
}.

Inductive Commands : Type :=
| Node (command : NodeCommand)
| Init (command : InitCommand Ty)
| InitState (command : InitStateCommand Ty)
| Import (command : ImportCommand Ty)
| ImportEra (command : ImportEraCommand Ty)
| ExportEra (command : ExportEraCommand Ty)
| DumpGenesis (command : DumpGenesisCommand Ty)
| Db (command : DbCommand Ty)
| Download (command : DownloadCommand Ty)
| Stage (command : StageCommand Ty)
| P2P (command : P2PCommand Ty)
| Config (command : ConfigCommand Ty)
| Prune (command : PruneCommand Ty)
| ReExecute (command : ReExecuteCommand Ty).

(** reth's [Cli], and [KasplexCli] around it. *)
Record LogArgs := mkLogArgs {
  log_file_directory : LogDirectory Ty;
  log_settings : LogSettings Ty;
}.
Record Cli := mkCli { command : Commands; logs : LogArgs }.
Record KasplexCli := mkKasplexCli { inner_cli : Cli }.
End arguments.
Arguments NodeCommand : clear implicits.
Arguments NodeConfig : clear implicits.
Arguments Commands : clear implicits.
Arguments LogArgs : clear implicits.
Arguments Cli : clear implicits.
Arguments KasplexCli : clear implicits.

(** ** reth's part *)

(** What the node command calls. *)
Class NodeCommandLib (Ty : CliTypes) (Chain W E : Type) := {
  config_data_dir : NodeConfig Ty Chain → DataDirPath Ty;
  data_dir_db : DataDirPath Ty → DbPath Ty;
  database_args : DbArgs Ty → DatabaseArguments Ty;
  init_db_for : DbPath Ty → DatabaseArguments Ty → comp W E (DatabaseEnv Ty);
  with_metrics : DatabaseEnv Ty → DatabaseEnv Ty;
  unused_ports : NodeConfig Ty Chain → NodeConfig Ty Chain;
  node_builder_new : NodeConfig Ty Chain → NodeBuilder Ty;
  with_database : NodeBuilder Ty → DatabaseEnv Ty → NodeBuilder Ty;
  with_launch_context : NodeBuilder Ty → Executor Ty → WithLaunchContext Ty;
}.

(** What the components of an EVM are made by, for the commands that run blocks. *)
Definition CliComponents (Chain W E : Type) : Type :=
  Chain → comp (LaunchWorld W) E (KasplexEvmConfig Chain * KasplexBeaconConsensus Chain).

(** Parsing, logs, the runners, and the commands of reth's own. *)
Class CliLib (Ty : CliTypes) (Chain W E ParseError : Type) := {
  parse : list string → outcome ParseError (Cli Ty Chain);
  parse_node_command : list string → outcome ParseError (NodeCommand Ty Chain);
  command_chain_spec : Commands Ty Chain → option Chain;
  chain_name : Chain → string;
  join : LogDirectory Ty → string → LogDirectory Ty;
  init_tracing_logs : LogArgs Ty → comp W E ();
  install_prometheus_recorder : W → W;
  try_default_runtime : comp W E ();
  run_command_until_exit : (Executor Ty → comp (LaunchWorld W) E ()) → comp (LaunchWorld W) E ();
  run_blocking_until_ctrl_c : comp (LaunchWorld W) E () → comp (LaunchWorld W) E ();
  run_until_ctrl_c : comp (LaunchWorld W) E () → comp (LaunchWorld W) E ();
  execute_init : InitCommand Ty → comp (LaunchWorld W) E ();
  execute_init_state : InitStateCommand Ty → comp (LaunchWorld W) E ();
  execute_import : ImportCommand Ty → CliComponents Chain W E → comp (LaunchWorld W) E ();
  execute_import_era : ImportEraCommand Ty → comp (LaunchWorld W) E ();
  execute_export_era : ExportEraCommand Ty → comp (LaunchWorld W) E ();
  execute_dump_genesis : DumpGenesisCommand Ty → comp (LaunchWorld W) E ();
  execute_db : DbCommand Ty → Executor Ty → comp (LaunchWorld W) E ();
  execute_download : DownloadCommand Ty → comp (LaunchWorld W) E ();
  execute_stage : StageCommand Ty → Executor Ty → CliComponents Chain W E →
    comp (LaunchWorld W) E ();
  execute_p2p : P2PCommand Ty → comp (LaunchWorld W) E ();
  execute_config : ConfigCommand Ty → comp (LaunchWorld W) E ();
  execute_prune : PruneCommand Ty → comp (LaunchWorld W) E ();
  execute_re_execute : ReExecuteCommand Ty → CliComponents Chain W E → comp (LaunchWorld W) E ();
}.

(** ** The node command (command.rs) *)

Section node_command.
Context {Ty : CliTypes} {Chain W E : Type} {NL : NodeCommandLib Ty Chain W E}.

Record KasplexNodeCommand := mkKasplexNodeCommand { node_command : NodeCommand Ty Chain }.

(** [KasplexNodeCommand::chain_spec] *)
Definition node_chain_spec (self : KasplexNodeCommand) : option Chain :=
  Some (chain (node_command self)).

(** The configuration the fields of the command are moved into. *)
Definition node_config_of (c : NodeCommand Ty Chain) : NodeConfig Ty Chain := {|
  config_datadir := datadir c;
  config_config := config c;
  config_chain := chain c;
  config_metrics := metrics c;
  config_instance := instance c;
  config_network := network c;
  config_rpc := rpc c;
  config_txpool := txpool c;
  config_builder := builder c;
  config_debug := debug c;
  config_db := db c;
  config_dev := dev c;
  config_pruning := pruning c;
  config_engine := engine c;
  config_era := era c;
  config_static_files := static_files c;
|}.

(** The launcher is known by its [entrypoint]. *)
Definition execute (self : KasplexNodeCommand) (task_executor : Executor Ty)
    (entrypoint : WithLaunchContext Ty → ExtArgs Ty → comp (LaunchWorld W) E ())
    : comp (LaunchWorld W) E () :=
  let c := node_command self in
  let node_config := node_config_of c in
  let data_dir := config_data_dir node_config in
  let db_path := data_dir_db data_dir in
  env ← on_host (init_db_for db_path (database_args (db c)));
  let database := with_metrics env in
  let node_config := if with_unused_ports c then unused_ports node_config else node_config in
  let builder := with_launch_context (with_database (node_builder_new node_config) database)
                   task_executor in
  entrypoint builder (ext c).
End node_command.
Arguments KasplexNodeCommand : clear implicits.

(** ** The command line (lib.rs) *)

Section cli.
Context {Ty : CliTypes} {Chain W E ParseError : Type}.
Context {NL : NodeCommandLib Ty Chain W E} {CL : CliLib Ty Chain W E ParseError}.
Local Abbreviation World := (LaunchWorld W).
Local Abbreviation Launch := (WithLaunchContext Ty → ExtArgs Ty → comp World E ()).

(** [KasplexCli::try_parse_args_from], and the same of [KasplexNodeCommand]. *)
Definition try_parse_args_from (itr : list string) : outcome ParseError (KasplexCli Ty Chain) :=
  inner ← parse itr; mret (mkKasplexCli inner).
Definition try_parse_node_command (itr : list string)
    : outcome ParseError (KasplexNodeCommand Ty Chain) :=
  inner ← parse_node_command itr; mret (mkKasplexNodeCommand inner).

(** The same of the process's own arguments; an error ends the process. *)
Definition parse_args (args : list string) : outcome () (KasplexCli Ty Chain) :=
  outcome_map_err (λ _, ()) (try_parse_args_from args).
Definition parse_node_command_args (args : list string) : outcome () (KasplexNodeCommand Ty Chain) :=
  outcome_map_err (λ _, ()) (try_parse_node_command args).

Definition init_tracing (self : KasplexCli Ty Chain) : comp World E () :=
  on_host (init_tracing_logs (logs (inner_cli self))).

(** The network's name is added to the directory of the logs. *)
Definition with_network_logs (self : KasplexCli Ty Chain) : KasplexCli Ty Chain :=
  match command_chain_spec (command (inner_cli self)) with
  | Some chain_spec =>
      let l := logs (inner_cli self) in
      mkKasplexCli (mkCli (command (inner_cli self))
        (mkLogArgs (join (log_file_directory l) (chain_name chain_spec)) (log_settings l)))
  | None => self
  end.

(** A configuration and the consensus rules of one specification. *)
Definition components : CliComponents Chain W E := λ spec,
  evm ← on_cells (config_new spec);
  let consensus := mkConsensus spec in
  mret (evm, consensus).

Definition dispatch (c : Commands Ty Chain) (launcher : Launch) : comp World E () :=
  match c with
  | Node command => run_command_until_exit (λ ctx,
      execute (mkKasplexNodeCommand command) ctx launcher)
  | Init command => run_blocking_until_ctrl_c (execute_init command)
  | InitState command => run_blocking_until_ctrl_c (execute_init_state command)
  | Import command => run_blocking_until_ctrl_c (execute_import command components)
  | ImportEra command => run_blocking_until_ctrl_c (execute_import_era command)
  | ExportEra command => run_blocking_until_ctrl_c (execute_export_era command)
  | DumpGenesis command => run_blocking_until_ctrl_c (execute_dump_genesis command)
  | Db command => run_command_until_exit (λ ctx, execute_db command ctx)
  | Download command => run_blocking_until_ctrl_c (execute_download command)
  | Stage command => run_command_until_exit (λ ctx, execute_stage command ctx components)
  | P2P command => run_until_ctrl_c (execute_p2p command)
  | Config command => run_until_ctrl_c (execute_config command)
  | Prune command => run_until_ctrl_c (execute_prune command)
  | ReExecute command => run_until_ctrl_c (execute_re_execute command components)
  end.

Definition with_runner_and_components (self : KasplexCli Ty Chain) (launcher : Launch)
    : comp World E () :=
  let self := with_network_logs self in
  _ ← init_tracing self;
  _ ← on_host (modify install_prometheus_recorder);
  dispatch (command (inner_cli self)) launcher.

Definition with_runner (self : KasplexCli Ty Chain) (launcher : Launch) : comp World E () :=
  with_runner_and_components self (λ builder ext, launcher builder ext).

Definition run_cli (self : KasplexCli Ty Chain) (launcher : Launch) : comp World E () :=
  _ ← on_host try_default_runtime;
  with_runner self launcher.
End cli.

(** ** The binary (main.rs)

    The environment is the value of [RUST_BACKTRACE]; the result is the exit code. *)

Section main.
Context {Ty : CliTypes} {Chain W E ParseError : Type}.
Context {NL : NodeCommandLib Ty Chain W E} {CL : CliLib Ty Chain W E ParseError}.

Definition backtrace (rust_backtrace : option string) : option string :=
  match rust_backtrace with
  | None => Some "1"%string
  | Some v => Some v
  end.

(** [launch_node] is the closure of [Node.launch_kasplex], for the builder and the
    arguments the command line gives it. *)
Definition main (launch_node : WithLaunchContext Ty → ExtArgs Ty → comp (LaunchWorld W) E ())
    (args : KasplexCli Ty Chain) (w : LaunchWorld W) : option Z * LaunchWorld W :=
  match run_cli args launch_node w with
  | (Ok _, w) => (Some 0, w)
  | (Err _, w) => (Some 1, w)
  | (Panicked, w) => (None, w)
  end.
End main.

(** ** Properties *)

(** What reth's documentation says of the node command's parts: unused ports change
    ports only, so neither the chain nor the directory of the data; an uninterrupted
    runner runs its command; the chain of a node command is the one it was given. *)
Record cli_laws {Ty : CliTypes} {Chain W E ParseError : Type}
    (NL : NodeCommandLib Ty Chain W E) (CL : CliLib Ty Chain W E ParseError)
    (task_executor : Executor Ty) : Prop := {
  unused_ports_chain c : config_chain (unused_ports c) = config_chain c;
  unused_ports_dir c : config_data_dir (unused_ports c) = config_data_dir c;
  uninterrupted f w : run_command_until_exit f w = f task_executor w;
  node_command_chain c : command_chain_spec (Node c) = Some (chain c);
}.

(** A configuration has all settings of a command. *)
Definition has_settings {Ty Chain} (cfg : NodeConfig Ty Chain) (c : NodeCommand Ty Chain) : Prop :=
  config_datadir cfg = datadir c ∧ config_config cfg = config c ∧ config_chain cfg = chain c ∧
  config_metrics cfg = metrics c ∧ config_instance cfg = instance c ∧
  config_network cfg = network c ∧ config_rpc cfg = rpc c ∧ config_txpool cfg = txpool c ∧
  config_builder cfg = builder c ∧ config_debug cfg = debug c ∧ config_db cfg = db c ∧
  config_dev cfg = dev c ∧ config_pruning cfg = pruning c ∧ config_engine cfg = engine c ∧
  config_era cfg = era c ∧ config_static_files cfg = static_files c.

Section properties.
Context {Ty : CliTypes} {Chain W E ParseError : Type}.
Context {NL : NodeCommandLib Ty Chain W E} {CL : CliLib Ty Chain W E ParseError}.
Implicit Type w : LaunchWorld W.

Lemma execute_run c te entrypoint w :
  execute (mkKasplexNodeCommand c) te entrypoint w
  = match on_host (init_db_for (data_dir_db (config_data_dir (node_config_of c)))
            (database_args (db c))) w with
    | (Ok env, w1) =>
        entrypoint (with_launch_context (with_database (node_builder_new
          (if with_unused_ports c then unused_ports (node_config_of c) else node_config_of c))
          (with_metrics env)) te) (ext c) w1
    | (Err e, w1) => (Err e, w1)
    | (Panicked, w1) => (Panicked, w1)
    end.
Proof. unfold execute, mbind, comp_bind. by destruct (on_host _ w) as [[]]. Qed.

Lemma with_runner_run self spec launcher w :
  command_chain_spec (command (inner_cli self)) = Some spec →
  with_runner_and_components self launcher w
  = let l := logs (inner_cli self) in
    match on_host (init_tracing_logs
        (mkLogArgs (join (log_file_directory l) (chain_name spec)) (log_settings l))) w with
    | (Ok _, w1) => dispatch (command (inner_cli self)) launcher
        (mkLaunchWorld (install_prometheus_recorder (host w1)) (Node.config_cells w1))
    | (Err e, w1) => (Err e, w1)
    | (Panicked, w1) => (Panicked, w1)
    end.
Proof.
  intros Hspec. unfold with_runner_and_components, with_network_logs, init_tracing.
  rewrite Hspec. unfold mbind, comp_bind. simpl. by destruct (on_host _ w) as [[]].
Qed.

(** The node command, from the command line to the launcher.  Logs go to the
    directory of the chain's name, and if they cannot be set up nothing else happens;
    the database is opened at the data directory of the command, and if that fails the
    launcher is not called; otherwise it is called once, with the command's extension
    arguments, for a configuration with the command's chain and the data directory
    whose database it is given, whether or not ports were replaced, and in all the
    command's settings if they were not; and the answer is the launcher's. *)
Theorem node_command_reaches_launcher {te} c l launcher w (Hl : cli_laws NL CL te) :
  let dir := join (log_file_directory l) (chain_name (chain c)) in
  let result := with_runner (mkKasplexCli (mkCli (Node c) l)) launcher w in
  match on_host (init_tracing_logs (mkLogArgs dir (log_settings l))) w with
  | (Err e, w1) => result = (Err e, w1)
  | (Panicked, w1) => result = (Panicked, w1)
  | (Ok _, w1) => ∃ cfg,
      config_chain cfg = chain c ∧
      (with_unused_ports c = false → has_settings cfg c) ∧
      let w2 := mkLaunchWorld (install_prometheus_recorder (host w1)) (Node.config_cells w1) in
      match on_host (init_db_for (data_dir_db (config_data_dir cfg)) (database_args (db c))) w2 with
      | (Err e, w3) => result = (Err e, w3)
      | (Panicked, w3) => result = (Panicked, w3)
      | (Ok env, w3) => result =
          launcher (with_launch_context
            (with_database (node_builder_new cfg) (with_metrics env)) te) (ext c) w3
      end
  end.
Proof.
  destruct Hl as [Hchain Hdir Hrun Hspec]. cbv zeta.
  unfold with_runner. rewrite (with_runner_run _ (chain c)) by apply Hspec. simpl.
  destruct (on_host (init_tracing_logs _) w) as [[[]|e|] w1]; [|done..].
  exists (if with_unused_ports c then unused_ports (node_config_of c) else node_config_of c).
  split_and!.
  - by destruct (with_unused_ports c); rewrite ?Hchain.
  - by intros ->; split_and!.
  - rewrite Hrun, execute_run.
    replace (config_data_dir (if with_unused_ports c then _ else _))
      with (config_data_dir (node_config_of c)) by (by destruct (with_unused_ports c)).
    by destruct (on_host (init_db_for _ _) _) as [[]].
Qed.

(** The commands that run blocks get a configuration of the specification they give,
    with empty cells of its own. *)
Lemma components_run (spec : Chain) w c cons w'
    (Hrun : components (E := E) spec w = (Ok (c, cons), w')) :
  config_chain_spec c = spec ∧ Consensus.chain_spec cons = spec ∧
  extra_data_cells (Node.config_cells w) !! current_extra_data c = None ∧
  base_fee_cells (Node.config_cells w) !! current_base_fee_per_gas c = None.
Proof.
  injection Hrun as <- <- <-. simpl. split_and!; try done; apply not_elem_of_dom, is_fresh.
Qed.
End properties.

(** ** A concrete command line, and witness *)

Module PlainCli.
Definition types : CliTypes :=
  mkCliTypes string () () () () () () () () () () () () () () () () () () () () () () () () () () ()
    string () () string string () string (string * bool) (string * bool * string).

(** The world is the files opened, the log first.  The second component of a
    builder's configuration is whether the ports are the command's. *)
#[global] Instance node_lib : NodeCommandLib types string (list string) string := {
  config_data_dir c := config_datadir c;
  data_dir_db dir := (dir ++ "/db")%string;
  database_args _ := ();
  init_db_for path _ := _ ← modify (λ w, w ++ [path]); mret path;
  with_metrics env := env;
  unused_ports c := {| config_datadir := config_datadir c; config_config := ();
    config_chain := config_chain c; config_metrics := (); config_instance := None;
    config_network := (); config_rpc := (); config_txpool := (); config_builder := ();
    config_debug := (); config_db := (); config_dev := (); config_pruning := ();
    config_engine := (); config_era := (); config_static_files := () |};
  node_builder_new c := (config_datadir c, bool_decide (is_Some (config_instance c)));
  with_database b env := b;
  with_launch_context b _ := (b, "tasks"%string);
}.
#[global] Instance cli_lib : CliLib types string (list string) string string := {
  parse _ := Err "usage"%string;
  parse_node_command _ := Err "usage"%string;
  command_chain_spec c := match c with Node n => Some (chain n) | _ => None end;
  chain_name c := c;
  join dir name := (dir ++ "/" ++ name)%string;
  init_tracing_logs l := modify (λ w, w ++ [log_file_directory l]);
  install_prometheus_recorder w := w;
  try_default_runtime := mret ();
  run_command_until_exit f := f ();
  run_blocking_until_ctrl_c m := m;
  run_until_ctrl_c m := m;
  execute_init _ := mret ();
  execute_init_state _ := mret ();
  execute_import _ _ := mret ();
  execute_import_era _ := mret ();
  execute_export_era _ := mret ();
  execute_dump_genesis _ := mret ();
  execute_db _ _ := mret ();
  execute_download _ := mret ();
  execute_stage _ _ _ := mret ();
  execute_p2p _ := mret ();
  execute_config _ := mret ();
  execute_prune _ := mret ();
  execute_re_execute _ _ := mret ();
}.

Lemma laws : cli_laws (ParseError := string) node_lib cli_lib ().
Proof. by split. Qed.

Definition node_command : NodeCommand types string :=
  mkNodeCommand (Ty := types) "/data"%string () "kasplex-devnet"%string () (Some 1) false () () () ()
    () () () () () () () ().
Definition start : LaunchWorld (list string) := mkLaunchWorld [] (mkCells ∅ ∅).
End PlainCli.

Lemma node_command_reaches_launcher_witness :
  with_runner (CL := PlainCli.cli_lib)
    (mkKasplexCli (mkCli (Node PlainCli.node_command)
       (mkLogArgs (Ty := PlainCli.types) "/logs"%string ())))
    (λ _ _, mret ()) PlainCli.start
  = (Ok (), mkLaunchWorld ["/logs/kasplex-devnet"; "/data/db"]%string (mkCells ∅ ∅)).
Proof.
  destruct (node_command_reaches_launcher (CL := PlainCli.cli_lib) (te := ()) PlainCli.node_command
    (mkLogArgs (Ty := PlainCli.types) "/logs"%string ()) (λ _ _, mret ()) PlainCli.start
    PlainCli.laws) as (cfg & _ & Hcfg & Hrun).
  destruct (Hcfg eq_refl) as [Hdir _]. simpl in Hrun. rewrite Hdir in Hrun. exact Hrun.
Defined.
